(** * The fd recogniser: lexer automaton and parse tables of [src/parser.c]

    [parser.c] is the recogniser that tree-sitter generated for the fd
    diagram language.  It consists of

    - the symbol and field enumerations,
    - the lexer [ts_lex], a [switch] over 485 automaton states,
    - the lex mode of every parse state ([ts_lex_modes]),
    - the parse tables ([ts_parse_table], [ts_small_parse_table],
      [ts_parse_actions]) and the field maps.

    The tables are transcribed entry by entry, in source order.  The lexer is
    kept as a table of cases: the [n]-th element of [ts_lex_cases] is
    [case n:] of the [switch], with its [ACCEPT_TOKEN] and its [ADVANCE] /
    [SKIP] tests in the order in which the C code evaluates them.

    The runtime that drives the tables (the cursor behind [TSLexer] and the
    LR engine) is not part of [parser.c]; it is modelled after the
    specification, in [lex_step] and in [step], [run] and [parse].

    Contents:

    - the transcribed tables and the definitions that run them;
    - [ts_lex] returns on every buffer ([ts_lex_from_returns]), and the
      texts of its [number] and [hex_color] tokens;
    - the grammar read off the automaton, and the proof that every tree that
      [parse] returns is built of its productions ([parsed_tree_ok]);
    - the forms of declarations, properties, annotations and constraint
      lines, and the scenarios of the specification;
    - every run of the engine ends ([parse_returns_a_tree]) and is
      determined by its input. *)

From Stdlib Require Import ZArith NArith List Bool Lia Ascii String.
Import ListNotations.


(** ** Symbols ([enum ts_symbol_identifiers]) *)

Inductive TSSymbol : Set :=
  | ts_builtin_sym_end | sym_comment | anon_sym_POUND_POUND | anon_sym_COLON
  | sym_annotation_text | anon_sym_accept | anon_sym_status | anon_sym_priority
  | anon_sym_tag | anon_sym_style | anon_sym_LBRACE | anon_sym_RBRACE
  | anon_sym_group | anon_sym_rect | anon_sym_ellipse | anon_sym_path
  | anon_sym_text | anon_sym_w | anon_sym_h | anon_sym_width
  | anon_sym_height | anon_sym_fill | anon_sym_stroke | anon_sym_corner
  | anon_sym_opacity | anon_sym_font | anon_sym_bg | anon_sym_use
  | anon_sym_layout | anon_sym_shadow | anon_sym_scale | anon_sym_rotate
  | anon_sym_translate | anon_sym_center_in | anon_sym_offset | anon_sym_ease
  | anon_sym_duration | anon_sym_EQ | anon_sym_anim | anon_sym_DASH_GT
  | anon_sym_AT | sym_identifier | sym_number | sym_hex_color
  | anon_sym_DQUOTE | aux_sym_string_token1 | sym_document | sym_annotation
  | sym_annotation_typed | sym_annotation_keyword | sym_style_block | sym_node_declaration
  | sym_node_kind | sym_node_body_item | sym_property | sym_property_name
  | sym__value_item | sym_key_value_pair | sym_anim_block | sym_anim_trigger
  | sym_constraint_line | sym_node_id | sym_string | aux_sym_document_repeat1
  | aux_sym_style_block_repeat1 | aux_sym_node_declaration_repeat1 | aux_sym_property_repeat1.

(** The numeric value of each enumerator, as in [enum ts_symbol_identifiers]. *)
Definition symbol_id (s : TSSymbol) : N :=
  match s with
  | ts_builtin_sym_end => 0
  | sym_comment => 1
  | anon_sym_POUND_POUND => 2
  | anon_sym_COLON => 3
  | sym_annotation_text => 4
  | anon_sym_accept => 5
  | anon_sym_status => 6
  | anon_sym_priority => 7
  | anon_sym_tag => 8
  | anon_sym_style => 9
  | anon_sym_LBRACE => 10
  | anon_sym_RBRACE => 11
  | anon_sym_group => 12
  | anon_sym_rect => 13
  | anon_sym_ellipse => 14
  | anon_sym_path => 15
  | anon_sym_text => 16
  | anon_sym_w => 17
  | anon_sym_h => 18
  | anon_sym_width => 19
  | anon_sym_height => 20
  | anon_sym_fill => 21
  | anon_sym_stroke => 22
  | anon_sym_corner => 23
  | anon_sym_opacity => 24
  | anon_sym_font => 25
  | anon_sym_bg => 26
  | anon_sym_use => 27
  | anon_sym_layout => 28
  | anon_sym_shadow => 29
  | anon_sym_scale => 30
  | anon_sym_rotate => 31
  | anon_sym_translate => 32
  | anon_sym_center_in => 33
  | anon_sym_offset => 34
  | anon_sym_ease => 35
  | anon_sym_duration => 36
  | anon_sym_EQ => 37
  | anon_sym_anim => 38
  | anon_sym_DASH_GT => 39
  | anon_sym_AT => 40
  | sym_identifier => 41
  | sym_number => 42
  | sym_hex_color => 43
  | anon_sym_DQUOTE => 44
  | aux_sym_string_token1 => 45
  | sym_document => 46
  | sym_annotation => 47
  | sym_annotation_typed => 48
  | sym_annotation_keyword => 49
  | sym_style_block => 50
  | sym_node_declaration => 51
  | sym_node_kind => 52
  | sym_node_body_item => 53
  | sym_property => 54
  | sym_property_name => 55
  | sym__value_item => 56
  | sym_key_value_pair => 57
  | sym_anim_block => 58
  | sym_anim_trigger => 59
  | sym_constraint_line => 60
  | sym_node_id => 61
  | sym_string => 62
  | aux_sym_document_repeat1 => 63
  | aux_sym_style_block_repeat1 => 64
  | aux_sym_node_declaration_repeat1 => 65
  | aux_sym_property_repeat1 => 66
  end.

Definition all_symbols : list TSSymbol :=
  [ts_builtin_sym_end; sym_comment; anon_sym_POUND_POUND; anon_sym_COLON;
   sym_annotation_text; anon_sym_accept; anon_sym_status; anon_sym_priority;
   anon_sym_tag; anon_sym_style; anon_sym_LBRACE; anon_sym_RBRACE;
   anon_sym_group; anon_sym_rect; anon_sym_ellipse; anon_sym_path;
   anon_sym_text; anon_sym_w; anon_sym_h; anon_sym_width;
   anon_sym_height; anon_sym_fill; anon_sym_stroke; anon_sym_corner;
   anon_sym_opacity; anon_sym_font; anon_sym_bg; anon_sym_use;
   anon_sym_layout; anon_sym_shadow; anon_sym_scale; anon_sym_rotate;
   anon_sym_translate; anon_sym_center_in; anon_sym_offset; anon_sym_ease;
   anon_sym_duration; anon_sym_EQ; anon_sym_anim; anon_sym_DASH_GT;
   anon_sym_AT; sym_identifier; sym_number; sym_hex_color;
   anon_sym_DQUOTE; aux_sym_string_token1; sym_document; sym_annotation;
   sym_annotation_typed; sym_annotation_keyword; sym_style_block; sym_node_declaration;
   sym_node_kind; sym_node_body_item; sym_property; sym_property_name;
   sym__value_item; sym_key_value_pair; sym_anim_block; sym_anim_trigger;
   sym_constraint_line; sym_node_id; sym_string; aux_sym_document_repeat1;
   aux_sym_style_block_repeat1; aux_sym_node_declaration_repeat1; aux_sym_property_repeat1].

Definition symbol_eqb (a b : TSSymbol) : bool := N.eqb (symbol_id a) (symbol_id b).

(** [TOKEN_COUNT] is 46: the terminals are the symbols numbered below it. *)
Definition TOKEN_COUNT : N := 46.
Definition is_token (s : TSSymbol) : bool := (symbol_id s <? TOKEN_COUNT)%N.

(** ** The lexer automaton ([ts_lex]) *)

Definition TSStateId := N.
Bind Scope N_scope with TSStateId.

(** The tests that guard an [ADVANCE] or a [SKIP].  [lookahead] is the
    [int32_t] code point under the cursor and [eof] the end-of-input flag. *)
Inductive lex_cond : Set :=
| AtEof                          (* eof *)
| Is (c : ascii)                 (* lookahead == c *)
| IsNot (c : ascii)              (* lookahead != c *)
| Below (c : ascii)              (* lookahead < c *)
| AtMost (c : ascii)             (* lookahead <= c *)
| Above (c : ascii)              (* c < lookahead *)
| AtLeast (c : ascii)            (* c <= lookahead *)
| Both (a b : lex_cond)          (* a && b *)
| Either (a b : lex_cond).       (* a || b *)

Notation "a &&& b" := (Both a b) (at level 40, left associativity).
Notation "a ||| b" := (Either a b) (at level 50, left associativity).

Inductive lex_action : Set :=
| ADVANCE (state_value : TSStateId)
| SKIP (state_value : TSStateId).

(** One [case] of the [switch]: its [ACCEPT_TOKEN], if any, and the guarded
    jumps that follow, in order.  An [ADVANCE_MAP] is the sequence of
    equality tests that its loop performs. *)
Record lex_case : Set := Case {
  accept_token : option TSSymbol;
  arms : list (lex_cond * lex_action)
}.

Definition ts_lex_cases : list lex_case := [
  (* 0 *) Case (None)
    [(AtEof, ADVANCE 117); (Is "034", ADVANCE 479); (Is "#", ADVANCE 6); (Is "-", ADVANCE 10);
     (Is ":", ADVANCE 123); (Is "=", ADVANCE 337); (Is "@", ADVANCE 342); (Is "a", ADVANCE 359);
     (Is "b", ADVANCE 386); (Is "c", ADVANCE 367); (Is "d", ADVANCE 459); (Is "e", ADVANCE 355);
     (Is "f", ADVANCE 393); (Is "g", ADVANCE 427); (Is "h", ADVANCE 280); (Is "l", ADVANCE 345);
     (Is "o", ADVANCE 384); (Is "p", ADVANCE 346); (Is "r", ADVANCE 379); (Is "s", ADVANCE 361);
     (Is "t", ADVANCE 348); (Is "u", ADVANCE 435); (Is "w", ADVANCE 277); (Is "{", ADVANCE 259);
     (Is "}", ADVANCE 260); (AtLeast "009" &&& AtMost "013" ||| Is "032", SKIP 0);
     (AtLeast "0" &&& AtMost "9", ADVANCE 471);
     (AtLeast "A" &&& AtMost "Z" ||| Is "_" ||| AtLeast "i" &&& AtMost "z", ADVANCE 469)];
  (* 1 *) Case (None)
    [(Is "010", SKIP 1); (Is "034", ADVANCE 480); (Is "#", ADVANCE 128); (Is "a", ADVANCE 144);
     (Is "b", ADVANCE 169); (Is "c", ADVANCE 152); (Is "d", ADVANCE 238); (Is "e", ADVANCE 141);
     (Is "f", ADVANCE 176); (Is "g", ADVANCE 208); (Is "h", ADVANCE 282); (Is "l", ADVANCE 130);
     (Is "o", ADVANCE 167); (Is "p", ADVANCE 131); (Is "r", ADVANCE 162); (Is "s", ADVANCE 147);
     (Is "t", ADVANCE 132); (Is "u", ADVANCE 214); (Is "w", ADVANCE 279); (Is "}", ADVANCE 261);
     (AtLeast "009" &&& AtMost "013" ||| Is "032", ADVANCE 125); (IsNot "000", ADVANCE 247)];
  (* 2 *) Case (None)
    [(Is "010", SKIP 2); (Is "034", ADVANCE 480); (Is "#", ADVANCE 127);
     (AtLeast "009" &&& AtMost "013" ||| Is "032", ADVANCE 126); (IsNot "000", ADVANCE 247)];
  (* 3 *) Case (None)
    [(Is "034", ADVANCE 479); (Is "#", ADVANCE 6); (Is "-", ADVANCE 110); (Is "=", ADVANCE 337);
     (Is "@", ADVANCE 342); (Is "a", ADVANCE 410); (Is "b", ADVANCE 386); (Is "c", ADVANCE 367);
     (Is "d", ADVANCE 459); (Is "e", ADVANCE 355); (Is "f", ADVANCE 393); (Is "g", ADVANCE 427);
     (Is "h", ADVANCE 280); (Is "l", ADVANCE 345); (Is "o", ADVANCE 384); (Is "p", ADVANCE 347);
     (Is "r", ADVANCE 379); (Is "s", ADVANCE 362); (Is "t", ADVANCE 368); (Is "u", ADVANCE 435);
     (Is "w", ADVANCE 277); (Is "}", ADVANCE 260);
     (AtLeast "009" &&& AtMost "013" ||| Is "032", SKIP 3); (AtLeast "0" &&& AtMost "9", ADVANCE 471);
     (AtLeast "A" &&& AtMost "Z" ||| Is "_" ||| AtLeast "i" &&& AtMost "z", ADVANCE 469)];
  (* 4 *) Case (None)
    [(Is "034", ADVANCE 479); (Is "#", ADVANCE 112); (Is "-", ADVANCE 110); (Is "=", ADVANCE 337);
     (Is "@", ADVANCE 342); (Is "b", ADVANCE 386); (Is "c", ADVANCE 367); (Is "d", ADVANCE 459);
     (Is "e", ADVANCE 356); (Is "f", ADVANCE 393); (Is "h", ADVANCE 280); (Is "l", ADVANCE 345);
     (Is "o", ADVANCE 384); (Is "r", ADVANCE 420); (Is "s", ADVANCE 362); (Is "t", ADVANCE 432);
     (Is "u", ADVANCE 435); (Is "w", ADVANCE 277); (Is "}", ADVANCE 260);
     (AtLeast "009" &&& AtMost "013" ||| Is "032", SKIP 4); (AtLeast "0" &&& AtMost "9", ADVANCE 471);
     (AtLeast "A" &&& AtMost "Z" ||| Is "_" ||| AtLeast "a" &&& AtMost "z", ADVANCE 469)];
  (* 5 *) Case (None)
    [(Is "034", ADVANCE 479); (Is "#", ADVANCE 112); (Is "-", ADVANCE 110); (Is "@", ADVANCE 342);
     (AtLeast "009" &&& AtMost "013" ||| Is "032", SKIP 5); (AtLeast "0" &&& AtMost "9", ADVANCE 471);
     (AtLeast "A" &&& AtMost "Z" ||| Is "_" ||| AtLeast "a" &&& AtMost "z", ADVANCE 469)];
  (* 6 *) Case (None)
    [(Is "#", ADVANCE 121);
     (AtLeast "0" &&& AtMost "9" ||| AtLeast "A" &&& AtMost "F" ||| AtLeast "a" &&& AtMost "f", ADVANCE 119);
     (IsNot "000" &&& IsNot "010", ADVANCE 120)];
  (* 7 *) Case (None) [(Is "#", ADVANCE 121); (IsNot "000" &&& IsNot "010", ADVANCE 120)];
  (* 8 *) Case (None)
    [(Is "#", ADVANCE 113); (AtLeast "009" &&& AtMost "013" ||| Is "032", SKIP 8);
     (AtLeast "A" &&& AtMost "Z" ||| Is "_" ||| AtLeast "a" &&& AtMost "z", ADVANCE 469)];
  (* 9 *) Case (None) [(Is ">", ADVANCE 341)];
  (* 10 *) Case (None) [(Is ">", ADVANCE 341); (AtLeast "0" &&& AtMost "9", ADVANCE 471)];
  (* 11 *) Case (None) [(Is "_", ADVANCE 53)];
  (* 12 *) Case (None) [(Is "a", ADVANCE 109)];
  (* 13 *) Case (None) [(Is "a", ADVANCE 89)];
  (* 14 *) Case (None) [(Is "a", ADVANCE 23)];
  (* 15 *) Case (None) [(Is "a", ADVANCE 25)];
  (* 16 *) Case (None) [(Is "a", ADVANCE 85); (Is "l", ADVANCE 57)];
  (* 17 *) Case (None) [(Is "a", ADVANCE 68)];
  (* 18 *) Case (None) [(Is "a", ADVANCE 59)];
  (* 19 *) Case (None) [(Is "a", ADVANCE 99)];
  (* 20 *) Case (None) [(Is "a", ADVANCE 100)];
  (* 21 *) Case (None) [(Is "a", ADVANCE 102)];
  (* 22 *) Case (None) [(Is "c", ADVANCE 18); (Is "h", ADVANCE 15); (Is "t", ADVANCE 80)];
  (* 23 *) Case (None) [(Is "c", ADVANCE 54)];
  (* 24 *) Case (None) [(Is "c", ADVANCE 91)];
  (* 25 *) Case (None) [(Is "d", ADVANCE 71)];
  (* 26 *) Case (None) [(Is "d", ADVANCE 98)];
  (* 27 *) Case (None) [(Is "e", ADVANCE 24); (Is "o", ADVANCE 101)];
  (* 28 *) Case (None) [(Is "e", ADVANCE 107); (Is "r", ADVANCE 17)];
  (* 29 *) Case (None) [(Is "e", ADVANCE 307)];
  (* 30 *) Case (None) [(Is "e", ADVANCE 331)];
  (* 31 *) Case (None) [(Is "e", ADVANCE 316)];
  (* 32 *) Case (None) [(Is "e", ADVANCE 256)];
  (* 33 *) Case (None) [(Is "e", ADVANCE 319)];
  (* 34 *) Case (None) [(Is "e", ADVANCE 292)];
  (* 35 *) Case (None) [(Is "e", ADVANCE 268)];
  (* 36 *) Case (None) [(Is "e", ADVANCE 322)];
  (* 37 *) Case (None) [(Is "e", ADVANCE 66); (Is "o", ADVANCE 81)];
  (* 38 *) Case (None) [(Is "e", ADVANCE 78)];
  (* 39 *) Case (None) [(Is "e", ADVANCE 79)];
  (* 40 *) Case (None) [(Is "e", ADVANCE 95)];
  (* 41 *) Case (None) [(Is "f", ADVANCE 42); (Is "p", ADVANCE 14)];
  (* 42 *) Case (None) [(Is "f", ADVANCE 86)];
  (* 43 *) Case (None) [(Is "g", ADVANCE 304)];
  (* 44 *) Case (None) [(Is "g", ADVANCE 47)];
  (* 45 *) Case (None) [(Is "h", ADVANCE 271)];
  (* 46 *) Case (None) [(Is "h", ADVANCE 283)];
  (* 47 *) Case (None) [(Is "h", ADVANCE 93)];
  (* 48 *) Case (None) [(Is "i", ADVANCE 62)];
  (* 49 *) Case (None) [(Is "i", ADVANCE 76)];
  (* 50 *) Case (None) [(Is "i", ADVANCE 44)];
  (* 51 *) Case (None) [(Is "i", ADVANCE 58); (Is "o", ADVANCE 67)];
  (* 52 *) Case (None) [(Is "i", ADVANCE 74)];
  (* 53 *) Case (None) [(Is "i", ADVANCE 65)];
  (* 54 *) Case (None) [(Is "i", ADVANCE 96)];
  (* 55 *) Case (None) [(Is "k", ADVANCE 34)];
  (* 56 *) Case (None) [(Is "l", ADVANCE 289)];
  (* 57 *) Case (None) [(Is "l", ADVANCE 49)];
  (* 58 *) Case (None) [(Is "l", ADVANCE 56)];
  (* 59 *) Case (None) [(Is "l", ADVANCE 31)];
  (* 60 *) Case (None) [(Is "l", ADVANCE 32)];
  (* 61 *) Case (None) [(Is "l", ADVANCE 21)];
  (* 62 *) Case (None) [(Is "m", ADVANCE 338)];
  (* 63 *) Case (None) [(Is "n", ADVANCE 48)];
  (* 64 *) Case (None) [(Is "n", ADVANCE 334)];
  (* 65 *) Case (None) [(Is "n", ADVANCE 325)];
  (* 66 *) Case (None) [(Is "n", ADVANCE 97)];
  (* 67 *) Case (None) [(Is "n", ADVANCE 90)];
  (* 68 *) Case (None) [(Is "n", ADVANCE 87)];
  (* 69 *) Case (None) [(Is "n", ADVANCE 39)];
  (* 70 *) Case (None) [(Is "o", ADVANCE 55)];
  (* 71 *) Case (None) [(Is "o", ADVANCE 106)];
  (* 72 *) Case (None) [(Is "o", ADVANCE 103)];
  (* 73 *) Case (None) [(Is "o", ADVANCE 105)];
  (* 74 *) Case (None) [(Is "o", ADVANCE 64)];
  (* 75 *) Case (None) [(Is "p", ADVANCE 262)];
  (* 76 *) Case (None) [(Is "p", ADVANCE 88)];
  (* 77 *) Case (None) [(Is "r", ADVANCE 72)];
  (* 78 *) Case (None) [(Is "r", ADVANCE 11)];
  (* 79 *) Case (None) [(Is "r", ADVANCE 295)];
  (* 80 *) Case (None) [(Is "r", ADVANCE 70); (Is "y", ADVANCE 60)];
  (* 81 *) Case (None) [(Is "r", ADVANCE 69)];
  (* 82 *) Case (None) [(Is "r", ADVANCE 19)];
  (* 83 *) Case (None) [(Is "s", ADVANCE 470)];
  (* 84 *) Case (None) [(Is "s", ADVANCE 29)];
  (* 85 *) Case (None) [(Is "s", ADVANCE 30)];
  (* 86 *) Case (None) [(Is "s", ADVANCE 40)];
  (* 87 *) Case (None) [(Is "s", ADVANCE 61)];
  (* 88 *) Case (None) [(Is "s", ADVANCE 35)];
  (* 89 *) Case (None) [(Is "t", ADVANCE 45)];
  (* 90 *) Case (None) [(Is "t", ADVANCE 301)];
  (* 91 *) Case (None) [(Is "t", ADVANCE 265)];
  (* 92 *) Case (None) [(Is "t", ADVANCE 274)];
  (* 93 *) Case (None) [(Is "t", ADVANCE 286)];
  (* 94 *) Case (None) [(Is "t", ADVANCE 310)];
  (* 95 *) Case (None) [(Is "t", ADVANCE 328)];
  (* 96 *) Case (None) [(Is "t", ADVANCE 108)];
  (* 97 *) Case (None) [(Is "t", ADVANCE 38)];
  (* 98 *) Case (None) [(Is "t", ADVANCE 46)];
  (* 99 *) Case (None) [(Is "t", ADVANCE 52)];
  (* 100 *) Case (None) [(Is "t", ADVANCE 33)];
  (* 101 *) Case (None) [(Is "t", ADVANCE 20)];
  (* 102 *) Case (None) [(Is "t", ADVANCE 36)];
  (* 103 *) Case (None) [(Is "u", ADVANCE 75)];
  (* 104 *) Case (None) [(Is "u", ADVANCE 82)];
  (* 105 *) Case (None) [(Is "u", ADVANCE 94)];
  (* 106 *) Case (None) [(Is "w", ADVANCE 313)];
  (* 107 *) Case (None) [(Is "x", ADVANCE 92)];
  (* 108 *) Case (None) [(Is "y", ADVANCE 298)];
  (* 109 *) Case (None) [(Is "y", ADVANCE 73)];
  (* 110 *) Case (None) [(AtLeast "0" &&& AtMost "9", ADVANCE 471)];
  (* 111 *) Case (None) [(AtLeast "0" &&& AtMost "9", ADVANCE 472)];
  (* 112 *) Case (None)
    [(AtLeast "0" &&& AtMost "9" ||| AtLeast "A" &&& AtMost "F" ||| AtLeast "a" &&& AtMost "f", ADVANCE 119);
     (IsNot "000" &&& IsNot "010" &&& IsNot "#", ADVANCE 120)];
  (* 113 *) Case (None) [(IsNot "000" &&& IsNot "010" &&& IsNot "#", ADVANCE 120)];
  (* 114 *) Case (None)
    [(AtEof, ADVANCE 117); (Is "010", SKIP 114); (Is "034", ADVANCE 480); (Is "#", ADVANCE 128);
     (Is "@", ADVANCE 343); (Is "a", ADVANCE 145); (Is "e", ADVANCE 185); (Is "g", ADVANCE 208);
     (Is "p", ADVANCE 131); (Is "r", ADVANCE 163); (Is "s", ADVANCE 228); (Is "t", ADVANCE 133);
     (AtLeast "009" &&& AtMost "013" ||| Is "032", ADVANCE 124); (IsNot "000", ADVANCE 247)];
  (* 115 *) Case (None)
    [(AtEof, ADVANCE 117); (Is "034", ADVANCE 479); (Is "#", ADVANCE 6); (Is "-", ADVANCE 110);
     (Is "=", ADVANCE 337); (Is "@", ADVANCE 342); (Is "e", ADVANCE 402); (Is "g", ADVANCE 427);
     (Is "p", ADVANCE 347); (Is "r", ADVANCE 380); (Is "s", ADVANCE 453); (Is "t", ADVANCE 369);
     (AtLeast "009" &&& AtMost "013" ||| Is "032", SKIP 115);
     (AtLeast "0" &&& AtMost "9", ADVANCE 471);
     (AtLeast "A" &&& AtMost "Z" ||| Is "_" ||| AtLeast "a" &&& AtMost "z", ADVANCE 469)];
  (* 116 *) Case (None)
    [(AtEof, ADVANCE 117); (Is "034", ADVANCE 479); (Is "#", ADVANCE 7); (Is "-", ADVANCE 9);
     (Is ":", ADVANCE 123); (Is "@", ADVANCE 342); (Is "a", ADVANCE 63); (Is "b", ADVANCE 43);
     (Is "c", ADVANCE 37); (Is "d", ADVANCE 104); (Is "e", ADVANCE 16); (Is "f", ADVANCE 51);
     (Is "g", ADVANCE 77); (Is "h", ADVANCE 281); (Is "l", ADVANCE 12); (Is "o", ADVANCE 41);
     (Is "p", ADVANCE 13); (Is "r", ADVANCE 27); (Is "s", ADVANCE 22); (Is "t", ADVANCE 28);
     (Is "u", ADVANCE 84); (Is "w", ADVANCE 278); (Is "{", ADVANCE 259); (Is "}", ADVANCE 260);
     (AtLeast "009" &&& AtMost "013" ||| Is "032", SKIP 116)];
  (* 117 *) Case (Some ts_builtin_sym_end) [];
  (* 118 *) Case (Some sym_comment)
    [(AtLeast "0" &&& AtMost "9" ||| AtLeast "A" &&& AtMost "F" ||| AtLeast "a" &&& AtMost "f", ADVANCE 478);
     (IsNot "000" &&& IsNot "010", ADVANCE 120)];
  (* 119 *) Case (Some sym_comment)
    [(AtLeast "0" &&& AtMost "9" ||| AtLeast "A" &&& AtMost "F" ||| AtLeast "a" &&& AtMost "f", ADVANCE 118);
     (IsNot "000" &&& IsNot "010", ADVANCE 120)];
  (* 120 *) Case (Some sym_comment) [(IsNot "000" &&& IsNot "010", ADVANCE 120)];
  (* 121 *) Case (Some anon_sym_POUND_POUND) [];
  (* 122 *) Case (Some anon_sym_POUND_POUND) [(IsNot "000" &&& IsNot "010", ADVANCE 247)];
  (* 123 *) Case (Some anon_sym_COLON) [];
  (* 124 *) Case (Some sym_annotation_text)
    [(Is "034", ADVANCE 480); (Is "#", ADVANCE 128); (Is "@", ADVANCE 343); (Is "a", ADVANCE 145);
     (Is "e", ADVANCE 185); (Is "g", ADVANCE 208); (Is "p", ADVANCE 131); (Is "r", ADVANCE 163);
     (Is "s", ADVANCE 228); (Is "t", ADVANCE 133);
     (Is "009" ||| AtLeast "011" &&& AtMost "013" ||| Is "032", ADVANCE 124);
     (IsNot "000" &&& (Below "009" ||| Above "013"), ADVANCE 247)];
  (* 125 *) Case (Some sym_annotation_text)
    [(Is "034", ADVANCE 480); (Is "#", ADVANCE 128); (Is "a", ADVANCE 144); (Is "b", ADVANCE 169);
     (Is "c", ADVANCE 152); (Is "d", ADVANCE 238); (Is "e", ADVANCE 141); (Is "f", ADVANCE 176);
     (Is "g", ADVANCE 208); (Is "h", ADVANCE 282); (Is "l", ADVANCE 130); (Is "o", ADVANCE 167);
     (Is "p", ADVANCE 131); (Is "r", ADVANCE 162); (Is "s", ADVANCE 147); (Is "t", ADVANCE 132);
     (Is "u", ADVANCE 214); (Is "w", ADVANCE 279); (Is "}", ADVANCE 261);
     (Is "009" ||| AtLeast "011" &&& AtMost "013" ||| Is "032", ADVANCE 125);
     (IsNot "000" &&& (Below "009" ||| Above "013"), ADVANCE 247)];
  (* 126 *) Case (Some sym_annotation_text)
    [(Is "034", ADVANCE 480); (Is "#", ADVANCE 127);
     (Is "009" ||| AtLeast "011" &&& AtMost "013" ||| Is "032", ADVANCE 126);
     (IsNot "000" &&& (Below "009" ||| Above "013"), ADVANCE 247)];
  (* 127 *) Case (Some sym_annotation_text) [(Is "#", ADVANCE 247); (IsNot "000" &&& IsNot "010", ADVANCE 247)];
  (* 128 *) Case (Some sym_annotation_text) [(Is "#", ADVANCE 122); (IsNot "000" &&& IsNot "010", ADVANCE 247)];
  (* 129 *) Case (Some sym_annotation_text) [(Is "_", ADVANCE 180); (IsNot "000" &&& IsNot "010", ADVANCE 247)];
  (* 130 *) Case (Some sym_annotation_text) [(Is "a", ADVANCE 246); (IsNot "000" &&& IsNot "010", ADVANCE 247)];
  (* 131 *) Case (Some sym_annotation_text) [(Is "a", ADVANCE 220); (Is "r", ADVANCE 177); (IsNot "000" &&& IsNot "010", ADVANCE 247)];
  (* 132 *) Case (Some sym_annotation_text)
    [(Is "a", ADVANCE 170); (Is "e", ADVANCE 243); (Is "r", ADVANCE 136);
     (IsNot "000" &&& IsNot "010", ADVANCE 247)];
  (* 133 *) Case (Some sym_annotation_text) [(Is "a", ADVANCE 170); (Is "e", ADVANCE 243); (IsNot "000" &&& IsNot "010", ADVANCE 247)];
  (* 134 *) Case (Some sym_annotation_text) [(Is "a", ADVANCE 150); (IsNot "000" &&& IsNot "010", ADVANCE 247)];
  (* 135 *) Case (Some sym_annotation_text) [(Is "a", ADVANCE 148); (IsNot "000" &&& IsNot "010", ADVANCE 247)];
  (* 136 *) Case (Some sym_annotation_text) [(Is "a", ADVANCE 195); (IsNot "000" &&& IsNot "010", ADVANCE 247)];
  (* 137 *) Case (Some sym_annotation_text) [(Is "a", ADVANCE 189); (IsNot "000" &&& IsNot "010", ADVANCE 247)];
  (* 138 *) Case (Some sym_annotation_text) [(Is "a", ADVANCE 232); (Is "r", ADVANCE 199); (IsNot "000" &&& IsNot "010", ADVANCE 247)];
  (* 139 *) Case (Some sym_annotation_text) [(Is "a", ADVANCE 232); (Is "y", ADVANCE 190); (IsNot "000" &&& IsNot "010", ADVANCE 247)];
  (* 140 *) Case (Some sym_annotation_text) [(Is "a", ADVANCE 234); (IsNot "000" &&& IsNot "010", ADVANCE 247)];
  (* 141 *) Case (Some sym_annotation_text) [(Is "a", ADVANCE 216); (Is "l", ADVANCE 188); (IsNot "000" &&& IsNot "010", ADVANCE 247)];
  (* 142 *) Case (Some sym_annotation_text) [(Is "a", ADVANCE 236); (IsNot "000" &&& IsNot "010", ADVANCE 247)];
  (* 143 *) Case (Some sym_annotation_text) [(Is "a", ADVANCE 237); (IsNot "000" &&& IsNot "010", ADVANCE 247)];
  (* 144 *) Case (Some sym_annotation_text) [(Is "c", ADVANCE 146); (Is "n", ADVANCE 175); (IsNot "000" &&& IsNot "010", ADVANCE 247)];
  (* 145 *) Case (Some sym_annotation_text) [(Is "c", ADVANCE 146); (IsNot "000" &&& IsNot "010", ADVANCE 247)];
  (* 146 *) Case (Some sym_annotation_text) [(Is "c", ADVANCE 154); (IsNot "000" &&& IsNot "010", ADVANCE 247)];
  (* 147 *) Case (Some sym_annotation_text)
    [(Is "c", ADVANCE 137); (Is "h", ADVANCE 134); (Is "t", ADVANCE 138);
     (IsNot "000" &&& IsNot "010", ADVANCE 247)];
  (* 148 *) Case (Some sym_annotation_text) [(Is "c", ADVANCE 182); (IsNot "000" &&& IsNot "010", ADVANCE 247)];
  (* 149 *) Case (Some sym_annotation_text) [(Is "c", ADVANCE 222); (IsNot "000" &&& IsNot "010", ADVANCE 247)];
  (* 150 *) Case (Some sym_annotation_text) [(Is "d", ADVANCE 200); (IsNot "000" &&& IsNot "010", ADVANCE 247)];
  (* 151 *) Case (Some sym_annotation_text) [(Is "d", ADVANCE 231); (IsNot "000" &&& IsNot "010", ADVANCE 247)];
  (* 152 *) Case (Some sym_annotation_text) [(Is "e", ADVANCE 196); (Is "o", ADVANCE 211); (IsNot "000" &&& IsNot "010", ADVANCE 247)];
  (* 153 *) Case (Some sym_annotation_text) [(Is "e", ADVANCE 309); (IsNot "000" &&& IsNot "010", ADVANCE 247)];
  (* 154 *) Case (Some sym_annotation_text) [(Is "e", ADVANCE 206); (IsNot "000" &&& IsNot "010", ADVANCE 247)];
  (* 155 *) Case (Some sym_annotation_text) [(Is "e", ADVANCE 333); (IsNot "000" &&& IsNot "010", ADVANCE 247)];
  (* 156 *) Case (Some sym_annotation_text) [(Is "e", ADVANCE 318); (IsNot "000" &&& IsNot "010", ADVANCE 247)];
  (* 157 *) Case (Some sym_annotation_text) [(Is "e", ADVANCE 321); (IsNot "000" &&& IsNot "010", ADVANCE 247)];
  (* 158 *) Case (Some sym_annotation_text) [(Is "e", ADVANCE 294); (IsNot "000" &&& IsNot "010", ADVANCE 247)];
  (* 159 *) Case (Some sym_annotation_text) [(Is "e", ADVANCE 270); (IsNot "000" &&& IsNot "010", ADVANCE 247)];
  (* 160 *) Case (Some sym_annotation_text) [(Is "e", ADVANCE 324); (IsNot "000" &&& IsNot "010", ADVANCE 247)];
  (* 161 *) Case (Some sym_annotation_text) [(Is "e", ADVANCE 258); (IsNot "000" &&& IsNot "010", ADVANCE 247)];
  (* 162 *) Case (Some sym_annotation_text) [(Is "e", ADVANCE 149); (Is "o", ADVANCE 235); (IsNot "000" &&& IsNot "010", ADVANCE 247)];
  (* 163 *) Case (Some sym_annotation_text) [(Is "e", ADVANCE 149); (IsNot "000" &&& IsNot "010", ADVANCE 247)];
  (* 164 *) Case (Some sym_annotation_text) [(Is "e", ADVANCE 209); (IsNot "000" &&& IsNot "010", ADVANCE 247)];
  (* 165 *) Case (Some sym_annotation_text) [(Is "e", ADVANCE 210); (IsNot "000" &&& IsNot "010", ADVANCE 247)];
  (* 166 *) Case (Some sym_annotation_text) [(Is "e", ADVANCE 227); (IsNot "000" &&& IsNot "010", ADVANCE 247)];
  (* 167 *) Case (Some sym_annotation_text) [(Is "f", ADVANCE 168); (Is "p", ADVANCE 135); (IsNot "000" &&& IsNot "010", ADVANCE 247)];
  (* 168 *) Case (Some sym_annotation_text) [(Is "f", ADVANCE 218); (IsNot "000" &&& IsNot "010", ADVANCE 247)];
  (* 169 *) Case (Some sym_annotation_text) [(Is "g", ADVANCE 306); (IsNot "000" &&& IsNot "010", ADVANCE 247)];
  (* 170 *) Case (Some sym_annotation_text) [(Is "g", ADVANCE 255); (IsNot "000" &&& IsNot "010", ADVANCE 247)];
  (* 171 *) Case (Some sym_annotation_text) [(Is "g", ADVANCE 174); (IsNot "000" &&& IsNot "010", ADVANCE 247)];
  (* 172 *) Case (Some sym_annotation_text) [(Is "h", ADVANCE 273); (IsNot "000" &&& IsNot "010", ADVANCE 247)];
  (* 173 *) Case (Some sym_annotation_text) [(Is "h", ADVANCE 285); (IsNot "000" &&& IsNot "010", ADVANCE 247)];
  (* 174 *) Case (Some sym_annotation_text) [(Is "h", ADVANCE 225); (IsNot "000" &&& IsNot "010", ADVANCE 247)];
  (* 175 *) Case (Some sym_annotation_text) [(Is "i", ADVANCE 192); (IsNot "000" &&& IsNot "010", ADVANCE 247)];
  (* 176 *) Case (Some sym_annotation_text) [(Is "i", ADVANCE 187); (Is "o", ADVANCE 197); (IsNot "000" &&& IsNot "010", ADVANCE 247)];
  (* 177 *) Case (Some sym_annotation_text) [(Is "i", ADVANCE 203); (IsNot "000" &&& IsNot "010", ADVANCE 247)];
  (* 178 *) Case (Some sym_annotation_text) [(Is "i", ADVANCE 207); (IsNot "000" &&& IsNot "010", ADVANCE 247)];
  (* 179 *) Case (Some sym_annotation_text) [(Is "i", ADVANCE 171); (IsNot "000" &&& IsNot "010", ADVANCE 247)];
  (* 180 *) Case (Some sym_annotation_text) [(Is "i", ADVANCE 194); (IsNot "000" &&& IsNot "010", ADVANCE 247)];
  (* 181 *) Case (Some sym_annotation_text) [(Is "i", ADVANCE 204); (IsNot "000" &&& IsNot "010", ADVANCE 247)];
  (* 182 *) Case (Some sym_annotation_text) [(Is "i", ADVANCE 229); (IsNot "000" &&& IsNot "010", ADVANCE 247)];
  (* 183 *) Case (Some sym_annotation_text) [(Is "i", ADVANCE 230); (IsNot "000" &&& IsNot "010", ADVANCE 247)];
  (* 184 *) Case (Some sym_annotation_text) [(Is "k", ADVANCE 158); (IsNot "000" &&& IsNot "010", ADVANCE 247)];
  (* 185 *) Case (Some sym_annotation_text) [(Is "l", ADVANCE 188); (IsNot "000" &&& IsNot "010", ADVANCE 247)];
  (* 186 *) Case (Some sym_annotation_text) [(Is "l", ADVANCE 291); (IsNot "000" &&& IsNot "010", ADVANCE 247)];
  (* 187 *) Case (Some sym_annotation_text) [(Is "l", ADVANCE 186); (IsNot "000" &&& IsNot "010", ADVANCE 247)];
  (* 188 *) Case (Some sym_annotation_text) [(Is "l", ADVANCE 178); (IsNot "000" &&& IsNot "010", ADVANCE 247)];
  (* 189 *) Case (Some sym_annotation_text) [(Is "l", ADVANCE 156); (IsNot "000" &&& IsNot "010", ADVANCE 247)];
  (* 190 *) Case (Some sym_annotation_text) [(Is "l", ADVANCE 161); (IsNot "000" &&& IsNot "010", ADVANCE 247)];
  (* 191 *) Case (Some sym_annotation_text) [(Is "l", ADVANCE 143); (IsNot "000" &&& IsNot "010", ADVANCE 247)];
  (* 192 *) Case (Some sym_annotation_text) [(Is "m", ADVANCE 340); (IsNot "000" &&& IsNot "010", ADVANCE 247)];
  (* 193 *) Case (Some sym_annotation_text) [(Is "n", ADVANCE 336); (IsNot "000" &&& IsNot "010", ADVANCE 247)];
  (* 194 *) Case (Some sym_annotation_text) [(Is "n", ADVANCE 327); (IsNot "000" &&& IsNot "010", ADVANCE 247)];
  (* 195 *) Case (Some sym_annotation_text) [(Is "n", ADVANCE 217); (IsNot "000" &&& IsNot "010", ADVANCE 247)];
  (* 196 *) Case (Some sym_annotation_text) [(Is "n", ADVANCE 233); (IsNot "000" &&& IsNot "010", ADVANCE 247)];
  (* 197 *) Case (Some sym_annotation_text) [(Is "n", ADVANCE 221); (IsNot "000" &&& IsNot "010", ADVANCE 247)];
  (* 198 *) Case (Some sym_annotation_text) [(Is "n", ADVANCE 165); (IsNot "000" &&& IsNot "010", ADVANCE 247)];
  (* 199 *) Case (Some sym_annotation_text) [(Is "o", ADVANCE 184); (IsNot "000" &&& IsNot "010", ADVANCE 247)];
  (* 200 *) Case (Some sym_annotation_text) [(Is "o", ADVANCE 242); (IsNot "000" &&& IsNot "010", ADVANCE 247)];
  (* 201 *) Case (Some sym_annotation_text) [(Is "o", ADVANCE 240); (IsNot "000" &&& IsNot "010", ADVANCE 247)];
  (* 202 *) Case (Some sym_annotation_text) [(Is "o", ADVANCE 241); (IsNot "000" &&& IsNot "010", ADVANCE 247)];
  (* 203 *) Case (Some sym_annotation_text) [(Is "o", ADVANCE 213); (IsNot "000" &&& IsNot "010", ADVANCE 247)];
  (* 204 *) Case (Some sym_annotation_text) [(Is "o", ADVANCE 193); (IsNot "000" &&& IsNot "010", ADVANCE 247)];
  (* 205 *) Case (Some sym_annotation_text) [(Is "p", ADVANCE 264); (IsNot "000" &&& IsNot "010", ADVANCE 247)];
  (* 206 *) Case (Some sym_annotation_text) [(Is "p", ADVANCE 224); (IsNot "000" &&& IsNot "010", ADVANCE 247)];
  (* 207 *) Case (Some sym_annotation_text) [(Is "p", ADVANCE 219); (IsNot "000" &&& IsNot "010", ADVANCE 247)];
  (* 208 *) Case (Some sym_annotation_text) [(Is "r", ADVANCE 201); (IsNot "000" &&& IsNot "010", ADVANCE 247)];
  (* 209 *) Case (Some sym_annotation_text) [(Is "r", ADVANCE 129); (IsNot "000" &&& IsNot "010", ADVANCE 247)];
  (* 210 *) Case (Some sym_annotation_text) [(Is "r", ADVANCE 297); (IsNot "000" &&& IsNot "010", ADVANCE 247)];
  (* 211 *) Case (Some sym_annotation_text) [(Is "r", ADVANCE 198); (IsNot "000" &&& IsNot "010", ADVANCE 247)];
  (* 212 *) Case (Some sym_annotation_text) [(Is "r", ADVANCE 140); (IsNot "000" &&& IsNot "010", ADVANCE 247)];
  (* 213 *) Case (Some sym_annotation_text) [(Is "r", ADVANCE 183); (IsNot "000" &&& IsNot "010", ADVANCE 247)];
  (* 214 *) Case (Some sym_annotation_text) [(Is "s", ADVANCE 153); (IsNot "000" &&& IsNot "010", ADVANCE 247)];
  (* 215 *) Case (Some sym_annotation_text) [(Is "s", ADVANCE 251); (IsNot "000" &&& IsNot "010", ADVANCE 247)];
  (* 216 *) Case (Some sym_annotation_text) [(Is "s", ADVANCE 155); (IsNot "000" &&& IsNot "010", ADVANCE 247)];
  (* 217 *) Case (Some sym_annotation_text) [(Is "s", ADVANCE 191); (IsNot "000" &&& IsNot "010", ADVANCE 247)];
  (* 218 *) Case (Some sym_annotation_text) [(Is "s", ADVANCE 166); (IsNot "000" &&& IsNot "010", ADVANCE 247)];
  (* 219 *) Case (Some sym_annotation_text) [(Is "s", ADVANCE 159); (IsNot "000" &&& IsNot "010", ADVANCE 247)];
  (* 220 *) Case (Some sym_annotation_text) [(Is "t", ADVANCE 172); (IsNot "000" &&& IsNot "010", ADVANCE 247)];
  (* 221 *) Case (Some sym_annotation_text) [(Is "t", ADVANCE 303); (IsNot "000" &&& IsNot "010", ADVANCE 247)];
  (* 222 *) Case (Some sym_annotation_text) [(Is "t", ADVANCE 267); (IsNot "000" &&& IsNot "010", ADVANCE 247)];
  (* 223 *) Case (Some sym_annotation_text) [(Is "t", ADVANCE 276); (IsNot "000" &&& IsNot "010", ADVANCE 247)];
  (* 224 *) Case (Some sym_annotation_text) [(Is "t", ADVANCE 249); (IsNot "000" &&& IsNot "010", ADVANCE 247)];
  (* 225 *) Case (Some sym_annotation_text) [(Is "t", ADVANCE 288); (IsNot "000" &&& IsNot "010", ADVANCE 247)];
  (* 226 *) Case (Some sym_annotation_text) [(Is "t", ADVANCE 312); (IsNot "000" &&& IsNot "010", ADVANCE 247)];
  (* 227 *) Case (Some sym_annotation_text) [(Is "t", ADVANCE 330); (IsNot "000" &&& IsNot "010", ADVANCE 247)];
  (* 228 *) Case (Some sym_annotation_text) [(Is "t", ADVANCE 139); (IsNot "000" &&& IsNot "010", ADVANCE 247)];
  (* 229 *) Case (Some sym_annotation_text) [(Is "t", ADVANCE 244); (IsNot "000" &&& IsNot "010", ADVANCE 247)];
  (* 230 *) Case (Some sym_annotation_text) [(Is "t", ADVANCE 245); (IsNot "000" &&& IsNot "010", ADVANCE 247)];
  (* 231 *) Case (Some sym_annotation_text) [(Is "t", ADVANCE 173); (IsNot "000" &&& IsNot "010", ADVANCE 247)];
  (* 232 *) Case (Some sym_annotation_text) [(Is "t", ADVANCE 239); (IsNot "000" &&& IsNot "010", ADVANCE 247)];
  (* 233 *) Case (Some sym_annotation_text) [(Is "t", ADVANCE 164); (IsNot "000" &&& IsNot "010", ADVANCE 247)];
  (* 234 *) Case (Some sym_annotation_text) [(Is "t", ADVANCE 181); (IsNot "000" &&& IsNot "010", ADVANCE 247)];
  (* 235 *) Case (Some sym_annotation_text) [(Is "t", ADVANCE 142); (IsNot "000" &&& IsNot "010", ADVANCE 247)];
  (* 236 *) Case (Some sym_annotation_text) [(Is "t", ADVANCE 157); (IsNot "000" &&& IsNot "010", ADVANCE 247)];
  (* 237 *) Case (Some sym_annotation_text) [(Is "t", ADVANCE 160); (IsNot "000" &&& IsNot "010", ADVANCE 247)];
  (* 238 *) Case (Some sym_annotation_text) [(Is "u", ADVANCE 212); (IsNot "000" &&& IsNot "010", ADVANCE 247)];
  (* 239 *) Case (Some sym_annotation_text) [(Is "u", ADVANCE 215); (IsNot "000" &&& IsNot "010", ADVANCE 247)];
  (* 240 *) Case (Some sym_annotation_text) [(Is "u", ADVANCE 205); (IsNot "000" &&& IsNot "010", ADVANCE 247)];
  (* 241 *) Case (Some sym_annotation_text) [(Is "u", ADVANCE 226); (IsNot "000" &&& IsNot "010", ADVANCE 247)];
  (* 242 *) Case (Some sym_annotation_text) [(Is "w", ADVANCE 315); (IsNot "000" &&& IsNot "010", ADVANCE 247)];
  (* 243 *) Case (Some sym_annotation_text) [(Is "x", ADVANCE 223); (IsNot "000" &&& IsNot "010", ADVANCE 247)];
  (* 244 *) Case (Some sym_annotation_text) [(Is "y", ADVANCE 300); (IsNot "000" &&& IsNot "010", ADVANCE 247)];
  (* 245 *) Case (Some sym_annotation_text) [(Is "y", ADVANCE 253); (IsNot "000" &&& IsNot "010", ADVANCE 247)];
  (* 246 *) Case (Some sym_annotation_text) [(Is "y", ADVANCE 202); (IsNot "000" &&& IsNot "010", ADVANCE 247)];
  (* 247 *) Case (Some sym_annotation_text) [(IsNot "000" &&& IsNot "010", ADVANCE 247)];
  (* 248 *) Case (Some anon_sym_accept) [(AtLeast "0" &&& AtMost "9" ||| AtLeast "A" &&& AtMost "Z" ||| Is "_" ||| AtLeast "a" &&& AtMost "z", ADVANCE 469)];
  (* 249 *) Case (Some anon_sym_accept) [(IsNot "000" &&& IsNot "010", ADVANCE 247)];
  (* 250 *) Case (Some anon_sym_status) [(AtLeast "0" &&& AtMost "9" ||| AtLeast "A" &&& AtMost "Z" ||| Is "_" ||| AtLeast "a" &&& AtMost "z", ADVANCE 469)];
  (* 251 *) Case (Some anon_sym_status) [(IsNot "000" &&& IsNot "010", ADVANCE 247)];
  (* 252 *) Case (Some anon_sym_priority) [(AtLeast "0" &&& AtMost "9" ||| AtLeast "A" &&& AtMost "Z" ||| Is "_" ||| AtLeast "a" &&& AtMost "z", ADVANCE 469)];
  (* 253 *) Case (Some anon_sym_priority) [(IsNot "000" &&& IsNot "010", ADVANCE 247)];
  (* 254 *) Case (Some anon_sym_tag) [(AtLeast "0" &&& AtMost "9" ||| AtLeast "A" &&& AtMost "Z" ||| Is "_" ||| AtLeast "a" &&& AtMost "z", ADVANCE 469)];
  (* 255 *) Case (Some anon_sym_tag) [(IsNot "000" &&& IsNot "010", ADVANCE 247)];
  (* 256 *) Case (Some anon_sym_style) [];
  (* 257 *) Case (Some anon_sym_style) [(AtLeast "0" &&& AtMost "9" ||| AtLeast "A" &&& AtMost "Z" ||| Is "_" ||| AtLeast "a" &&& AtMost "z", ADVANCE 469)];
  (* 258 *) Case (Some anon_sym_style) [(IsNot "000" &&& IsNot "010", ADVANCE 247)];
  (* 259 *) Case (Some anon_sym_LBRACE) [];
  (* 260 *) Case (Some anon_sym_RBRACE) [];
  (* 261 *) Case (Some anon_sym_RBRACE) [(IsNot "000" &&& IsNot "010", ADVANCE 247)];
  (* 262 *) Case (Some anon_sym_group) [];
  (* 263 *) Case (Some anon_sym_group) [(AtLeast "0" &&& AtMost "9" ||| AtLeast "A" &&& AtMost "Z" ||| Is "_" ||| AtLeast "a" &&& AtMost "z", ADVANCE 469)];
  (* 264 *) Case (Some anon_sym_group) [(IsNot "000" &&& IsNot "010", ADVANCE 247)];
  (* 265 *) Case (Some anon_sym_rect) [];
  (* 266 *) Case (Some anon_sym_rect) [(AtLeast "0" &&& AtMost "9" ||| AtLeast "A" &&& AtMost "Z" ||| Is "_" ||| AtLeast "a" &&& AtMost "z", ADVANCE 469)];
  (* 267 *) Case (Some anon_sym_rect) [(IsNot "000" &&& IsNot "010", ADVANCE 247)];
  (* 268 *) Case (Some anon_sym_ellipse) [];
  (* 269 *) Case (Some anon_sym_ellipse) [(AtLeast "0" &&& AtMost "9" ||| AtLeast "A" &&& AtMost "Z" ||| Is "_" ||| AtLeast "a" &&& AtMost "z", ADVANCE 469)];
  (* 270 *) Case (Some anon_sym_ellipse) [(IsNot "000" &&& IsNot "010", ADVANCE 247)];
  (* 271 *) Case (Some anon_sym_path) [];
  (* 272 *) Case (Some anon_sym_path) [(AtLeast "0" &&& AtMost "9" ||| AtLeast "A" &&& AtMost "Z" ||| Is "_" ||| AtLeast "a" &&& AtMost "z", ADVANCE 469)];
  (* 273 *) Case (Some anon_sym_path) [(IsNot "000" &&& IsNot "010", ADVANCE 247)];
  (* 274 *) Case (Some anon_sym_text) [];
  (* 275 *) Case (Some anon_sym_text) [(AtLeast "0" &&& AtMost "9" ||| AtLeast "A" &&& AtMost "Z" ||| Is "_" ||| AtLeast "a" &&& AtMost "z", ADVANCE 469)];
  (* 276 *) Case (Some anon_sym_text) [(IsNot "000" &&& IsNot "010", ADVANCE 247)];
  (* 277 *) Case (Some anon_sym_w)
    [(Is "i", ADVANCE 366);
     (AtLeast "0" &&& AtMost "9" ||| AtLeast "A" &&& AtMost "Z" ||| Is "_" ||| AtLeast "a" &&& AtMost "z", ADVANCE 469)];
  (* 278 *) Case (Some anon_sym_w) [(Is "i", ADVANCE 26)];
  (* 279 *) Case (Some anon_sym_w) [(Is "i", ADVANCE 151); (IsNot "000" &&& IsNot "010", ADVANCE 247)];
  (* 280 *) Case (Some anon_sym_h)
    [(Is "e", ADVANCE 396);
     (AtLeast "0" &&& AtMost "9" ||| AtLeast "A" &&& AtMost "Z" ||| Is "_" ||| AtLeast "a" &&& AtMost "z", ADVANCE 469)];
  (* 281 *) Case (Some anon_sym_h) [(Is "e", ADVANCE 50)];
  (* 282 *) Case (Some anon_sym_h) [(Is "e", ADVANCE 179); (IsNot "000" &&& IsNot "010", ADVANCE 247)];
  (* 283 *) Case (Some anon_sym_width) [];
  (* 284 *) Case (Some anon_sym_width) [(AtLeast "0" &&& AtMost "9" ||| AtLeast "A" &&& AtMost "Z" ||| Is "_" ||| AtLeast "a" &&& AtMost "z", ADVANCE 469)];
  (* 285 *) Case (Some anon_sym_width) [(IsNot "000" &&& IsNot "010", ADVANCE 247)];
  (* 286 *) Case (Some anon_sym_height) [];
  (* 287 *) Case (Some anon_sym_height) [(AtLeast "0" &&& AtMost "9" ||| AtLeast "A" &&& AtMost "Z" ||| Is "_" ||| AtLeast "a" &&& AtMost "z", ADVANCE 469)];
  (* 288 *) Case (Some anon_sym_height) [(IsNot "000" &&& IsNot "010", ADVANCE 247)];
  (* 289 *) Case (Some anon_sym_fill) [];
  (* 290 *) Case (Some anon_sym_fill) [(AtLeast "0" &&& AtMost "9" ||| AtLeast "A" &&& AtMost "Z" ||| Is "_" ||| AtLeast "a" &&& AtMost "z", ADVANCE 469)];
  (* 291 *) Case (Some anon_sym_fill) [(IsNot "000" &&& IsNot "010", ADVANCE 247)];
  (* 292 *) Case (Some anon_sym_stroke) [];
  (* 293 *) Case (Some anon_sym_stroke) [(AtLeast "0" &&& AtMost "9" ||| AtLeast "A" &&& AtMost "Z" ||| Is "_" ||| AtLeast "a" &&& AtMost "z", ADVANCE 469)];
  (* 294 *) Case (Some anon_sym_stroke) [(IsNot "000" &&& IsNot "010", ADVANCE 247)];
  (* 295 *) Case (Some anon_sym_corner) [];
  (* 296 *) Case (Some anon_sym_corner) [(AtLeast "0" &&& AtMost "9" ||| AtLeast "A" &&& AtMost "Z" ||| Is "_" ||| AtLeast "a" &&& AtMost "z", ADVANCE 469)];
  (* 297 *) Case (Some anon_sym_corner) [(IsNot "000" &&& IsNot "010", ADVANCE 247)];
  (* 298 *) Case (Some anon_sym_opacity) [];
  (* 299 *) Case (Some anon_sym_opacity) [(AtLeast "0" &&& AtMost "9" ||| AtLeast "A" &&& AtMost "Z" ||| Is "_" ||| AtLeast "a" &&& AtMost "z", ADVANCE 469)];
  (* 300 *) Case (Some anon_sym_opacity) [(IsNot "000" &&& IsNot "010", ADVANCE 247)];
  (* 301 *) Case (Some anon_sym_font) [];
  (* 302 *) Case (Some anon_sym_font) [(AtLeast "0" &&& AtMost "9" ||| AtLeast "A" &&& AtMost "Z" ||| Is "_" ||| AtLeast "a" &&& AtMost "z", ADVANCE 469)];
  (* 303 *) Case (Some anon_sym_font) [(IsNot "000" &&& IsNot "010", ADVANCE 247)];
  (* 304 *) Case (Some anon_sym_bg) [];
  (* 305 *) Case (Some anon_sym_bg) [(AtLeast "0" &&& AtMost "9" ||| AtLeast "A" &&& AtMost "Z" ||| Is "_" ||| AtLeast "a" &&& AtMost "z", ADVANCE 469)];
  (* 306 *) Case (Some anon_sym_bg) [(IsNot "000" &&& IsNot "010", ADVANCE 247)];
  (* 307 *) Case (Some anon_sym_use) [];
  (* 308 *) Case (Some anon_sym_use) [(AtLeast "0" &&& AtMost "9" ||| AtLeast "A" &&& AtMost "Z" ||| Is "_" ||| AtLeast "a" &&& AtMost "z", ADVANCE 469)];
  (* 309 *) Case (Some anon_sym_use) [(IsNot "000" &&& IsNot "010", ADVANCE 247)];
  (* 310 *) Case (Some anon_sym_layout) [];
  (* 311 *) Case (Some anon_sym_layout) [(AtLeast "0" &&& AtMost "9" ||| AtLeast "A" &&& AtMost "Z" ||| Is "_" ||| AtLeast "a" &&& AtMost "z", ADVANCE 469)];
  (* 312 *) Case (Some anon_sym_layout) [(IsNot "000" &&& IsNot "010", ADVANCE 247)];
  (* 313 *) Case (Some anon_sym_shadow) [];
  (* 314 *) Case (Some anon_sym_shadow) [(AtLeast "0" &&& AtMost "9" ||| AtLeast "A" &&& AtMost "Z" ||| Is "_" ||| AtLeast "a" &&& AtMost "z", ADVANCE 469)];
  (* 315 *) Case (Some anon_sym_shadow) [(IsNot "000" &&& IsNot "010", ADVANCE 247)];
  (* 316 *) Case (Some anon_sym_scale) [];
  (* 317 *) Case (Some anon_sym_scale) [(AtLeast "0" &&& AtMost "9" ||| AtLeast "A" &&& AtMost "Z" ||| Is "_" ||| AtLeast "a" &&& AtMost "z", ADVANCE 469)];
  (* 318 *) Case (Some anon_sym_scale) [(IsNot "000" &&& IsNot "010", ADVANCE 247)];
  (* 319 *) Case (Some anon_sym_rotate) [];
  (* 320 *) Case (Some anon_sym_rotate) [(AtLeast "0" &&& AtMost "9" ||| AtLeast "A" &&& AtMost "Z" ||| Is "_" ||| AtLeast "a" &&& AtMost "z", ADVANCE 469)];
  (* 321 *) Case (Some anon_sym_rotate) [(IsNot "000" &&& IsNot "010", ADVANCE 247)];
  (* 322 *) Case (Some anon_sym_translate) [];
  (* 323 *) Case (Some anon_sym_translate) [(AtLeast "0" &&& AtMost "9" ||| AtLeast "A" &&& AtMost "Z" ||| Is "_" ||| AtLeast "a" &&& AtMost "z", ADVANCE 469)];
  (* 324 *) Case (Some anon_sym_translate) [(IsNot "000" &&& IsNot "010", ADVANCE 247)];
  (* 325 *) Case (Some anon_sym_center_in) [];
  (* 326 *) Case (Some anon_sym_center_in) [(AtLeast "0" &&& AtMost "9" ||| AtLeast "A" &&& AtMost "Z" ||| Is "_" ||| AtLeast "a" &&& AtMost "z", ADVANCE 469)];
  (* 327 *) Case (Some anon_sym_center_in) [(IsNot "000" &&& IsNot "010", ADVANCE 247)];
  (* 328 *) Case (Some anon_sym_offset) [];
  (* 329 *) Case (Some anon_sym_offset) [(AtLeast "0" &&& AtMost "9" ||| AtLeast "A" &&& AtMost "Z" ||| Is "_" ||| AtLeast "a" &&& AtMost "z", ADVANCE 469)];
  (* 330 *) Case (Some anon_sym_offset) [(IsNot "000" &&& IsNot "010", ADVANCE 247)];
  (* 331 *) Case (Some anon_sym_ease) [];
  (* 332 *) Case (Some anon_sym_ease) [(AtLeast "0" &&& AtMost "9" ||| AtLeast "A" &&& AtMost "Z" ||| Is "_" ||| AtLeast "a" &&& AtMost "z", ADVANCE 469)];
  (* 333 *) Case (Some anon_sym_ease) [(IsNot "000" &&& IsNot "010", ADVANCE 247)];
  (* 334 *) Case (Some anon_sym_duration) [];
  (* 335 *) Case (Some anon_sym_duration) [(AtLeast "0" &&& AtMost "9" ||| AtLeast "A" &&& AtMost "Z" ||| Is "_" ||| AtLeast "a" &&& AtMost "z", ADVANCE 469)];
  (* 336 *) Case (Some anon_sym_duration) [(IsNot "000" &&& IsNot "010", ADVANCE 247)];
  (* 337 *) Case (Some anon_sym_EQ) [];
  (* 338 *) Case (Some anon_sym_anim) [];
  (* 339 *) Case (Some anon_sym_anim) [(AtLeast "0" &&& AtMost "9" ||| AtLeast "A" &&& AtMost "Z" ||| Is "_" ||| AtLeast "a" &&& AtMost "z", ADVANCE 469)];
  (* 340 *) Case (Some anon_sym_anim) [(IsNot "000" &&& IsNot "010", ADVANCE 247)];
  (* 341 *) Case (Some anon_sym_DASH_GT) [];
  (* 342 *) Case (Some anon_sym_AT) [];
  (* 343 *) Case (Some anon_sym_AT) [(IsNot "000" &&& IsNot "010", ADVANCE 247)];
  (* 344 *) Case (Some sym_identifier)
    [(Is "_", ADVANCE 397);
     (AtLeast "0" &&& AtMost "9" ||| AtLeast "A" &&& AtMost "Z" ||| AtLeast "a" &&& AtMost "z", ADVANCE 469)];
  (* 345 *) Case (Some sym_identifier)
    [(Is "a", ADVANCE 467);
     (AtLeast "0" &&& AtMost "9" ||| AtLeast "A" &&& AtMost "Z" ||| Is "_" ||| AtLeast "b" &&& AtMost "z", ADVANCE 469)];
  (* 346 *) Case (Some sym_identifier)
    [(Is "a", ADVANCE 441); (Is "r", ADVANCE 394);
     (AtLeast "0" &&& AtMost "9" ||| AtLeast "A" &&& AtMost "Z" ||| Is "_" ||| AtLeast "b" &&& AtMost "z", ADVANCE 469)];
  (* 347 *) Case (Some sym_identifier)
    [(Is "a", ADVANCE 441);
     (AtLeast "0" &&& AtMost "9" ||| AtLeast "A" &&& AtMost "Z" ||| Is "_" ||| AtLeast "b" &&& AtMost "z", ADVANCE 469)];
  (* 348 *) Case (Some sym_identifier)
    [(Is "a", ADVANCE 387); (Is "e", ADVANCE 464); (Is "r", ADVANCE 351);
     (AtLeast "0" &&& AtMost "9" ||| AtLeast "A" &&& AtMost "Z" ||| Is "_" ||| AtLeast "b" &&& AtMost "z", ADVANCE 469)];
  (* 349 *) Case (Some sym_identifier)
    [(Is "a", ADVANCE 365);
     (AtLeast "0" &&& AtMost "9" ||| AtLeast "A" &&& AtMost "Z" ||| Is "_" ||| AtLeast "b" &&& AtMost "z", ADVANCE 469)];
  (* 350 *) Case (Some sym_identifier)
    [(Is "a", ADVANCE 363);
     (AtLeast "0" &&& AtMost "9" ||| AtLeast "A" &&& AtMost "Z" ||| Is "_" ||| AtLeast "b" &&& AtMost "z", ADVANCE 469)];
  (* 351 *) Case (Some sym_identifier)
    [(Is "a", ADVANCE 413);
     (AtLeast "0" &&& AtMost "9" ||| AtLeast "A" &&& AtMost "Z" ||| Is "_" ||| AtLeast "b" &&& AtMost "z", ADVANCE 469)];
  (* 352 *) Case (Some sym_identifier)
    [(Is "a", ADVANCE 406);
     (AtLeast "0" &&& AtMost "9" ||| AtLeast "A" &&& AtMost "Z" ||| Is "_" ||| AtLeast "b" &&& AtMost "z", ADVANCE 469)];
  (* 353 *) Case (Some sym_identifier)
    [(Is "a", ADVANCE 452); (Is "r", ADVANCE 417); (Is "y", ADVANCE 407);
     (AtLeast "0" &&& AtMost "9" ||| AtLeast "A" &&& AtMost "Z" ||| Is "_" ||| AtLeast "b" &&& AtMost "z", ADVANCE 469)];
  (* 354 *) Case (Some sym_identifier)
    [(Is "a", ADVANCE 455);
     (AtLeast "0" &&& AtMost "9" ||| AtLeast "A" &&& AtMost "Z" ||| Is "_" ||| AtLeast "b" &&& AtMost "z", ADVANCE 469)];
  (* 355 *) Case (Some sym_identifier)
    [(Is "a", ADVANCE 437); (Is "l", ADVANCE 405);
     (AtLeast "0" &&& AtMost "9" ||| AtLeast "A" &&& AtMost "Z" ||| Is "_" ||| AtLeast "b" &&& AtMost "z", ADVANCE 469)];
  (* 356 *) Case (Some sym_identifier)
    [(Is "a", ADVANCE 437);
     (AtLeast "0" &&& AtMost "9" ||| AtLeast "A" &&& AtMost "Z" ||| Is "_" ||| AtLeast "b" &&& AtMost "z", ADVANCE 469)];
  (* 357 *) Case (Some sym_identifier)
    [(Is "a", ADVANCE 457);
     (AtLeast "0" &&& AtMost "9" ||| AtLeast "A" &&& AtMost "Z" ||| Is "_" ||| AtLeast "b" &&& AtMost "z", ADVANCE 469)];
  (* 358 *) Case (Some sym_identifier)
    [(Is "a", ADVANCE 458);
     (AtLeast "0" &&& AtMost "9" ||| AtLeast "A" &&& AtMost "Z" ||| Is "_" ||| AtLeast "b" &&& AtMost "z", ADVANCE 469)];
  (* 359 *) Case (Some sym_identifier)
    [(Is "c", ADVANCE 360); (Is "n", ADVANCE 392);
     (AtLeast "0" &&& AtMost "9" ||| AtLeast "A" &&& AtMost "Z" ||| Is "_" ||| AtLeast "a" &&& AtMost "z", ADVANCE 469)];
  (* 360 *) Case (Some sym_identifier)
    [(Is "c", ADVANCE 371);
     (AtLeast "0" &&& AtMost "9" ||| AtLeast "A" &&& AtMost "Z" ||| Is "_" ||| AtLeast "a" &&& AtMost "z", ADVANCE 469)];
  (* 361 *) Case (Some sym_identifier)
    [(Is "c", ADVANCE 352); (Is "h", ADVANCE 349); (Is "t", ADVANCE 353);
     (AtLeast "0" &&& AtMost "9" ||| AtLeast "A" &&& AtMost "Z" ||| Is "_" ||| AtLeast "a" &&& AtMost "z", ADVANCE 469)];
  (* 362 *) Case (Some sym_identifier)
    [(Is "c", ADVANCE 352); (Is "h", ADVANCE 349); (Is "t", ADVANCE 431);
     (AtLeast "0" &&& AtMost "9" ||| AtLeast "A" &&& AtMost "Z" ||| Is "_" ||| AtLeast "a" &&& AtMost "z", ADVANCE 469)];
  (* 363 *) Case (Some sym_identifier)
    [(Is "c", ADVANCE 399);
     (AtLeast "0" &&& AtMost "9" ||| AtLeast "A" &&& AtMost "Z" ||| Is "_" ||| AtLeast "a" &&& AtMost "z", ADVANCE 469)];
  (* 364 *) Case (Some sym_identifier)
    [(Is "c", ADVANCE 443);
     (AtLeast "0" &&& AtMost "9" ||| AtLeast "A" &&& AtMost "Z" ||| Is "_" ||| AtLeast "a" &&& AtMost "z", ADVANCE 469)];
  (* 365 *) Case (Some sym_identifier)
    [(Is "d", ADVANCE 418);
     (AtLeast "0" &&& AtMost "9" ||| AtLeast "A" &&& AtMost "Z" ||| Is "_" ||| AtLeast "a" &&& AtMost "z", ADVANCE 469)];
  (* 366 *) Case (Some sym_identifier)
    [(Is "d", ADVANCE 451);
     (AtLeast "0" &&& AtMost "9" ||| AtLeast "A" &&& AtMost "Z" ||| Is "_" ||| AtLeast "a" &&& AtMost "z", ADVANCE 469)];
  (* 367 *) Case (Some sym_identifier)
    [(Is "e", ADVANCE 414); (Is "o", ADVANCE 430);
     (AtLeast "0" &&& AtMost "9" ||| AtLeast "A" &&& AtMost "Z" ||| Is "_" ||| AtLeast "a" &&& AtMost "z", ADVANCE 469)];
  (* 368 *) Case (Some sym_identifier)
    [(Is "e", ADVANCE 464); (Is "r", ADVANCE 351);
     (AtLeast "0" &&& AtMost "9" ||| AtLeast "A" &&& AtMost "Z" ||| Is "_" ||| AtLeast "a" &&& AtMost "z", ADVANCE 469)];
  (* 369 *) Case (Some sym_identifier)
    [(Is "e", ADVANCE 464);
     (AtLeast "0" &&& AtMost "9" ||| AtLeast "A" &&& AtMost "Z" ||| Is "_" ||| AtLeast "a" &&& AtMost "z", ADVANCE 469)];
  (* 370 *) Case (Some sym_identifier)
    [(Is "e", ADVANCE 308);
     (AtLeast "0" &&& AtMost "9" ||| AtLeast "A" &&& AtMost "Z" ||| Is "_" ||| AtLeast "a" &&& AtMost "z", ADVANCE 469)];
  (* 371 *) Case (Some sym_identifier)
    [(Is "e", ADVANCE 425);
     (AtLeast "0" &&& AtMost "9" ||| AtLeast "A" &&& AtMost "Z" ||| Is "_" ||| AtLeast "a" &&& AtMost "z", ADVANCE 469)];
  (* 372 *) Case (Some sym_identifier)
    [(Is "e", ADVANCE 332);
     (AtLeast "0" &&& AtMost "9" ||| AtLeast "A" &&& AtMost "Z" ||| Is "_" ||| AtLeast "a" &&& AtMost "z", ADVANCE 469)];
  (* 373 *) Case (Some sym_identifier)
    [(Is "e", ADVANCE 317);
     (AtLeast "0" &&& AtMost "9" ||| AtLeast "A" &&& AtMost "Z" ||| Is "_" ||| AtLeast "a" &&& AtMost "z", ADVANCE 469)];
  (* 374 *) Case (Some sym_identifier)
    [(Is "e", ADVANCE 257);
     (AtLeast "0" &&& AtMost "9" ||| AtLeast "A" &&& AtMost "Z" ||| Is "_" ||| AtLeast "a" &&& AtMost "z", ADVANCE 469)];
  (* 375 *) Case (Some sym_identifier)
    [(Is "e", ADVANCE 320);
     (AtLeast "0" &&& AtMost "9" ||| AtLeast "A" &&& AtMost "Z" ||| Is "_" ||| AtLeast "a" &&& AtMost "z", ADVANCE 469)];
  (* 376 *) Case (Some sym_identifier)
    [(Is "e", ADVANCE 293);
     (AtLeast "0" &&& AtMost "9" ||| AtLeast "A" &&& AtMost "Z" ||| Is "_" ||| AtLeast "a" &&& AtMost "z", ADVANCE 469)];
  (* 377 *) Case (Some sym_identifier)
    [(Is "e", ADVANCE 269);
     (AtLeast "0" &&& AtMost "9" ||| AtLeast "A" &&& AtMost "Z" ||| Is "_" ||| AtLeast "a" &&& AtMost "z", ADVANCE 469)];
  (* 378 *) Case (Some sym_identifier)
    [(Is "e", ADVANCE 323);
     (AtLeast "0" &&& AtMost "9" ||| AtLeast "A" &&& AtMost "Z" ||| Is "_" ||| AtLeast "a" &&& AtMost "z", ADVANCE 469)];
  (* 379 *) Case (Some sym_identifier)
    [(Is "e", ADVANCE 364); (Is "o", ADVANCE 456);
     (AtLeast "0" &&& AtMost "9" ||| AtLeast "A" &&& AtMost "Z" ||| Is "_" ||| AtLeast "a" &&& AtMost "z", ADVANCE 469)];
  (* 380 *) Case (Some sym_identifier)
    [(Is "e", ADVANCE 364);
     (AtLeast "0" &&& AtMost "9" ||| AtLeast "A" &&& AtMost "Z" ||| Is "_" ||| AtLeast "a" &&& AtMost "z", ADVANCE 469)];
  (* 381 *) Case (Some sym_identifier)
    [(Is "e", ADVANCE 428);
     (AtLeast "0" &&& AtMost "9" ||| AtLeast "A" &&& AtMost "Z" ||| Is "_" ||| AtLeast "a" &&& AtMost "z", ADVANCE 469)];
  (* 382 *) Case (Some sym_identifier)
    [(Is "e", ADVANCE 429);
     (AtLeast "0" &&& AtMost "9" ||| AtLeast "A" &&& AtMost "Z" ||| Is "_" ||| AtLeast "a" &&& AtMost "z", ADVANCE 469)];
  (* 383 *) Case (Some sym_identifier)
    [(Is "e", ADVANCE 448);
     (AtLeast "0" &&& AtMost "9" ||| AtLeast "A" &&& AtMost "Z" ||| Is "_" ||| AtLeast "a" &&& AtMost "z", ADVANCE 469)];
  (* 384 *) Case (Some sym_identifier)
    [(Is "f", ADVANCE 385); (Is "p", ADVANCE 350);
     (AtLeast "0" &&& AtMost "9" ||| AtLeast "A" &&& AtMost "Z" ||| Is "_" ||| AtLeast "a" &&& AtMost "z", ADVANCE 469)];
  (* 385 *) Case (Some sym_identifier)
    [(Is "f", ADVANCE 439);
     (AtLeast "0" &&& AtMost "9" ||| AtLeast "A" &&& AtMost "Z" ||| Is "_" ||| AtLeast "a" &&& AtMost "z", ADVANCE 469)];
  (* 386 *) Case (Some sym_identifier)
    [(Is "g", ADVANCE 305);
     (AtLeast "0" &&& AtMost "9" ||| AtLeast "A" &&& AtMost "Z" ||| Is "_" ||| AtLeast "a" &&& AtMost "z", ADVANCE 469)];
  (* 387 *) Case (Some sym_identifier)
    [(Is "g", ADVANCE 254);
     (AtLeast "0" &&& AtMost "9" ||| AtLeast "A" &&& AtMost "Z" ||| Is "_" ||| AtLeast "a" &&& AtMost "z", ADVANCE 469)];
  (* 388 *) Case (Some sym_identifier)
    [(Is "g", ADVANCE 391);
     (AtLeast "0" &&& AtMost "9" ||| AtLeast "A" &&& AtMost "Z" ||| Is "_" ||| AtLeast "a" &&& AtMost "z", ADVANCE 469)];
  (* 389 *) Case (Some sym_identifier)
    [(Is "h", ADVANCE 272);
     (AtLeast "0" &&& AtMost "9" ||| AtLeast "A" &&& AtMost "Z" ||| Is "_" ||| AtLeast "a" &&& AtMost "z", ADVANCE 469)];
  (* 390 *) Case (Some sym_identifier)
    [(Is "h", ADVANCE 284);
     (AtLeast "0" &&& AtMost "9" ||| AtLeast "A" &&& AtMost "Z" ||| Is "_" ||| AtLeast "a" &&& AtMost "z", ADVANCE 469)];
  (* 391 *) Case (Some sym_identifier)
    [(Is "h", ADVANCE 446);
     (AtLeast "0" &&& AtMost "9" ||| AtLeast "A" &&& AtMost "Z" ||| Is "_" ||| AtLeast "a" &&& AtMost "z", ADVANCE 469)];
  (* 392 *) Case (Some sym_identifier)
    [(Is "i", ADVANCE 409);
     (AtLeast "0" &&& AtMost "9" ||| AtLeast "A" &&& AtMost "Z" ||| Is "_" ||| AtLeast "a" &&& AtMost "z", ADVANCE 469)];
  (* 393 *) Case (Some sym_identifier)
    [(Is "i", ADVANCE 404); (Is "o", ADVANCE 415);
     (AtLeast "0" &&& AtMost "9" ||| AtLeast "A" &&& AtMost "Z" ||| Is "_" ||| AtLeast "a" &&& AtMost "z", ADVANCE 469)];
  (* 394 *) Case (Some sym_identifier)
    [(Is "i", ADVANCE 422);
     (AtLeast "0" &&& AtMost "9" ||| AtLeast "A" &&& AtMost "Z" ||| Is "_" ||| AtLeast "a" &&& AtMost "z", ADVANCE 469)];
  (* 395 *) Case (Some sym_identifier)
    [(Is "i", ADVANCE 426);
     (AtLeast "0" &&& AtMost "9" ||| AtLeast "A" &&& AtMost "Z" ||| Is "_" ||| AtLeast "a" &&& AtMost "z", ADVANCE 469)];
  (* 396 *) Case (Some sym_identifier)
    [(Is "i", ADVANCE 388);
     (AtLeast "0" &&& AtMost "9" ||| AtLeast "A" &&& AtMost "Z" ||| Is "_" ||| AtLeast "a" &&& AtMost "z", ADVANCE 469)];
  (* 397 *) Case (Some sym_identifier)
    [(Is "i", ADVANCE 412);
     (AtLeast "0" &&& AtMost "9" ||| AtLeast "A" &&& AtMost "Z" ||| Is "_" ||| AtLeast "a" &&& AtMost "z", ADVANCE 469)];
  (* 398 *) Case (Some sym_identifier)
    [(Is "i", ADVANCE 423);
     (AtLeast "0" &&& AtMost "9" ||| AtLeast "A" &&& AtMost "Z" ||| Is "_" ||| AtLeast "a" &&& AtMost "z", ADVANCE 469)];
  (* 399 *) Case (Some sym_identifier)
    [(Is "i", ADVANCE 449);
     (AtLeast "0" &&& AtMost "9" ||| AtLeast "A" &&& AtMost "Z" ||| Is "_" ||| AtLeast "a" &&& AtMost "z", ADVANCE 469)];
  (* 400 *) Case (Some sym_identifier)
    [(Is "i", ADVANCE 450);
     (AtLeast "0" &&& AtMost "9" ||| AtLeast "A" &&& AtMost "Z" ||| Is "_" ||| AtLeast "a" &&& AtMost "z", ADVANCE 469)];
  (* 401 *) Case (Some sym_identifier)
    [(Is "k", ADVANCE 376);
     (AtLeast "0" &&& AtMost "9" ||| AtLeast "A" &&& AtMost "Z" ||| Is "_" ||| AtLeast "a" &&& AtMost "z", ADVANCE 469)];
  (* 402 *) Case (Some sym_identifier)
    [(Is "l", ADVANCE 405);
     (AtLeast "0" &&& AtMost "9" ||| AtLeast "A" &&& AtMost "Z" ||| Is "_" ||| AtLeast "a" &&& AtMost "z", ADVANCE 469)];
  (* 403 *) Case (Some sym_identifier)
    [(Is "l", ADVANCE 290);
     (AtLeast "0" &&& AtMost "9" ||| AtLeast "A" &&& AtMost "Z" ||| Is "_" ||| AtLeast "a" &&& AtMost "z", ADVANCE 469)];
  (* 404 *) Case (Some sym_identifier)
    [(Is "l", ADVANCE 403);
     (AtLeast "0" &&& AtMost "9" ||| AtLeast "A" &&& AtMost "Z" ||| Is "_" ||| AtLeast "a" &&& AtMost "z", ADVANCE 469)];
  (* 405 *) Case (Some sym_identifier)
    [(Is "l", ADVANCE 395);
     (AtLeast "0" &&& AtMost "9" ||| AtLeast "A" &&& AtMost "Z" ||| Is "_" ||| AtLeast "a" &&& AtMost "z", ADVANCE 469)];
  (* 406 *) Case (Some sym_identifier)
    [(Is "l", ADVANCE 373);
     (AtLeast "0" &&& AtMost "9" ||| AtLeast "A" &&& AtMost "Z" ||| Is "_" ||| AtLeast "a" &&& AtMost "z", ADVANCE 469)];
  (* 407 *) Case (Some sym_identifier)
    [(Is "l", ADVANCE 374);
     (AtLeast "0" &&& AtMost "9" ||| AtLeast "A" &&& AtMost "Z" ||| Is "_" ||| AtLeast "a" &&& AtMost "z", ADVANCE 469)];
  (* 408 *) Case (Some sym_identifier)
    [(Is "l", ADVANCE 358);
     (AtLeast "0" &&& AtMost "9" ||| AtLeast "A" &&& AtMost "Z" ||| Is "_" ||| AtLeast "a" &&& AtMost "z", ADVANCE 469)];
  (* 409 *) Case (Some sym_identifier)
    [(Is "m", ADVANCE 339);
     (AtLeast "0" &&& AtMost "9" ||| AtLeast "A" &&& AtMost "Z" ||| Is "_" ||| AtLeast "a" &&& AtMost "z", ADVANCE 469)];
  (* 410 *) Case (Some sym_identifier)
    [(Is "n", ADVANCE 392);
     (AtLeast "0" &&& AtMost "9" ||| AtLeast "A" &&& AtMost "Z" ||| Is "_" ||| AtLeast "a" &&& AtMost "z", ADVANCE 469)];
  (* 411 *) Case (Some sym_identifier)
    [(Is "n", ADVANCE 335);
     (AtLeast "0" &&& AtMost "9" ||| AtLeast "A" &&& AtMost "Z" ||| Is "_" ||| AtLeast "a" &&& AtMost "z", ADVANCE 469)];
  (* 412 *) Case (Some sym_identifier)
    [(Is "n", ADVANCE 326);
     (AtLeast "0" &&& AtMost "9" ||| AtLeast "A" &&& AtMost "Z" ||| Is "_" ||| AtLeast "a" &&& AtMost "z", ADVANCE 469)];
  (* 413 *) Case (Some sym_identifier)
    [(Is "n", ADVANCE 438);
     (AtLeast "0" &&& AtMost "9" ||| AtLeast "A" &&& AtMost "Z" ||| Is "_" ||| AtLeast "a" &&& AtMost "z", ADVANCE 469)];
  (* 414 *) Case (Some sym_identifier)
    [(Is "n", ADVANCE 454);
     (AtLeast "0" &&& AtMost "9" ||| AtLeast "A" &&& AtMost "Z" ||| Is "_" ||| AtLeast "a" &&& AtMost "z", ADVANCE 469)];
  (* 415 *) Case (Some sym_identifier)
    [(Is "n", ADVANCE 442);
     (AtLeast "0" &&& AtMost "9" ||| AtLeast "A" &&& AtMost "Z" ||| Is "_" ||| AtLeast "a" &&& AtMost "z", ADVANCE 469)];
  (* 416 *) Case (Some sym_identifier)
    [(Is "n", ADVANCE 382);
     (AtLeast "0" &&& AtMost "9" ||| AtLeast "A" &&& AtMost "Z" ||| Is "_" ||| AtLeast "a" &&& AtMost "z", ADVANCE 469)];
  (* 417 *) Case (Some sym_identifier)
    [(Is "o", ADVANCE 401);
     (AtLeast "0" &&& AtMost "9" ||| AtLeast "A" &&& AtMost "Z" ||| Is "_" ||| AtLeast "a" &&& AtMost "z", ADVANCE 469)];
  (* 418 *) Case (Some sym_identifier)
    [(Is "o", ADVANCE 463);
     (AtLeast "0" &&& AtMost "9" ||| AtLeast "A" &&& AtMost "Z" ||| Is "_" ||| AtLeast "a" &&& AtMost "z", ADVANCE 469)];
  (* 419 *) Case (Some sym_identifier)
    [(Is "o", ADVANCE 461);
     (AtLeast "0" &&& AtMost "9" ||| AtLeast "A" &&& AtMost "Z" ||| Is "_" ||| AtLeast "a" &&& AtMost "z", ADVANCE 469)];
  (* 420 *) Case (Some sym_identifier)
    [(Is "o", ADVANCE 456);
     (AtLeast "0" &&& AtMost "9" ||| AtLeast "A" &&& AtMost "Z" ||| Is "_" ||| AtLeast "a" &&& AtMost "z", ADVANCE 469)];
  (* 421 *) Case (Some sym_identifier)
    [(Is "o", ADVANCE 462);
     (AtLeast "0" &&& AtMost "9" ||| AtLeast "A" &&& AtMost "Z" ||| Is "_" ||| AtLeast "a" &&& AtMost "z", ADVANCE 469)];
  (* 422 *) Case (Some sym_identifier)
    [(Is "o", ADVANCE 434);
     (AtLeast "0" &&& AtMost "9" ||| AtLeast "A" &&& AtMost "Z" ||| Is "_" ||| AtLeast "a" &&& AtMost "z", ADVANCE 469)];
  (* 423 *) Case (Some sym_identifier)
    [(Is "o", ADVANCE 411);
     (AtLeast "0" &&& AtMost "9" ||| AtLeast "A" &&& AtMost "Z" ||| Is "_" ||| AtLeast "a" &&& AtMost "z", ADVANCE 469)];
  (* 424 *) Case (Some sym_identifier)
    [(Is "p", ADVANCE 263);
     (AtLeast "0" &&& AtMost "9" ||| AtLeast "A" &&& AtMost "Z" ||| Is "_" ||| AtLeast "a" &&& AtMost "z", ADVANCE 469)];
  (* 425 *) Case (Some sym_identifier)
    [(Is "p", ADVANCE 445);
     (AtLeast "0" &&& AtMost "9" ||| AtLeast "A" &&& AtMost "Z" ||| Is "_" ||| AtLeast "a" &&& AtMost "z", ADVANCE 469)];
  (* 426 *) Case (Some sym_identifier)
    [(Is "p", ADVANCE 440);
     (AtLeast "0" &&& AtMost "9" ||| AtLeast "A" &&& AtMost "Z" ||| Is "_" ||| AtLeast "a" &&& AtMost "z", ADVANCE 469)];
  (* 427 *) Case (Some sym_identifier)
    [(Is "r", ADVANCE 419);
     (AtLeast "0" &&& AtMost "9" ||| AtLeast "A" &&& AtMost "Z" ||| Is "_" ||| AtLeast "a" &&& AtMost "z", ADVANCE 469)];
  (* 428 *) Case (Some sym_identifier)
    [(Is "r", ADVANCE 344);
     (AtLeast "0" &&& AtMost "9" ||| AtLeast "A" &&& AtMost "Z" ||| Is "_" ||| AtLeast "a" &&& AtMost "z", ADVANCE 469)];
  (* 429 *) Case (Some sym_identifier)
    [(Is "r", ADVANCE 296);
     (AtLeast "0" &&& AtMost "9" ||| AtLeast "A" &&& AtMost "Z" ||| Is "_" ||| AtLeast "a" &&& AtMost "z", ADVANCE 469)];
  (* 430 *) Case (Some sym_identifier)
    [(Is "r", ADVANCE 416);
     (AtLeast "0" &&& AtMost "9" ||| AtLeast "A" &&& AtMost "Z" ||| Is "_" ||| AtLeast "a" &&& AtMost "z", ADVANCE 469)];
  (* 431 *) Case (Some sym_identifier)
    [(Is "r", ADVANCE 417);
     (AtLeast "0" &&& AtMost "9" ||| AtLeast "A" &&& AtMost "Z" ||| Is "_" ||| AtLeast "a" &&& AtMost "z", ADVANCE 469)];
  (* 432 *) Case (Some sym_identifier)
    [(Is "r", ADVANCE 351);
     (AtLeast "0" &&& AtMost "9" ||| AtLeast "A" &&& AtMost "Z" ||| Is "_" ||| AtLeast "a" &&& AtMost "z", ADVANCE 469)];
  (* 433 *) Case (Some sym_identifier)
    [(Is "r", ADVANCE 354);
     (AtLeast "0" &&& AtMost "9" ||| AtLeast "A" &&& AtMost "Z" ||| Is "_" ||| AtLeast "a" &&& AtMost "z", ADVANCE 469)];
  (* 434 *) Case (Some sym_identifier)
    [(Is "r", ADVANCE 400);
     (AtLeast "0" &&& AtMost "9" ||| AtLeast "A" &&& AtMost "Z" ||| Is "_" ||| AtLeast "a" &&& AtMost "z", ADVANCE 469)];
  (* 435 *) Case (Some sym_identifier)
    [(Is "s", ADVANCE 370);
     (AtLeast "0" &&& AtMost "9" ||| AtLeast "A" &&& AtMost "Z" ||| Is "_" ||| AtLeast "a" &&& AtMost "z", ADVANCE 469)];
  (* 436 *) Case (Some sym_identifier)
    [(Is "s", ADVANCE 250);
     (AtLeast "0" &&& AtMost "9" ||| AtLeast "A" &&& AtMost "Z" ||| Is "_" ||| AtLeast "a" &&& AtMost "z", ADVANCE 469)];
  (* 437 *) Case (Some sym_identifier)
    [(Is "s", ADVANCE 372);
     (AtLeast "0" &&& AtMost "9" ||| AtLeast "A" &&& AtMost "Z" ||| Is "_" ||| AtLeast "a" &&& AtMost "z", ADVANCE 469)];
  (* 438 *) Case (Some sym_identifier)
    [(Is "s", ADVANCE 408);
     (AtLeast "0" &&& AtMost "9" ||| AtLeast "A" &&& AtMost "Z" ||| Is "_" ||| AtLeast "a" &&& AtMost "z", ADVANCE 469)];
  (* 439 *) Case (Some sym_identifier)
    [(Is "s", ADVANCE 383);
     (AtLeast "0" &&& AtMost "9" ||| AtLeast "A" &&& AtMost "Z" ||| Is "_" ||| AtLeast "a" &&& AtMost "z", ADVANCE 469)];
  (* 440 *) Case (Some sym_identifier)
    [(Is "s", ADVANCE 377);
     (AtLeast "0" &&& AtMost "9" ||| AtLeast "A" &&& AtMost "Z" ||| Is "_" ||| AtLeast "a" &&& AtMost "z", ADVANCE 469)];
  (* 441 *) Case (Some sym_identifier)
    [(Is "t", ADVANCE 389);
     (AtLeast "0" &&& AtMost "9" ||| AtLeast "A" &&& AtMost "Z" ||| Is "_" ||| AtLeast "a" &&& AtMost "z", ADVANCE 469)];
  (* 442 *) Case (Some sym_identifier)
    [(Is "t", ADVANCE 302);
     (AtLeast "0" &&& AtMost "9" ||| AtLeast "A" &&& AtMost "Z" ||| Is "_" ||| AtLeast "a" &&& AtMost "z", ADVANCE 469)];
  (* 443 *) Case (Some sym_identifier)
    [(Is "t", ADVANCE 266);
     (AtLeast "0" &&& AtMost "9" ||| AtLeast "A" &&& AtMost "Z" ||| Is "_" ||| AtLeast "a" &&& AtMost "z", ADVANCE 469)];
  (* 444 *) Case (Some sym_identifier)
    [(Is "t", ADVANCE 275);
     (AtLeast "0" &&& AtMost "9" ||| AtLeast "A" &&& AtMost "Z" ||| Is "_" ||| AtLeast "a" &&& AtMost "z", ADVANCE 469)];
  (* 445 *) Case (Some sym_identifier)
    [(Is "t", ADVANCE 248);
     (AtLeast "0" &&& AtMost "9" ||| AtLeast "A" &&& AtMost "Z" ||| Is "_" ||| AtLeast "a" &&& AtMost "z", ADVANCE 469)];
  (* 446 *) Case (Some sym_identifier)
    [(Is "t", ADVANCE 287);
     (AtLeast "0" &&& AtMost "9" ||| AtLeast "A" &&& AtMost "Z" ||| Is "_" ||| AtLeast "a" &&& AtMost "z", ADVANCE 469)];
  (* 447 *) Case (Some sym_identifier)
    [(Is "t", ADVANCE 311);
     (AtLeast "0" &&& AtMost "9" ||| AtLeast "A" &&& AtMost "Z" ||| Is "_" ||| AtLeast "a" &&& AtMost "z", ADVANCE 469)];
  (* 448 *) Case (Some sym_identifier)
    [(Is "t", ADVANCE 329);
     (AtLeast "0" &&& AtMost "9" ||| AtLeast "A" &&& AtMost "Z" ||| Is "_" ||| AtLeast "a" &&& AtMost "z", ADVANCE 469)];
  (* 449 *) Case (Some sym_identifier)
    [(Is "t", ADVANCE 465);
     (AtLeast "0" &&& AtMost "9" ||| AtLeast "A" &&& AtMost "Z" ||| Is "_" ||| AtLeast "a" &&& AtMost "z", ADVANCE 469)];
  (* 450 *) Case (Some sym_identifier)
    [(Is "t", ADVANCE 466);
     (AtLeast "0" &&& AtMost "9" ||| AtLeast "A" &&& AtMost "Z" ||| Is "_" ||| AtLeast "a" &&& AtMost "z", ADVANCE 469)];
  (* 451 *) Case (Some sym_identifier)
    [(Is "t", ADVANCE 390);
     (AtLeast "0" &&& AtMost "9" ||| AtLeast "A" &&& AtMost "Z" ||| Is "_" ||| AtLeast "a" &&& AtMost "z", ADVANCE 469)];
  (* 452 *) Case (Some sym_identifier)
    [(Is "t", ADVANCE 460);
     (AtLeast "0" &&& AtMost "9" ||| AtLeast "A" &&& AtMost "Z" ||| Is "_" ||| AtLeast "a" &&& AtMost "z", ADVANCE 469)];
  (* 453 *) Case (Some sym_identifier)
    [(Is "t", ADVANCE 468);
     (AtLeast "0" &&& AtMost "9" ||| AtLeast "A" &&& AtMost "Z" ||| Is "_" ||| AtLeast "a" &&& AtMost "z", ADVANCE 469)];
  (* 454 *) Case (Some sym_identifier)
    [(Is "t", ADVANCE 381);
     (AtLeast "0" &&& AtMost "9" ||| AtLeast "A" &&& AtMost "Z" ||| Is "_" ||| AtLeast "a" &&& AtMost "z", ADVANCE 469)];
  (* 455 *) Case (Some sym_identifier)
    [(Is "t", ADVANCE 398);
     (AtLeast "0" &&& AtMost "9" ||| AtLeast "A" &&& AtMost "Z" ||| Is "_" ||| AtLeast "a" &&& AtMost "z", ADVANCE 469)];
  (* 456 *) Case (Some sym_identifier)
    [(Is "t", ADVANCE 357);
     (AtLeast "0" &&& AtMost "9" ||| AtLeast "A" &&& AtMost "Z" ||| Is "_" ||| AtLeast "a" &&& AtMost "z", ADVANCE 469)];
  (* 457 *) Case (Some sym_identifier)
    [(Is "t", ADVANCE 375);
     (AtLeast "0" &&& AtMost "9" ||| AtLeast "A" &&& AtMost "Z" ||| Is "_" ||| AtLeast "a" &&& AtMost "z", ADVANCE 469)];
  (* 458 *) Case (Some sym_identifier)
    [(Is "t", ADVANCE 378);
     (AtLeast "0" &&& AtMost "9" ||| AtLeast "A" &&& AtMost "Z" ||| Is "_" ||| AtLeast "a" &&& AtMost "z", ADVANCE 469)];
  (* 459 *) Case (Some sym_identifier)
    [(Is "u", ADVANCE 433);
     (AtLeast "0" &&& AtMost "9" ||| AtLeast "A" &&& AtMost "Z" ||| Is "_" ||| AtLeast "a" &&& AtMost "z", ADVANCE 469)];
  (* 460 *) Case (Some sym_identifier)
    [(Is "u", ADVANCE 436);
     (AtLeast "0" &&& AtMost "9" ||| AtLeast "A" &&& AtMost "Z" ||| Is "_" ||| AtLeast "a" &&& AtMost "z", ADVANCE 469)];
  (* 461 *) Case (Some sym_identifier)
    [(Is "u", ADVANCE 424);
     (AtLeast "0" &&& AtMost "9" ||| AtLeast "A" &&& AtMost "Z" ||| Is "_" ||| AtLeast "a" &&& AtMost "z", ADVANCE 469)];
  (* 462 *) Case (Some sym_identifier)
    [(Is "u", ADVANCE 447);
     (AtLeast "0" &&& AtMost "9" ||| AtLeast "A" &&& AtMost "Z" ||| Is "_" ||| AtLeast "a" &&& AtMost "z", ADVANCE 469)];
  (* 463 *) Case (Some sym_identifier)
    [(Is "w", ADVANCE 314);
     (AtLeast "0" &&& AtMost "9" ||| AtLeast "A" &&& AtMost "Z" ||| Is "_" ||| AtLeast "a" &&& AtMost "z", ADVANCE 469)];
  (* 464 *) Case (Some sym_identifier)
    [(Is "x", ADVANCE 444);
     (AtLeast "0" &&& AtMost "9" ||| AtLeast "A" &&& AtMost "Z" ||| Is "_" ||| AtLeast "a" &&& AtMost "z", ADVANCE 469)];
  (* 465 *) Case (Some sym_identifier)
    [(Is "y", ADVANCE 299);
     (AtLeast "0" &&& AtMost "9" ||| AtLeast "A" &&& AtMost "Z" ||| Is "_" ||| AtLeast "a" &&& AtMost "z", ADVANCE 469)];
  (* 466 *) Case (Some sym_identifier)
    [(Is "y", ADVANCE 252);
     (AtLeast "0" &&& AtMost "9" ||| AtLeast "A" &&& AtMost "Z" ||| Is "_" ||| AtLeast "a" &&& AtMost "z", ADVANCE 469)];
  (* 467 *) Case (Some sym_identifier)
    [(Is "y", ADVANCE 421);
     (AtLeast "0" &&& AtMost "9" ||| AtLeast "A" &&& AtMost "Z" ||| Is "_" ||| AtLeast "a" &&& AtMost "z", ADVANCE 469)];
  (* 468 *) Case (Some sym_identifier)
    [(Is "y", ADVANCE 407);
     (AtLeast "0" &&& AtMost "9" ||| AtLeast "A" &&& AtMost "Z" ||| Is "_" ||| AtLeast "a" &&& AtMost "z", ADVANCE 469)];
  (* 469 *) Case (Some sym_identifier) [(AtLeast "0" &&& AtMost "9" ||| AtLeast "A" &&& AtMost "Z" ||| Is "_" ||| AtLeast "a" &&& AtMost "z", ADVANCE 469)];
  (* 470 *) Case (Some sym_number) [];
  (* 471 *) Case (Some sym_number) [(Is ".", ADVANCE 111); (Is "m", ADVANCE 83); (AtLeast "0" &&& AtMost "9", ADVANCE 471)];
  (* 472 *) Case (Some sym_number) [(Is "m", ADVANCE 83); (AtLeast "0" &&& AtMost "9", ADVANCE 472)];
  (* 473 *) Case (Some sym_hex_color) [];
  (* 474 *) Case (Some sym_hex_color) [(AtLeast "0" &&& AtMost "9" ||| AtLeast "A" &&& AtMost "F" ||| AtLeast "a" &&& AtMost "f", ADVANCE 473)];
  (* 475 *) Case (Some sym_hex_color) [(AtLeast "0" &&& AtMost "9" ||| AtLeast "A" &&& AtMost "F" ||| AtLeast "a" &&& AtMost "f", ADVANCE 474)];
  (* 476 *) Case (Some sym_hex_color) [(AtLeast "0" &&& AtMost "9" ||| AtLeast "A" &&& AtMost "F" ||| AtLeast "a" &&& AtMost "f", ADVANCE 475)];
  (* 477 *) Case (Some sym_hex_color) [(AtLeast "0" &&& AtMost "9" ||| AtLeast "A" &&& AtMost "F" ||| AtLeast "a" &&& AtMost "f", ADVANCE 476)];
  (* 478 *) Case (Some sym_hex_color) [(AtLeast "0" &&& AtMost "9" ||| AtLeast "A" &&& AtMost "F" ||| AtLeast "a" &&& AtMost "f", ADVANCE 477)];
  (* 479 *) Case (Some anon_sym_DQUOTE) [];
  (* 480 *) Case (Some anon_sym_DQUOTE) [(IsNot "000" &&& IsNot "010", ADVANCE 247)];
  (* 481 *) Case (Some aux_sym_string_token1) [(Is "010", ADVANCE 484); (IsNot "000" &&& IsNot "034", ADVANCE 481)];
  (* 482 *) Case (Some aux_sym_string_token1)
    [(Is "#", ADVANCE 483); (AtLeast "009" &&& AtMost "013" ||| Is "032", ADVANCE 482);
     (IsNot "000" &&& IsNot "034" &&& IsNot "#", ADVANCE 484)];
  (* 483 *) Case (Some aux_sym_string_token1) [(Is "010" ||| Is "#", ADVANCE 484); (IsNot "000" &&& IsNot "034" &&& IsNot "#", ADVANCE 481)];
  (* 484 *) Case (Some aux_sym_string_token1) [(IsNot "000" &&& IsNot "034", ADVANCE 484)]
].

(** *** Running the automaton *)

Definition code (c : ascii) : Z := Z.of_N (N_of_ascii c).

Fixpoint holds (c : lex_cond) (lookahead : Z) (eof : bool) : bool :=
  match c with
  | AtEof => eof
  | Is k => (lookahead =? code k)%Z
  | IsNot k => negb (lookahead =? code k)%Z
  | Below k => (lookahead <? code k)%Z
  | AtMost k => (lookahead <=? code k)%Z
  | Above k => (code k <? lookahead)%Z
  | AtLeast k => (code k <=? lookahead)%Z
  | Both a b => holds a lookahead eof && holds b lookahead eof
  | Either a b => holds a lookahead eof || holds b lookahead eof
  end.

(** The first test that succeeds decides the jump. *)
Fixpoint select (l : list (lex_cond * lex_action)) (lookahead : Z) (eof : bool)
  : option lex_action :=
  match l with
  | [] => None
  | (c, a) :: l' => if holds c lookahead eof then Some a else select l' lookahead eof
  end.

Definition lex_case_of (state : TSStateId) : option lex_case :=
  nth_error ts_lex_cases (N.to_nat state).

(** Modelled from the spec: the cursor behind [TSLexer] and the macros
    [START_LEXER], [ADVANCE], [SKIP], [ACCEPT_TOKEN] and [END_STATE] come from
    [tree_sitter/parser.h], which is not among the sources.  The cursor walks
    a buffer of code points; [lookahead] is the code point under it and [0]
    at the end of input; advancing moves it by one code point and does
    nothing at the end of input; a skipping advance also moves the start of
    the token (whitespace is skipped without emitting a token);
    [ACCEPT_TOKEN] records the symbol and marks the current position as the
    end of the token; [END_STATE] returns whether a token was accepted. *)
Section Cursor.

Variable input : list Z.

Definition eof_at (pos : nat) : bool := (List.length input <=? pos)%nat.
Definition lookahead_at (pos : nat) : Z := nth pos input 0%Z.
Definition advance (pos : nat) : nat := if eof_at pos then pos else S pos.

(** The local variables of [ts_lex] between two jumps to [next_state]. *)
Record lex_frame : Set := LexFrame {
  fr_state : TSStateId;
  fr_pos : nat;
  fr_start : nat;
  fr_result : option (TSSymbol * nat)
}.

Record Token : Set := Tok {
  tok_symbol : TSSymbol;
  tok_start : nat;
  tok_end : nat
}.

Inductive lex_step_result : Set :=
| Goto (f : lex_frame)
| Return (t : option Token).

Definition finish (start : nat) (r : option (TSSymbol * nat)) : option Token :=
  match r with
  | Some (s, e) => Some (Tok s start e)
  | None => None
  end.

(** One pass through the [switch]. *)
Definition lex_step (f : lex_frame) : lex_step_result :=
  match lex_case_of (fr_state f) with
  | None => Return None                                   (* default: return false *)
  | Some c =>
      let result :=
        match accept_token c with
        | Some s => Some (s, fr_pos f)                     (* ACCEPT_TOKEN *)
        | None => fr_result f
        end in
      match select (arms c) (lookahead_at (fr_pos f)) (eof_at (fr_pos f)) with
      | Some (ADVANCE s) =>
          Goto (LexFrame s (advance (fr_pos f)) (fr_start f) result)
      | Some (SKIP s) =>
          Goto (LexFrame s (advance (fr_pos f)) (advance (fr_pos f)) result)
      | None => Return (finish (fr_start f) result)        (* END_STATE *)
      end
  end.

(** The loop of [ts_lex]; [None] means that [fuel] passes did not reach a
    [return]. *)
Fixpoint lex_loop (fuel : nat) (f : lex_frame) : option (option Token) :=
  match fuel with
  | O => None
  | S fuel' =>
      match lex_step f with
      | Return t => Some t
      | Goto f' => lex_loop fuel' f'
      end
  end.

Definition lex_fuel (pos : nat) : nat := S (S (List.length input - pos)).

(** [ts_lex lexer state] with the cursor at [pos]. *)
Definition ts_lex_from (pos : nat) (state : TSStateId) : option (option Token) :=
  lex_loop (lex_fuel pos) (LexFrame state pos pos None).

Definition ts_lex (pos : nat) (state : TSStateId) : option Token :=
  match ts_lex_from pos state with
  | Some t => t
  | None => None
  end.

(** The code points of a token. *)
Definition slice (a b : nat) : list Z := firstn (b - a) (skipn a input).
Definition token_text (t : Token) : list Z := slice (tok_start t) (tok_end t).

End Cursor.

Definition codes (s : string) : list Z := map code (list_ascii_of_string s).


(** *** Reading facts off the lexer table *)

Definition is_skip (a : lex_action) : bool :=
  match a with SKIP _ => true | ADVANCE _ => false end.

Definition target (a : lex_action) : TSStateId :=
  match a with SKIP s => s | ADVANCE s => s end.

(** The cases paired with their labels. *)
Definition labelled_cases : list (TSStateId * lex_case) :=
  combine (map N.of_nat (seq 0 (List.length ts_lex_cases))) ts_lex_cases.

(** A property of all guarded jumps of the automaton, checked by running
    over the table. *)
Definition all_arms (p : TSStateId -> lex_case -> lex_cond -> lex_action -> bool) : bool :=
  forallb (fun sc => forallb (fun ca => p (fst sc) (snd sc) (fst ca) (snd ca))
                             (arms (snd sc)))
          labelled_cases.

(** Case 117 is where [if (eof) ADVANCE(117)] leads. *)
Definition END_OF_INPUT_STATE : TSStateId := 117.

(** The cases that contain a [SKIP]: the states in which a token starts. *)
Definition skips (s : TSStateId) : bool :=
  match lex_case_of s with
  | Some cs => existsb (fun ca => is_skip (snd ca)) (arms cs)
  | None => false
  end.

Definition accepts_nothing (cs : lex_case) : bool :=
  match accept_token cs with None => true | Some _ => false end.

(** A property of all cases of the automaton. *)
Definition all_cases (p : TSStateId -> lex_case -> bool) : bool :=
  forallb (fun sc => p (fst sc) (snd sc)) labelled_cases.

Definition among (l : list TSStateId) (s : TSStateId) : bool := existsb (N.eqb s) l.

(** The jumps [ADVANCE(t)] into a set of states, with their origin and test. *)
Definition arms_into (tracked : TSStateId -> bool)
  : list (TSStateId * lex_cond * TSStateId) :=
  flat_map (fun sc =>
              flat_map (fun ca =>
                          match snd ca with
                          | ADVANCE t => if tracked t then [(fst sc, fst ca, t)] else []
                          | SKIP _ => []
                          end)
                       (arms (snd sc)))
           labelled_cases.
(** ** The lex mode of every parse state ([ts_lex_modes]) *)

Record TSLexMode : Set := { lex_state : TSStateId }.

Definition LexMode (s : TSStateId) : TSLexMode := {| lex_state := s |}.

Definition ts_lex_modes : list TSLexMode :=
  map LexMode
  [(*  0 *) 0; 116; 3; 3; 1; 116; 116; 116; 116; 116;
   (* 10 *) 116; 116; 116; 116; 3; 3; 3; 3; 116; 4;
   (* 20 *) 116; 116; 116; 116; 116; 116; 116; 116; 116; 116;
   (* 30 *) 4; 116; 116; 116; 4; 4; 4; 4; 116; 116;
   (* 40 *) 116; 116; 116; 115; 115; 114; 116; 116; 115; 115;
   (* 50 *) 115; 115; 5; 5; 5; 116; 116; 5; 5; 5;
   (* 60 *) 116; 116; 116; 2; 116; 116; 116; 116; 116; 116;
   (* 70 *) 8; 116; 116; 116; 8; 8; 116; 116; 116; 116;
   (* 80 *) 116; 8; 116; 482; 116; 8; 116; 8; 8; 116;
   (* 90 *) 482; 116; 482; 482]%N.

(** ** Fields ([enum ts_field_identifiers]) and the field maps *)

Inductive TSFieldId : Set :=
  | field_constraint_type | field_id | field_inline_text | field_key | field_kind
  | field_name | field_target | field_trigger | field_value.

Definition field_id_value (f : TSFieldId) : N :=
  match f with
  | field_constraint_type => 1
  | field_id => 2
  | field_inline_text => 3
  | field_key => 4
  | field_kind => 5
  | field_name => 6
  | field_target => 7
  | field_trigger => 8
  | field_value => 9
  end.

Record TSFieldMapSlice : Set := { slice_index : nat; slice_length : nat }.
Record TSFieldMapEntry : Set := { entry_field : TSFieldId; child_index : nat }.

(** [ts_field_map_slices], indexed by production id; production 0 has the
    zero slice. *)
Definition ts_field_map_slices : list TSFieldMapSlice :=
  [(* 0 *) {| slice_index := 0; slice_length := 0 |};
   (* 1 *) {| slice_index := 0; slice_length := 1 |};
   (* 2 *) {| slice_index := 1; slice_length := 2 |};
   (* 3 *) {| slice_index := 3; slice_length := 1 |};
   (* 4 *) {| slice_index := 4; slice_length := 2 |};
   (* 5 *) {| slice_index := 6; slice_length := 2 |};
   (* 6 *) {| slice_index := 8; slice_length := 1 |};
   (* 7 *) {| slice_index := 9; slice_length := 3 |};
   (* 8 *) {| slice_index := 12; slice_length := 2 |};
   (* 9 *) {| slice_index := 14; slice_length := 1 |}].

Definition ts_field_map_entries : list TSFieldMapEntry :=
  [(*  0 *) {| entry_field := field_kind; child_index := 0 |};
   (*  1 *) {| entry_field := field_key; child_index := 0 |};
   (*  2 *) {| entry_field := field_value; child_index := 2 |};
   (*  3 *) {| entry_field := field_name; child_index := 1 |};
   (*  4 *) {| entry_field := field_id; child_index := 1 |};
   (*  5 *) {| entry_field := field_kind; child_index := 0 |};
   (*  6 *) {| entry_field := field_inline_text; child_index := 1 |};
   (*  7 *) {| entry_field := field_kind; child_index := 0 |};
   (*  8 *) {| entry_field := field_name; child_index := 0 |};
   (*  9 *) {| entry_field := field_id; child_index := 1 |};
   (* 10 *) {| entry_field := field_inline_text; child_index := 2 |};
   (* 11 *) {| entry_field := field_kind; child_index := 0 |};
   (* 12 *) {| entry_field := field_constraint_type; child_index := 2 |};
   (* 13 *) {| entry_field := field_target; child_index := 0 |};
   (* 14 *) {| entry_field := field_trigger; child_index := 1 |}].

(** ** Parse actions ([ts_parse_actions]) *)

Inductive TSParseAction : Set :=
| SHIFT (state_value : TSStateId)
| SHIFT_REPEAT (state_value : TSStateId)
| SHIFT_EXTRA
| REDUCE (symbol_name : TSSymbol) (children : nat) (precedence : Z) (prod_id : nat)
| RECOVER
| ACCEPT_INPUT.

(** The header of an entry ([count], [reusable]) and the actions that follow
    it in the array. *)
Record TSParseActionEntry : Set := Entry {
  count : nat;
  reusable : bool;
  actions : list TSParseAction
}.

(** The array, keyed by the index of each header: [ACTIONS(i)] in the parse
    tables refers to the header at index [i]. *)
Definition ts_parse_actions : list (N * TSParseActionEntry) := [
  (0, Entry 0 false []);
  (1, Entry 1 false [RECOVER]);
  (3, Entry 1 false [SHIFT_EXTRA]);
  (5, Entry 1 true [REDUCE sym_document 0 0 0]);
  (7, Entry 1 true [SHIFT_EXTRA]);
  (9, Entry 1 true [SHIFT 45]);
  (11, Entry 1 true [SHIFT 75]);
  (13, Entry 1 true [SHIFT 64]);
  (15, Entry 1 true [SHIFT 74]);
  (17, Entry 1 true [REDUCE sym_property 3 0 6]);
  (19, Entry 1 false [REDUCE sym_property 3 0 6]);
  (21, Entry 1 true [SHIFT 81]);
  (23, Entry 1 false [SHIFT 14]);
  (25, Entry 1 true [SHIFT 3]);
  (27, Entry 1 true [SHIFT 90]);
  (29, Entry 1 true [REDUCE aux_sym_property_repeat1 2 0 0]);
  (31, Entry 1 false [REDUCE aux_sym_property_repeat1 2 0 0]);
  (33, Entry 2 true [REDUCE aux_sym_property_repeat1 2 0 0; SHIFT_REPEAT 81]);
  (36, Entry 2 false [REDUCE aux_sym_property_repeat1 2 0 0; SHIFT_REPEAT 14]);
  (39, Entry 2 true [REDUCE aux_sym_property_repeat1 2 0 0; SHIFT_REPEAT 3]);
  (42, Entry 2 true [REDUCE aux_sym_property_repeat1 2 0 0; SHIFT_REPEAT 90]);
  (45, Entry 1 false [REDUCE sym_annotation 1 0 0]);
  (47, Entry 1 false [SHIFT 25]);
  (49, Entry 1 false [SHIFT 79]);
  (51, Entry 1 false [SHIFT 83]);
  (53, Entry 1 true [SHIFT 4]);
  (55, Entry 1 true [SHIFT 24]);
  (57, Entry 1 false [SHIFT 73]);
  (59, Entry 1 true [SHIFT 73]);
  (61, Entry 1 true [SHIFT 65]);
  (63, Entry 2 true [REDUCE aux_sym_node_declaration_repeat1 2 0 0; SHIFT_REPEAT 4]);
  (66, Entry 1 true [REDUCE aux_sym_node_declaration_repeat1 2 0 0]);
  (68, Entry 2 true [REDUCE aux_sym_node_declaration_repeat1 2 0 0; SHIFT_REPEAT 64]);
  (71, Entry 2 false [REDUCE aux_sym_node_declaration_repeat1 2 0 0; SHIFT_REPEAT 73]);
  (74, Entry 2 true [REDUCE aux_sym_node_declaration_repeat1 2 0 0; SHIFT_REPEAT 73]);
  (77, Entry 2 true [REDUCE aux_sym_node_declaration_repeat1 2 0 0; SHIFT_REPEAT 65]);
  (80, Entry 1 true [SHIFT 26]);
  (82, Entry 1 true [SHIFT 23]);
  (84, Entry 1 true [SHIFT 21]);
  (86, Entry 1 true [SHIFT 20]);
  (88, Entry 1 true [SHIFT 22]);
  (90, Entry 1 true [SHIFT 28]);
  (92, Entry 1 true [SHIFT 29]);
  (94, Entry 1 true [REDUCE sym__value_item 1 0 0]);
  (96, Entry 1 false [REDUCE sym__value_item 1 0 0]);
  (98, Entry 1 true [SHIFT 59]);
  (100, Entry 1 true [REDUCE sym_string 3 0 0]);
  (102, Entry 1 false [REDUCE sym_string 3 0 0]);
  (104, Entry 1 true [REDUCE sym_node_id 2 0 0]);
  (106, Entry 1 false [REDUCE sym_node_id 2 0 0]);
  (108, Entry 1 true [REDUCE sym_key_value_pair 3 0 0]);
  (110, Entry 1 false [REDUCE sym_key_value_pair 3 0 0]);
  (112, Entry 2 true [REDUCE aux_sym_property_repeat1 2 0 0; SHIFT_REPEAT 88]);
  (115, Entry 2 false [REDUCE aux_sym_property_repeat1 2 0 0; SHIFT_REPEAT 34]);
  (118, Entry 2 true [REDUCE aux_sym_property_repeat1 2 0 0; SHIFT_REPEAT 19]);
  (121, Entry 2 true [REDUCE aux_sym_property_repeat1 2 0 0; SHIFT_REPEAT 93]);
  (124, Entry 1 true [REDUCE sym_node_declaration 4 0 1]);
  (126, Entry 1 false [REDUCE sym_node_declaration 4 0 1]);
  (128, Entry 1 true [REDUCE sym_node_declaration 4 0 4]);
  (130, Entry 1 false [REDUCE sym_node_declaration 4 0 4]);
  (132, Entry 1 true [REDUCE sym_node_declaration 3 0 1]);
  (134, Entry 1 false [REDUCE sym_node_declaration 3 0 1]);
  (136, Entry 1 true [REDUCE sym_node_declaration 5 0 7]);
  (138, Entry 1 false [REDUCE sym_node_declaration 5 0 7]);
  (140, Entry 1 true [REDUCE sym_node_declaration 4 0 5]);
  (142, Entry 1 false [REDUCE sym_node_declaration 4 0 5]);
  (144, Entry 1 true [REDUCE sym_annotation 2 0 0]);
  (146, Entry 1 false [REDUCE sym_annotation 2 0 0]);
  (148, Entry 1 true [REDUCE sym_node_declaration 5 0 4]);
  (150, Entry 1 false [REDUCE sym_node_declaration 5 0 4]);
  (152, Entry 1 true [REDUCE sym_annotation_typed 3 0 2]);
  (154, Entry 1 false [REDUCE sym_annotation_typed 3 0 2]);
  (156, Entry 1 true [REDUCE sym_node_declaration 5 0 5]);
  (158, Entry 1 false [REDUCE sym_node_declaration 5 0 5]);
  (160, Entry 1 true [REDUCE sym_node_declaration 6 0 7]);
  (162, Entry 1 false [REDUCE sym_node_declaration 6 0 7]);
  (164, Entry 1 true [SHIFT 88]);
  (166, Entry 1 false [SHIFT 34]);
  (168, Entry 1 true [SHIFT 19]);
  (170, Entry 1 true [SHIFT 93]);
  (172, Entry 1 true [REDUCE sym_node_body_item 1 0 0]);
  (174, Entry 1 false [REDUCE sym_node_body_item 1 0 0]);
  (176, Entry 1 true [REDUCE sym_anim_block 4 0 9]);
  (178, Entry 1 false [REDUCE sym_anim_block 4 0 9]);
  (180, Entry 1 true [REDUCE sym_anim_block 5 0 9]);
  (182, Entry 1 false [REDUCE sym_anim_block 5 0 9]);
  (184, Entry 1 true [SHIFT 58]);
  (186, Entry 1 true [SHIFT 55]);
  (188, Entry 1 true [SHIFT 33]);
  (190, Entry 1 true [REDUCE aux_sym_style_block_repeat1 2 0 0]);
  (192, Entry 2 false [REDUCE aux_sym_style_block_repeat1 2 0 0; SHIFT_REPEAT 73]);
  (195, Entry 2 true [REDUCE aux_sym_style_block_repeat1 2 0 0; SHIFT_REPEAT 73]);
  (198, Entry 1 true [SHIFT 32]);
  (200, Entry 1 true [SHIFT 56]);
  (202, Entry 1 true [REDUCE sym_constraint_line 5 0 8]);
  (204, Entry 1 false [REDUCE sym_constraint_line 5 0 8]);
  (206, Entry 1 true [SHIFT 85]);
  (208, Entry 1 false [SHIFT 48]);
  (210, Entry 1 true [SHIFT 44]);
  (212, Entry 1 true [SHIFT 92]);
  (214, Entry 2 true [REDUCE aux_sym_property_repeat1 2 0 0; SHIFT_REPEAT 85]);
  (217, Entry 2 false [REDUCE aux_sym_property_repeat1 2 0 0; SHIFT_REPEAT 48]);
  (220, Entry 2 true [REDUCE aux_sym_property_repeat1 2 0 0; SHIFT_REPEAT 44]);
  (223, Entry 2 true [REDUCE aux_sym_property_repeat1 2 0 0; SHIFT_REPEAT 92]);
  (226, Entry 1 true [REDUCE sym_annotation 1 0 0]);
  (228, Entry 1 true [REDUCE aux_sym_document_repeat1 2 0 0]);
  (230, Entry 2 true [REDUCE aux_sym_document_repeat1 2 0 0; SHIFT_REPEAT 45]);
  (233, Entry 2 true [REDUCE aux_sym_document_repeat1 2 0 0; SHIFT_REPEAT 75]);
  (236, Entry 2 true [REDUCE aux_sym_document_repeat1 2 0 0; SHIFT_REPEAT 64]);
  (239, Entry 2 true [REDUCE aux_sym_document_repeat1 2 0 0; SHIFT_REPEAT 74]);
  (242, Entry 1 true [REDUCE sym_document 1 0 0]);
  (244, Entry 1 true [SHIFT 57]);
  (246, Entry 1 true [SHIFT 48]);
  (248, Entry 1 true [SHIFT 43]);
  (250, Entry 1 true [SHIFT 14]);
  (252, Entry 1 true [SHIFT 2]);
  (254, Entry 1 true [SHIFT 34]);
  (256, Entry 1 true [SHIFT 30]);
  (258, Entry 1 true [REDUCE sym_style_block 4 0 3]);
  (260, Entry 1 true [REDUCE sym_style_block 5 0 3]);
  (262, Entry 1 true [SHIFT 50]);
  (264, Entry 1 true [SHIFT 37]);
  (266, Entry 1 true [SHIFT 17]);
  (268, Entry 1 true [SHIFT 11]);
  (270, Entry 1 true [SHIFT 83]);
  (272, Entry 1 true [SHIFT 9]);
  (274, Entry 1 false [SHIFT 27]);
  (276, Entry 1 true [REDUCE sym_node_kind 1 0 0]);
  (278, Entry 1 true [SHIFT 70]);
  (280, Entry 1 true [SHIFT 51]);
  (282, Entry 1 true [SHIFT 38]);
  (284, Entry 1 true [ACCEPT_INPUT]);
  (286, Entry 1 true [SHIFT 18]);
  (288, Entry 1 true [SHIFT 76]);
  (290, Entry 1 true [SHIFT 41]);
  (292, Entry 1 true [SHIFT 87]);
  (294, Entry 1 true [REDUCE sym_property_name 1 0 0]);
  (296, Entry 1 true [SHIFT 61]);
  (298, Entry 1 true [SHIFT 67]);
  (300, Entry 1 true [REDUCE sym_anim_trigger 2 0 0]);
  (302, Entry 1 true [SHIFT 53]);
  (304, Entry 1 true [SHIFT 5]);
  (306, Entry 1 true [REDUCE sym_annotation_keyword 1 0 0]);
  (308, Entry 1 true [SHIFT 8]);
  (310, Entry 1 true [SHIFT 16]);
  (312, Entry 1 true [SHIFT 15]);
  (314, Entry 1 true [SHIFT 69]);
  (316, Entry 1 true [SHIFT 52]);
  (318, Entry 1 true [SHIFT 49]);
  (320, Entry 1 true [SHIFT 63]);
  (322, Entry 1 true [SHIFT 84]);
  (324, Entry 1 true [SHIFT 36]);
  (326, Entry 1 true [SHIFT 35]);
  (328, Entry 1 true [SHIFT 82]);
  (330, Entry 1 true [SHIFT 54]);
  (332, Entry 1 true [SHIFT 66]);
  (334, Entry 1 true [SHIFT 89])
]%N.

(** ** The parse tables *)

Definition STATE_COUNT : N := 94.
Definition LARGE_STATE_COUNT : N := 18.

(** A cell holds [ACTIONS(i)] under a terminal and [STATE(s)] under a
    non-terminal. *)
Inductive table_cell : Set :=
| ACTIONS (i : N)
| STATE (s : TSStateId).

(** [ts_parse_table]: one row per large state, listing the cells that the
    initialiser sets; every other cell is zero. *)
Definition ts_parse_table : list (list (TSSymbol * table_cell)) := [
  (* 0 *)
  [(ts_builtin_sym_end, ACTIONS 1); (sym_comment, ACTIONS 3); (anon_sym_POUND_POUND, ACTIONS 1);
   (anon_sym_COLON, ACTIONS 1); (anon_sym_accept, ACTIONS 1); (anon_sym_status, ACTIONS 1);
   (anon_sym_priority, ACTIONS 1); (anon_sym_tag, ACTIONS 1); (anon_sym_style, ACTIONS 1);
   (anon_sym_LBRACE, ACTIONS 1); (anon_sym_RBRACE, ACTIONS 1); (anon_sym_group, ACTIONS 1);
   (anon_sym_rect, ACTIONS 1); (anon_sym_ellipse, ACTIONS 1); (anon_sym_path, ACTIONS 1);
   (anon_sym_text, ACTIONS 1); (anon_sym_w, ACTIONS 1); (anon_sym_h, ACTIONS 1);
   (anon_sym_width, ACTIONS 1); (anon_sym_height, ACTIONS 1); (anon_sym_fill, ACTIONS 1);
   (anon_sym_stroke, ACTIONS 1); (anon_sym_corner, ACTIONS 1); (anon_sym_opacity, ACTIONS 1);
   (anon_sym_font, ACTIONS 1); (anon_sym_bg, ACTIONS 1); (anon_sym_use, ACTIONS 1);
   (anon_sym_layout, ACTIONS 1); (anon_sym_shadow, ACTIONS 1); (anon_sym_scale, ACTIONS 1);
   (anon_sym_rotate, ACTIONS 1); (anon_sym_translate, ACTIONS 1); (anon_sym_center_in, ACTIONS 1);
   (anon_sym_offset, ACTIONS 1); (anon_sym_ease, ACTIONS 1); (anon_sym_duration, ACTIONS 1);
   (anon_sym_EQ, ACTIONS 1); (anon_sym_anim, ACTIONS 1); (anon_sym_DASH_GT, ACTIONS 1);
   (anon_sym_AT, ACTIONS 1); (sym_identifier, ACTIONS 1); (sym_number, ACTIONS 1);
   (sym_hex_color, ACTIONS 1); (anon_sym_DQUOTE, ACTIONS 1)];
  (* 1 *)
  [(sym_document, STATE 68); (sym_annotation, STATE 47); (sym_style_block, STATE 47);
   (sym_node_declaration, STATE 47); (sym_node_kind, STATE 60); (sym_constraint_line, STATE 47);
   (sym_node_id, STATE 72); (aux_sym_document_repeat1, STATE 47); (ts_builtin_sym_end, ACTIONS 5);
   (sym_comment, ACTIONS 7); (anon_sym_POUND_POUND, ACTIONS 9); (anon_sym_style, ACTIONS 11);
   (anon_sym_group, ACTIONS 13); (anon_sym_rect, ACTIONS 13); (anon_sym_ellipse, ACTIONS 13);
   (anon_sym_path, ACTIONS 13); (anon_sym_text, ACTIONS 13); (anon_sym_AT, ACTIONS 15)];
  (* 2 *)
  [(sym__value_item, STATE 3); (sym_key_value_pair, STATE 3); (sym_node_id, STATE 3);
   (sym_string, STATE 3); (aux_sym_property_repeat1, STATE 3); (sym_comment, ACTIONS 3);
   (anon_sym_POUND_POUND, ACTIONS 17); (anon_sym_RBRACE, ACTIONS 17); (anon_sym_group, ACTIONS 19);
   (anon_sym_rect, ACTIONS 19); (anon_sym_ellipse, ACTIONS 19); (anon_sym_path, ACTIONS 19);
   (anon_sym_text, ACTIONS 19); (anon_sym_w, ACTIONS 19); (anon_sym_h, ACTIONS 19);
   (anon_sym_width, ACTIONS 19); (anon_sym_height, ACTIONS 19); (anon_sym_fill, ACTIONS 19);
   (anon_sym_stroke, ACTIONS 19); (anon_sym_corner, ACTIONS 19); (anon_sym_opacity, ACTIONS 19);
   (anon_sym_font, ACTIONS 19); (anon_sym_bg, ACTIONS 19); (anon_sym_use, ACTIONS 19);
   (anon_sym_layout, ACTIONS 19); (anon_sym_shadow, ACTIONS 19); (anon_sym_scale, ACTIONS 19);
   (anon_sym_rotate, ACTIONS 19); (anon_sym_translate, ACTIONS 19);
   (anon_sym_center_in, ACTIONS 19); (anon_sym_offset, ACTIONS 19); (anon_sym_ease, ACTIONS 19);
   (anon_sym_duration, ACTIONS 19); (anon_sym_anim, ACTIONS 19); (anon_sym_AT, ACTIONS 21);
   (sym_identifier, ACTIONS 23); (sym_number, ACTIONS 25); (sym_hex_color, ACTIONS 25);
   (anon_sym_DQUOTE, ACTIONS 27)];
  (* 3 *)
  [(sym__value_item, STATE 3); (sym_key_value_pair, STATE 3); (sym_node_id, STATE 3);
   (sym_string, STATE 3); (aux_sym_property_repeat1, STATE 3); (sym_comment, ACTIONS 3);
   (anon_sym_POUND_POUND, ACTIONS 29); (anon_sym_RBRACE, ACTIONS 29); (anon_sym_group, ACTIONS 31);
   (anon_sym_rect, ACTIONS 31); (anon_sym_ellipse, ACTIONS 31); (anon_sym_path, ACTIONS 31);
   (anon_sym_text, ACTIONS 31); (anon_sym_w, ACTIONS 31); (anon_sym_h, ACTIONS 31);
   (anon_sym_width, ACTIONS 31); (anon_sym_height, ACTIONS 31); (anon_sym_fill, ACTIONS 31);
   (anon_sym_stroke, ACTIONS 31); (anon_sym_corner, ACTIONS 31); (anon_sym_opacity, ACTIONS 31);
   (anon_sym_font, ACTIONS 31); (anon_sym_bg, ACTIONS 31); (anon_sym_use, ACTIONS 31);
   (anon_sym_layout, ACTIONS 31); (anon_sym_shadow, ACTIONS 31); (anon_sym_scale, ACTIONS 31);
   (anon_sym_rotate, ACTIONS 31); (anon_sym_translate, ACTIONS 31);
   (anon_sym_center_in, ACTIONS 31); (anon_sym_offset, ACTIONS 31); (anon_sym_ease, ACTIONS 31);
   (anon_sym_duration, ACTIONS 31); (anon_sym_anim, ACTIONS 31); (anon_sym_AT, ACTIONS 33);
   (sym_identifier, ACTIONS 36); (sym_number, ACTIONS 39); (sym_hex_color, ACTIONS 39);
   (anon_sym_DQUOTE, ACTIONS 42)];
  (* 4 *)
  [(sym_annotation_typed, STATE 25); (sym_annotation_keyword, STATE 86); (sym_string, STATE 25);
   (sym_comment, ACTIONS 3); (anon_sym_POUND_POUND, ACTIONS 45); (sym_annotation_text, ACTIONS 47);
   (anon_sym_accept, ACTIONS 49); (anon_sym_status, ACTIONS 49); (anon_sym_priority, ACTIONS 49);
   (anon_sym_tag, ACTIONS 49); (anon_sym_RBRACE, ACTIONS 45); (anon_sym_group, ACTIONS 45);
   (anon_sym_rect, ACTIONS 45); (anon_sym_ellipse, ACTIONS 45); (anon_sym_path, ACTIONS 45);
   (anon_sym_text, ACTIONS 45); (anon_sym_w, ACTIONS 45); (anon_sym_h, ACTIONS 45);
   (anon_sym_width, ACTIONS 45); (anon_sym_height, ACTIONS 45); (anon_sym_fill, ACTIONS 45);
   (anon_sym_stroke, ACTIONS 45); (anon_sym_corner, ACTIONS 45); (anon_sym_opacity, ACTIONS 45);
   (anon_sym_font, ACTIONS 45); (anon_sym_bg, ACTIONS 45); (anon_sym_use, ACTIONS 45);
   (anon_sym_layout, ACTIONS 45); (anon_sym_shadow, ACTIONS 45); (anon_sym_scale, ACTIONS 45);
   (anon_sym_rotate, ACTIONS 45); (anon_sym_translate, ACTIONS 45);
   (anon_sym_center_in, ACTIONS 45); (anon_sym_offset, ACTIONS 45); (anon_sym_ease, ACTIONS 45);
   (anon_sym_duration, ACTIONS 45); (anon_sym_anim, ACTIONS 45); (anon_sym_DQUOTE, ACTIONS 51)];
  (* 5 *)
  [(sym_annotation, STATE 31); (sym_node_declaration, STATE 31); (sym_node_kind, STATE 60);
   (sym_node_body_item, STATE 12); (sym_property, STATE 31); (sym_property_name, STATE 77);
   (sym_anim_block, STATE 31); (aux_sym_node_declaration_repeat1, STATE 12);
   (sym_comment, ACTIONS 7); (anon_sym_POUND_POUND, ACTIONS 53); (anon_sym_RBRACE, ACTIONS 55);
   (anon_sym_group, ACTIONS 13); (anon_sym_rect, ACTIONS 13); (anon_sym_ellipse, ACTIONS 13);
   (anon_sym_path, ACTIONS 13); (anon_sym_text, ACTIONS 13); (anon_sym_w, ACTIONS 57);
   (anon_sym_h, ACTIONS 57); (anon_sym_width, ACTIONS 59); (anon_sym_height, ACTIONS 59);
   (anon_sym_fill, ACTIONS 59); (anon_sym_stroke, ACTIONS 59); (anon_sym_corner, ACTIONS 59);
   (anon_sym_opacity, ACTIONS 59); (anon_sym_font, ACTIONS 59); (anon_sym_bg, ACTIONS 59);
   (anon_sym_use, ACTIONS 59); (anon_sym_layout, ACTIONS 59); (anon_sym_shadow, ACTIONS 59);
   (anon_sym_scale, ACTIONS 59); (anon_sym_rotate, ACTIONS 59); (anon_sym_translate, ACTIONS 59);
   (anon_sym_center_in, ACTIONS 59); (anon_sym_offset, ACTIONS 59); (anon_sym_ease, ACTIONS 59);
   (anon_sym_duration, ACTIONS 59); (anon_sym_anim, ACTIONS 61)];
  (* 6 *)
  [(sym_annotation, STATE 31); (sym_node_declaration, STATE 31); (sym_node_kind, STATE 60);
   (sym_node_body_item, STATE 6); (sym_property, STATE 31); (sym_property_name, STATE 77);
   (sym_anim_block, STATE 31); (aux_sym_node_declaration_repeat1, STATE 6);
   (sym_comment, ACTIONS 7); (anon_sym_POUND_POUND, ACTIONS 63); (anon_sym_RBRACE, ACTIONS 66);
   (anon_sym_group, ACTIONS 68); (anon_sym_rect, ACTIONS 68); (anon_sym_ellipse, ACTIONS 68);
   (anon_sym_path, ACTIONS 68); (anon_sym_text, ACTIONS 68); (anon_sym_w, ACTIONS 71);
   (anon_sym_h, ACTIONS 71); (anon_sym_width, ACTIONS 74); (anon_sym_height, ACTIONS 74);
   (anon_sym_fill, ACTIONS 74); (anon_sym_stroke, ACTIONS 74); (anon_sym_corner, ACTIONS 74);
   (anon_sym_opacity, ACTIONS 74); (anon_sym_font, ACTIONS 74); (anon_sym_bg, ACTIONS 74);
   (anon_sym_use, ACTIONS 74); (anon_sym_layout, ACTIONS 74); (anon_sym_shadow, ACTIONS 74);
   (anon_sym_scale, ACTIONS 74); (anon_sym_rotate, ACTIONS 74); (anon_sym_translate, ACTIONS 74);
   (anon_sym_center_in, ACTIONS 74); (anon_sym_offset, ACTIONS 74); (anon_sym_ease, ACTIONS 74);
   (anon_sym_duration, ACTIONS 74); (anon_sym_anim, ACTIONS 77)];
  (* 7 *)
  [(sym_annotation, STATE 31); (sym_node_declaration, STATE 31); (sym_node_kind, STATE 60);
   (sym_node_body_item, STATE 6); (sym_property, STATE 31); (sym_property_name, STATE 77);
   (sym_anim_block, STATE 31); (aux_sym_node_declaration_repeat1, STATE 6);
   (sym_comment, ACTIONS 7); (anon_sym_POUND_POUND, ACTIONS 53); (anon_sym_RBRACE, ACTIONS 80);
   (anon_sym_group, ACTIONS 13); (anon_sym_rect, ACTIONS 13); (anon_sym_ellipse, ACTIONS 13);
   (anon_sym_path, ACTIONS 13); (anon_sym_text, ACTIONS 13); (anon_sym_w, ACTIONS 57);
   (anon_sym_h, ACTIONS 57); (anon_sym_width, ACTIONS 59); (anon_sym_height, ACTIONS 59);
   (anon_sym_fill, ACTIONS 59); (anon_sym_stroke, ACTIONS 59); (anon_sym_corner, ACTIONS 59);
   (anon_sym_opacity, ACTIONS 59); (anon_sym_font, ACTIONS 59); (anon_sym_bg, ACTIONS 59);
   (anon_sym_use, ACTIONS 59); (anon_sym_layout, ACTIONS 59); (anon_sym_shadow, ACTIONS 59);
   (anon_sym_scale, ACTIONS 59); (anon_sym_rotate, ACTIONS 59); (anon_sym_translate, ACTIONS 59);
   (anon_sym_center_in, ACTIONS 59); (anon_sym_offset, ACTIONS 59); (anon_sym_ease, ACTIONS 59);
   (anon_sym_duration, ACTIONS 59); (anon_sym_anim, ACTIONS 61)];
  (* 8 *)
  [(sym_annotation, STATE 31); (sym_node_declaration, STATE 31); (sym_node_kind, STATE 60);
   (sym_node_body_item, STATE 13); (sym_property, STATE 31); (sym_property_name, STATE 77);
   (sym_anim_block, STATE 31); (aux_sym_node_declaration_repeat1, STATE 13);
   (sym_comment, ACTIONS 7); (anon_sym_POUND_POUND, ACTIONS 53); (anon_sym_RBRACE, ACTIONS 82);
   (anon_sym_group, ACTIONS 13); (anon_sym_rect, ACTIONS 13); (anon_sym_ellipse, ACTIONS 13);
   (anon_sym_path, ACTIONS 13); (anon_sym_text, ACTIONS 13); (anon_sym_w, ACTIONS 57);
   (anon_sym_h, ACTIONS 57); (anon_sym_width, ACTIONS 59); (anon_sym_height, ACTIONS 59);
   (anon_sym_fill, ACTIONS 59); (anon_sym_stroke, ACTIONS 59); (anon_sym_corner, ACTIONS 59);
   (anon_sym_opacity, ACTIONS 59); (anon_sym_font, ACTIONS 59); (anon_sym_bg, ACTIONS 59);
   (anon_sym_use, ACTIONS 59); (anon_sym_layout, ACTIONS 59); (anon_sym_shadow, ACTIONS 59);
   (anon_sym_scale, ACTIONS 59); (anon_sym_rotate, ACTIONS 59); (anon_sym_translate, ACTIONS 59);
   (anon_sym_center_in, ACTIONS 59); (anon_sym_offset, ACTIONS 59); (anon_sym_ease, ACTIONS 59);
   (anon_sym_duration, ACTIONS 59); (anon_sym_anim, ACTIONS 61)];
  (* 9 *)
  [(sym_annotation, STATE 31); (sym_node_declaration, STATE 31); (sym_node_kind, STATE 60);
   (sym_node_body_item, STATE 7); (sym_property, STATE 31); (sym_property_name, STATE 77);
   (sym_anim_block, STATE 31); (aux_sym_node_declaration_repeat1, STATE 7);
   (sym_comment, ACTIONS 7); (anon_sym_POUND_POUND, ACTIONS 53); (anon_sym_RBRACE, ACTIONS 84);
   (anon_sym_group, ACTIONS 13); (anon_sym_rect, ACTIONS 13); (anon_sym_ellipse, ACTIONS 13);
   (anon_sym_path, ACTIONS 13); (anon_sym_text, ACTIONS 13); (anon_sym_w, ACTIONS 57);
   (anon_sym_h, ACTIONS 57); (anon_sym_width, ACTIONS 59); (anon_sym_height, ACTIONS 59);
   (anon_sym_fill, ACTIONS 59); (anon_sym_stroke, ACTIONS 59); (anon_sym_corner, ACTIONS 59);
   (anon_sym_opacity, ACTIONS 59); (anon_sym_font, ACTIONS 59); (anon_sym_bg, ACTIONS 59);
   (anon_sym_use, ACTIONS 59); (anon_sym_layout, ACTIONS 59); (anon_sym_shadow, ACTIONS 59);
   (anon_sym_scale, ACTIONS 59); (anon_sym_rotate, ACTIONS 59); (anon_sym_translate, ACTIONS 59);
   (anon_sym_center_in, ACTIONS 59); (anon_sym_offset, ACTIONS 59); (anon_sym_ease, ACTIONS 59);
   (anon_sym_duration, ACTIONS 59); (anon_sym_anim, ACTIONS 61)];
  (* 10 *)
  [(sym_annotation, STATE 31); (sym_node_declaration, STATE 31); (sym_node_kind, STATE 60);
   (sym_node_body_item, STATE 6); (sym_property, STATE 31); (sym_property_name, STATE 77);
   (sym_anim_block, STATE 31); (aux_sym_node_declaration_repeat1, STATE 6);
   (sym_comment, ACTIONS 7); (anon_sym_POUND_POUND, ACTIONS 53); (anon_sym_RBRACE, ACTIONS 86);
   (anon_sym_group, ACTIONS 13); (anon_sym_rect, ACTIONS 13); (anon_sym_ellipse, ACTIONS 13);
   (anon_sym_path, ACTIONS 13); (anon_sym_text, ACTIONS 13); (anon_sym_w, ACTIONS 57);
   (anon_sym_h, ACTIONS 57); (anon_sym_width, ACTIONS 59); (anon_sym_height, ACTIONS 59);
   (anon_sym_fill, ACTIONS 59); (anon_sym_stroke, ACTIONS 59); (anon_sym_corner, ACTIONS 59);
   (anon_sym_opacity, ACTIONS 59); (anon_sym_font, ACTIONS 59); (anon_sym_bg, ACTIONS 59);
   (anon_sym_use, ACTIONS 59); (anon_sym_layout, ACTIONS 59); (anon_sym_shadow, ACTIONS 59);
   (anon_sym_scale, ACTIONS 59); (anon_sym_rotate, ACTIONS 59); (anon_sym_translate, ACTIONS 59);
   (anon_sym_center_in, ACTIONS 59); (anon_sym_offset, ACTIONS 59); (anon_sym_ease, ACTIONS 59);
   (anon_sym_duration, ACTIONS 59); (anon_sym_anim, ACTIONS 61)];
  (* 11 *)
  [(sym_annotation, STATE 31); (sym_node_declaration, STATE 31); (sym_node_kind, STATE 60);
   (sym_node_body_item, STATE 10); (sym_property, STATE 31); (sym_property_name, STATE 77);
   (sym_anim_block, STATE 31); (aux_sym_node_declaration_repeat1, STATE 10);
   (sym_comment, ACTIONS 7); (anon_sym_POUND_POUND, ACTIONS 53); (anon_sym_RBRACE, ACTIONS 88);
   (anon_sym_group, ACTIONS 13); (anon_sym_rect, ACTIONS 13); (anon_sym_ellipse, ACTIONS 13);
   (anon_sym_path, ACTIONS 13); (anon_sym_text, ACTIONS 13); (anon_sym_w, ACTIONS 57);
   (anon_sym_h, ACTIONS 57); (anon_sym_width, ACTIONS 59); (anon_sym_height, ACTIONS 59);
   (anon_sym_fill, ACTIONS 59); (anon_sym_stroke, ACTIONS 59); (anon_sym_corner, ACTIONS 59);
   (anon_sym_opacity, ACTIONS 59); (anon_sym_font, ACTIONS 59); (anon_sym_bg, ACTIONS 59);
   (anon_sym_use, ACTIONS 59); (anon_sym_layout, ACTIONS 59); (anon_sym_shadow, ACTIONS 59);
   (anon_sym_scale, ACTIONS 59); (anon_sym_rotate, ACTIONS 59); (anon_sym_translate, ACTIONS 59);
   (anon_sym_center_in, ACTIONS 59); (anon_sym_offset, ACTIONS 59); (anon_sym_ease, ACTIONS 59);
   (anon_sym_duration, ACTIONS 59); (anon_sym_anim, ACTIONS 61)];
  (* 12 *)
  [(sym_annotation, STATE 31); (sym_node_declaration, STATE 31); (sym_node_kind, STATE 60);
   (sym_node_body_item, STATE 6); (sym_property, STATE 31); (sym_property_name, STATE 77);
   (sym_anim_block, STATE 31); (aux_sym_node_declaration_repeat1, STATE 6);
   (sym_comment, ACTIONS 7); (anon_sym_POUND_POUND, ACTIONS 53); (anon_sym_RBRACE, ACTIONS 90);
   (anon_sym_group, ACTIONS 13); (anon_sym_rect, ACTIONS 13); (anon_sym_ellipse, ACTIONS 13);
   (anon_sym_path, ACTIONS 13); (anon_sym_text, ACTIONS 13); (anon_sym_w, ACTIONS 57);
   (anon_sym_h, ACTIONS 57); (anon_sym_width, ACTIONS 59); (anon_sym_height, ACTIONS 59);
   (anon_sym_fill, ACTIONS 59); (anon_sym_stroke, ACTIONS 59); (anon_sym_corner, ACTIONS 59);
   (anon_sym_opacity, ACTIONS 59); (anon_sym_font, ACTIONS 59); (anon_sym_bg, ACTIONS 59);
   (anon_sym_use, ACTIONS 59); (anon_sym_layout, ACTIONS 59); (anon_sym_shadow, ACTIONS 59);
   (anon_sym_scale, ACTIONS 59); (anon_sym_rotate, ACTIONS 59); (anon_sym_translate, ACTIONS 59);
   (anon_sym_center_in, ACTIONS 59); (anon_sym_offset, ACTIONS 59); (anon_sym_ease, ACTIONS 59);
   (anon_sym_duration, ACTIONS 59); (anon_sym_anim, ACTIONS 61)];
  (* 13 *)
  [(sym_annotation, STATE 31); (sym_node_declaration, STATE 31); (sym_node_kind, STATE 60);
   (sym_node_body_item, STATE 6); (sym_property, STATE 31); (sym_property_name, STATE 77);
   (sym_anim_block, STATE 31); (aux_sym_node_declaration_repeat1, STATE 6);
   (sym_comment, ACTIONS 7); (anon_sym_POUND_POUND, ACTIONS 53); (anon_sym_RBRACE, ACTIONS 92);
   (anon_sym_group, ACTIONS 13); (anon_sym_rect, ACTIONS 13); (anon_sym_ellipse, ACTIONS 13);
   (anon_sym_path, ACTIONS 13); (anon_sym_text, ACTIONS 13); (anon_sym_w, ACTIONS 57);
   (anon_sym_h, ACTIONS 57); (anon_sym_width, ACTIONS 59); (anon_sym_height, ACTIONS 59);
   (anon_sym_fill, ACTIONS 59); (anon_sym_stroke, ACTIONS 59); (anon_sym_corner, ACTIONS 59);
   (anon_sym_opacity, ACTIONS 59); (anon_sym_font, ACTIONS 59); (anon_sym_bg, ACTIONS 59);
   (anon_sym_use, ACTIONS 59); (anon_sym_layout, ACTIONS 59); (anon_sym_shadow, ACTIONS 59);
   (anon_sym_scale, ACTIONS 59); (anon_sym_rotate, ACTIONS 59); (anon_sym_translate, ACTIONS 59);
   (anon_sym_center_in, ACTIONS 59); (anon_sym_offset, ACTIONS 59); (anon_sym_ease, ACTIONS 59);
   (anon_sym_duration, ACTIONS 59); (anon_sym_anim, ACTIONS 61)];
  (* 14 *)
  [(sym_comment, ACTIONS 3); (anon_sym_POUND_POUND, ACTIONS 94); (anon_sym_RBRACE, ACTIONS 94);
   (anon_sym_group, ACTIONS 96); (anon_sym_rect, ACTIONS 96); (anon_sym_ellipse, ACTIONS 96);
   (anon_sym_path, ACTIONS 96); (anon_sym_text, ACTIONS 96); (anon_sym_w, ACTIONS 96);
   (anon_sym_h, ACTIONS 96); (anon_sym_width, ACTIONS 96); (anon_sym_height, ACTIONS 96);
   (anon_sym_fill, ACTIONS 96); (anon_sym_stroke, ACTIONS 96); (anon_sym_corner, ACTIONS 96);
   (anon_sym_opacity, ACTIONS 96); (anon_sym_font, ACTIONS 96); (anon_sym_bg, ACTIONS 96);
   (anon_sym_use, ACTIONS 96); (anon_sym_layout, ACTIONS 96); (anon_sym_shadow, ACTIONS 96);
   (anon_sym_scale, ACTIONS 96); (anon_sym_rotate, ACTIONS 96); (anon_sym_translate, ACTIONS 96);
   (anon_sym_center_in, ACTIONS 96); (anon_sym_offset, ACTIONS 96); (anon_sym_ease, ACTIONS 96);
   (anon_sym_duration, ACTIONS 96); (anon_sym_EQ, ACTIONS 98); (anon_sym_anim, ACTIONS 96);
   (anon_sym_AT, ACTIONS 94); (sym_identifier, ACTIONS 96); (sym_number, ACTIONS 94);
   (sym_hex_color, ACTIONS 94); (anon_sym_DQUOTE, ACTIONS 94)];
  (* 15 *)
  [(sym_comment, ACTIONS 3); (anon_sym_POUND_POUND, ACTIONS 100); (anon_sym_RBRACE, ACTIONS 100);
   (anon_sym_group, ACTIONS 102); (anon_sym_rect, ACTIONS 102); (anon_sym_ellipse, ACTIONS 102);
   (anon_sym_path, ACTIONS 102); (anon_sym_text, ACTIONS 102); (anon_sym_w, ACTIONS 102);
   (anon_sym_h, ACTIONS 102); (anon_sym_width, ACTIONS 102); (anon_sym_height, ACTIONS 102);
   (anon_sym_fill, ACTIONS 102); (anon_sym_stroke, ACTIONS 102); (anon_sym_corner, ACTIONS 102);
   (anon_sym_opacity, ACTIONS 102); (anon_sym_font, ACTIONS 102); (anon_sym_bg, ACTIONS 102);
   (anon_sym_use, ACTIONS 102); (anon_sym_layout, ACTIONS 102); (anon_sym_shadow, ACTIONS 102);
   (anon_sym_scale, ACTIONS 102); (anon_sym_rotate, ACTIONS 102);
   (anon_sym_translate, ACTIONS 102); (anon_sym_center_in, ACTIONS 102);
   (anon_sym_offset, ACTIONS 102); (anon_sym_ease, ACTIONS 102); (anon_sym_duration, ACTIONS 102);
   (anon_sym_anim, ACTIONS 102); (anon_sym_AT, ACTIONS 100); (sym_identifier, ACTIONS 102);
   (sym_number, ACTIONS 100); (sym_hex_color, ACTIONS 100); (anon_sym_DQUOTE, ACTIONS 100)];
  (* 16 *)
  [(sym_comment, ACTIONS 3); (anon_sym_POUND_POUND, ACTIONS 104); (anon_sym_RBRACE, ACTIONS 104);
   (anon_sym_group, ACTIONS 106); (anon_sym_rect, ACTIONS 106); (anon_sym_ellipse, ACTIONS 106);
   (anon_sym_path, ACTIONS 106); (anon_sym_text, ACTIONS 106); (anon_sym_w, ACTIONS 106);
   (anon_sym_h, ACTIONS 106); (anon_sym_width, ACTIONS 106); (anon_sym_height, ACTIONS 106);
   (anon_sym_fill, ACTIONS 106); (anon_sym_stroke, ACTIONS 106); (anon_sym_corner, ACTIONS 106);
   (anon_sym_opacity, ACTIONS 106); (anon_sym_font, ACTIONS 106); (anon_sym_bg, ACTIONS 106);
   (anon_sym_use, ACTIONS 106); (anon_sym_layout, ACTIONS 106); (anon_sym_shadow, ACTIONS 106);
   (anon_sym_scale, ACTIONS 106); (anon_sym_rotate, ACTIONS 106);
   (anon_sym_translate, ACTIONS 106); (anon_sym_center_in, ACTIONS 106);
   (anon_sym_offset, ACTIONS 106); (anon_sym_ease, ACTIONS 106); (anon_sym_duration, ACTIONS 106);
   (anon_sym_anim, ACTIONS 106); (anon_sym_AT, ACTIONS 104); (sym_identifier, ACTIONS 106);
   (sym_number, ACTIONS 104); (sym_hex_color, ACTIONS 104); (anon_sym_DQUOTE, ACTIONS 104)];
  (* 17 *)
  [(sym_comment, ACTIONS 3); (anon_sym_POUND_POUND, ACTIONS 108); (anon_sym_RBRACE, ACTIONS 108);
   (anon_sym_group, ACTIONS 110); (anon_sym_rect, ACTIONS 110); (anon_sym_ellipse, ACTIONS 110);
   (anon_sym_path, ACTIONS 110); (anon_sym_text, ACTIONS 110); (anon_sym_w, ACTIONS 110);
   (anon_sym_h, ACTIONS 110); (anon_sym_width, ACTIONS 110); (anon_sym_height, ACTIONS 110);
   (anon_sym_fill, ACTIONS 110); (anon_sym_stroke, ACTIONS 110); (anon_sym_corner, ACTIONS 110);
   (anon_sym_opacity, ACTIONS 110); (anon_sym_font, ACTIONS 110); (anon_sym_bg, ACTIONS 110);
   (anon_sym_use, ACTIONS 110); (anon_sym_layout, ACTIONS 110); (anon_sym_shadow, ACTIONS 110);
   (anon_sym_scale, ACTIONS 110); (anon_sym_rotate, ACTIONS 110);
   (anon_sym_translate, ACTIONS 110); (anon_sym_center_in, ACTIONS 110);
   (anon_sym_offset, ACTIONS 110); (anon_sym_ease, ACTIONS 110); (anon_sym_duration, ACTIONS 110);
   (anon_sym_anim, ACTIONS 110); (anon_sym_AT, ACTIONS 108); (sym_identifier, ACTIONS 110);
   (sym_number, ACTIONS 108); (sym_hex_color, ACTIONS 108); (anon_sym_DQUOTE, ACTIONS 108)]
].

(** [ts_small_parse_table]: for every small state the groups of symbols
    that share a cell, keyed by the offset of the state in the array. *)
Definition ts_small_parse_table : list (N * list (table_cell * list TSSymbol)) := [
  (0,
   [(ACTIONS 7, [sym_comment]);
    (ACTIONS 102, [anon_sym_w; anon_sym_h]);
    (ACTIONS 100, [ts_builtin_sym_end; anon_sym_POUND_POUND; anon_sym_style; anon_sym_LBRACE; anon_sym_RBRACE;
        anon_sym_group; anon_sym_rect; anon_sym_ellipse; anon_sym_path; anon_sym_text;
        anon_sym_width; anon_sym_height; anon_sym_fill; anon_sym_stroke; anon_sym_corner;
        anon_sym_opacity; anon_sym_font; anon_sym_bg; anon_sym_use; anon_sym_layout;
        anon_sym_shadow; anon_sym_scale; anon_sym_rotate; anon_sym_translate; anon_sym_center_in;
        anon_sym_offset; anon_sym_ease; anon_sym_duration; anon_sym_anim; anon_sym_AT])]);
  (40,
   [(ACTIONS 3, [sym_comment]);
    (ACTIONS 29, [anon_sym_RBRACE]);
    (ACTIONS 112, [anon_sym_AT]);
    (ACTIONS 115, [sym_identifier]);
    (ACTIONS 121, [anon_sym_DQUOTE]);
    (ACTIONS 118, [sym_number; sym_hex_color]);
    (STATE 19, [sym__value_item; sym_key_value_pair; sym_node_id; sym_string; aux_sym_property_repeat1]);
    (ACTIONS 31, [anon_sym_w; anon_sym_h; anon_sym_width; anon_sym_height; anon_sym_fill; anon_sym_stroke;
        anon_sym_corner; anon_sym_opacity; anon_sym_font; anon_sym_bg; anon_sym_use;
        anon_sym_layout; anon_sym_shadow; anon_sym_scale; anon_sym_rotate; anon_sym_translate;
        anon_sym_center_in; anon_sym_offset; anon_sym_ease; anon_sym_duration])]);
  (89,
   [(ACTIONS 7, [sym_comment]);
    (ACTIONS 126, [anon_sym_w; anon_sym_h]);
    (ACTIONS 124, [ts_builtin_sym_end; anon_sym_POUND_POUND; anon_sym_style; anon_sym_RBRACE; anon_sym_group;
        anon_sym_rect; anon_sym_ellipse; anon_sym_path; anon_sym_text; anon_sym_width;
        anon_sym_height; anon_sym_fill; anon_sym_stroke; anon_sym_corner; anon_sym_opacity;
        anon_sym_font; anon_sym_bg; anon_sym_use; anon_sym_layout; anon_sym_shadow; anon_sym_scale;
        anon_sym_rotate; anon_sym_translate; anon_sym_center_in; anon_sym_offset; anon_sym_ease;
        anon_sym_duration; anon_sym_anim; anon_sym_AT])]);
  (128,
   [(ACTIONS 7, [sym_comment]);
    (ACTIONS 130, [anon_sym_w; anon_sym_h]);
    (ACTIONS 128, [ts_builtin_sym_end; anon_sym_POUND_POUND; anon_sym_style; anon_sym_RBRACE; anon_sym_group;
        anon_sym_rect; anon_sym_ellipse; anon_sym_path; anon_sym_text; anon_sym_width;
        anon_sym_height; anon_sym_fill; anon_sym_stroke; anon_sym_corner; anon_sym_opacity;
        anon_sym_font; anon_sym_bg; anon_sym_use; anon_sym_layout; anon_sym_shadow; anon_sym_scale;
        anon_sym_rotate; anon_sym_translate; anon_sym_center_in; anon_sym_offset; anon_sym_ease;
        anon_sym_duration; anon_sym_anim; anon_sym_AT])]);
  (167,
   [(ACTIONS 7, [sym_comment]);
    (ACTIONS 134, [anon_sym_w; anon_sym_h]);
    (ACTIONS 132, [ts_builtin_sym_end; anon_sym_POUND_POUND; anon_sym_style; anon_sym_RBRACE; anon_sym_group;
        anon_sym_rect; anon_sym_ellipse; anon_sym_path; anon_sym_text; anon_sym_width;
        anon_sym_height; anon_sym_fill; anon_sym_stroke; anon_sym_corner; anon_sym_opacity;
        anon_sym_font; anon_sym_bg; anon_sym_use; anon_sym_layout; anon_sym_shadow; anon_sym_scale;
        anon_sym_rotate; anon_sym_translate; anon_sym_center_in; anon_sym_offset; anon_sym_ease;
        anon_sym_duration; anon_sym_anim; anon_sym_AT])]);
  (206,
   [(ACTIONS 7, [sym_comment]);
    (ACTIONS 138, [anon_sym_w; anon_sym_h]);
    (ACTIONS 136, [ts_builtin_sym_end; anon_sym_POUND_POUND; anon_sym_style; anon_sym_RBRACE; anon_sym_group;
        anon_sym_rect; anon_sym_ellipse; anon_sym_path; anon_sym_text; anon_sym_width;
        anon_sym_height; anon_sym_fill; anon_sym_stroke; anon_sym_corner; anon_sym_opacity;
        anon_sym_font; anon_sym_bg; anon_sym_use; anon_sym_layout; anon_sym_shadow; anon_sym_scale;
        anon_sym_rotate; anon_sym_translate; anon_sym_center_in; anon_sym_offset; anon_sym_ease;
        anon_sym_duration; anon_sym_anim; anon_sym_AT])]);
  (245,
   [(ACTIONS 7, [sym_comment]);
    (ACTIONS 142, [anon_sym_w; anon_sym_h]);
    (ACTIONS 140, [ts_builtin_sym_end; anon_sym_POUND_POUND; anon_sym_style; anon_sym_RBRACE; anon_sym_group;
        anon_sym_rect; anon_sym_ellipse; anon_sym_path; anon_sym_text; anon_sym_width;
        anon_sym_height; anon_sym_fill; anon_sym_stroke; anon_sym_corner; anon_sym_opacity;
        anon_sym_font; anon_sym_bg; anon_sym_use; anon_sym_layout; anon_sym_shadow; anon_sym_scale;
        anon_sym_rotate; anon_sym_translate; anon_sym_center_in; anon_sym_offset; anon_sym_ease;
        anon_sym_duration; anon_sym_anim; anon_sym_AT])]);
  (284,
   [(ACTIONS 7, [sym_comment]);
    (ACTIONS 146, [anon_sym_w; anon_sym_h]);
    (ACTIONS 144, [ts_builtin_sym_end; anon_sym_POUND_POUND; anon_sym_style; anon_sym_RBRACE; anon_sym_group;
        anon_sym_rect; anon_sym_ellipse; anon_sym_path; anon_sym_text; anon_sym_width;
        anon_sym_height; anon_sym_fill; anon_sym_stroke; anon_sym_corner; anon_sym_opacity;
        anon_sym_font; anon_sym_bg; anon_sym_use; anon_sym_layout; anon_sym_shadow; anon_sym_scale;
        anon_sym_rotate; anon_sym_translate; anon_sym_center_in; anon_sym_offset; anon_sym_ease;
        anon_sym_duration; anon_sym_anim; anon_sym_AT])]);
  (323,
   [(ACTIONS 7, [sym_comment]);
    (ACTIONS 150, [anon_sym_w; anon_sym_h]);
    (ACTIONS 148, [ts_builtin_sym_end; anon_sym_POUND_POUND; anon_sym_style; anon_sym_RBRACE; anon_sym_group;
        anon_sym_rect; anon_sym_ellipse; anon_sym_path; anon_sym_text; anon_sym_width;
        anon_sym_height; anon_sym_fill; anon_sym_stroke; anon_sym_corner; anon_sym_opacity;
        anon_sym_font; anon_sym_bg; anon_sym_use; anon_sym_layout; anon_sym_shadow; anon_sym_scale;
        anon_sym_rotate; anon_sym_translate; anon_sym_center_in; anon_sym_offset; anon_sym_ease;
        anon_sym_duration; anon_sym_anim; anon_sym_AT])]);
  (362,
   [(ACTIONS 7, [sym_comment]);
    (ACTIONS 154, [anon_sym_w; anon_sym_h]);
    (ACTIONS 152, [ts_builtin_sym_end; anon_sym_POUND_POUND; anon_sym_style; anon_sym_RBRACE; anon_sym_group;
        anon_sym_rect; anon_sym_ellipse; anon_sym_path; anon_sym_text; anon_sym_width;
        anon_sym_height; anon_sym_fill; anon_sym_stroke; anon_sym_corner; anon_sym_opacity;
        anon_sym_font; anon_sym_bg; anon_sym_use; anon_sym_layout; anon_sym_shadow; anon_sym_scale;
        anon_sym_rotate; anon_sym_translate; anon_sym_center_in; anon_sym_offset; anon_sym_ease;
        anon_sym_duration; anon_sym_anim; anon_sym_AT])]);
  (401,
   [(ACTIONS 7, [sym_comment]);
    (ACTIONS 158, [anon_sym_w; anon_sym_h]);
    (ACTIONS 156, [ts_builtin_sym_end; anon_sym_POUND_POUND; anon_sym_style; anon_sym_RBRACE; anon_sym_group;
        anon_sym_rect; anon_sym_ellipse; anon_sym_path; anon_sym_text; anon_sym_width;
        anon_sym_height; anon_sym_fill; anon_sym_stroke; anon_sym_corner; anon_sym_opacity;
        anon_sym_font; anon_sym_bg; anon_sym_use; anon_sym_layout; anon_sym_shadow; anon_sym_scale;
        anon_sym_rotate; anon_sym_translate; anon_sym_center_in; anon_sym_offset; anon_sym_ease;
        anon_sym_duration; anon_sym_anim; anon_sym_AT])]);
  (440,
   [(ACTIONS 7, [sym_comment]);
    (ACTIONS 162, [anon_sym_w; anon_sym_h]);
    (ACTIONS 160, [ts_builtin_sym_end; anon_sym_POUND_POUND; anon_sym_style; anon_sym_RBRACE; anon_sym_group;
        anon_sym_rect; anon_sym_ellipse; anon_sym_path; anon_sym_text; anon_sym_width;
        anon_sym_height; anon_sym_fill; anon_sym_stroke; anon_sym_corner; anon_sym_opacity;
        anon_sym_font; anon_sym_bg; anon_sym_use; anon_sym_layout; anon_sym_shadow; anon_sym_scale;
        anon_sym_rotate; anon_sym_translate; anon_sym_center_in; anon_sym_offset; anon_sym_ease;
        anon_sym_duration; anon_sym_anim; anon_sym_AT])]);
  (479,
   [(ACTIONS 3, [sym_comment]);
    (ACTIONS 17, [anon_sym_RBRACE]);
    (ACTIONS 164, [anon_sym_AT]);
    (ACTIONS 166, [sym_identifier]);
    (ACTIONS 170, [anon_sym_DQUOTE]);
    (ACTIONS 168, [sym_number; sym_hex_color]);
    (STATE 19, [sym__value_item; sym_key_value_pair; sym_node_id; sym_string; aux_sym_property_repeat1]);
    (ACTIONS 19, [anon_sym_w; anon_sym_h; anon_sym_width; anon_sym_height; anon_sym_fill; anon_sym_stroke;
        anon_sym_corner; anon_sym_opacity; anon_sym_font; anon_sym_bg; anon_sym_use;
        anon_sym_layout; anon_sym_shadow; anon_sym_scale; anon_sym_rotate; anon_sym_translate;
        anon_sym_center_in; anon_sym_offset; anon_sym_ease; anon_sym_duration])]);
  (528,
   [(ACTIONS 7, [sym_comment]);
    (ACTIONS 174, [anon_sym_w; anon_sym_h]);
    (ACTIONS 172, [anon_sym_POUND_POUND; anon_sym_RBRACE; anon_sym_group; anon_sym_rect; anon_sym_ellipse;
        anon_sym_path; anon_sym_text; anon_sym_width; anon_sym_height; anon_sym_fill;
        anon_sym_stroke; anon_sym_corner; anon_sym_opacity; anon_sym_font; anon_sym_bg;
        anon_sym_use; anon_sym_layout; anon_sym_shadow; anon_sym_scale; anon_sym_rotate;
        anon_sym_translate; anon_sym_center_in; anon_sym_offset; anon_sym_ease; anon_sym_duration;
        anon_sym_anim])]);
  (564,
   [(ACTIONS 7, [sym_comment]);
    (ACTIONS 178, [anon_sym_w; anon_sym_h]);
    (ACTIONS 176, [anon_sym_POUND_POUND; anon_sym_RBRACE; anon_sym_group; anon_sym_rect; anon_sym_ellipse;
        anon_sym_path; anon_sym_text; anon_sym_width; anon_sym_height; anon_sym_fill;
        anon_sym_stroke; anon_sym_corner; anon_sym_opacity; anon_sym_font; anon_sym_bg;
        anon_sym_use; anon_sym_layout; anon_sym_shadow; anon_sym_scale; anon_sym_rotate;
        anon_sym_translate; anon_sym_center_in; anon_sym_offset; anon_sym_ease; anon_sym_duration;
        anon_sym_anim])]);
  (600,
   [(ACTIONS 7, [sym_comment]);
    (ACTIONS 182, [anon_sym_w; anon_sym_h]);
    (ACTIONS 180, [anon_sym_POUND_POUND; anon_sym_RBRACE; anon_sym_group; anon_sym_rect; anon_sym_ellipse;
        anon_sym_path; anon_sym_text; anon_sym_width; anon_sym_height; anon_sym_fill;
        anon_sym_stroke; anon_sym_corner; anon_sym_opacity; anon_sym_font; anon_sym_bg;
        anon_sym_use; anon_sym_layout; anon_sym_shadow; anon_sym_scale; anon_sym_rotate;
        anon_sym_translate; anon_sym_center_in; anon_sym_offset; anon_sym_ease; anon_sym_duration;
        anon_sym_anim])]);
  (636,
   [(ACTIONS 3, [sym_comment]);
    (ACTIONS 184, [anon_sym_EQ]);
    (ACTIONS 94, [anon_sym_RBRACE; anon_sym_AT; sym_number; sym_hex_color; anon_sym_DQUOTE]);
    (ACTIONS 96, [anon_sym_w; anon_sym_h; anon_sym_width; anon_sym_height; anon_sym_fill; anon_sym_stroke;
        anon_sym_corner; anon_sym_opacity; anon_sym_font; anon_sym_bg; anon_sym_use;
        anon_sym_layout; anon_sym_shadow; anon_sym_scale; anon_sym_rotate; anon_sym_translate;
        anon_sym_center_in; anon_sym_offset; anon_sym_ease; anon_sym_duration; sym_identifier])]);
  (673,
   [(ACTIONS 3, [sym_comment]);
    (ACTIONS 100, [anon_sym_RBRACE; anon_sym_AT; sym_number; sym_hex_color; anon_sym_DQUOTE]);
    (ACTIONS 102, [anon_sym_w; anon_sym_h; anon_sym_width; anon_sym_height; anon_sym_fill; anon_sym_stroke;
        anon_sym_corner; anon_sym_opacity; anon_sym_font; anon_sym_bg; anon_sym_use;
        anon_sym_layout; anon_sym_shadow; anon_sym_scale; anon_sym_rotate; anon_sym_translate;
        anon_sym_center_in; anon_sym_offset; anon_sym_ease; anon_sym_duration; sym_identifier])]);
  (707,
   [(ACTIONS 3, [sym_comment]);
    (ACTIONS 104, [anon_sym_RBRACE; anon_sym_AT; sym_number; sym_hex_color; anon_sym_DQUOTE]);
    (ACTIONS 106, [anon_sym_w; anon_sym_h; anon_sym_width; anon_sym_height; anon_sym_fill; anon_sym_stroke;
        anon_sym_corner; anon_sym_opacity; anon_sym_font; anon_sym_bg; anon_sym_use;
        anon_sym_layout; anon_sym_shadow; anon_sym_scale; anon_sym_rotate; anon_sym_translate;
        anon_sym_center_in; anon_sym_offset; anon_sym_ease; anon_sym_duration; sym_identifier])]);
  (741,
   [(ACTIONS 3, [sym_comment]);
    (ACTIONS 108, [anon_sym_RBRACE; anon_sym_AT; sym_number; sym_hex_color; anon_sym_DQUOTE]);
    (ACTIONS 110, [anon_sym_w; anon_sym_h; anon_sym_width; anon_sym_height; anon_sym_fill; anon_sym_stroke;
        anon_sym_corner; anon_sym_opacity; anon_sym_font; anon_sym_bg; anon_sym_use;
        anon_sym_layout; anon_sym_shadow; anon_sym_scale; anon_sym_rotate; anon_sym_translate;
        anon_sym_center_in; anon_sym_offset; anon_sym_ease; anon_sym_duration; sym_identifier])]);
  (775,
   [(ACTIONS 7, [sym_comment]);
    (ACTIONS 186, [anon_sym_RBRACE]);
    (STATE 91, [sym_property_name]);
    (ACTIONS 57, [anon_sym_w; anon_sym_h]);
    (STATE 42, [sym_property; aux_sym_style_block_repeat1]);
    (ACTIONS 59, [anon_sym_width; anon_sym_height; anon_sym_fill; anon_sym_stroke; anon_sym_corner;
        anon_sym_opacity; anon_sym_font; anon_sym_bg; anon_sym_use; anon_sym_layout;
        anon_sym_shadow; anon_sym_scale; anon_sym_rotate; anon_sym_translate; anon_sym_center_in;
        anon_sym_offset; anon_sym_ease; anon_sym_duration])]);
  (813,
   [(ACTIONS 7, [sym_comment]);
    (ACTIONS 188, [anon_sym_RBRACE]);
    (STATE 91, [sym_property_name]);
    (ACTIONS 57, [anon_sym_w; anon_sym_h]);
    (STATE 40, [sym_property; aux_sym_style_block_repeat1]);
    (ACTIONS 59, [anon_sym_width; anon_sym_height; anon_sym_fill; anon_sym_stroke; anon_sym_corner;
        anon_sym_opacity; anon_sym_font; anon_sym_bg; anon_sym_use; anon_sym_layout;
        anon_sym_shadow; anon_sym_scale; anon_sym_rotate; anon_sym_translate; anon_sym_center_in;
        anon_sym_offset; anon_sym_ease; anon_sym_duration])]);
  (851,
   [(ACTIONS 7, [sym_comment]);
    (ACTIONS 190, [anon_sym_RBRACE]);
    (STATE 91, [sym_property_name]);
    (ACTIONS 192, [anon_sym_w; anon_sym_h]);
    (STATE 40, [sym_property; aux_sym_style_block_repeat1]);
    (ACTIONS 195, [anon_sym_width; anon_sym_height; anon_sym_fill; anon_sym_stroke; anon_sym_corner;
        anon_sym_opacity; anon_sym_font; anon_sym_bg; anon_sym_use; anon_sym_layout;
        anon_sym_shadow; anon_sym_scale; anon_sym_rotate; anon_sym_translate; anon_sym_center_in;
        anon_sym_offset; anon_sym_ease; anon_sym_duration])]);
  (889,
   [(ACTIONS 7, [sym_comment]);
    (ACTIONS 198, [anon_sym_RBRACE]);
    (STATE 91, [sym_property_name]);
    (ACTIONS 57, [anon_sym_w; anon_sym_h]);
    (STATE 39, [sym_property; aux_sym_style_block_repeat1]);
    (ACTIONS 59, [anon_sym_width; anon_sym_height; anon_sym_fill; anon_sym_stroke; anon_sym_corner;
        anon_sym_opacity; anon_sym_font; anon_sym_bg; anon_sym_use; anon_sym_layout;
        anon_sym_shadow; anon_sym_scale; anon_sym_rotate; anon_sym_translate; anon_sym_center_in;
        anon_sym_offset; anon_sym_ease; anon_sym_duration])]);
  (927,
   [(ACTIONS 7, [sym_comment]);
    (ACTIONS 200, [anon_sym_RBRACE]);
    (STATE 91, [sym_property_name]);
    (ACTIONS 57, [anon_sym_w; anon_sym_h]);
    (STATE 40, [sym_property; aux_sym_style_block_repeat1]);
    (ACTIONS 59, [anon_sym_width; anon_sym_height; anon_sym_fill; anon_sym_stroke; anon_sym_corner;
        anon_sym_opacity; anon_sym_font; anon_sym_bg; anon_sym_use; anon_sym_layout;
        anon_sym_shadow; anon_sym_scale; anon_sym_rotate; anon_sym_translate; anon_sym_center_in;
        anon_sym_offset; anon_sym_ease; anon_sym_duration])]);
  (965,
   [(ACTIONS 3, [sym_comment]);
    (ACTIONS 206, [anon_sym_AT]);
    (ACTIONS 208, [sym_identifier]);
    (ACTIONS 212, [anon_sym_DQUOTE]);
    (ACTIONS 202, [ts_builtin_sym_end; anon_sym_POUND_POUND]);
    (ACTIONS 210, [sym_number; sym_hex_color]);
    (STATE 44, [sym__value_item; sym_key_value_pair; sym_node_id; sym_string; aux_sym_property_repeat1]);
    (ACTIONS 204, [anon_sym_style; anon_sym_group; anon_sym_rect; anon_sym_ellipse; anon_sym_path;
        anon_sym_text])]);
  (1001,
   [(ACTIONS 3, [sym_comment]);
    (ACTIONS 214, [anon_sym_AT]);
    (ACTIONS 217, [sym_identifier]);
    (ACTIONS 223, [anon_sym_DQUOTE]);
    (ACTIONS 29, [ts_builtin_sym_end; anon_sym_POUND_POUND]);
    (ACTIONS 220, [sym_number; sym_hex_color]);
    (STATE 44, [sym__value_item; sym_key_value_pair; sym_node_id; sym_string; aux_sym_property_repeat1]);
    (ACTIONS 31, [anon_sym_style; anon_sym_group; anon_sym_rect; anon_sym_ellipse; anon_sym_path;
        anon_sym_text])]);
  (1037,
   [(ACTIONS 3, [sym_comment]);
    (ACTIONS 47, [sym_annotation_text]);
    (ACTIONS 51, [anon_sym_DQUOTE]);
    (ACTIONS 226, [ts_builtin_sym_end]);
    (STATE 86, [sym_annotation_keyword]);
    (STATE 25, [sym_annotation_typed; sym_string]);
    (ACTIONS 49, [anon_sym_accept; anon_sym_status; anon_sym_priority; anon_sym_tag]);
    (ACTIONS 45, [anon_sym_POUND_POUND; anon_sym_style; anon_sym_group; anon_sym_rect; anon_sym_ellipse;
        anon_sym_path; anon_sym_text; anon_sym_AT])]);
  (1073,
   [(ACTIONS 7, [sym_comment]);
    (ACTIONS 228, [ts_builtin_sym_end]);
    (ACTIONS 230, [anon_sym_POUND_POUND]);
    (ACTIONS 233, [anon_sym_style]);
    (ACTIONS 239, [anon_sym_AT]);
    (STATE 60, [sym_node_kind]);
    (STATE 72, [sym_node_id]);
    (ACTIONS 236, [anon_sym_group; anon_sym_rect; anon_sym_ellipse; anon_sym_path; anon_sym_text]);
    (STATE 46, [sym_annotation; sym_style_block; sym_node_declaration; sym_constraint_line;
        aux_sym_document_repeat1])]);
  (1109,
   [(ACTIONS 7, [sym_comment]);
    (ACTIONS 9, [anon_sym_POUND_POUND]);
    (ACTIONS 11, [anon_sym_style]);
    (ACTIONS 15, [anon_sym_AT]);
    (ACTIONS 242, [ts_builtin_sym_end]);
    (STATE 60, [sym_node_kind]);
    (STATE 72, [sym_node_id]);
    (ACTIONS 13, [anon_sym_group; anon_sym_rect; anon_sym_ellipse; anon_sym_path; anon_sym_text]);
    (STATE 46, [sym_annotation; sym_style_block; sym_node_declaration; sym_constraint_line;
        aux_sym_document_repeat1])]);
  (1145,
   [(ACTIONS 3, [sym_comment]);
    (ACTIONS 244, [anon_sym_EQ]);
    (ACTIONS 94, [ts_builtin_sym_end; anon_sym_POUND_POUND; anon_sym_AT; sym_number; sym_hex_color;
        anon_sym_DQUOTE]);
    (ACTIONS 96, [anon_sym_style; anon_sym_group; anon_sym_rect; anon_sym_ellipse; anon_sym_path;
        anon_sym_text; sym_identifier])]);
  (1169,
   [(ACTIONS 3, [sym_comment]);
    (ACTIONS 104, [ts_builtin_sym_end; anon_sym_POUND_POUND; anon_sym_AT; sym_number; sym_hex_color;
        anon_sym_DQUOTE]);
    (ACTIONS 106, [anon_sym_style; anon_sym_group; anon_sym_rect; anon_sym_ellipse; anon_sym_path;
        anon_sym_text; sym_identifier])]);
  (1190,
   [(ACTIONS 3, [sym_comment]);
    (ACTIONS 108, [ts_builtin_sym_end; anon_sym_POUND_POUND; anon_sym_AT; sym_number; sym_hex_color;
        anon_sym_DQUOTE]);
    (ACTIONS 110, [anon_sym_style; anon_sym_group; anon_sym_rect; anon_sym_ellipse; anon_sym_path;
        anon_sym_text; sym_identifier])]);
  (1211,
   [(ACTIONS 3, [sym_comment]);
    (ACTIONS 100, [ts_builtin_sym_end; anon_sym_POUND_POUND; anon_sym_AT; sym_number; sym_hex_color;
        anon_sym_DQUOTE]);
    (ACTIONS 102, [anon_sym_style; anon_sym_group; anon_sym_rect; anon_sym_ellipse; anon_sym_path;
        anon_sym_text; sym_identifier])]);
  (1232,
   [(ACTIONS 3, [sym_comment]);
    (ACTIONS 206, [anon_sym_AT]);
    (ACTIONS 212, [anon_sym_DQUOTE]);
    (ACTIONS 246, [sym_identifier]);
    (ACTIONS 248, [sym_number; sym_hex_color]);
    (STATE 43, [sym__value_item; sym_key_value_pair; sym_node_id; sym_string; aux_sym_property_repeat1])]);
  (1256,
   [(ACTIONS 3, [sym_comment]);
    (ACTIONS 21, [anon_sym_AT]);
    (ACTIONS 27, [anon_sym_DQUOTE]);
    (ACTIONS 250, [sym_identifier]);
    (ACTIONS 252, [sym_number; sym_hex_color]);
    (STATE 2, [sym__value_item; sym_key_value_pair; sym_node_id; sym_string; aux_sym_property_repeat1])]);
  (1280,
   [(ACTIONS 3, [sym_comment]);
    (ACTIONS 164, [anon_sym_AT]);
    (ACTIONS 170, [anon_sym_DQUOTE]);
    (ACTIONS 254, [sym_identifier]);
    (ACTIONS 256, [sym_number; sym_hex_color]);
    (STATE 30, [sym__value_item; sym_key_value_pair; sym_node_id; sym_string; aux_sym_property_repeat1])]);
  (1304,
   [(ACTIONS 7, [sym_comment]);
    (ACTIONS 258, [ts_builtin_sym_end; anon_sym_POUND_POUND; anon_sym_style; anon_sym_group; anon_sym_rect;
        anon_sym_ellipse; anon_sym_path; anon_sym_text; anon_sym_AT])]);
  (1319,
   [(ACTIONS 7, [sym_comment]);
    (ACTIONS 260, [ts_builtin_sym_end; anon_sym_POUND_POUND; anon_sym_style; anon_sym_group; anon_sym_rect;
        anon_sym_ellipse; anon_sym_path; anon_sym_text; anon_sym_AT])]);
  (1334,
   [(ACTIONS 3, [sym_comment]);
    (ACTIONS 212, [anon_sym_DQUOTE]);
    (STATE 50, [sym_string]);
    (ACTIONS 262, [sym_identifier; sym_number; sym_hex_color])]);
  (1349,
   [(ACTIONS 3, [sym_comment]);
    (ACTIONS 170, [anon_sym_DQUOTE]);
    (STATE 37, [sym_string]);
    (ACTIONS 264, [sym_identifier; sym_number; sym_hex_color])]);
  (1364,
   [(ACTIONS 3, [sym_comment]);
    (ACTIONS 27, [anon_sym_DQUOTE]);
    (STATE 17, [sym_string]);
    (ACTIONS 266, [sym_identifier; sym_number; sym_hex_color])]);
  (1379,
   [(ACTIONS 7, [sym_comment]);
    (ACTIONS 15, [anon_sym_AT]);
    (ACTIONS 268, [anon_sym_LBRACE]);
    (ACTIONS 270, [anon_sym_DQUOTE]);
    (STATE 62, [sym_node_id]);
    (STATE 78, [sym_string])]);
  (1398,
   [(ACTIONS 7, [sym_comment]);
    (ACTIONS 104, [anon_sym_LBRACE; anon_sym_DASH_GT; anon_sym_DQUOTE])]);
  (1407,
   [(ACTIONS 7, [sym_comment]);
    (ACTIONS 270, [anon_sym_DQUOTE]);
    (ACTIONS 272, [anon_sym_LBRACE]);
    (STATE 80, [sym_string])]);
  (1420,
   [(ACTIONS 3, [sym_comment]);
    (ACTIONS 51, [anon_sym_DQUOTE]);
    (ACTIONS 274, [sym_annotation_text]);
    (STATE 27, [sym_string])]);
  (1433,
   [(ACTIONS 7, [sym_comment]);
    (ACTIONS 276, [anon_sym_LBRACE; anon_sym_AT; anon_sym_DQUOTE])]);
  (1442,
   [(ACTIONS 7, [sym_comment]);
    (ACTIONS 278, [anon_sym_COLON]);
    (STATE 71, [sym_anim_trigger])]);
  (1452,
   [(ACTIONS 7, [sym_comment]);
    (ACTIONS 280, [anon_sym_DQUOTE])]);
  (1459,
   [(ACTIONS 7, [sym_comment]);
    (ACTIONS 282, [anon_sym_LBRACE])]);
  (1466,
   [(ACTIONS 7, [sym_comment]);
    (ACTIONS 284, [ts_builtin_sym_end])]);
  (1473,
   [(ACTIONS 7, [sym_comment]);
    (ACTIONS 286, [anon_sym_DQUOTE])]);
  (1480,
   [(ACTIONS 7, [sym_comment]);
    (ACTIONS 288, [sym_identifier])]);
  (1487,
   [(ACTIONS 7, [sym_comment]);
    (ACTIONS 290, [anon_sym_LBRACE])]);
  (1494,
   [(ACTIONS 7, [sym_comment]);
    (ACTIONS 292, [anon_sym_DASH_GT])]);
  (1501,
   [(ACTIONS 7, [sym_comment]);
    (ACTIONS 294, [anon_sym_COLON])]);
  (1508,
   [(ACTIONS 7, [sym_comment]);
    (ACTIONS 296, [sym_identifier])]);
  (1515,
   [(ACTIONS 7, [sym_comment]);
    (ACTIONS 298, [sym_identifier])]);
  (1522,
   [(ACTIONS 7, [sym_comment]);
    (ACTIONS 300, [anon_sym_LBRACE])]);
  (1529,
   [(ACTIONS 7, [sym_comment]);
    (ACTIONS 302, [anon_sym_COLON])]);
  (1536,
   [(ACTIONS 7, [sym_comment]);
    (ACTIONS 304, [anon_sym_LBRACE])]);
  (1543,
   [(ACTIONS 7, [sym_comment]);
    (ACTIONS 306, [anon_sym_COLON])]);
  (1550,
   [(ACTIONS 7, [sym_comment]);
    (ACTIONS 308, [anon_sym_LBRACE])]);
  (1557,
   [(ACTIONS 7, [sym_comment]);
    (ACTIONS 310, [sym_identifier])]);
  (1564,
   [(ACTIONS 7, [sym_comment]);
    (ACTIONS 312, [anon_sym_DQUOTE])]);
  (1571,
   [(ACTIONS 3, [sym_comment]);
    (ACTIONS 314, [aux_sym_string_token1])]);
  (1578,
   [(ACTIONS 7, [sym_comment]);
    (ACTIONS 316, [anon_sym_COLON])]);
  (1585,
   [(ACTIONS 7, [sym_comment]);
    (ACTIONS 318, [sym_identifier])]);
  (1592,
   [(ACTIONS 7, [sym_comment]);
    (ACTIONS 320, [anon_sym_COLON])]);
  (1599,
   [(ACTIONS 7, [sym_comment]);
    (ACTIONS 322, [sym_identifier])]);
  (1606,
   [(ACTIONS 7, [sym_comment]);
    (ACTIONS 324, [sym_identifier])]);
  (1613,
   [(ACTIONS 7, [sym_comment]);
    (ACTIONS 326, [anon_sym_DQUOTE])]);
  (1620,
   [(ACTIONS 3, [sym_comment]);
    (ACTIONS 328, [aux_sym_string_token1])]);
  (1627,
   [(ACTIONS 7, [sym_comment]);
    (ACTIONS 330, [anon_sym_COLON])]);
  (1634,
   [(ACTIONS 3, [sym_comment]);
    (ACTIONS 332, [aux_sym_string_token1])]);
  (1641,
   [(ACTIONS 3, [sym_comment]);
    (ACTIONS 334, [aux_sym_string_token1])])
]%N.

(** [ts_small_parse_table_map]: the offset of every small state. *)
Definition ts_small_parse_table_map : list (TSStateId * N) :=
  [(18, 0); (19, 40); (20, 89); (21, 128); (22, 167); (23, 206); (24, 245); (25, 284); (26, 323);
   (27, 362); (28, 401); (29, 440); (30, 479); (31, 528); (32, 564); (33, 600); (34, 636);
   (35, 673); (36, 707); (37, 741); (38, 775); (39, 813); (40, 851); (41, 889); (42, 927);
   (43, 965); (44, 1001); (45, 1037); (46, 1073); (47, 1109); (48, 1145); (49, 1169); (50, 1190);
   (51, 1211); (52, 1232); (53, 1256); (54, 1280); (55, 1304); (56, 1319); (57, 1334); (58, 1349);
   (59, 1364); (60, 1379); (61, 1398); (62, 1407); (63, 1420); (64, 1433); (65, 1442); (66, 1452);
   (67, 1459); (68, 1466); (69, 1473); (70, 1480); (71, 1487); (72, 1494); (73, 1501); (74, 1508);
   (75, 1515); (76, 1522); (77, 1529); (78, 1536); (79, 1543); (80, 1550); (81, 1557); (82, 1564);
   (83, 1571); (84, 1578); (85, 1585); (86, 1592); (87, 1599); (88, 1606); (89, 1613); (90, 1620);
   (91, 1627); (92, 1634); (93, 1641)]%N.

(** ** Symbol metadata ([ts_symbol_metadata]) *)

Record TSSymbolMetadata : Set := { visible : bool; named : bool }.

Definition ts_symbol_metadata (s : TSSymbol) : TSSymbolMetadata :=
  match s with
  | ts_builtin_sym_end => {| visible := false; named := true |}
  | sym_comment => {| visible := true; named := true |}
  | anon_sym_POUND_POUND => {| visible := true; named := false |}
  | anon_sym_COLON => {| visible := true; named := false |}
  | sym_annotation_text => {| visible := true; named := true |}
  | anon_sym_accept => {| visible := true; named := false |}
  | anon_sym_status => {| visible := true; named := false |}
  | anon_sym_priority => {| visible := true; named := false |}
  | anon_sym_tag => {| visible := true; named := false |}
  | anon_sym_style => {| visible := true; named := false |}
  | anon_sym_LBRACE => {| visible := true; named := false |}
  | anon_sym_RBRACE => {| visible := true; named := false |}
  | anon_sym_group => {| visible := true; named := false |}
  | anon_sym_rect => {| visible := true; named := false |}
  | anon_sym_ellipse => {| visible := true; named := false |}
  | anon_sym_path => {| visible := true; named := false |}
  | anon_sym_text => {| visible := true; named := false |}
  | anon_sym_w => {| visible := true; named := false |}
  | anon_sym_h => {| visible := true; named := false |}
  | anon_sym_width => {| visible := true; named := false |}
  | anon_sym_height => {| visible := true; named := false |}
  | anon_sym_fill => {| visible := true; named := false |}
  | anon_sym_stroke => {| visible := true; named := false |}
  | anon_sym_corner => {| visible := true; named := false |}
  | anon_sym_opacity => {| visible := true; named := false |}
  | anon_sym_font => {| visible := true; named := false |}
  | anon_sym_bg => {| visible := true; named := false |}
  | anon_sym_use => {| visible := true; named := false |}
  | anon_sym_layout => {| visible := true; named := false |}
  | anon_sym_shadow => {| visible := true; named := false |}
  | anon_sym_scale => {| visible := true; named := false |}
  | anon_sym_rotate => {| visible := true; named := false |}
  | anon_sym_translate => {| visible := true; named := false |}
  | anon_sym_center_in => {| visible := true; named := false |}
  | anon_sym_offset => {| visible := true; named := false |}
  | anon_sym_ease => {| visible := true; named := false |}
  | anon_sym_duration => {| visible := true; named := false |}
  | anon_sym_EQ => {| visible := true; named := false |}
  | anon_sym_anim => {| visible := true; named := false |}
  | anon_sym_DASH_GT => {| visible := true; named := false |}
  | anon_sym_AT => {| visible := true; named := false |}
  | sym_identifier => {| visible := true; named := true |}
  | sym_number => {| visible := true; named := true |}
  | sym_hex_color => {| visible := true; named := true |}
  | anon_sym_DQUOTE => {| visible := true; named := false |}
  | aux_sym_string_token1 => {| visible := false; named := false |}
  | sym_document => {| visible := true; named := true |}
  | sym_annotation => {| visible := true; named := true |}
  | sym_annotation_typed => {| visible := true; named := true |}
  | sym_annotation_keyword => {| visible := true; named := true |}
  | sym_style_block => {| visible := true; named := true |}
  | sym_node_declaration => {| visible := true; named := true |}
  | sym_node_kind => {| visible := true; named := true |}
  | sym_node_body_item => {| visible := true; named := true |}
  | sym_property => {| visible := true; named := true |}
  | sym_property_name => {| visible := true; named := true |}
  | sym__value_item => {| visible := false; named := true |}
  | sym_key_value_pair => {| visible := true; named := true |}
  | sym_anim_block => {| visible := true; named := true |}
  | sym_anim_trigger => {| visible := true; named := true |}
  | sym_constraint_line => {| visible := true; named := true |}
  | sym_node_id => {| visible := true; named := true |}
  | sym_string => {| visible := true; named := true |}
  | aux_sym_document_repeat1 => {| visible := false; named := false |}
  | aux_sym_style_block_repeat1 => {| visible := false; named := false |}
  | aux_sym_node_declaration_repeat1 => {| visible := false; named := false |}
  | aux_sym_property_repeat1 => {| visible := false; named := false |}
  end.

(** ** Looking up the tables *)

Fixpoint assoc {A : Type} (k : N) (l : list (N * A)) : option A :=
  match l with
  | [] => None
  | (k', v) :: l' => if N.eqb k k' then Some v else assoc k l'
  end.

Fixpoint find_cell (row : list (TSSymbol * table_cell)) (symbol : TSSymbol)
  : option table_cell :=
  match row with
  | [] => None
  | (s, c) :: row' => if symbol_eqb s symbol then Some c else find_cell row' symbol
  end.

Fixpoint find_group (groups : list (table_cell * list TSSymbol)) (symbol : TSSymbol)
  : option table_cell :=
  match groups with
  | [] => None
  | (c, syms) :: groups' =>
      if existsb (symbol_eqb symbol) syms then Some c else find_group groups' symbol
  end.

(** Modelled from the spec: the function that reads [action(state, symbol)]
    out of the two tables belongs to the parser engine, which is not among
    the sources.  A large state indexes [ts_parse_table]; a small state finds
    its offset in [ts_small_parse_table_map] and scans its groups.  [None]
    stands for a zero cell. *)
Definition ts_language_lookup (state : TSStateId) (symbol : TSSymbol) : option table_cell :=
  if (state <? LARGE_STATE_COUNT)%N then
    match nth_error ts_parse_table (N.to_nat state) with
    | Some row => find_cell row symbol
    | None => None
    end
  else
    match assoc state ts_small_parse_table_map with
    | Some offset =>
        match assoc offset ts_small_parse_table with
        | Some groups => find_group groups symbol
        | None => None
        end
    | None => None
    end.

Definition lex_mode (state : TSStateId) : TSStateId :=
  match nth_error ts_lex_modes (N.to_nat state) with
  | Some m => lex_state m
  | None => 0%N
  end.

(** The field bindings of a production: its slice of [ts_field_map_entries]. *)
Definition field_map (production_id : nat) : list TSFieldMapEntry :=
  match nth_error ts_field_map_slices production_id with
  | Some s => firstn (slice_length s) (skipn (slice_index s) ts_field_map_entries)
  | None => []
  end.

Definition field_eqb (a b : TSFieldId) : bool := N.eqb (field_id_value a) (field_id_value b).

(** ** The parser engine *)

(** Modelled from the spec: the parser engine (section 4.3) and the syntax
    tree (sections 3 and 4.4) are the runtime that drives the tables; only
    the tables are among the sources.  The definitions below follow the
    words of the specification:

    - a tree node carries its symbol, the production that built it and its
      children, which are nodes or tokens; error recovery inserts synthetic
      placeholders, tagged as such ([Missing]);
    - [Shift] consumes the lookahead token and pushes it with the new state;
      it is the only point at which the lexer is asked for the next token,
      in the lex mode of the current parse state;
    - [Reduce] pops as many entries as the production has children, builds
      the node, binds the fields of the production and pushes the node with
      its goto state;
    - [Accept] ends the parse with the reduced [document];
    - [Error], when there is no valid action, starts a recovery: tokens are
      discarded until one can be shifted by some state on the stack (or the
      input ends), the stack is popped until that state is exposed, a
      placeholder is inserted at the error point, one diagnostic is emitted
      and shifting resumes;
    - a stack underflow or an inconsistent table aborts the call.

    A comment is kept out of the tree: the children of a node are the
    children of its production.  Where the table lists two actions (a
    reduction of a repetition followed by [SHIFT_REPEAT]) the first one is
    taken. *)
#[local] Unset Elimination Schemes.

Inductive Tree : Set :=
| Leaf (t : Token)
| Node (symbol : TSSymbol) (production_id : nat) (children : list Tree)
| Missing.

#[local] Set Elimination Schemes.

Inductive Diagnostic : Set :=
| SyntaxError (position : nat).

Inductive Action : Set :=
| Shift (next_state : TSStateId)
| ShiftExtra
| Reduce (lhs : TSSymbol) (child_count : nat) (production_id : nat)
| Accept
| Error.

Definition action_of_entry (e : TSParseActionEntry) : Action :=
  match actions e with
  | SHIFT s :: _ => Shift s
  | SHIFT_EXTRA :: _ => ShiftExtra
  | REDUCE a k _ p :: _ => Reduce a k p
  | ACCEPT_INPUT :: _ => Accept
  | _ => Error
  end.

Definition action (state : TSStateId) (symbol : TSSymbol) : Action :=
  match ts_language_lookup state symbol with
  | Some (ACTIONS i) =>
      match assoc i ts_parse_actions with
      | Some e => action_of_entry e
      | None => Error
      end
  | _ => Error
  end.

Definition goto (state : TSStateId) (symbol : TSSymbol) : option TSStateId :=
  match ts_language_lookup state symbol with
  | Some (STATE s) => Some s
  | _ => None
  end.

Definition tree_symbol (t : Tree) : option TSSymbol :=
  match t with
  | Leaf tok => Some (tok_symbol tok)
  | Node s _ _ => Some s
  | Missing => None
  end.

Definition is_missing (t : Tree) : bool :=
  match t with Missing => true | _ => false end.

(** The children that the production of a node accounts for. *)
Definition own_children (l : list Tree) : list Tree :=
  filter (fun t => negb (is_missing t)) l.


Definition Frame : Set := (TSStateId * Tree)%type.

(** The automaton starts in state 1; state 0 is the row of the table that
    holds [RECOVER()] under every token, and its lex mode recognises every
    token. *)
Definition START_STATE : TSStateId := 1.
Definition ERROR_STATE : TSStateId := 0.

Definition top_state (stack : list Frame) : TSStateId :=
  match stack with
  | [] => START_STATE
  | (s, _) :: _ => s
  end.

Fixpoint take_missing (stack : list Frame) (acc : list Tree) : list Tree * list Frame :=
  match stack with
  | (_, Missing) :: rest => take_missing rest (Missing :: acc)
  | _ => (acc, stack)
  end.

(** Pop the [k] children of a production, with the placeholders that sit
    among them; [None] is a stack underflow. *)
Fixpoint pop (stack : list Frame) (k : nat) (acc : list Tree)
  : option (list Tree * list Frame) :=
  match k with
  | O => Some (take_missing stack acc)
  | S k' =>
      match stack with
      | [] => None
      | (_, Missing) :: rest => pop rest k (Missing :: acc)
      | (_, t) :: rest => pop rest k' (t :: acc)
      end
  end.

Definition can_shift (symbol : TSSymbol) (state : TSStateId) : bool :=
  match action state symbol with Shift _ => true | _ => false end.

Definition has_action (symbol : TSSymbol) (state : TSStateId) : bool :=
  match action state symbol with Error => false | _ => true end.

Fixpoint exposes (ok : TSStateId -> bool) (stack : list Frame) : bool :=
  match stack with
  | [] => ok START_STATE
  | (s, _) :: rest => ok s || exposes ok rest
  end.

(** Pop frames until the exposed state satisfies [ok]. *)
Fixpoint unwind (ok : TSStateId -> bool) (stack : list Frame) : list Frame :=
  match stack with
  | [] => []
  | (s, t) :: rest => if ok s then stack else unwind ok rest
  end.

Definition is_end (t : Token) : bool := symbol_eqb (tok_symbol t) ts_builtin_sym_end.

Record Config : Set := Cfg {
  cfg_stack : list Frame;
  cfg_pos : nat;
  cfg_lookahead : option Token;
  cfg_diagnostics : list Diagnostic
}.

Inductive Outcome : Set :=
| Parsed (tree : Tree) (diagnostics : list Diagnostic)
| Aborted.

Inductive StepResult : Set :=
| Next (c : Config)
| Stop (o : Outcome).

Section Engine.

Variable input : list Z.

(** Recovery, steps (a) and (b): starting at [pos], in the lex mode of the
    error state, discard tokens (and code points that start no token) until
    one can be shifted by a state on the stack, or the input ends; pop the
    stack down to that state and insert the placeholder.  The token found is
    the lookahead for step (c). *)
Fixpoint resync (fuel : nat) (stack : list Frame) (pos : nat)
  : list Frame * nat * option Token :=
  match fuel with
  | O => (stack, pos, None)
  | S fuel' =>
      match ts_lex input pos (lex_mode ERROR_STATE) with
      | None => resync fuel' stack (S pos)
      | Some tok =>
          if is_end tok then
            let stack' := unwind (has_action ts_builtin_sym_end) stack in
            ((top_state stack', Missing) :: stack', pos, Some tok)
          else if exposes (can_shift (tok_symbol tok)) stack then
            let stack' := unwind (can_shift (tok_symbol tok)) stack in
            ((top_state stack', Missing) :: stack', pos, Some tok)
          else resync fuel' stack (tok_end tok)
      end
  end.

Definition recover (c : Config) : Config :=
  match resync (S (List.length input - cfg_pos c)) (cfg_stack c) (cfg_pos c) with
  | (stack, pos, lookahead) =>
      Cfg stack pos lookahead (cfg_diagnostics c ++ [SyntaxError (cfg_pos c)])
  end.

Definition next_token (c : Config) : option Token :=
  match cfg_lookahead c with
  | Some t => Some t
  | None => ts_lex input (cfg_pos c) (lex_mode (top_state (cfg_stack c)))
  end.

Definition step (c : Config) : StepResult :=
  match next_token c with
  | None => Next (recover c)
  | Some tok =>
      match action (top_state (cfg_stack c)) (tok_symbol tok) with
      | Shift s =>
          Next (Cfg ((s, Leaf tok) :: cfg_stack c) (tok_end tok) None (cfg_diagnostics c))
      | ShiftExtra =>
          Next (Cfg (cfg_stack c) (tok_end tok) None (cfg_diagnostics c))
      | Reduce a k p =>
          match pop (cfg_stack c) k [] with
          | None => Stop Aborted
          | Some (kids, rest) =>
              match goto (top_state rest) a with
              | None => Stop Aborted
              | Some g =>
                  Next (Cfg ((g, Node a p kids) :: rest) (cfg_pos c) (Some tok)
                            (cfg_diagnostics c))
              end
          end
      | Accept =>
          match cfg_stack c with
          | (_, t) :: _ => Stop (Parsed t (cfg_diagnostics c))
          | [] => Stop Aborted
          end
      | Error => Next (recover c)
      end
  end.

Fixpoint run (fuel : nat) (c : Config) : option Outcome :=
  match fuel with
  | O => None
  | S fuel' =>
      match step c with
      | Stop o => Some o
      | Next c' => run fuel' c'
      end
  end.

End Engine.

Definition initial : Config := Cfg [] 0 None [].

(** Enough passes for any input (see [parse_returns_a_tree]). *)
Definition parse_fuel (input : list Z) : nat := 64 * (List.length input + 2).

Definition parse (input : list Z) : option Outcome := run input (parse_fuel input) initial.

(** Source text: the code points of a string, and a string literal of the
    language (between double quotes). *)
Definition dquote : Z := 34.
Definition quoted (s : string) : list Z := dquote :: codes s ++ [dquote].

(** ** What the texts of the tokens look like *)

(** The lex states that the parser starts the lexer in. *)
Definition lex_start_states : list TSStateId := map lex_state ts_lex_modes.

Definition is_digit (c : Z) : Prop := (48 <= c <= 57)%Z.

Definition is_hex_digit (c : Z) : Prop :=
  (48 <= c <= 57)%Z \/ (65 <= c <= 70)%Z \/ (97 <= c <= 102)%Z.

Definition digits (l : list Z) : Prop := l <> [] /\ Forall is_digit l.

(** A number with one of the given signs in front:
    [sign digits ('.' digits)? 'ms'?]. *)
Definition number_text_with (signs : list (list Z)) (txt : list Z) : Prop :=
  exists sign int frac unit,
    txt = sign ++ int ++ frac ++ unit /\
    In sign signs /\
    digits int /\
    (frac = [] \/ exists ds, frac = codes "." ++ ds /\ digits ds) /\
    (unit = [] \/ unit = codes "ms").

(** [digits ('.' digits)? 'ms'?], the grammar of section 4.1. *)
Definition unsigned_number_text : list Z -> Prop := number_text_with [[]].

(** ['-'? digits ('.' digits)? 'ms'?], the grammar of the automaton. *)
Definition number_text : list Z -> Prop := number_text_with [[]; codes "-"].

(** [[0-9A-Fa-f]{1,6}], the grammar of section 4.1. *)
Definition bare_hex_text (txt : list Z) : Prop :=
  (1 <= List.length txt <= 6)%nat /\ Forall is_hex_digit txt.

(** ['#' [0-9A-Fa-f]{3,8}], the grammar of the automaton. *)
Definition hex_color_text (txt : list Z) : Prop :=
  exists ds, txt = codes "#" ++ ds /\
             (3 <= List.length ds <= 8)%nat /\ Forall is_hex_digit ds.

(** *** The states of the automaton that read a number *)

Definition signed_int (txt : list Z) : Prop :=
  exists sign int, txt = sign ++ int /\ In sign [[]; codes "-"] /\ digits int.

Definition signed_frac (txt : list Z) : Prop :=
  exists sign int ds,
    txt = sign ++ int ++ codes "." ++ ds /\ In sign [[]; codes "-"] /\
    digits int /\ digits ds.

Definition number_states : list TSStateId := [10; 110; 471; 111; 472; 83; 470]%N.

(** What has been read when the automaton is in one of them. *)
Definition number_state (s : TSStateId) (txt : list Z) : Prop :=
  match s with
  | 10%N | 110%N => txt = codes "-"
  | 471%N => signed_int txt
  | 111%N => exists n, txt = n ++ codes "." /\ signed_int n
  | 472%N => signed_frac txt
  | 83%N => exists n, txt = n ++ codes "m" /\ (signed_int n \/ signed_frac n)
  | 470%N => exists n, txt = n ++ codes "ms" /\ (signed_int n \/ signed_frac n)
  | _ => True
  end.

Definition number_token (sym : TSSymbol) (txt : list Z) : Prop :=
  sym = sym_number -> number_text txt.

(** *** The states of the automaton that read a hex colour *)

Definition hex_run (n : nat) (txt : list Z) : Prop :=
  exists ds, txt = codes "#" ++ ds /\ List.length ds = n /\ Forall is_hex_digit ds.

(** The test for a hex digit, as the automaton writes it. *)
Definition hex_test : lex_cond :=
  AtLeast "0" &&& AtMost "9" ||| AtLeast "A" &&& AtMost "F" ||| AtLeast "a" &&& AtMost "f".

Definition hex_states : list TSStateId :=
  [6; 112; 119; 118; 478; 477; 476; 475; 474; 473]%N.

Definition hex_state (s : TSStateId) (txt : list Z) : Prop :=
  match s with
  | 6%N | 112%N => txt = codes "#"
  | 119%N => hex_run 1 txt
  | 118%N => hex_run 2 txt
  | 478%N => hex_run 3 txt
  | 477%N => hex_run 4 txt
  | 476%N => hex_run 5 txt
  | 475%N => hex_run 6 txt
  | 474%N => hex_run 7 txt
  | 473%N => hex_run 8 txt
  | _ => True
  end.

Definition hex_token (sym : TSSymbol) (txt : list Z) : Prop :=
  sym = sym_hex_color -> hex_color_text txt.

(** The lex states from which a hex colour can be read, and the states on
    the way. *)
Definition hex_capable : list TSStateId := ([0; 3; 4; 5; 115] ++ hex_states)%N.

Definition never_hex (s : TSStateId) (txt : list Z) : Prop := among hex_capable s = false.

Definition not_hex_token (sym : TSSymbol) (txt : list Z) : Prop := sym <> sym_hex_color.

(** The parse states, apart from the error state. *)
Definition parse_states : list TSStateId := map N.of_nat (seq 1 93).

(** *** The states that read a ['#'] in ordinary code *)

Definition comment_states : list TSStateId := [7; 113; 120; 121]%N.

Definition starts_with_hash (txt : list Z) : Prop := exists rest, txt = codes "#" ++ rest.

Definition hash_state (s0 s : TSStateId) (txt : list Z) : Prop :=
  (skips s = true -> s = s0) /\
  (skips s = false -> s = END_OF_INPUT_STATE \/ txt <> []) /\
  (starts_with_hash txt -> among comment_states s = true).

Definition hash_token (sym : TSSymbol) (txt : list Z) : Prop :=
  starts_with_hash txt -> sym = sym_comment \/ sym = anon_sym_POUND_POUND.

(** ** Walking a syntax tree *)








(** [children()]: the children of a node as a consumer sees them.  A child
    whose symbol is not visible in [ts_symbol_metadata] (a repetition, or
    [_value_item]) stands for its own children; placeholders are left out. *)
Fixpoint expose (t : Tree) : list Tree :=
  match t with
  | Node s _ kids =>
      if visible (ts_symbol_metadata s) then [t] else flat_map expose kids
  | Leaf _ => [t]
  | Missing => []
  end.

Definition children (t : Tree) : list Tree :=
  match t with
  | Node _ _ kids => flat_map expose kids
  | _ => []
  end.


(** ** The grammar behind the parse table *)

Record Production : Set := Prod {
  lhs : TSSymbol;
  prod_id : nat;
  rhs : list (list TSSymbol)
}.

(** The sets of symbols that can stand at one place of a production. *)
Definition document_items : list TSSymbol :=
  [aux_sym_document_repeat1; sym_annotation; sym_constraint_line; sym_node_declaration;
   sym_style_block].
Definition body_items : list TSSymbol :=
  [aux_sym_node_declaration_repeat1; sym_node_body_item].
Definition properties : list TSSymbol :=
  [aux_sym_style_block_repeat1; sym_property].
Definition values : list TSSymbol :=
  [aux_sym_property_repeat1; sym__value_item; sym_hex_color; sym_key_value_pair; sym_node_id;
   sym_number; sym_string].
Definition annotation_payloads : list TSSymbol :=
  [sym_annotation_text; sym_annotation_typed; sym_string].
Definition annotation_keywords : list TSSymbol :=
  [anon_sym_accept; anon_sym_priority; anon_sym_status; anon_sym_tag].
Definition typed_payloads : list TSSymbol :=
  [sym_annotation_text; sym_string].
Definition pair_values : list TSSymbol :=
  [sym_hex_color; sym_identifier; sym_number; sym_string].
Definition body_members : list TSSymbol :=
  [sym_anim_block; sym_annotation; sym_node_declaration; sym_property].
Definition node_kinds : list TSSymbol :=
  [anon_sym_ellipse; anon_sym_group; anon_sym_path; anon_sym_rect; anon_sym_text].
Definition property_names : list TSSymbol :=
  [anon_sym_bg; anon_sym_center_in; anon_sym_corner; anon_sym_duration; anon_sym_ease;
   anon_sym_fill; anon_sym_font; anon_sym_h; anon_sym_height; anon_sym_layout;
   anon_sym_offset; anon_sym_opacity; anon_sym_rotate; anon_sym_scale; anon_sym_shadow;
   anon_sym_stroke; anon_sym_translate; anon_sym_use; anon_sym_w; anon_sym_width].

(** The productions that the parse table implements: the symbol built, the
    production id (which selects the field bindings) and, for every child,
    the symbols that can stand there. *)
Definition grammar : list Production := [
  Prod sym_document 0 [];
  Prod sym_document 0 [document_items];
  Prod aux_sym_document_repeat1 0 [document_items; document_items];
  Prod sym_annotation 0 [[anon_sym_POUND_POUND]];
  Prod sym_annotation 0 [[anon_sym_POUND_POUND]; annotation_payloads];
  Prod sym_annotation_typed 2 [[sym_annotation_keyword]; [anon_sym_COLON]; typed_payloads];
  Prod sym_annotation_keyword 0 [annotation_keywords];
  Prod sym_style_block 3 [[anon_sym_style]; [sym_identifier]; [anon_sym_LBRACE]; [anon_sym_RBRACE]];
  Prod sym_style_block 3 [[anon_sym_style]; [sym_identifier]; [anon_sym_LBRACE]; properties; [anon_sym_RBRACE]];
  Prod aux_sym_style_block_repeat1 0 [properties; properties];
  Prod sym_node_declaration 1 [[sym_node_kind]; [anon_sym_LBRACE]; [anon_sym_RBRACE]];
  Prod sym_node_declaration 1 [[sym_node_kind]; [anon_sym_LBRACE]; body_items; [anon_sym_RBRACE]];
  Prod sym_node_declaration 4 [[sym_node_kind]; [sym_node_id]; [anon_sym_LBRACE]; [anon_sym_RBRACE]];
  Prod sym_node_declaration 5 [[sym_node_kind]; [sym_string]; [anon_sym_LBRACE]; [anon_sym_RBRACE]];
  Prod sym_node_declaration 4 [[sym_node_kind]; [sym_node_id]; [anon_sym_LBRACE]; body_items; [anon_sym_RBRACE]];
  Prod sym_node_declaration 5 [[sym_node_kind]; [sym_string]; [anon_sym_LBRACE]; body_items; [anon_sym_RBRACE]];
  Prod sym_node_declaration 7 [[sym_node_kind]; [sym_node_id]; [sym_string]; [anon_sym_LBRACE]; [anon_sym_RBRACE]];
  Prod sym_node_declaration 7 [[sym_node_kind]; [sym_node_id]; [sym_string]; [anon_sym_LBRACE]; body_items; [anon_sym_RBRACE]];
  Prod aux_sym_node_declaration_repeat1 0 [body_items; body_items];
  Prod sym_node_kind 0 [node_kinds];
  Prod sym_node_body_item 0 [body_members];
  Prod sym_property 6 [[sym_property_name]; [anon_sym_COLON]; values];
  Prod aux_sym_property_repeat1 0 [values; values];
  Prod sym_property_name 0 [property_names];
  Prod sym__value_item 0 [[sym_identifier]];
  Prod sym_key_value_pair 0 [[sym_identifier]; [anon_sym_EQ]; pair_values];
  Prod sym_anim_block 9 [[anon_sym_anim]; [sym_anim_trigger]; [anon_sym_LBRACE]; [anon_sym_RBRACE]];
  Prod sym_anim_block 9 [[anon_sym_anim]; [sym_anim_trigger]; [anon_sym_LBRACE]; properties; [anon_sym_RBRACE]];
  Prod sym_anim_trigger 0 [[anon_sym_COLON]; [sym_identifier]];
  Prod sym_constraint_line 8 [[sym_node_id]; [anon_sym_DASH_GT]; [sym_identifier]; [anon_sym_COLON]; values];
  Prod sym_node_id 0 [[anon_sym_AT]; [sym_identifier]];
  Prod sym_string 0 [[anon_sym_DQUOTE]; [aux_sym_string_token1]; [anon_sym_DQUOTE]]
].

Definition member (x : TSSymbol) (l : list TSSymbol) : bool := existsb (symbol_eqb x) l.

(** The children that a production accounts for stand at its places. *)
Fixpoint shape_matches (shape : list (list TSSymbol)) (kids : list Tree) : bool :=
  match shape, kids with
  | [], [] => true
  | set :: shape', t :: kids' =>
      match tree_symbol t with
      | Some x => if member x set then shape_matches shape' kids' else false
      | None => false
      end
  | _, _ => false
  end.

Definition built_by (a : TSSymbol) (p : nat) (kids : list Tree) (pr : Production) : bool :=
  if symbol_eqb (lhs pr) a && Nat.eqb (prod_id pr) p
  then shape_matches (rhs pr) (own_children kids)
  else false.

(** Every node of the tree is an instance of a production, apart from the
    placeholders among its children. *)
Fixpoint tree_ok (t : Tree) : bool :=
  match t with
  | Node a p kids => existsb (built_by a p kids) grammar && forallb tree_ok kids
  | Leaf tok => is_token (tok_symbol tok)
  | Missing => true
  end.

(** *** The automaton as a graph *)

Definition all_states : list TSStateId := map N.of_nat (seq 0 94).

(** The state reached from [p] when [x] is pushed: by a shift if [x] is a
    token, by a goto if [x] is a non-terminal. *)
Definition edge (p : TSStateId) (x : TSSymbol) : option TSStateId :=
  match action p x with
  | Shift s => Some s
  | _ => goto p x
  end.

Definition state_eqb (a : option TSStateId) (s : TSStateId) : bool :=
  match a with
  | Some s' => N.eqb s' s
  | None => false
  end.

Definition transitions : list (TSStateId * TSSymbol * TSStateId) :=
  Eval vm_compute in
  flat_map (fun p =>
              flat_map (fun x =>
                          match edge p x with
                          | Some s => [(p, x, s)]
                          | None => []
                          end)
                       all_symbols)
           all_states.

(** The edges that lead into [s]. *)
Definition preds (s : TSStateId) : list (TSStateId * TSSymbol) :=
  flat_map (fun e => if N.eqb (snd e) s then [fst e] else []) transitions.

(** Going back from state [s] along every path whose symbols fit the places
    of a production, last place first, one arrives in a state that has a
    goto for the symbol [a] that the production builds; the start state is
    not passed on the way (it has nothing below it). *)
Fixpoint back_ok (shape_rev : list (list TSSymbol)) (a : TSSymbol) (s : TSStateId) : bool :=
  match shape_rev with
  | [] => match goto s a with Some _ => true | None => false end
  | set :: more =>
      if N.eqb s START_STATE then false
      else forallb (fun px => if member (snd px) set then back_ok more a (fst px) else false)
                   (preds s)
  end.

(** Every reduction of the table is the reduction of a production of the
    grammar, wherever it occurs; only tokens are shifted; the input is not
    accepted in the start state. *)
Definition reduce_ok (s : TSStateId) (x : TSSymbol) : bool :=
  match action s x with
  | Reduce a k p =>
      existsb (fun pr =>
                 if symbol_eqb (lhs pr) a && Nat.eqb (prod_id pr) p &&
                    Nat.eqb (List.length (rhs pr)) k
                 then back_ok (rev (rhs pr)) a s
                 else false)
              grammar
  | Accept => negb (N.eqb s START_STATE)
  | Shift _ => is_token x
  | _ => true
  end.

(** The stack is a path of the automaton from the start state, and its
    trees are well formed. *)
Fixpoint stack_ok (stack : list Frame) : Prop :=
  match stack with
  | [] => True
  | (s, t) :: rest =>
      stack_ok rest /\ tree_ok t = true /\
      match tree_symbol t with
      | Some x => edge (top_state rest) x = Some s
      | None => s = top_state rest
      end
  end.

(** ** What the claims say about nodes *)













(** *** The scenarios of section 8 *)







(** ** Invariants and induction principles *)

(** The invariant of the loop of [ts_lex], for a call with the cursor at
    [pos0]: [P s txt] is what is known in state [s] when [txt] is the text
    read since the start of the token, [Good sym txt] what is claimed of a
    token [sym] with text [txt]. *)
Definition frame_ok (input : list Z) (P : TSStateId -> list Z -> Prop)
  (Good : TSSymbol -> list Z -> Prop) (pos0 : nat) (f : lex_frame) : Prop :=
  (pos0 <= fr_start f)%nat /\
  (fr_start f <= fr_pos f)%nat /\
  (skips (fr_state f) = true -> fr_start f = fr_pos f /\ fr_result f = None) /\
  P (fr_state f) (slice input (fr_start f) (fr_pos f)) /\
  (forall sym e, fr_result f = Some (sym, e) ->
     (fr_start f <= e)%nat /\ Good sym (slice input (fr_start f) e)).


(** ** A measure for the runs of the engine *)

(** The lex state in which the content of a string is read: the only lex
    mode in which a token may be empty. *)
Definition STRING_LEX_STATE : TSStateId := 482.

Definition string_states : list TSStateId := [481; 482; 483; 484]%N.

Definition reads_string (s : TSStateId) : bool := N.eqb (lex_mode s) STRING_LEX_STATE.

(** A rank of the parse states: the state entered after the reduction of a
    production with [k >= 1] children ranks lower than the states that the
    reduction pops, taken together. *)
Definition weight (s : TSStateId) : nat :=
  match assoc s [(4%N, 3); (45%N, 3); (14%N, 2); (25%N, 2); (31%N, 2); (34%N, 2);
                 (46%N, 2); (47%N, 2); (48%N, 2); (64%N, 2); (73%N, 2); (79%N, 2)] with
  | Some w => w
  | None => 1
  end.

Fixpoint stack_weight (stack : list Frame) : nat :=
  match stack with
  | [] => 0
  | (s, t) :: rest => (if is_missing t then 0 else weight s) + stack_weight rest
  end.

(** Whether the next token may be empty: it is read in a string. *)
Definition may_read_nothing (c : Config) : nat :=
  match cfg_lookahead c with
  | None => if reads_string (top_state (cfg_stack c)) then 1 else 0
  | Some _ => 0
  end.

(** Whether a token has still to be found that the exposed state has an
    action for. *)
Definition pending (c : Config) : nat :=
  match cfg_lookahead c with
  | Some tok => if has_action (tok_symbol tok) (top_state (cfg_stack c)) then 0 else 1
  | None => 1
  end.

(** Every pass of the engine lowers this number, apart from the reduction of
    the empty document, which is followed by [Accept]. *)
Definition measure (input : list Z) (c : Config) : nat :=
  16 * (List.length input - cfg_pos c) + 7 * may_read_nothing c +
  2 * stack_weight (cfg_stack c) + pending c.

(** The check of the rank against the table, for the reductions in state [s]
    under [x]. *)
Definition lowers_the_weight (s : TSStateId) (x : TSSymbol) : bool :=
  match action s x with
  | Reduce a k _ =>
      forallb (fun e =>
                 if symbol_eqb (snd (fst e)) a then
                   match k with
                   | O => match action (snd e) x with Accept => true | _ => false end
                   | S _ => (weight (snd e) + 2 <=? weight s + k)%nat
                   end
                 else true)
              transitions
  | _ => true
  end.

(** The end of input is never shifted, and an empty string content is only
    ever shifted, out of a state that reads a string into one that does
    not. *)
Definition shifts_make_progress (s : TSStateId) : bool :=
  match action s ts_builtin_sym_end with
  | Shift _ | ShiftExtra => false
  | _ =>
      match action s aux_sym_string_token1 with
      | ShiftExtra | Reduce _ _ _ | Accept => false
      | _ =>
          if reads_string s then
            forallb (fun x => match action s x with
                              | Shift s' => negb (reads_string s')
                              | _ => true
                              end)
                    all_symbols
          else true
      end
  end.

(** A lookahead token kept from an earlier pass: the end of input, or a
    token of one code point or more. *)
Definition fresh (input : list Z) (pos : nat) (tok : Token) : Prop :=
  is_end tok = true \/ (pos < tok_end tok /\ tok_end tok <= List.length input).

Definition lookahead_ok (input : list Z) (c : Config) : Prop :=
  forall tok, cfg_lookahead c = Some tok -> fresh input (cfg_pos c) tok.

(** ** Table cells as a relation *)

(** The cells that the tables list for a state. *)
Definition row_of (state : TSStateId) : list (TSSymbol * table_cell) :=
  if (state <? LARGE_STATE_COUNT)%N then
    match nth_error ts_parse_table (N.to_nat state) with
    | Some row => row
    | None => []
    end
  else
    match assoc state ts_small_parse_table_map with
    | Some offset =>
        match assoc offset ts_small_parse_table with
        | Some groups => flat_map (fun g => map (fun x => (x, fst g)) (snd g)) groups
        | None => []
        end
    | None => []
    end.

Definition cell_at (state : TSStateId) (symbol : TSSymbol) (cell : table_cell) : Prop :=
  In (symbol, cell) (row_of state).

Fixpoint distinct (l : list TSSymbol) : bool :=
  match l with
  | [] => true
  | x :: l' => if member x l' then false else distinct l'
  end.

Fixpoint distinct_keys (l : list N) : bool :=
  match l with
  | [] => true
  | k :: l' => if existsb (N.eqb k) l' then false else distinct_keys l'
  end.

(** ** The jumps of the automaton, by code point *)

(** What [ACCEPT_TOKEN] leaves in [result] after a pass through case [cs]. *)
Definition accepted (cs : lex_case) (f : lex_frame) : option (TSSymbol * nat) :=
  match accept_token cs with
  | Some s => Some (s, fr_pos f)
  | None => fr_result f
  end.

(** The tests compare [lookahead] with character constants, which lie
    between 0 and 255: a code point below 0 fares like -1 and one above 255
    like 256. *)
Definition clamp (la : Z) : Z := Z.max (-1) (Z.min 256 la).

Definition code_points : list Z := map (fun n => (Z.of_nat n - 1)%Z) (seq 0 258).

(** A property of the jump that each case takes under each code point
    ([None]: the case ends the scan). *)
Definition all_jumps (p : TSStateId -> lex_case -> Z -> option lex_action -> bool) : bool :=
  forallb (fun sc =>
             forallb (fun la => p (fst sc) (snd sc) la (select (arms (snd sc)) la false))
                     code_points)
          labelled_cases.

Definition accepts (s : TSStateId) : option TSSymbol :=
  match lex_case_of s with
  | Some cs => accept_token cs
  | None => None
  end.

(** *** White space *)

(** The test for white space, as the automaton writes it. *)
Definition blank_test : lex_cond := AtLeast "009" &&& AtMost "013" ||| Is " ".

Definition is_blank (c : Z) : Prop := (9 <= c <= 13)%Z \/ c = 32%Z.

Definition newline : Z := 10.

(** The lex states that skip all white space, and those of annotations,
    which skip line ends only. *)
Definition code_modes : list TSStateId := [0; 3; 4; 5; 8; 115; 116]%N.
Definition annotation_modes : list TSStateId := [1; 2; 114]%N.

(** The code points that a lex state skips before a token. *)
Definition skipped (s : TSStateId) (c : Z) : Prop :=
  (In s code_modes /\ is_blank c) \/ (In s annotation_modes /\ c = newline).

Definition skips_blank (s : TSStateId) (cs : lex_case) (la : Z) (r : option lex_action)
  : bool :=
  let skip_here := match r with Some (SKIP t) => N.eqb t s | _ => false end in
  let is_skip_jump := match r with Some (SKIP _) => true | _ => false end in
  if among code_modes s then Bool.eqb (holds blank_test la false) skip_here
  else if among annotation_modes s then Bool.eqb (holds (Is "010") la false) skip_here
  else negb is_skip_jump.

(** The lex states that return the end token at the end of input, and those
    that return no token there. *)
Definition end_modes : list TSStateId := [0; 114; 115; 116]%N.
Definition no_end_modes : list TSStateId := [1; 2; 3; 4; 5; 8]%N.

Definition jump_at_end (s : TSStateId) : option lex_action :=
  match lex_case_of s with
  | Some cs => select (arms cs) 0%Z true
  | None => None
  end.

(** ** The rest of the language description *)

(** The sizes that [parser.c] declares. *)
Definition LANGUAGE_VERSION : N := 14.
Definition SYMBOL_COUNT : N := 67.
Definition ALIAS_COUNT : N := 0.
Definition EXTERNAL_TOKEN_COUNT : N := 0.
Definition FIELD_COUNT : N := 9.
Definition MAX_ALIAS_SEQUENCE_LENGTH : nat := 6.
Definition PRODUCTION_ID_COUNT : nat := 10.

(** [ts_symbol_names]. *)
Definition ts_symbol_names (s : TSSymbol) : string :=
  match s with
  | ts_builtin_sym_end => "end"%string
  | sym_comment => "comment"%string
  | anon_sym_POUND_POUND => "##"%string
  | anon_sym_COLON => ":"%string
  | sym_annotation_text => "annotation_text"%string
  | anon_sym_accept => "accept"%string
  | anon_sym_status => "status"%string
  | anon_sym_priority => "priority"%string
  | anon_sym_tag => "tag"%string
  | anon_sym_style => "style"%string
  | anon_sym_LBRACE => "{"%string
  | anon_sym_RBRACE => "}"%string
  | anon_sym_group => "group"%string
  | anon_sym_rect => "rect"%string
  | anon_sym_ellipse => "ellipse"%string
  | anon_sym_path => "path"%string
  | anon_sym_text => "text"%string
  | anon_sym_w => "w"%string
  | anon_sym_h => "h"%string
  | anon_sym_width => "width"%string
  | anon_sym_height => "height"%string
  | anon_sym_fill => "fill"%string
  | anon_sym_stroke => "stroke"%string
  | anon_sym_corner => "corner"%string
  | anon_sym_opacity => "opacity"%string
  | anon_sym_font => "font"%string
  | anon_sym_bg => "bg"%string
  | anon_sym_use => "use"%string
  | anon_sym_layout => "layout"%string
  | anon_sym_shadow => "shadow"%string
  | anon_sym_scale => "scale"%string
  | anon_sym_rotate => "rotate"%string
  | anon_sym_translate => "translate"%string
  | anon_sym_center_in => "center_in"%string
  | anon_sym_offset => "offset"%string
  | anon_sym_ease => "ease"%string
  | anon_sym_duration => "duration"%string
  | anon_sym_EQ => "="%string
  | anon_sym_anim => "anim"%string
  | anon_sym_DASH_GT => "->"%string
  | anon_sym_AT => "@"%string
  | sym_identifier => "identifier"%string
  | sym_number => "number"%string
  | sym_hex_color => "hex_color"%string
  | anon_sym_DQUOTE => String "034" EmptyString
  | aux_sym_string_token1 => "string_token1"%string
  | sym_document => "document"%string
  | sym_annotation => "annotation"%string
  | sym_annotation_typed => "annotation_typed"%string
  | sym_annotation_keyword => "annotation_keyword"%string
  | sym_style_block => "style_block"%string
  | sym_node_declaration => "node_declaration"%string
  | sym_node_kind => "node_kind"%string
  | sym_node_body_item => "node_body_item"%string
  | sym_property => "property"%string
  | sym_property_name => "property_name"%string
  | sym__value_item => "_value_item"%string
  | sym_key_value_pair => "key_value_pair"%string
  | sym_anim_block => "anim_block"%string
  | sym_anim_trigger => "anim_trigger"%string
  | sym_constraint_line => "constraint_line"%string
  | sym_node_id => "node_id"%string
  | sym_string => "string"%string
  | aux_sym_document_repeat1 => "document_repeat1"%string
  | aux_sym_style_block_repeat1 => "style_block_repeat1"%string
  | aux_sym_node_declaration_repeat1 => "node_declaration_repeat1"%string
  | aux_sym_property_repeat1 => "property_repeat1"%string
  end.

(** [ts_symbol_map]: the public symbol of every symbol. *)
Definition ts_symbol_map (s : TSSymbol) : TSSymbol :=
  match s with
  | ts_builtin_sym_end => ts_builtin_sym_end
  | sym_comment => sym_comment
  | anon_sym_POUND_POUND => anon_sym_POUND_POUND
  | anon_sym_COLON => anon_sym_COLON
  | sym_annotation_text => sym_annotation_text
  | anon_sym_accept => anon_sym_accept
  | anon_sym_status => anon_sym_status
  | anon_sym_priority => anon_sym_priority
  | anon_sym_tag => anon_sym_tag
  | anon_sym_style => anon_sym_style
  | anon_sym_LBRACE => anon_sym_LBRACE
  | anon_sym_RBRACE => anon_sym_RBRACE
  | anon_sym_group => anon_sym_group
  | anon_sym_rect => anon_sym_rect
  | anon_sym_ellipse => anon_sym_ellipse
  | anon_sym_path => anon_sym_path
  | anon_sym_text => anon_sym_text
  | anon_sym_w => anon_sym_w
  | anon_sym_h => anon_sym_h
  | anon_sym_width => anon_sym_width
  | anon_sym_height => anon_sym_height
  | anon_sym_fill => anon_sym_fill
  | anon_sym_stroke => anon_sym_stroke
  | anon_sym_corner => anon_sym_corner
  | anon_sym_opacity => anon_sym_opacity
  | anon_sym_font => anon_sym_font
  | anon_sym_bg => anon_sym_bg
  | anon_sym_use => anon_sym_use
  | anon_sym_layout => anon_sym_layout
  | anon_sym_shadow => anon_sym_shadow
  | anon_sym_scale => anon_sym_scale
  | anon_sym_rotate => anon_sym_rotate
  | anon_sym_translate => anon_sym_translate
  | anon_sym_center_in => anon_sym_center_in
  | anon_sym_offset => anon_sym_offset
  | anon_sym_ease => anon_sym_ease
  | anon_sym_duration => anon_sym_duration
  | anon_sym_EQ => anon_sym_EQ
  | anon_sym_anim => anon_sym_anim
  | anon_sym_DASH_GT => anon_sym_DASH_GT
  | anon_sym_AT => anon_sym_AT
  | sym_identifier => sym_identifier
  | sym_number => sym_number
  | sym_hex_color => sym_hex_color
  | anon_sym_DQUOTE => anon_sym_DQUOTE
  | aux_sym_string_token1 => aux_sym_string_token1
  | sym_document => sym_document
  | sym_annotation => sym_annotation
  | sym_annotation_typed => sym_annotation_typed
  | sym_annotation_keyword => sym_annotation_keyword
  | sym_style_block => sym_style_block
  | sym_node_declaration => sym_node_declaration
  | sym_node_kind => sym_node_kind
  | sym_node_body_item => sym_node_body_item
  | sym_property => sym_property
  | sym_property_name => sym_property_name
  | sym__value_item => sym__value_item
  | sym_key_value_pair => sym_key_value_pair
  | sym_anim_block => sym_anim_block
  | sym_anim_trigger => sym_anim_trigger
  | sym_constraint_line => sym_constraint_line
  | sym_node_id => sym_node_id
  | sym_string => sym_string
  | aux_sym_document_repeat1 => aux_sym_document_repeat1
  | aux_sym_style_block_repeat1 => aux_sym_style_block_repeat1
  | aux_sym_node_declaration_repeat1 => aux_sym_node_declaration_repeat1
  | aux_sym_property_repeat1 => aux_sym_property_repeat1
  end.

(** [ts_field_names]; the entry [[0] = NULL] has no field. *)
Definition ts_field_names (f : TSFieldId) : string :=
  match f with
  | field_constraint_type => "constraint_type"
  | field_id => "id"
  | field_inline_text => "inline_text"
  | field_key => "key"
  | field_kind => "kind"
  | field_name => "name"
  | field_target => "target"
  | field_trigger => "trigger"
  | field_value => "value"
  end.

(** [ts_primary_state_ids], indexed by parse state. *)
Definition ts_primary_state_ids : list TSStateId :=
  [0; 1; 2; 3; 4; 5; 6; 7; 8; 9; 10; 11; 12; 13; 14; 15;
   16; 17; 15; 3; 20; 21; 22; 23; 24; 25; 26; 27; 28; 29; 2; 31;
   32; 33; 14; 15; 16; 17; 38; 39; 40; 41; 42; 43; 3; 4; 46; 47;
   14; 16; 17; 15; 52; 53; 53; 55; 56; 57; 57; 57; 60; 16; 62; 63;
   64; 65; 66; 67; 68; 66; 70; 71; 72; 73; 74; 75; 76; 77; 78; 79;
   80; 74; 66; 83; 84; 74; 86; 87; 74; 66; 83; 77; 83; 83]%N.

(** *** The words that the automaton spells

    The states on the way to a literal token, each with what has been read
    when the automaton is in it (after the white space in front, if any). *)
Definition spelling : list (TSStateId * string) :=
  [(6%N, "#"%string); (7%N, "#"%string); (9%N, "-"%string); (10%N, "-"%string);
   (11%N, "center"%string); (12%N, "l"%string); (13%N, "p"%string); (14%N, "op"%string);
   (15%N, "sh"%string); (16%N, "e"%string); (17%N, "tr"%string); (18%N, "sc"%string);
   (19%N, "dur"%string); (20%N, "rot"%string); (21%N, "transl"%string); (22%N, "s"%string);
   (23%N, "opa"%string); (24%N, "re"%string); (25%N, "sha"%string); (26%N, "wi"%string);
   (27%N, "r"%string); (28%N, "t"%string); (29%N, "us"%string); (30%N, "eas"%string);
   (31%N, "scal"%string); (32%N, "styl"%string); (33%N, "rotat"%string); (34%N, "strok"%string);
   (35%N, "ellips"%string); (36%N, "translat"%string); (37%N, "c"%string);
   (38%N, "cent"%string); (39%N, "corn"%string); (40%N, "offs"%string); (41%N, "o"%string);
   (42%N, "of"%string); (43%N, "b"%string); (44%N, "hei"%string); (45%N, "pat"%string);
   (46%N, "widt"%string); (47%N, "heig"%string); (48%N, "an"%string); (49%N, "ell"%string);
   (50%N, "he"%string); (51%N, "f"%string); (52%N, "durat"%string); (53%N, "center_"%string);
   (54%N, "opac"%string); (55%N, "stro"%string); (56%N, "fil"%string); (57%N, "el"%string);
   (58%N, "fi"%string); (59%N, "sca"%string); (60%N, "sty"%string); (61%N, "trans"%string);
   (62%N, "ani"%string); (63%N, "a"%string); (64%N, "duratio"%string);
   (65%N, "center_i"%string); (66%N, "ce"%string); (67%N, "fo"%string); (68%N, "tra"%string);
   (69%N, "cor"%string); (70%N, "str"%string); (71%N, "shad"%string); (72%N, "gr"%string);
   (73%N, "lay"%string); (74%N, "durati"%string); (75%N, "grou"%string); (76%N, "elli"%string);
   (77%N, "g"%string); (78%N, "cente"%string); (79%N, "corne"%string); (80%N, "st"%string);
   (81%N, "co"%string); (82%N, "du"%string); (84%N, "u"%string); (85%N, "ea"%string);
   (86%N, "off"%string); (87%N, "tran"%string); (88%N, "ellip"%string); (89%N, "pa"%string);
   (90%N, "fon"%string); (91%N, "rec"%string); (92%N, "tex"%string); (93%N, "heigh"%string);
   (94%N, "layou"%string); (95%N, "offse"%string); (96%N, "opaci"%string); (97%N, "cen"%string);
   (98%N, "wid"%string); (99%N, "dura"%string); (100%N, "rota"%string); (101%N, "ro"%string);
   (102%N, "transla"%string); (103%N, "gro"%string); (104%N, "d"%string);
   (105%N, "layo"%string); (106%N, "shado"%string); (107%N, "te"%string);
   (108%N, "opacit"%string); (109%N, "la"%string); (121%N, "##"%string); (122%N, "##"%string);
   (123%N, ":"%string); (128%N, "#"%string); (129%N, "center"%string); (130%N, "l"%string);
   (131%N, "p"%string); (132%N, "t"%string); (133%N, "t"%string); (134%N, "sh"%string);
   (135%N, "op"%string); (136%N, "tr"%string); (137%N, "sc"%string); (138%N, "st"%string);
   (139%N, "st"%string); (140%N, "dur"%string); (141%N, "e"%string); (142%N, "rot"%string);
   (143%N, "transl"%string); (144%N, "a"%string); (145%N, "a"%string); (146%N, "ac"%string);
   (147%N, "s"%string); (148%N, "opa"%string); (149%N, "re"%string); (150%N, "sha"%string);
   (151%N, "wi"%string); (152%N, "c"%string); (153%N, "us"%string); (154%N, "acc"%string);
   (155%N, "eas"%string); (156%N, "scal"%string); (157%N, "rotat"%string);
   (158%N, "strok"%string); (159%N, "ellips"%string); (160%N, "translat"%string);
   (161%N, "styl"%string); (162%N, "r"%string); (163%N, "r"%string); (164%N, "cent"%string);
   (165%N, "corn"%string); (166%N, "offs"%string); (167%N, "o"%string); (168%N, "of"%string);
   (169%N, "b"%string); (170%N, "ta"%string); (171%N, "hei"%string); (172%N, "pat"%string);
   (173%N, "widt"%string); (174%N, "heig"%string); (175%N, "an"%string); (176%N, "f"%string);
   (177%N, "pr"%string); (178%N, "ell"%string); (179%N, "he"%string); (180%N, "center_"%string);
   (181%N, "durat"%string); (182%N, "opac"%string); (183%N, "prior"%string);
   (184%N, "stro"%string); (185%N, "e"%string); (186%N, "fil"%string); (187%N, "fi"%string);
   (188%N, "el"%string); (189%N, "sca"%string); (190%N, "sty"%string); (191%N, "trans"%string);
   (192%N, "ani"%string); (193%N, "duratio"%string); (194%N, "center_i"%string);
   (195%N, "tra"%string); (196%N, "ce"%string); (197%N, "fo"%string); (198%N, "cor"%string);
   (199%N, "str"%string); (200%N, "shad"%string); (201%N, "gr"%string); (202%N, "lay"%string);
   (203%N, "pri"%string); (204%N, "durati"%string); (205%N, "grou"%string);
   (206%N, "acce"%string); (207%N, "elli"%string); (208%N, "g"%string); (209%N, "cente"%string);
   (210%N, "corne"%string); (211%N, "co"%string); (212%N, "du"%string); (213%N, "prio"%string);
   (214%N, "u"%string); (215%N, "statu"%string); (216%N, "ea"%string); (217%N, "tran"%string);
   (218%N, "off"%string); (219%N, "ellip"%string); (220%N, "pa"%string); (221%N, "fon"%string);
   (222%N, "rec"%string); (223%N, "tex"%string); (224%N, "accep"%string);
   (225%N, "heigh"%string); (226%N, "layou"%string); (227%N, "offse"%string);
   (228%N, "s"%string); (229%N, "opaci"%string); (230%N, "priori"%string);
   (231%N, "wid"%string); (232%N, "sta"%string); (233%N, "cen"%string); (234%N, "dura"%string);
   (235%N, "ro"%string); (236%N, "rota"%string); (237%N, "transla"%string); (238%N, "d"%string);
   (239%N, "stat"%string); (240%N, "gro"%string); (241%N, "layo"%string);
   (242%N, "shado"%string); (243%N, "te"%string); (244%N, "opacit"%string);
   (245%N, "priorit"%string); (246%N, "la"%string); (248%N, "accept"%string);
   (249%N, "accept"%string); (250%N, "status"%string); (251%N, "status"%string);
   (252%N, "priority"%string); (253%N, "priority"%string); (254%N, "tag"%string);
   (255%N, "tag"%string); (256%N, "style"%string); (257%N, "style"%string);
   (258%N, "style"%string); (259%N, "{"%string); (260%N, "}"%string); (261%N, "}"%string);
   (262%N, "group"%string); (263%N, "group"%string); (264%N, "group"%string);
   (265%N, "rect"%string); (266%N, "rect"%string); (267%N, "rect"%string);
   (268%N, "ellipse"%string); (269%N, "ellipse"%string); (270%N, "ellipse"%string);
   (271%N, "path"%string); (272%N, "path"%string); (273%N, "path"%string);
   (274%N, "text"%string); (275%N, "text"%string); (276%N, "text"%string); (277%N, "w"%string);
   (278%N, "w"%string); (279%N, "w"%string); (280%N, "h"%string); (281%N, "h"%string);
   (282%N, "h"%string); (283%N, "width"%string); (284%N, "width"%string);
   (285%N, "width"%string); (286%N, "height"%string); (287%N, "height"%string);
   (288%N, "height"%string); (289%N, "fill"%string); (290%N, "fill"%string);
   (291%N, "fill"%string); (292%N, "stroke"%string); (293%N, "stroke"%string);
   (294%N, "stroke"%string); (295%N, "corner"%string); (296%N, "corner"%string);
   (297%N, "corner"%string); (298%N, "opacity"%string); (299%N, "opacity"%string);
   (300%N, "opacity"%string); (301%N, "font"%string); (302%N, "font"%string);
   (303%N, "font"%string); (304%N, "bg"%string); (305%N, "bg"%string); (306%N, "bg"%string);
   (307%N, "use"%string); (308%N, "use"%string); (309%N, "use"%string);
   (310%N, "layout"%string); (311%N, "layout"%string); (312%N, "layout"%string);
   (313%N, "shadow"%string); (314%N, "shadow"%string); (315%N, "shadow"%string);
   (316%N, "scale"%string); (317%N, "scale"%string); (318%N, "scale"%string);
   (319%N, "rotate"%string); (320%N, "rotate"%string); (321%N, "rotate"%string);
   (322%N, "translate"%string); (323%N, "translate"%string); (324%N, "translate"%string);
   (325%N, "center_in"%string); (326%N, "center_in"%string); (327%N, "center_in"%string);
   (328%N, "offset"%string); (329%N, "offset"%string); (330%N, "offset"%string);
   (331%N, "ease"%string); (332%N, "ease"%string); (333%N, "ease"%string);
   (334%N, "duration"%string); (335%N, "duration"%string); (336%N, "duration"%string);
   (337%N, "="%string); (338%N, "anim"%string); (339%N, "anim"%string); (340%N, "anim"%string);
   (341%N, "->"%string); (342%N, "@"%string); (343%N, "@"%string); (344%N, "center"%string);
   (345%N, "l"%string); (346%N, "p"%string); (347%N, "p"%string); (348%N, "t"%string);
   (349%N, "sh"%string); (350%N, "op"%string); (351%N, "tr"%string); (352%N, "sc"%string);
   (353%N, "st"%string); (354%N, "dur"%string); (355%N, "e"%string); (356%N, "e"%string);
   (357%N, "rot"%string); (358%N, "transl"%string); (359%N, "a"%string); (360%N, "ac"%string);
   (361%N, "s"%string); (362%N, "s"%string); (363%N, "opa"%string); (364%N, "re"%string);
   (365%N, "sha"%string); (366%N, "wi"%string); (367%N, "c"%string); (368%N, "t"%string);
   (369%N, "t"%string); (370%N, "us"%string); (371%N, "acc"%string); (372%N, "eas"%string);
   (373%N, "scal"%string); (374%N, "styl"%string); (375%N, "rotat"%string);
   (376%N, "strok"%string); (377%N, "ellips"%string); (378%N, "translat"%string);
   (379%N, "r"%string); (380%N, "r"%string); (381%N, "cent"%string); (382%N, "corn"%string);
   (383%N, "offs"%string); (384%N, "o"%string); (385%N, "of"%string); (386%N, "b"%string);
   (387%N, "ta"%string); (388%N, "hei"%string); (389%N, "pat"%string); (390%N, "widt"%string);
   (391%N, "heig"%string); (392%N, "an"%string); (393%N, "f"%string); (394%N, "pr"%string);
   (395%N, "ell"%string); (396%N, "he"%string); (397%N, "center_"%string);
   (398%N, "durat"%string); (399%N, "opac"%string); (400%N, "prior"%string);
   (401%N, "stro"%string); (402%N, "e"%string); (403%N, "fil"%string); (404%N, "fi"%string);
   (405%N, "el"%string); (406%N, "sca"%string); (407%N, "sty"%string); (408%N, "trans"%string);
   (409%N, "ani"%string); (410%N, "a"%string); (411%N, "duratio"%string);
   (412%N, "center_i"%string); (413%N, "tra"%string); (414%N, "ce"%string);
   (415%N, "fo"%string); (416%N, "cor"%string); (417%N, "str"%string); (418%N, "shad"%string);
   (419%N, "gr"%string); (420%N, "r"%string); (421%N, "lay"%string); (422%N, "pri"%string);
   (423%N, "durati"%string); (424%N, "grou"%string); (425%N, "acce"%string);
   (426%N, "elli"%string); (427%N, "g"%string); (428%N, "cente"%string);
   (429%N, "corne"%string); (430%N, "co"%string); (431%N, "st"%string); (432%N, "t"%string);
   (433%N, "du"%string); (434%N, "prio"%string); (435%N, "u"%string); (436%N, "statu"%string);
   (437%N, "ea"%string); (438%N, "tran"%string); (439%N, "off"%string); (440%N, "ellip"%string);
   (441%N, "pa"%string); (442%N, "fon"%string); (443%N, "rec"%string); (444%N, "tex"%string);
   (445%N, "accep"%string); (446%N, "heigh"%string); (447%N, "layou"%string);
   (448%N, "offse"%string); (449%N, "opaci"%string); (450%N, "priori"%string);
   (451%N, "wid"%string); (452%N, "sta"%string); (453%N, "s"%string); (454%N, "cen"%string);
   (455%N, "dura"%string); (456%N, "ro"%string); (457%N, "rota"%string);
   (458%N, "transla"%string); (459%N, "d"%string); (460%N, "stat"%string);
   (461%N, "gro"%string); (462%N, "layo"%string); (463%N, "shado"%string); (464%N, "te"%string);
   (465%N, "opacit"%string); (466%N, "priorit"%string); (467%N, "la"%string);
   (468%N, "st"%string); (479%N, String "034" EmptyString); (480%N, String "034" EmptyString)].

(** *** Literal tokens *)

(** The tokens that stand for themselves: visible and without a name of
    their own ([anon_sym_...]). *)
Definition is_literal (s : TSSymbol) : bool :=
  is_token s && visible (ts_symbol_metadata s) && negb (named (ts_symbol_metadata s)).

(** The states of the annotation modes that have read white space only. *)
Definition blank_states : list TSStateId := [124; 125; 126]%N.

Definition spelled (s : TSStateId) : option string := assoc s spelling.

(** A word split into its last character and what is before it. *)
Fixpoint unsnoc (w : string) : option (string * ascii) :=
  match w with
  | EmptyString => None
  | String c w' =>
      match unsnoc w' with
      | Some (u, k) => Some (String c u, k)
      | None => Some (EmptyString, c)
      end
  end.

(** The states in which no word has been started. *)
Definition is_base (s : TSStateId) : bool :=
  if skips s then true else among blank_states s.

(** The check of [spelling] against the automaton: a jump into a spelled
    state adds the last character of its word to the word of the state it
    leaves, and a jump into a blank state reads white space. *)
Definition spelling_ok (s : TSStateId) (cs : lex_case) (la : Z) (r : option lex_action)
  : bool :=
  match r with
  | Some (ADVANCE t) =>
      if among blank_states t then
        if holds blank_test la false
        then (if among annotation_modes s then true else among blank_states s)
        else false
      else
        match spelled t with
        | None => true
        | Some w =>
            match unsnoc w with
            | Some (u, k) =>
                if holds (Is k) la false then
                  if is_base s then String.eqb u EmptyString
                  else match spelled s with
                       | Some v => String.eqb v u
                       | None => false
                       end
                else false
            | None => false
            end
        end
  | _ => true
  end.

Definition spells_its_name (s : TSStateId) (cs : lex_case) : bool :=
  match accept_token cs with
  | Some sym =>
      if is_literal sym then
        match spelled s with
        | Some w => String.eqb w (ts_symbol_names sym)
        | None => false
        end
      else true
  | None => true
  end.

(** The text of a literal token that is read in the lex state [from]: the
    name of the token, after white space in the annotation modes. *)
Definition literal_text (from : TSStateId) (sym : TSSymbol) (txt : list Z) : Prop :=
  exists ws,
    txt = ws ++ codes (ts_symbol_names sym) /\
    Forall is_blank ws /\
    (ws <> [] -> In from annotation_modes).

Definition literal_state (s0 s : TSStateId) (txt : list Z) : Prop :=
  (skips s = true -> s = s0) /\
  (among blank_states s = true -> Forall is_blank txt /\ In s0 annotation_modes) /\
  (forall w, spelled s = Some w ->
     exists ws, txt = ws ++ codes w /\ Forall is_blank ws /\
                (ws <> [] -> In s0 annotation_modes)).

Definition literal_token (s0 : TSStateId) (sym : TSSymbol) (txt : list Z) : Prop :=
  is_literal sym = true -> literal_text s0 sym txt.

(** The literal tokens that a state has an entry for are read from their
    names in the lex mode of the state. *)
Definition reads_its_literals (state : TSStateId) : bool :=
  forallb (fun x =>
             if is_literal x then
               match ts_language_lookup state x with
               | Some _ =>
                   match ts_lex (codes (ts_symbol_names x)) 0 (lex_mode state) with
                   | Some tok =>
                       if symbol_eqb (tok_symbol tok) x then
                         if Nat.eqb (tok_start tok) 0
                         then Nat.eqb (tok_end tok) (String.length (ts_symbol_names x))
                         else false
                       else false
                   | None => false
                   end
               | None => true
               end
             else true)
          all_symbols.

(** *** Words, lines and strings *)

Definition is_ident_start (c : Z) : Prop :=
  (65 <= c <= 90)%Z \/ c = 95%Z \/ (97 <= c <= 122)%Z.

Definition is_ident_char (c : Z) : Prop := (48 <= c <= 57)%Z \/ is_ident_start c.

(** The tests for the first and for the further characters of a word. *)
Definition ident_start_test : lex_cond :=
  AtLeast "A" &&& AtMost "Z" ||| Is "_" ||| AtLeast "a" &&& AtMost "z".

Definition ident_char_test : lex_cond := AtLeast "0" &&& AtMost "9" ||| ident_start_test.

(** [[A-Za-z_][A-Za-z0-9_]*]. *)
Definition ident_text (txt : list Z) : Prop :=
  exists c rest, txt = c :: rest /\ is_ident_start c /\ Forall is_ident_char rest.

Definition accepts_symbol (sym : TSSymbol) (s : TSStateId) : bool :=
  match accepts s with
  | Some x => symbol_eqb x sym
  | None => false
  end.

(** The states in which a word has been read: those that accept an
    identifier, and those that accept a keyword which a further character
    turns into an identifier. *)
Definition word_state (s : TSStateId) : bool :=
  match lex_case_of s with
  | Some cs =>
      match accept_token cs with
      | Some sym =>
          if symbol_eqb sym sym_identifier then true
          else existsb (fun ca => accepts_symbol sym_identifier (target (snd ca))) (arms cs)
      | None => false
      end
  | None => false
  end.

Definition word_jump_ok (s : TSStateId) (cs : lex_case) (la : Z) (r : option lex_action)
  : bool :=
  match r with
  | Some (ADVANCE t) =>
      if word_state t then
        if skips s then holds ident_start_test la false
        else if word_state s then holds ident_char_test la false else false
      else true
  | _ => true
  end.

(** A token of symbol [sym] goes on as long as the test [more] holds: in a
    state that accepts [sym], a code point that passes the test leads to a
    state that accepts a token again. *)
Definition goes_on (sym : TSSymbol) (more : lex_cond)
  (s : TSStateId) (cs : lex_case) (la : Z) (r : option lex_action) : bool :=
  if accepts_symbol sym s then
    if holds more la false then
      match r with
      | Some (ADVANCE t) => match accepts t with Some _ => true | None => false end
      | _ => false
      end
    else true
  else true.

(** What follows a token: [stops_at input more e] says that the input ends
    at [e] or goes on with a code point that fails the test [more]. *)
Definition stops_at (input : list Z) (more : lex_cond) (e : nat) : Prop :=
  List.length input <= e \/ holds more (lookahead_at input e) false = false.

(** Neither NUL nor a line end; neither NUL nor a double quote. *)
Definition line_test : lex_cond := IsNot "000" &&& IsNot "010".
Definition string_test : lex_cond := IsNot "000" &&& IsNot "034".

(** The states that have read a ['#'] and no second one. *)
Definition hash_region : list TSStateId := [6; 7; 112; 113; 118; 119; 120]%N.

Definition hash_jump_ok (s : TSStateId) (cs : lex_case) (la : Z) (r : option lex_action)
  : bool :=
  match r with
  | Some (ADVANCE t) =>
      if among hash_region t then
        if skips s then holds (Is "#") la false else among hash_region s
      else true
  | _ => true
  end.

Definition plain_jump_ok (s : TSStateId) (cs : lex_case) (la : Z) (r : option lex_action)
  : bool :=
  match r with
  | Some a =>
      if holds (Is "000") la false then false
      else if holds (Is "010") la false then
             (if is_skip a then true else among string_states s)
      else true
  | None => true
  end.

Definition string_jump_ok (s : TSStateId) (cs : lex_case) (la : Z) (r : option lex_action)
  : bool :=
  match r with
  | Some (ADVANCE t) =>
      if among string_states t then
        if among string_states s then negb (holds (Is "034") la false) else false
      else true
  | _ => true
  end.

Definition accepted_only_in (sym : TSSymbol) (region : TSStateId -> bool)
  (s : TSStateId) (cs : lex_case) : bool :=
  match accept_token cs with
  | Some x => if symbol_eqb x sym then region s else true
  | None => true
  end.

(** ** The shape of the tables *)

Definition is_header (i : N) : bool :=
  match assoc i ts_parse_actions with
  | Some _ => true
  | None => false
  end.

Definition cell_ok (x : TSSymbol) (c : table_cell) : bool :=
  match c with
  | ACTIONS i => if is_token x then is_header i else false
  | STATE s => if is_token x then false else (s <? STATE_COUNT)%N
  end.

Definition action_ok (a : TSParseAction) : bool :=
  match a with
  | SHIFT s | SHIFT_REPEAT s => (s <? STATE_COUNT)%N
  | REDUCE x k _ p =>
      if is_token x then false
      else if (k <=? MAX_ALIAS_SEQUENCE_LENGTH)%nat then (p <? PRODUCTION_ID_COUNT)%nat
           else false
  | _ => true
  end.

(** A property of all cells of the parse tables. *)
Definition all_cells (p : TSStateId -> TSSymbol -> table_cell -> bool) : bool :=
  forallb (fun s => forallb (fun xc => p s (fst xc) (snd xc)) (row_of s)) all_states.

(** A property of the actions listed under a cell. *)
Definition cell_actions (q : TSStateId -> TSSymbol -> TSParseAction -> bool)
  (s : TSStateId) (x : TSSymbol) (c : table_cell) : bool :=
  match c with
  | ACTIONS i =>
      match assoc i ts_parse_actions with
      | Some e => forallb (q s x) (actions e)
      | None => true
      end
  | STATE _ => true
  end.

Definition fields_fit (a : TSParseAction) : bool :=
  match a with
  | REDUCE _ k _ p => forallb (fun fe => (child_index fe <? k)%nat) (field_map p)
  | _ => true
  end.

Fixpoint distinct_fields (l : list TSFieldId) : bool :=
  match l with
  | [] => true
  | f :: l' => if existsb (field_eqb f) l' then false else distinct_fields l'
  end.

Definition slice_ok (sl : TSFieldMapSlice) : bool :=
  if (slice_index sl + slice_length sl <=? List.length ts_field_map_entries)%nat
  then distinct_fields
         (map entry_field
              (firstn (slice_length sl) (skipn (slice_index sl) ts_field_map_entries)))
  else false.

(** The headers of [ts_parse_actions] follow one another: each is followed
    by as many actions as its [count] says, and then by the next header. *)
Fixpoint packed (l : list (N * TSParseActionEntry)) (i : N) : bool :=
  match l with
  | [] => true
  | (j, e) :: l' =>
      if N.eqb j i then
        if Nat.eqb (count e) (List.length (actions e))
        then packed l' (i + 1 + N.of_nat (count e))
        else false
      else false
  end.

(** The size of an entry of [ts_small_parse_table]: the number of groups,
    and for each group its cell, the number of its symbols and the
    symbols. *)
Definition entry_size (groups : list (table_cell * list TSSymbol)) : N :=
  1 + fold_right (fun g n => 2 + N.of_nat (List.length (snd g)) + n)%N 0%N groups.

Fixpoint small_packed (l : list (N * list (table_cell * list TSSymbol))) (o : N) : bool :=
  match l with
  | [] => true
  | (j, groups) :: l' =>
      if N.eqb j o then small_packed l' (o + entry_size groups) else false
  end.

Definition small_state_ok (s : TSStateId) : bool :=
  match assoc s ts_small_parse_table_map with
  | Some off =>
      if (s <? LARGE_STATE_COUNT)%N then false
      else match assoc off ts_small_parse_table with Some _ => true | None => false end
  | None => (s <? LARGE_STATE_COUNT)%N
  end.

Definition primary_state (s : TSStateId) : option TSStateId :=
  nth_error ts_primary_state_ids (N.to_nat s).

Definition primary_ok (s : TSStateId) : bool :=
  match primary_state s with
  | Some p =>
      if (p <=? s)%N
      then match primary_state p with Some q => N.eqb q p | None => false end
      else false
  | None => false
  end.

(** The language description that [tree_sitter_fd] returns: the sizes and
    the tables. *)
Record TSLanguage : Type := {
  version : N;
  symbol_count : N;
  alias_count : N;
  token_count : N;
  external_token_count : N;
  state_count : N;
  large_state_count : N;
  production_id_count : nat;
  field_count : N;
  max_alias_sequence_length : nat;
  parse_table : list (list (TSSymbol * table_cell));
  small_parse_table : list (N * list (table_cell * list TSSymbol));
  small_parse_table_map : list (TSStateId * N);
  parse_actions : list (N * TSParseActionEntry);
  symbol_names : TSSymbol -> string;
  field_names : TSFieldId -> string;
  field_map_slices : list TSFieldMapSlice;
  field_map_entries : list TSFieldMapEntry;
  symbol_metadata : TSSymbol -> TSSymbolMetadata;
  public_symbol_map : TSSymbol -> TSSymbol;
  lex_modes : list TSLexMode;
  lex_fn : list Z -> nat -> TSStateId -> option Token;
  primary_state_ids : list TSStateId
}.

Definition tree_sitter_fd : TSLanguage := {|
  version := LANGUAGE_VERSION;
  symbol_count := SYMBOL_COUNT;
  alias_count := ALIAS_COUNT;
  token_count := TOKEN_COUNT;
  external_token_count := EXTERNAL_TOKEN_COUNT;
  state_count := STATE_COUNT;
  large_state_count := LARGE_STATE_COUNT;
  production_id_count := PRODUCTION_ID_COUNT;
  field_count := FIELD_COUNT;
  max_alias_sequence_length := MAX_ALIAS_SEQUENCE_LENGTH;
  parse_table := ts_parse_table;
  small_parse_table := ts_small_parse_table;
  small_parse_table_map := ts_small_parse_table_map;
  parse_actions := ts_parse_actions;
  symbol_names := ts_symbol_names;
  field_names := ts_field_names;
  field_map_slices := ts_field_map_slices;
  field_map_entries := ts_field_map_entries;
  symbol_metadata := ts_symbol_metadata;
  public_symbol_map := ts_symbol_map;
  lex_modes := ts_lex_modes;
  lex_fn := ts_lex;
  primary_state_ids := ts_primary_state_ids
|}.

Definition all_fields : list TSFieldId :=
  [field_constraint_type; field_id; field_inline_text; field_key; field_kind;
   field_name; field_target; field_trigger; field_value].

(** The child counts of the reductions of the table. *)
Definition child_counts : list nat :=
  flat_map (fun ie => flat_map (fun a => match a with
                                         | REDUCE _ k _ _ => [k]
                                         | _ => []
                                         end)
                               (actions (snd ie)))
           ts_parse_actions.

(** *** Reading a text whole *)

(** The state that the automaton reaches from [s] along the code points
    [l], by the jumps that advance. *)
Fixpoint path (s : TSStateId) (l : list Z) : option TSStateId :=
  match l with
  | [] => Some s
  | c :: l' =>
      match lex_case_of s with
      | Some cs =>
          match select (arms cs) c false with
          | Some (ADVANCE t) => path t l'
          | _ => None
          end
      | None => None
      end
  end.

(** The lex states in which a value can start. *)
Definition value_modes : list TSStateId := [0; 3; 4; 5; 115]%N.

Definition digit_test : lex_cond := AtLeast "0" &&& AtMost "9".

(** What may follow a number: nothing, or a code point that is neither a
    digit nor ['.'] nor ['m']. *)
Definition ends_number (rest : list Z) : Prop :=
  match rest with
  | [] => True
  | c :: _ => ~ is_digit c /\ c <> 46%Z /\ c <> 109%Z
  end.

Definition number_end_test : lex_cond := digit_test ||| Is "." ||| Is "m".

Definition digit_jump_ok (s : TSStateId) (cs : lex_case) (la : Z) (r : option lex_action)
  : bool :=
  if holds digit_test la false then
    if among (10 :: 110 :: 471 :: value_modes)%N s then
      match r with Some (ADVANCE t) => N.eqb t 471 | _ => false end
    else if among [111; 472]%N s then
      match r with Some (ADVANCE t) => N.eqb t 472 | _ => false end
    else true
  else if holds number_end_test la false then true
  else if among [470; 471; 472]%N s then
         match r with None => true | Some _ => false end
       else true.

(** The state in which the automaton has read ['#'] (state [first], 6 or
    112) and [k] hex digits after it. *)
Definition hex_state_of (first : TSStateId) (k : nat) : TSStateId :=
  match k with
  | 0 => first
  | 1 => 119%N | 2 => 118%N | 3 => 478%N | 4 => 477%N
  | 5 => 476%N | 6 => 475%N | 7 => 474%N | 8 => 473%N
  | _ => 0%N
  end.

Definition hash_states : list TSStateId := [6; 112]%N.

Definition hex_jump_ok (s : TSStateId) (cs : lex_case) (la : Z) (r : option lex_action)
  : bool :=
  (if among value_modes s then
     if holds (Is "#") la false
     then match r with Some (ADVANCE t) => among hash_states t | _ => false end
     else true
   else true) &&
  forallb (fun first =>
             forallb (fun k =>
                        if N.eqb s (hex_state_of first k) then
                          if holds hex_test la false then
                            if (k <? 8)%nat
                            then match r with
                                 | Some (ADVANCE t) => N.eqb t (hex_state_of first (S k))
                                 | _ => false
                                 end
                            else match r with None => true | Some _ => false end
                          else if (3 <=? k)%nat
                               then match r with None => true | Some _ => false end
                               else true
                        else true)
                     (seq 0 9))
          hash_states.

(** What may follow a hex colour of [k] digits: anything after eight
    digits, and otherwise nothing or a code point that is no hex digit. *)
Definition ends_hex (k : nat) (rest : list Z) : Prop :=
  k = 8 \/ match rest with
           | [] => True
           | c :: _ => ~ is_hex_digit c
           end.

(** The lex mode of a state fits a token that is read in particular lex
    states only. *)
Definition mode_fits (state : TSStateId) (x : TSSymbol) : bool :=
  if symbol_eqb x sym_number then among value_modes (lex_mode state)
  else if symbol_eqb x sym_hex_color then among value_modes (lex_mode state)
  else if symbol_eqb x sym_annotation_text then among annotation_modes (lex_mode state)
  else if symbol_eqb x aux_sym_string_token1 then N.eqb (lex_mode state) STRING_LEX_STATE
  else true.

(** * Proofs *)

(** ** Symbols *)

Lemma symbol_id_inj : forall a b, symbol_id a = symbol_id b -> a = b.
Proof.
  intros a b H.
  destruct a; destruct b; first [reflexivity | discriminate H].
Qed.

Lemma symbol_eqb_eq : forall a b, symbol_eqb a b = true <-> a = b.
Proof.
  intros a b. unfold symbol_eqb. rewrite N.eqb_eq. split.
  - apply symbol_id_inj.
  - intros ->. reflexivity.
Qed.

Lemma symbol_eqb_refl : forall a, symbol_eqb a a = true.
Proof. intro a. apply symbol_eqb_eq. reflexivity. Qed.

Lemma symbol_eq_dec : forall a b : TSSymbol, {a = b} + {a <> b}.
Proof.
  intros a b. destruct (symbol_eqb a b) eqn:E.
  - left. apply symbol_eqb_eq. exact E.
  - right. intro H. apply symbol_eqb_eq in H. congruence.
Defined.


(** ** Facts about the automaton that are read off the table *)

Lemma nth_error_combine_seq :
  forall (A : Type) (l : list A) (base n : nat) (x : A),
    nth_error l n = Some x ->
    In (N.of_nat (base + n), x) (combine (map N.of_nat (seq base (List.length l))) l).
Proof.
  induction l as [| y l IH]; intros base n x H.
  - destruct n; discriminate H.
  - destruct n as [| n]; simpl in *.
    + injection H as ->. left. rewrite Nat.add_0_r. reflexivity.
    + right. specialize (IH (S base) n x H).
      replace (base + S n)%nat with (S base + n)%nat by lia. exact IH.
Qed.

Lemma lex_case_labelled :
  forall s c, lex_case_of s = Some c -> In (s, c) labelled_cases.
Proof.
  intros s c H. unfold lex_case_of in H.
  pose proof (nth_error_combine_seq _ ts_lex_cases 0 _ _ H) as HI.
  simpl in HI. rewrite N2Nat.id in HI. exact HI.
Qed.

Lemma all_arms_spec :
  forall p, all_arms p = true ->
  forall s cs c a, lex_case_of s = Some cs -> In (c, a) (arms cs) -> p s cs c a = true.
Proof.
  intros p H s cs c a Hs Ha. unfold all_arms in H.
  rewrite forallb_forall in H. specialize (H _ (lex_case_labelled _ _ Hs)).
  simpl in H. rewrite forallb_forall in H. exact (H _ Ha).
Qed.

Lemma select_In :
  forall l la e a, select l la e = Some a ->
  exists c, In (c, a) l /\ holds c la e = true.
Proof.
  induction l as [| [c b] l IH]; intros la e a H; simpl in H.
  - discriminate H.
  - destruct (holds c la e) eqn:Hc.
    + injection H as ->. exists c. split; [left; reflexivity | exact Hc].
    + destruct (IH _ _ _ H) as [c' [Hin Hh]]. exists c'. split; [right; exact Hin | exact Hh].
Qed.

(** At the end of input ([lookahead] is [0] there) the only jump that can be
    taken is [if (eof) ADVANCE(117)], and case 117 has no jump at all. *)
Lemma only_eof_jump_at_end :
  all_arms (fun _ _ c a =>
              implb (holds c 0%Z true)
                    (negb (is_skip a) && N.eqb (target a) END_OF_INPUT_STATE)) = true.
Proof. vm_compute. reflexivity. Qed.

Lemma end_state_stops :
  lex_case_of END_OF_INPUT_STATE = Some (Case (Some ts_builtin_sym_end) []).
Proof. reflexivity. Qed.

(** ** [ts_lex] returns, for every buffer, position and state *)

Section Termination.

Variable input : list Z.

Lemma lookahead_at_end :
  forall pos, eof_at input pos = true -> lookahead_at input pos = 0%Z.
Proof.
  intros pos H. unfold eof_at in H. apply Nat.leb_le in H.
  unfold lookahead_at. apply nth_overflow. exact H.
Qed.

Lemma step_at_end :
  forall f f', eof_at input (fr_pos f) = true -> lex_step input f = Goto f' ->
  fr_state f' = END_OF_INPUT_STATE /\ fr_pos f' = fr_pos f.
Proof.
  intros f f' He Hs. unfold lex_step in Hs.
  destruct (lex_case_of (fr_state f)) as [cs |] eqn:Hc; [| discriminate Hs].
  rewrite (lookahead_at_end _ He), He in Hs.
  destruct (select (arms cs) 0%Z true) as [a |] eqn:Hsel; [| discriminate Hs].
  destruct (select_In _ _ _ _ Hsel) as [c [Hin Hh]].
  pose proof (all_arms_spec _ only_eof_jump_at_end _ _ _ _ Hc Hin) as Hp.
  simpl in Hp. rewrite Hh in Hp. simpl in Hp.
  apply andb_prop in Hp. destruct Hp as [Hk Ht]. apply N.eqb_eq in Ht.
  unfold advance in Hs. rewrite He in Hs.
  destruct a as [s | s]; simpl in *; [| discriminate Hk].
  injection Hs as <-. simpl. split; [exact Ht | reflexivity].
Qed.

Lemma step_advances :
  forall f f', eof_at input (fr_pos f) = false -> lex_step input f = Goto f' ->
  fr_pos f' = S (fr_pos f).
Proof.
  intros f f' He Hs. unfold lex_step in Hs.
  destruct (lex_case_of (fr_state f)) as [cs |]; [| discriminate Hs].
  unfold advance in Hs. rewrite He in Hs.
  destruct (select _ _ _) as [[s | s] |]; try discriminate Hs;
    injection Hs as <-; reflexivity.
Qed.

Lemma loop_returns_at_end :
  forall f fuel, eof_at input (fr_pos f) = true ->
  exists t, lex_loop input (S (S fuel)) f = Some t.
Proof.
  intros f fuel He. simpl.
  destruct (lex_step input f) as [f' | t] eqn:Hs; [| exists t; reflexivity].
  destruct (step_at_end _ _ He Hs) as [Hst Hpos].
  unfold lex_step. rewrite Hst, end_state_stops. simpl.
  destruct fuel; eexists; reflexivity.
Qed.

Lemma loop_returns :
  forall n f, (List.length input - fr_pos f <= n)%nat ->
  exists t, lex_loop input (S (S n)) f = Some t.
Proof.
  induction n as [| n IH]; intros f Hn.
  - apply loop_returns_at_end. unfold eof_at. apply Nat.leb_le. lia.
  - destruct (eof_at input (fr_pos f)) eqn:He.
    + apply loop_returns_at_end. exact He.
    + change (lex_loop input (S (S (S n))) f)
        with (match lex_step input f with
              | Return t => Some t
              | Goto f' => lex_loop input (S (S n)) f'
              end).
      destruct (lex_step input f) as [f' | t] eqn:Hs; [| exists t; reflexivity].
      apply IH. rewrite (step_advances _ _ He Hs). lia.
Qed.

Lemma ts_lex_from_returns :
  forall pos state, exists t, ts_lex_from input pos state = Some t.
Proof.
  intros pos state. unfold ts_lex_from, lex_fuel. apply loop_returns. simpl. lia.
Qed.

End Termination.

(** ** Invariants of a run of [ts_lex], proved once for all tokens *)

Lemma skip_arms_are_self_loops :
  all_arms (fun s cs _ a =>
              implb (is_skip a) (N.eqb (target a) s && accepts_nothing cs)) = true.
Proof. vm_compute. reflexivity. Qed.

Lemma advance_never_enters_a_skipping_state :
  all_arms (fun _ _ _ a => implb (negb (is_skip a)) (negb (skips (target a)))) = true.
Proof. vm_compute. reflexivity. Qed.

Lemma firstn_snoc :
  forall (l : list Z) (k : nat) (d : Z),
    (k < List.length l)%nat -> firstn (S k) l = firstn k l ++ [nth k l d].
Proof.
  induction l as [| x l IH]; intros k d Hk; simpl in Hk.
  - lia.
  - destruct k as [| k].
    + reflexivity.
    + change (firstn (S (S k)) (x :: l)) with (x :: firstn (S k) l).
      rewrite (IH k d) by lia. reflexivity.
Qed.

Lemma nth_after_skipn :
  forall (l : list Z) (a k : nat) (d : Z), nth k (skipn a l) d = nth (a + k) l d.
Proof.
  induction l as [| x l IH]; intros a k d.
  - rewrite skipn_nil. destruct k; destruct (a + _)%nat; reflexivity.
  - destruct a as [| a]; [reflexivity |]. simpl. apply IH.
Qed.

Section TokenInvariant.

Variable input : list Z.

Lemma slice_empty : forall a, slice input a a = [].
Proof. intro a. unfold slice. rewrite Nat.sub_diag. reflexivity. Qed.

Lemma slice_snoc :
  forall a b, (a <= b)%nat -> eof_at input b = false ->
  slice input a (S b) = slice input a b ++ [lookahead_at input b].
Proof.
  intros a b Hab He. unfold eof_at in He. apply Nat.leb_gt in He.
  unfold slice, lookahead_at.
  replace (S b - a)%nat with (S (b - a)) by lia.
  rewrite (firstn_snoc (skipn a input) (b - a) 0%Z).
  - rewrite nth_after_skipn. replace (a + (b - a))%nat with b by lia. reflexivity.
  - rewrite length_skipn. lia.
Qed.

Lemma slice_is_short :
  forall a b, (List.length (slice input a b) <= b - a)%nat.
Proof. intros a b. unfold slice. rewrite length_firstn. lia. Qed.

(** [P s txt]: what is known when the automaton is in state [s] and [txt]
    is the text read since the start of the token.  [Good sym txt]: what is
    claimed of a token [sym] with text [txt]. *)
Variable P : TSStateId -> list Z -> Prop.
Variable Good : TSSymbol -> list Z -> Prop.

Hypothesis P_advance :
  forall s cs c t la txt,
    lex_case_of s = Some cs -> In (c, ADVANCE t) (arms cs) ->
    holds c la false = true ->
    (skips s = true -> txt = []) ->
    P s txt -> P t (txt ++ [la]).
Hypothesis P_end :
  forall s cs c txt,
    lex_case_of s = Some cs -> In (c, ADVANCE END_OF_INPUT_STATE) (arms cs) ->
    holds c 0%Z true = true ->
    (skips s = true -> txt = []) ->
    P s txt -> P END_OF_INPUT_STATE txt.
Hypothesis P_skip : forall s txt, skips s = true -> P s txt -> P s [].
Hypothesis P_accept :
  forall s cs sym txt,
    lex_case_of s = Some cs -> accept_token cs = Some sym -> P s txt -> Good sym txt.

Lemma has_skip_arm :
  forall s cs c t, lex_case_of s = Some cs -> In (c, SKIP t) (arms cs) -> skips s = true.
Proof.
  intros s cs c t Hs Hin. unfold skips. rewrite Hs.
  apply existsb_exists. exists (c, SKIP t). split; [exact Hin | reflexivity].
Qed.

Lemma step_keeps_frame_ok :
  forall pos0 f f',
    frame_ok input P Good pos0 f -> lex_step input f = Goto f' ->
    frame_ok input P Good pos0 f'.
Proof.
  intros pos0 f f' (H0 & Hle & Hsk & HP & Hres) Hs.
  unfold lex_step in Hs.
  destruct (lex_case_of (fr_state f)) as [cs |] eqn:Hc; [| discriminate Hs].
  destruct (select (arms cs) (lookahead_at input (fr_pos f)) (eof_at input (fr_pos f)))
    as [a |] eqn:Hsel; [| discriminate Hs].
  destruct (select_In _ _ _ _ Hsel) as [c [Hin Hh]].
  assert (Hnew : forall sym e,
             match accept_token cs with
             | Some s0 => Some (s0, fr_pos f)
             | None => fr_result f
             end = Some (sym, e) ->
             (fr_start f <= e)%nat /\ Good sym (slice input (fr_start f) e)).
  { intros sym e Hr. destruct (accept_token cs) as [s0 |] eqn:Ha.
    - injection Hr as <- <-. split; [exact Hle |].
      exact (P_accept _ _ _ _ Hc Ha HP).
    - exact (Hres _ _ Hr). }
  destruct a as [t | t].
  - (* ADVANCE *)
    injection Hs as <-. unfold frame_ok. simpl.
    pose proof (all_arms_spec _ advance_never_enters_a_skipping_state _ _ _ _ Hc Hin) as Hns.
    simpl in Hns. apply negb_true_iff in Hns.
    destruct (eof_at input (fr_pos f)) eqn:He.
    + (* at the end of input the jump leads to the end state *)
      pose proof (all_arms_spec _ only_eof_jump_at_end _ _ _ _ Hc Hin) as Hend.
      simpl in Hend.
      rewrite (lookahead_at_end _ _ He) in Hh. rewrite Hh in Hend. simpl in Hend.
      apply N.eqb_eq in Hend. subst t.
      unfold advance. rewrite He.
      refine (conj H0 (conj Hle (conj _ (conj _ Hnew)))).
      * intro Hk. rewrite Hns in Hk. discriminate Hk.
      * apply (P_end _ _ _ _ Hc Hin Hh); [| exact HP].
        intro Hk. destruct (Hsk Hk) as [Heq _]. rewrite Heq. apply slice_empty.
    + unfold advance. rewrite He.
      refine (conj H0 (conj _ (conj _ (conj _ Hnew)))).
      * lia.
      * intro Hk. rewrite Hns in Hk. discriminate Hk.
      * rewrite (slice_snoc _ _ Hle He).
        apply (P_advance _ _ _ _ _ _ Hc Hin Hh); [| exact HP].
        intro Hk. destruct (Hsk Hk) as [Heq _]. rewrite Heq. apply slice_empty.
  - (* SKIP *)
    injection Hs as <-. unfold frame_ok. simpl.
    pose proof (all_arms_spec _ skip_arms_are_self_loops _ _ _ _ Hc Hin) as Hself.
    simpl in Hself. apply andb_prop in Hself. destruct Hself as [Ht Hacc].
    apply N.eqb_eq in Ht. subst t.
    pose proof (has_skip_arm _ _ _ _ Hc Hin) as Hk.
    destruct (Hsk Hk) as [Heq Hnone].
    unfold accepts_nothing in Hacc.
    destruct (accept_token cs); [discriminate Hacc |].
    rewrite Hnone.
    assert (Hadv : (fr_pos f <= advance input (fr_pos f))%nat).
    { unfold advance. destruct (eof_at input (fr_pos f)); lia. }
    refine (conj _ (conj (Nat.le_refl _) (conj (fun _ => conj eq_refl eq_refl) (conj _ _)))).
    + lia.
    + rewrite slice_empty. exact (P_skip _ _ Hk HP).
    + intros sym e Hr. discriminate Hr.
Qed.

Lemma return_is_good :
  forall pos0 f tok,
    frame_ok input P Good pos0 f -> lex_step input f = Return (Some tok) ->
  Good (tok_symbol tok) (token_text input tok) /\
  (pos0 <= tok_start tok)%nat /\ (tok_start tok <= tok_end tok)%nat.
Proof.
  intros pos0 f tok (H0 & Hle & Hsk & HP & Hres) Hs.
  unfold lex_step in Hs.
  destruct (lex_case_of (fr_state f)) as [cs |] eqn:Hc; [| discriminate Hs].
  destruct (select _ _ _) as [[t | t] |]; try discriminate Hs.
  injection Hs as Hs. unfold finish in Hs.
  destruct (accept_token cs) as [s0 |] eqn:Ha.
  - injection Hs as <-. unfold token_text. simpl.
    repeat split; try assumption. exact (P_accept _ _ _ _ Hc Ha HP).
  - destruct (fr_result f) as [[sym e] |] eqn:Hr; [| discriminate Hs].
    injection Hs as <-. unfold token_text. simpl.
    destruct (Hres _ _ eq_refl) as [Hse Hg].
    repeat split; assumption.
Qed.

Lemma loop_is_good :
  forall pos0 fuel f tok,
    frame_ok input P Good pos0 f -> lex_loop input fuel f = Some (Some tok) ->
  Good (tok_symbol tok) (token_text input tok) /\
  (pos0 <= tok_start tok)%nat /\ (tok_start tok <= tok_end tok)%nat.
Proof.
  intros pos0 fuel. induction fuel as [| fuel IH]; intros f tok Hok Hl; simpl in Hl.
  - discriminate Hl.
  - destruct (lex_step input f) as [f' | t] eqn:Hs.
    + exact (IH _ _ (step_keeps_frame_ok _ _ _ Hok Hs) Hl).
    + injection Hl as ->. exact (return_is_good _ _ _ Hok Hs).
Qed.

Lemma ts_lex_is_good :
  forall pos state tok,
    P state [] ->
    ts_lex input pos state = Some tok ->
    Good (tok_symbol tok) (token_text input tok) /\
    (pos <= tok_start tok)%nat /\ (tok_start tok <= tok_end tok)%nat.
Proof.
  intros pos state tok HP Hl. unfold ts_lex, ts_lex_from in Hl.
  destruct (lex_loop input (lex_fuel input pos) (LexFrame state pos pos None))
    as [r |] eqn:Hloop; [| discriminate Hl].
  subst r. apply (loop_is_good pos _ _ _) in Hloop; [exact Hloop |].
  unfold frame_ok. simpl. repeat split; try lia; try discriminate.
  rewrite slice_empty. exact HP.
Qed.

End TokenInvariant.

(** ** Number tokens *)

Lemma all_cases_spec :
  forall p, all_cases p = true ->
  forall s cs, lex_case_of s = Some cs -> p s cs = true.
Proof.
  intros p H s cs Hs. unfold all_cases in H. rewrite forallb_forall in H.
  exact (H _ (lex_case_labelled _ _ Hs)).
Qed.

Lemma arms_into_complete :
  forall tracked s cs c t,
    lex_case_of s = Some cs -> In (c, ADVANCE t) (arms cs) -> tracked t = true ->
    In (s, c, t) (arms_into tracked).
Proof.
  intros tracked s cs c t Hs Hin Ht. unfold arms_into.
  apply in_flat_map. exists (s, cs). split; [exact (lex_case_labelled _ _ Hs) |].
  apply in_flat_map. exists (c, ADVANCE t). split; [exact Hin |].
  simpl. rewrite Ht. left. reflexivity.
Qed.

Lemma untracked_number_state :
  forall s txt, among number_states s = false -> number_state s txt.
Proof.
  intros s txt H. unfold among, number_states in H. simpl in H.
  repeat (apply orb_false_elim in H; destruct H as [?H H]).
  repeat match goal with E : N.eqb _ _ = false |- _ => apply N.eqb_neq in E end.
  unfold number_state.
  repeat match goal with
         | |- match ?x with _ => _ end => destruct x; try exact I; try congruence
         end.
Qed.

Lemma digit_is_digits : forall c, is_digit c -> digits [c].
Proof. intros c H. split; [discriminate | constructor; [exact H | constructor]]. Qed.

Lemma digits_snoc : forall l c, digits l -> is_digit c -> digits (l ++ [c]).
Proof.
  intros l c [Hne Hall] Hc. split.
  - intro H. apply app_eq_nil in H. destruct H as [_ H]. discriminate H.
  - apply Forall_app. split; [exact Hall | constructor; [exact Hc | constructor]].
Qed.

Lemma signed_int_first : forall c, is_digit c -> signed_int ([] ++ [c]).
Proof.
  intros c H. exists [], [c]. split; [reflexivity |]. split; [left; reflexivity |].
  apply digit_is_digits. exact H.
Qed.

Lemma signed_int_after_minus : forall c, is_digit c -> signed_int (codes "-" ++ [c]).
Proof.
  intros c H. exists (codes "-"), [c]. split; [reflexivity |].
  split; [right; left; reflexivity |]. apply digit_is_digits. exact H.
Qed.

Lemma signed_int_snoc : forall txt c, signed_int txt -> is_digit c -> signed_int (txt ++ [c]).
Proof.
  intros txt c (sign & int & -> & Hs & Hd) Hc.
  exists sign, (int ++ [c]). split; [rewrite app_assoc; reflexivity |].
  split; [exact Hs | apply digits_snoc; assumption].
Qed.

Lemma signed_frac_first :
  forall n c, signed_int n -> is_digit c -> signed_frac ((n ++ codes ".") ++ [c]).
Proof.
  intros n c (sign & int & -> & Hs & Hd) Hc.
  exists sign, int, [c]. split; [rewrite <- !app_assoc; reflexivity |].
  split; [exact Hs |]. split; [exact Hd | apply digit_is_digits; exact Hc].
Qed.

Lemma signed_frac_snoc :
  forall txt c, signed_frac txt -> is_digit c -> signed_frac (txt ++ [c]).
Proof.
  intros txt c (sign & int & ds & -> & Hs & Hd & Hf) Hc.
  exists sign, int, (ds ++ [c]). split; [rewrite <- !app_assoc; reflexivity |].
  split; [exact Hs |]. split; [exact Hd | apply digits_snoc; assumption].
Qed.

Lemma signed_int_is_number :
  forall n unit, signed_int n -> unit = [] \/ unit = codes "ms" -> number_text (n ++ unit).
Proof.
  intros n unit (sign & int & -> & Hs & Hd) Hu.
  exists sign, int, [], unit. split; [rewrite <- app_assoc; reflexivity |].
  split; [exact Hs |]. split; [exact Hd |]. split; [left; reflexivity | exact Hu].
Qed.

Lemma signed_frac_is_number :
  forall n unit, signed_frac n -> unit = [] \/ unit = codes "ms" -> number_text (n ++ unit).
Proof.
  intros n unit (sign & int & ds & -> & Hs & Hd & Hf) Hu.
  exists sign, int, (codes "." ++ ds), unit.
  split; [rewrite <- !app_assoc; reflexivity |].
  split; [exact Hs |]. split; [exact Hd |].
  split; [right; exists ds; split; [reflexivity | exact Hf] | exact Hu].
Qed.

Lemma number_arms :
  arms_into (among number_states) =
  [ (0, Is "-", 10); (0, AtLeast "0" &&& AtMost "9", 471);
    (3, Is "-", 110); (3, AtLeast "0" &&& AtMost "9", 471);
    (4, Is "-", 110); (4, AtLeast "0" &&& AtMost "9", 471);
    (5, Is "-", 110); (5, AtLeast "0" &&& AtMost "9", 471);
    (10, AtLeast "0" &&& AtMost "9", 471);
    (83, Is "s", 470);
    (110, AtLeast "0" &&& AtMost "9", 471);
    (111, AtLeast "0" &&& AtMost "9", 472);
    (115, Is "-", 110); (115, AtLeast "0" &&& AtMost "9", 471);
    (471, Is ".", 111); (471, Is "m", 83); (471, AtLeast "0" &&& AtMost "9", 471);
    (472, Is "m", 83); (472, AtLeast "0" &&& AtMost "9", 472) ]%N.
Proof. vm_compute. reflexivity. Qed.

Lemma holds_digit :
  forall la e, holds (AtLeast "0" &&& AtMost "9") la e = true -> is_digit la.
Proof.
  intros la e H. simpl in H. apply andb_prop in H. destruct H as [H1 H2].
  apply Z.leb_le in H1. apply Z.leb_le in H2. unfold is_digit.
  change (code "0") with 48%Z in H1. change (code "9") with 57%Z in H2. lia.
Qed.

Lemma holds_is : forall k la e, holds (Is k) la e = true -> la = code k.
Proof. intros k la e H. simpl in H. apply Z.eqb_eq in H. exact H. Qed.

Lemma number_state_advance :
  forall s cs c t la txt,
    lex_case_of s = Some cs -> In (c, ADVANCE t) (arms cs) ->
    holds c la false = true ->
    (skips s = true -> txt = []) ->
    number_state s txt -> number_state t (txt ++ [la]).
Proof.
  intros s cs c t la txt Hs Hin Hh Hsk HP.
  destruct (among number_states t) eqn:Ht; [| apply untracked_number_state; exact Ht].
  pose proof (arms_into_complete _ _ _ _ _ Hs Hin Ht) as Harm.
  rewrite number_arms in Harm. simpl in Harm.
  repeat (destruct Harm as [Harm | Harm];
          [injection Harm as <- <- <-;
           try (rewrite (Hsk eq_refl));
           try (apply holds_digit in Hh);
           try (apply holds_is in Hh; subst la) |]);
    [.. | contradiction].
  all: simpl in HP; simpl.
  all: try reflexivity.
  all: try (apply signed_int_first; assumption).
  all: try (subst txt; apply signed_int_after_minus; assumption).
  all: try (apply signed_int_snoc; assumption).
  all: try (apply signed_frac_snoc; assumption).
  - (* 83 --s--> 470 *)
    destruct HP as (n & -> & Hn). exists n. split; [| exact Hn].
    rewrite <- app_assoc. reflexivity.
  - (* 111 --digit--> 472 *)
    destruct HP as (n & -> & Hn). apply signed_frac_first; assumption.
  - (* 471 --.--> 111 *)
    exists txt. split; [reflexivity | exact HP].
  - (* 471 --m--> 83 *)
    exists txt. split; [reflexivity | left; exact HP].
  - (* 472 --m--> 83 *)
    exists txt. split; [reflexivity | right; exact HP].
Qed.

Lemma number_accepting_states :
  all_cases (fun s cs =>
               match accept_token cs with
               | Some sym => implb (symbol_eqb sym sym_number) (among [470; 471; 472]%N s)
               | None => true
               end) = true.
Proof. vm_compute. reflexivity. Qed.

Lemma number_state_accept :
  forall s cs sym txt,
    lex_case_of s = Some cs -> accept_token cs = Some sym ->
    number_state s txt -> number_token sym txt.
Proof.
  intros s cs sym txt Hs Ha HP Hsym. subst sym.
  pose proof (all_cases_spec _ number_accepting_states _ _ Hs) as H.
  simpl in H. rewrite Ha in H. simpl in H.
  unfold among in H. simpl in H.
  repeat (apply orb_prop in H; destruct H as [H | H]); try discriminate H;
    apply N.eqb_eq in H; subst s; simpl in HP.
  - destruct HP as (n & -> & [Hn | Hn]).
    + apply signed_int_is_number; [exact Hn | right; reflexivity].
    + apply signed_frac_is_number; [exact Hn | right; reflexivity].
  - rewrite <- (app_nil_r txt). apply signed_int_is_number; [exact HP | left; reflexivity].
  - rewrite <- (app_nil_r txt). apply signed_frac_is_number; [exact HP | left; reflexivity].
Qed.

Lemma number_state_at_start :
  forall s, In s lex_start_states -> number_state s [].
Proof.
  intros s H. apply untracked_number_state.
  vm_compute in H.
  repeat (destruct H as [H | H]; [subst s; reflexivity |]). contradiction.
Qed.

(** ** Hex colour tokens *)

Lemma untracked_hex_state :
  forall s txt, among hex_states s = false -> hex_state s txt.
Proof.
  intros s txt H. unfold among, hex_states in H. simpl in H.
  repeat (apply orb_false_elim in H; destruct H as [?H H]).
  repeat match goal with E : N.eqb _ _ = false |- _ => apply N.eqb_neq in E end.
  unfold hex_state.
  repeat match goal with
         | |- match ?x with _ => _ end => destruct x; try exact I; try congruence
         end.
Qed.

Lemma hex_arms :
  arms_into (among hex_states) =
  [ (0, Is "#", 6); (3, Is "#", 6); (4, Is "#", 112); (5, Is "#", 112);
    (6, hex_test, 119); (112, hex_test, 119); (115, Is "#", 6);
    (118, hex_test, 478); (119, hex_test, 118);
    (474, hex_test, 473); (475, hex_test, 474); (476, hex_test, 475);
    (477, hex_test, 476); (478, hex_test, 477) ]%N.
Proof. vm_compute. reflexivity. Qed.

Lemma holds_hex : forall la e, holds hex_test la e = true -> is_hex_digit la.
Proof.
  intros la e H. unfold hex_test in H. simpl in H. unfold is_hex_digit.
  change (code "0") with 48%Z in H. change (code "9") with 57%Z in H.
  change (code "A") with 65%Z in H. change (code "F") with 70%Z in H.
  change (code "a") with 97%Z in H. change (code "f") with 102%Z in H.
  repeat (apply orb_prop in H; destruct H as [H | H]);
    apply andb_prop in H; destruct H as [H1 H2];
    apply Z.leb_le in H1; apply Z.leb_le in H2; lia.
Qed.

Lemma hex_run_first : forall c, is_hex_digit c -> hex_run 1 (codes "#" ++ [c]).
Proof.
  intros c H. exists [c]. split; [reflexivity |]. split; [reflexivity |].
  constructor; [exact H | constructor].
Qed.

Lemma hex_run_snoc :
  forall n txt c, hex_run n txt -> is_hex_digit c -> hex_run (S n) (txt ++ [c]).
Proof.
  intros n txt c (ds & -> & Hl & Hall) Hc. exists (ds ++ [c]).
  split; [rewrite <- app_assoc; reflexivity |].
  split; [rewrite length_app; simpl; lia |].
  apply Forall_app. split; [exact Hall | constructor; [exact Hc | constructor]].
Qed.

Lemma hex_state_advance :
  forall s cs c t la txt,
    lex_case_of s = Some cs -> In (c, ADVANCE t) (arms cs) ->
    holds c la false = true ->
    (skips s = true -> txt = []) ->
    hex_state s txt -> hex_state t (txt ++ [la]).
Proof.
  intros s cs c t la txt Hs Hin Hh Hsk HP.
  destruct (among hex_states t) eqn:Ht; [| apply untracked_hex_state; exact Ht].
  pose proof (arms_into_complete _ _ _ _ _ Hs Hin Ht) as Harm.
  rewrite hex_arms in Harm. simpl in Harm.
  repeat (destruct Harm as [Harm | Harm];
          [injection Harm as <- <- <-;
           try (rewrite (Hsk eq_refl));
           try (apply holds_hex in Hh);
           try (apply holds_is in Hh; subst la) |]);
    [.. | contradiction].
  all: simpl in HP; simpl.
  all: try reflexivity.
  all: try (subst txt; apply hex_run_first; assumption).
  all: try (apply hex_run_snoc; assumption).
Qed.

Lemma hex_accepting_states :
  all_cases (fun s cs =>
               match accept_token cs with
               | Some sym =>
                   implb (symbol_eqb sym sym_hex_color)
                         (among [473; 474; 475; 476; 477; 478]%N s)
               | None => true
               end) = true.
Proof. vm_compute. reflexivity. Qed.

Lemma hex_run_is_hex_color :
  forall n txt, hex_run n txt -> (3 <= n <= 8)%nat -> hex_color_text txt.
Proof.
  intros n txt (ds & -> & Hl & Hall) Hn. exists ds.
  split; [reflexivity |]. split; [lia | exact Hall].
Qed.

Lemma hex_state_accept :
  forall s cs sym txt,
    lex_case_of s = Some cs -> accept_token cs = Some sym ->
    hex_state s txt -> hex_token sym txt.
Proof.
  intros s cs sym txt Hs Ha HP Hsym. subst sym.
  pose proof (all_cases_spec _ hex_accepting_states _ _ Hs) as H.
  simpl in H. rewrite Ha in H. simpl in H.
  unfold among in H. simpl in H.
  repeat (apply orb_prop in H; destruct H as [H | H]); try discriminate H;
    apply N.eqb_eq in H; subst s; simpl in HP;
    apply (hex_run_is_hex_color _ _ HP); lia.
Qed.

Lemma hex_state_at_start :
  forall s, In s lex_start_states -> hex_state s [].
Proof.
  intros s H. apply untracked_hex_state.
  vm_compute in H.
  repeat (destruct H as [H | H]; [subst s; reflexivity |]). contradiction.
Qed.

(** No hex colour outside the lex states that can read one. *)

Lemma hex_arms_start_in_hex_capable :
  forallb (fun a => among hex_capable (fst (fst a))) (arms_into (among hex_states)) = true.
Proof. vm_compute. reflexivity. Qed.

Lemma among_app :
  forall l1 l2 s, among (l1 ++ l2) s = among l1 s || among l2 s.
Proof. intros l1 l2 s. unfold among. apply existsb_app. Qed.

Lemma hex_capable_skip :
  forallb skips ([0; 3; 4; 5; 115]%N) = true.
Proof. vm_compute. reflexivity. Qed.

Lemma never_hex_advance :
  forall s cs c t la txt,
    lex_case_of s = Some cs -> In (c, ADVANCE t) (arms cs) ->
    holds c la false = true ->
    (skips s = true -> txt = []) ->
    never_hex s txt -> never_hex t (txt ++ [la]).
Proof.
  intros s cs c t la txt Hs Hin Hh Hsk HP. unfold never_hex in *.
  unfold hex_capable. rewrite among_app. apply orb_false_intro.
  - (* an [ADVANCE] never enters a state that skips *)
    pose proof (all_arms_spec _ advance_never_enters_a_skipping_state _ _ _ _ Hs Hin) as Hns.
    simpl in Hns. apply negb_true_iff in Hns.
    destruct (among [0; 3; 4; 5; 115]%N t) eqn:Ht; [| reflexivity].
    unfold among in Ht. apply existsb_exists in Ht. destruct Ht as [x [Hx Heq]].
    apply N.eqb_eq in Heq. subst x.
    pose proof hex_capable_skip as Hall. rewrite forallb_forall in Hall.
    rewrite (Hall _ Hx) in Hns. discriminate Hns.
  - destruct (among hex_states t) eqn:Ht; [| reflexivity].
    pose proof (arms_into_complete _ _ _ _ _ Hs Hin Ht) as Harm.
    pose proof hex_arms_start_in_hex_capable as Hall. rewrite forallb_forall in Hall.
    specialize (Hall _ Harm). cbn beta iota delta [fst] in Hall.
    rewrite Hall in HP. discriminate HP.
Qed.

Lemma never_hex_accept :
  forall s cs sym txt,
    lex_case_of s = Some cs -> accept_token cs = Some sym ->
    never_hex s txt -> not_hex_token sym txt.
Proof.
  intros s cs sym txt Hs Ha HP Hsym. subst sym. unfold never_hex in HP.
  pose proof (all_cases_spec _ hex_accepting_states _ _ Hs) as H.
  simpl in H. rewrite Ha in H. simpl in H.
  unfold hex_capable in HP. rewrite among_app in HP. apply orb_false_elim in HP.
  destruct HP as [_ HP].
  unfold among in H, HP. simpl in H, HP.
  repeat (apply orb_false_elim in HP; destruct HP as [?HP HP]).
  repeat (apply orb_prop in H; destruct H as [H | H]); congruence.
Qed.

Lemma hex_only_where_a_value_fits :
  forallb (fun ps => has_action sym_hex_color ps || negb (among hex_capable (lex_mode ps)))
          parse_states = true.
Proof. vm_compute. reflexivity. Qed.

Lemma in_parse_states :
  forall ps, (0 < ps < STATE_COUNT)%N -> In ps parse_states.
Proof.
  intros ps H. unfold parse_states. apply in_map_iff.
  exists (N.to_nat ps). split; [apply N2Nat.id |].
  apply in_seq. unfold STATE_COUNT in H. lia.
Qed.

(** ** A ['#'] in ordinary code *)

Section Hash.

Variable s0 : TSStateId.
Hypothesis ordinary : In s0 [116; 8]%N.

Lemma eof_jumps_only_from_skipping_states :
  all_arms (fun s _ c _ => implb (holds c 0%Z true) (skips s)) = true.
Proof. vm_compute. reflexivity. Qed.

Lemma comment_states_closed :
  all_arms (fun s _ _ a => implb (among comment_states s) (among comment_states (target a)))
  = true.
Proof. vm_compute. reflexivity. Qed.

Lemma hash_in_ordinary_code :
  all_arms (fun s _ c a =>
              implb (among [116; 8]%N s && holds c (code "#") false)
                    (among comment_states (target a))) = true.
Proof. vm_compute. reflexivity. Qed.

Lemma comment_states_accept :
  all_cases (fun s cs =>
               implb (among comment_states s)
                     match accept_token cs with
                     | Some sym => symbol_eqb sym sym_comment
                                   || symbol_eqb sym anon_sym_POUND_POUND
                     | None => true
                     end) = true.
Proof. vm_compute. reflexivity. Qed.

Lemma among_In : forall l s, In s l -> among l s = true.
Proof.
  intros l s H. unfold among. apply existsb_exists. exists s.
  split; [exact H | apply N.eqb_refl].
Qed.

Lemma hash_state_advance :
  forall s cs c t la txt,
    lex_case_of s = Some cs -> In (c, ADVANCE t) (arms cs) ->
    holds c la false = true ->
    (skips s = true -> txt = []) ->
    hash_state s0 s txt -> hash_state s0 t (txt ++ [la]).
Proof.
  intros s cs c t la txt Hs Hin Hh Hsk (H1 & H2 & H3).
  pose proof (all_arms_spec _ advance_never_enters_a_skipping_state _ _ _ _ Hs Hin) as Hns.
  simpl in Hns. apply negb_true_iff in Hns.
  refine (conj _ (conj _ _)).
  - intro Hk. rewrite Hns in Hk. discriminate Hk.
  - intros _. right. intro H. apply app_eq_nil in H. destruct H as [_ H]. discriminate H.
  - intros [rest Hrest].
    destruct txt as [| x txt'].
    + (* the first code point of the token *)
      simpl in Hrest. injection Hrest as Hla _. subst la.
      destruct (skips s) eqn:Hk.
      * rewrite (H1 eq_refl) in *.
        pose proof (all_arms_spec _ hash_in_ordinary_code _ _ _ _ Hs Hin) as Hc.
        cbv beta in Hc. cbn [target] in Hc. rewrite (among_In _ _ ordinary) in Hc.
        change 35%Z with (code "#") in Hh. rewrite Hh in Hc. exact Hc.
      * exfalso. destruct (H2 eq_refl) as [He | Hne]; [| exact (Hne eq_refl)].
        subst s. rewrite end_state_stops in Hs. injection Hs as <-. exact Hin.
    + simpl in Hrest. injection Hrest as Hx _. subst x.
      assert (Hsc : among comment_states s = true).
      { apply H3. exists txt'. reflexivity. }
      pose proof (all_arms_spec _ comment_states_closed _ _ _ _ Hs Hin) as Hc.
      cbv beta in Hc. cbn [target] in Hc. rewrite Hsc in Hc. exact Hc.
Qed.

Lemma hash_state_end :
  forall s cs c txt,
    lex_case_of s = Some cs -> In (c, ADVANCE END_OF_INPUT_STATE) (arms cs) ->
    holds c 0%Z true = true ->
    (skips s = true -> txt = []) ->
    hash_state s0 s txt -> hash_state s0 END_OF_INPUT_STATE txt.
Proof.
  intros s cs c txt Hs Hin Hh Hsk _.
  pose proof (all_arms_spec _ eof_jumps_only_from_skipping_states _ _ _ _ Hs Hin) as Hk.
  cbv beta in Hk. rewrite Hh in Hk. cbn [implb] in Hk. rewrite (Hsk Hk).
  refine (conj _ (conj _ _)).
  - intro H. vm_compute in H. discriminate H.
  - intros _. left. reflexivity.
  - intros [rest H]. discriminate H.
Qed.

Lemma hash_state_skip :
  forall s txt, skips s = true -> hash_state s0 s txt -> hash_state s0 s [].
Proof.
  intros s txt Hk (H1 & _ & _). refine (conj H1 (conj _ _)).
  - intro H. rewrite Hk in H. discriminate H.
  - intros [rest H]. discriminate H.
Qed.

Lemma hash_state_accept :
  forall s cs sym txt,
    lex_case_of s = Some cs -> accept_token cs = Some sym ->
    hash_state s0 s txt -> hash_token sym txt.
Proof.
  intros s cs sym txt Hs Ha (_ & _ & H3) Hhash.
  pose proof (all_cases_spec _ comment_states_accept _ _ Hs) as H.
  cbv beta in H. rewrite (H3 Hhash), Ha in H. cbn [implb] in H.
  apply orb_prop in H. destruct H as [H | H]; apply symbol_eqb_eq in H; auto.
Qed.

Lemma hash_state_at_start : hash_state s0 s0 [].
Proof.
  refine (conj (fun _ => eq_refl) (conj _ _)).
  - intro H. exfalso. simpl in ordinary.
    destruct ordinary as [<- | [<- | []]]; vm_compute in H; discriminate H.
  - intros [rest H]. discriminate H.
Qed.

End Hash.

(** ** The width of tokens *)

Lemma skipping_states_accept_nothing :
  forall s cs, lex_case_of s = Some cs -> skips s = true -> accept_token cs = None.
Proof.
  intros s cs Hc Hk. unfold skips in Hk. rewrite Hc in Hk.
  apply existsb_exists in Hk. destruct Hk as [[c a] [Hin Ha]]. simpl in Ha.
  pose proof (all_arms_spec _ skip_arms_are_self_loops _ _ _ _ Hc Hin) as Hself.
  simpl in Hself. rewrite Ha in Hself. simpl in Hself.
  apply andb_prop in Hself. destruct Hself as [_ Hacc].
  unfold accepts_nothing in Hacc. destruct (accept_token cs); [discriminate Hacc | reflexivity].
Qed.

Lemma string_states_closed :
  all_arms (fun s _ _ a => implb (among string_states s) (among string_states (target a)))
  = true.
Proof. vm_compute. reflexivity. Qed.

Lemma string_states_accept :
  all_cases (fun s cs =>
               implb (among string_states s)
                     match accept_token cs with
                     | Some sym => symbol_eqb sym aux_sym_string_token1
                     | None => true
                     end) = true.
Proof. vm_compute. reflexivity. Qed.

Lemma error_mode_at_end :
  match lex_case_of (lex_mode ERROR_STATE) with
  | Some cs =>
      accept_token cs = None /\
      select (arms cs) 0%Z true = Some (ADVANCE END_OF_INPUT_STATE)
  | None => False
  end.
Proof. vm_compute. split; reflexivity. Qed.

Lemma lex_modes_skip_or_read_a_string :
  forallb (fun m => if skips (lex_state m) then true else N.eqb (lex_state m) STRING_LEX_STATE)
          ts_lex_modes = true.
Proof. vm_compute. reflexivity. Qed.

Lemma lex_mode_cases :
  forall s, skips (lex_mode s) = true \/ lex_mode s = STRING_LEX_STATE.
Proof.
  intro s. unfold lex_mode.
  destruct (nth_error ts_lex_modes (N.to_nat s)) as [m |] eqn:E.
  - pose proof lex_modes_skip_or_read_a_string as H. rewrite forallb_forall in H.
    specialize (H _ (nth_error_In _ _ E)). cbv beta in H.
    destruct (skips (lex_state m)); [left; reflexivity |].
    right. apply N.eqb_eq. exact H.
  - left. vm_compute. reflexivity.
Qed.

Section Widths.

Variable input : list Z.

Lemma advance_in_bounds :
  forall m p, List.length input <= m -> p <= m -> advance input p <= m.
Proof.
  intros m p Hm Hp. unfold advance, eof_at.
  destruct (List.length input <=? p) eqn:E; [exact Hp |].
  apply Nat.leb_gt in E. lia.
Qed.

Lemma step_in_bounds :
  forall m f f',
    List.length input <= m -> fr_pos f <= m ->
    (forall sym e, fr_result f = Some (sym, e) -> e <= m) ->
    lex_step input f = Goto f' ->
    fr_pos f' <= m /\ (forall sym e, fr_result f' = Some (sym, e) -> e <= m).
Proof.
  intros m f f' Hm Hp Hres Hs. unfold lex_step in Hs.
  destruct (lex_case_of (fr_state f)) as [cs |]; [| discriminate Hs].
  assert (Hnew : forall sym e,
             match accept_token cs with
             | Some s0 => Some (s0, fr_pos f)
             | None => fr_result f
             end = Some (sym, e) -> e <= m).
  { intros sym e Hr. destruct (accept_token cs).
    - injection Hr as _ <-. exact Hp.
    - exact (Hres _ _ Hr). }
  pose proof (advance_in_bounds m (fr_pos f) Hm Hp) as Ha.
  destruct (select _ _ _) as [[t | t] |]; try discriminate Hs;
    injection Hs as <-; simpl; split; assumption.
Qed.

Lemma loop_in_bounds :
  forall m fuel f tok,
    List.length input <= m -> fr_pos f <= m ->
    (forall sym e, fr_result f = Some (sym, e) -> e <= m) ->
    lex_loop input fuel f = Some (Some tok) -> tok_end tok <= m.
Proof.
  intros m. induction fuel as [| fuel IH]; intros f tok Hm Hp Hres Hl; simpl in Hl.
  - discriminate Hl.
  - destruct (lex_step input f) as [f' | t] eqn:Hs.
    + destruct (step_in_bounds _ _ _ Hm Hp Hres Hs) as [Hp' Hres'].
      exact (IH _ _ Hm Hp' Hres' Hl).
    + injection Hl as ->. unfold lex_step in Hs.
      destruct (lex_case_of (fr_state f)) as [cs |]; [| discriminate Hs].
      destruct (select _ _ _) as [[t | t] |]; try discriminate Hs.
      injection Hs as Hs. unfold finish in Hs.
      destruct (accept_token cs).
      * injection Hs as <-. exact Hp.
      * destruct (fr_result f) as [[sym e] |] eqn:Hr; [| discriminate Hs].
        injection Hs as <-. exact (Hres _ _ eq_refl).
Qed.

(** A token ends inside the buffer (or where the cursor was, beyond it). *)
Lemma ts_lex_in_bounds :
  forall pos state tok,
    ts_lex input pos state = Some tok ->
    tok_end tok <= Nat.max pos (List.length input).
Proof.
  intros pos state tok Hl. unfold ts_lex, ts_lex_from in Hl.
  destruct (lex_loop input (lex_fuel input pos) (LexFrame state pos pos None))
    as [r |] eqn:Hloop; [| discriminate Hl].
  subst r. apply (loop_in_bounds (Nat.max pos (List.length input))) in Hloop;
    [exact Hloop | lia | simpl; lia |].
  intros sym e Hr. discriminate Hr.
Qed.

(** A token starts at the cursor or after it. *)
Lemma ts_lex_goes_forward :
  forall pos state tok,
    ts_lex input pos state = Some tok ->
    pos <= tok_start tok /\ tok_start tok <= tok_end tok.
Proof.
  intros pos state tok Hl.
  refine (proj2 (ts_lex_is_good input (fun _ _ => True) (fun _ _ => True)
                   _ _ _ _ pos state tok I Hl)); intros; exact I.
Qed.

(** In a lex mode that skips white space, a token is the end of input or
    has one code point or more. *)
Lemma ts_lex_reads_something :
  forall pos state tok,
    skips state = true ->
    ts_lex input pos state = Some tok ->
    is_end tok = true \/ tok_start tok < tok_end tok.
Proof.
  intros pos state tok Hk Hl.
  destruct (ts_lex_is_good input
              (fun s txt => skips s = true \/ s = END_OF_INPUT_STATE \/ txt <> [])
              (fun sym txt => sym = ts_builtin_sym_end \/ txt <> []))
    with (pos := pos) (state := state) (tok := tok) as [Hg _].
  - intros s cs c t la txt _ _ _ _ _. right. right. intro H.
    apply app_eq_nil in H. destruct H as [_ H]. discriminate H.
  - intros s cs c txt _ _ _ _ _. right. left. reflexivity.
  - intros s txt H _. left. exact H.
  - intros s cs sym txt Hc Ha [H | [H | H]].
    + rewrite (skipping_states_accept_nothing _ _ Hc H) in Ha. discriminate Ha.
    + subst s. rewrite end_state_stops in Hc. injection Hc as <-.
      injection Ha as <-. left. reflexivity.
    + right. exact H.
  - left. exact Hk.
  - exact Hl.
  - destruct Hg as [Hg | Hg].
    + left. unfold is_end. rewrite Hg. reflexivity.
    + right. pose proof (slice_is_short input (tok_start tok) (tok_end tok)) as Hs.
      unfold token_text in Hg.
      destruct (slice input (tok_start tok) (tok_end tok)); [contradiction Hg; reflexivity |].
      simpl in Hs. lia.
Qed.

(** In a string the lexer reads string content and nothing else. *)
Lemma ts_lex_in_a_string :
  forall pos tok,
    ts_lex input pos STRING_LEX_STATE = Some tok ->
    tok_symbol tok = aux_sym_string_token1.
Proof.
  intros pos tok Hl.
  assert (Hnoskip : forall s, among string_states s = true -> skips s = false).
  { intros s H. unfold among in H. apply existsb_exists in H.
    destruct H as [y [Hy He]]. apply N.eqb_eq in He. subst y.
    simpl in Hy. repeat (destruct Hy as [<- | Hy]; [vm_compute; reflexivity |]).
    contradiction. }
  destruct (ts_lex_is_good input
              (fun s _ => among string_states s = true)
              (fun sym _ => sym = aux_sym_string_token1))
    with (pos := pos) (state := STRING_LEX_STATE) (tok := tok) as [Hg _].
  - intros s cs c t la txt Hc Hin _ _ H.
    pose proof (all_arms_spec _ string_states_closed _ _ _ _ Hc Hin) as Hcl.
    cbv beta in Hcl. rewrite H in Hcl. exact Hcl.
  - intros s cs c txt Hc Hin _ _ H.
    pose proof (all_arms_spec _ string_states_closed _ _ _ _ Hc Hin) as Hcl.
    cbv beta in Hcl. rewrite H in Hcl. exact Hcl.
  - intros s txt Hk H. exact H.
  - intros s cs sym txt Hc Ha H.
    pose proof (all_cases_spec _ string_states_accept _ _ Hc) as Hacc.
    cbv beta in Hacc. rewrite H, Ha in Hacc. apply symbol_eqb_eq. exact Hacc.
  - reflexivity.
  - exact Hl.
  - exact Hg.
Qed.

(** At the end of input the lexer of the error state returns the end
    token. *)
Lemma error_mode_returns_the_end :
  forall pos,
    eof_at input pos = true ->
    ts_lex input pos (lex_mode ERROR_STATE) = Some (Tok ts_builtin_sym_end pos pos).
Proof.
  intros pos He. pose proof error_mode_at_end as H.
  destruct (lex_case_of (lex_mode ERROR_STATE)) as [cs |] eqn:Hc; [| contradiction].
  destruct H as [Ha Hsel].
  unfold ts_lex, ts_lex_from, lex_fuel.
  change (lex_loop input (S (S (List.length input - pos)))
            (LexFrame (lex_mode ERROR_STATE) pos pos None))
    with (match lex_step input (LexFrame (lex_mode ERROR_STATE) pos pos None) with
          | Return t => Some t
          | Goto f' => lex_loop input (S (List.length input - pos)) f'
          end).
  assert (Hs : lex_step input (LexFrame (lex_mode ERROR_STATE) pos pos None) =
               Goto (LexFrame END_OF_INPUT_STATE pos pos None)).
  { unfold lex_step. cbn [fr_state fr_pos fr_start fr_result].
    rewrite Hc, Ha, (lookahead_at_end _ _ He), He, Hsel.
    unfold advance. rewrite He. reflexivity. }
  rewrite Hs.
  change (lex_loop input (S (List.length input - pos))
            (LexFrame END_OF_INPUT_STATE pos pos None))
    with (match lex_step input (LexFrame END_OF_INPUT_STATE pos pos None) with
          | Return t => Some t
          | Goto f' => lex_loop input (List.length input - pos) f'
          end).
  unfold lex_step. cbn [fr_state fr_pos fr_start fr_result].
  rewrite end_state_stops. reflexivity.
Qed.

End Widths.

(** ** The trees that the engine builds are instances of the grammar *)

Lemma reductions_fit_the_grammar :
  forallb (fun s => forallb (reduce_ok s) all_symbols) all_states = true.
Proof. vm_compute. reflexivity. Qed.

Lemma transitions_are_the_edges :
  transitions =
  flat_map (fun p =>
              flat_map (fun x =>
                          match edge p x with
                          | Some s => [(p, x, s)]
                          | None => []
                          end)
                       all_symbols)
           all_states.
Proof. vm_compute. reflexivity. Qed.

Lemma in_all_symbols : forall x, In x all_symbols.
Proof.
  intro x.
  assert (H : existsb (symbol_eqb x) all_symbols = true) by (destruct x; reflexivity).
  apply existsb_exists in H. destruct H as [y [Hy He]].
  apply symbol_eqb_eq in He. subst y. exact Hy.
Qed.

Lemma assoc_In :
  forall (A : Type) (k : N) (l : list (N * A)) (v : A), assoc k l = Some v -> In (k, v) l.
Proof.
  induction l as [| [k' v'] l IH]; intros v H; simpl in H.
  - discriminate H.
  - destruct (N.eqb k k') eqn:E.
    + apply N.eqb_eq in E. injection H as <-. subst k'. left. reflexivity.
    + right. exact (IH _ H).
Qed.

Lemma small_states_are_states :
  forallb (fun e => (fst e <? STATE_COUNT)%N) ts_small_parse_table_map = true.
Proof. vm_compute. reflexivity. Qed.

Lemma lookup_in_a_state :
  forall p x c, ts_language_lookup p x = Some c -> In p all_states.
Proof.
  intros p x c H.
  assert (Hlt : (p < 94)%N).
  { unfold ts_language_lookup in H.
    destruct (p <? LARGE_STATE_COUNT)%N eqn:E.
    - apply N.ltb_lt in E. unfold LARGE_STATE_COUNT in E. lia.
    - destruct (assoc p ts_small_parse_table_map) as [off |] eqn:Ha; [| discriminate H].
      apply assoc_In in Ha.
      pose proof small_states_are_states as Hall. rewrite forallb_forall in Hall.
      specialize (Hall _ Ha). simpl in Hall. apply N.ltb_lt in Hall.
      unfold STATE_COUNT in Hall. exact Hall. }
  unfold all_states. apply in_map_iff. exists (N.to_nat p).
  split; [apply N2Nat.id | apply in_seq; lia].
Qed.

Lemma action_in_a_state :
  forall p x, action p x <> Error -> In p all_states.
Proof.
  intros p x H. unfold action in H.
  destruct (ts_language_lookup p x) as [c |] eqn:E; [| congruence].
  exact (lookup_in_a_state _ _ _ E).
Qed.

Lemma edge_in_a_state :
  forall p x s, edge p x = Some s -> In p all_states.
Proof.
  intros p x s H. unfold edge in H.
  destruct (action p x) eqn:Ea;
    try (apply (action_in_a_state p x); rewrite Ea; discriminate).
  unfold goto in H.
  destruct (ts_language_lookup p x) as [c |] eqn:E; [| discriminate H].
  exact (lookup_in_a_state _ _ _ E).
Qed.

Lemma edge_in_preds :
  forall p x s, edge p x = Some s -> In (p, x) (preds s).
Proof.
  intros p x s H. unfold preds. apply in_flat_map.
  exists (p, x, s). split.
  - rewrite transitions_are_the_edges. apply in_flat_map.
    exists p. split; [exact (edge_in_a_state _ _ _ H) |].
    apply in_flat_map. exists x. split; [apply in_all_symbols |].
    rewrite H. left. reflexivity.
  - simpl. rewrite N.eqb_refl. left. reflexivity.
Qed.

Lemma goto_is_an_edge :
  forall p a g, goto p a = Some g -> edge p a = Some g.
Proof.
  intros p a g H. unfold edge, action, goto in *.
  destruct (ts_language_lookup p a) as [[i | s] |]; try discriminate H.
  exact H.
Qed.

Lemma own_children_app :
  forall l1 l2, own_children (l1 ++ l2) = own_children l1 ++ own_children l2.
Proof. intros l1 l2. unfold own_children. apply filter_app. Qed.

Lemma shape_matches_snoc :
  forall shape kids set t x,
    shape_matches shape kids = true ->
    tree_symbol t = Some x -> member x set = true ->
    shape_matches (shape ++ [set]) (kids ++ [t]) = true.
Proof.
  induction shape as [| set0 shape IH]; intros kids set t x H Ht Hm.
  - destruct kids; [| discriminate H]. simpl. rewrite Ht, Hm. reflexivity.
  - destruct kids as [| k kids]; [discriminate H |]. simpl in *.
    destruct (tree_symbol k) as [y |]; [| discriminate H].
    destruct (member y set0); [| discriminate H].
    exact (IH _ _ _ _ H Ht Hm).
Qed.

Lemma take_missing_ok :
  forall stack acc,
    stack_ok stack ->
    exists kids rest,
      take_missing stack acc = (kids ++ acc, rest) /\
      stack_ok rest /\ top_state rest = top_state stack /\
      own_children kids = [] /\ forallb tree_ok kids = true.
Proof.
  induction stack as [| [s t] rest IH]; intros acc Hok.
  - exists [], []. split; [reflexivity |]. split; [exact Hok |]. repeat split.
  - destruct t as [tok | a p kids |].
    + exists [], ((s, Leaf tok) :: rest).
      split; [reflexivity |]. split; [exact Hok |]. repeat split.
    + exists [], ((s, Node a p kids) :: rest).
      split; [reflexivity |]. split; [exact Hok |]. repeat split.
    + destruct Hok as (Hrest & _ & Hs). simpl in Hs.
      destruct (IH (Missing :: acc) Hrest) as (kids' & rest' & Ht & Hok' & Htop & Hown & Hall).
      exists (kids' ++ [Missing]), rest'. simpl. rewrite Ht.
      split; [rewrite <- app_assoc; reflexivity |].
      split; [exact Hok' |]. split; [rewrite Htop; symmetry; exact Hs |].
      split.
      * rewrite own_children_app, Hown. reflexivity.
      * rewrite forallb_app, Hall. reflexivity.
Qed.

Lemma pop_ok :
  forall a stack shape_rev acc,
    stack_ok stack ->
    back_ok shape_rev a (top_state stack) = true ->
    exists kids rest g,
      pop stack (List.length shape_rev) acc = Some (kids ++ acc, rest) /\
      stack_ok rest /\ goto (top_state rest) a = Some g /\
      shape_matches (rev shape_rev) (own_children kids) = true /\
      forallb tree_ok kids = true.
Proof.
  intros a. induction stack as [| [s t] rest IH]; intros shape_rev acc Hok Hback.
  - destruct shape_rev as [| set more].
    + simpl in Hback. destruct (goto START_STATE a) as [g |] eqn:Hg; [| discriminate Hback].
      exists [], [], g. split; [reflexivity |]. split; [exact Hok |].
      split; [exact Hg |]. split; reflexivity.
    + simpl in Hback. discriminate Hback.
  - destruct shape_rev as [| set more].
    + simpl in Hback.
      destruct (goto s a) as [g |] eqn:Hg; [| discriminate Hback].
      destruct (take_missing_ok ((s, t) :: rest) acc Hok)
        as (kids & rest' & Ht & Hok' & Htop & Hown & Hall).
      exists kids, rest', g.
      change (pop ((s, t) :: rest) (List.length (@nil (list TSSymbol))) acc)
        with (Some (take_missing ((s, t) :: rest) acc)).
      split; [rewrite Ht; reflexivity |]. split; [exact Hok' |].
      split; [rewrite Htop; exact Hg |].
      split; [rewrite Hown; reflexivity | exact Hall].
    + destruct Hok as (Hrest & Htree & Hs).
      destruct t as [tok | b p kids0 |].
      * (* a token *)
        simpl in Hs. pose proof (edge_in_preds _ _ _ Hs) as Hin.
        simpl in Hback. destruct (N.eqb s START_STATE); [discriminate Hback |].
        rewrite forallb_forall in Hback. specialize (Hback _ Hin). simpl in Hback.
        destruct (member (tok_symbol tok) set) eqn:Hm; [| discriminate Hback].
        destruct (IH more (Leaf tok :: acc) Hrest Hback)
          as (kids & rest' & g & Hp & Hok' & Hg & Hsh & Hall).
        exists (kids ++ [Leaf tok]), rest', g. simpl.
        split; [rewrite Hp, <- app_assoc; reflexivity |].
        split; [exact Hok' |]. split; [exact Hg |].
        split.
        -- rewrite own_children_app. simpl.
           apply (shape_matches_snoc _ _ _ _ (tok_symbol tok) Hsh); [reflexivity | exact Hm].
        -- rewrite forallb_app, Hall. cbn [forallb andb]. rewrite Htree. reflexivity.
      * (* a node *)
        simpl in Hs. pose proof (edge_in_preds _ _ _ Hs) as Hin.
        simpl in Hback. destruct (N.eqb s START_STATE); [discriminate Hback |].
        rewrite forallb_forall in Hback. specialize (Hback _ Hin). simpl in Hback.
        destruct (member b set) eqn:Hm; [| discriminate Hback].
        destruct (IH more (Node b p kids0 :: acc) Hrest Hback)
          as (kids & rest' & g & Hp & Hok' & Hg & Hsh & Hall).
        exists (kids ++ [Node b p kids0]), rest', g. simpl.
        split; [rewrite Hp, <- app_assoc; reflexivity |].
        split; [exact Hok' |]. split; [exact Hg |].
        split.
        -- rewrite own_children_app. simpl own_children.
           apply (shape_matches_snoc _ _ _ _ b Hsh); [reflexivity | exact Hm].
        -- rewrite forallb_app, Hall. cbn [forallb andb]. rewrite Htree. reflexivity.
      * (* a placeholder *)
        simpl in Hs.
        assert (Hback' : back_ok (set :: more) a (top_state rest) = true)
          by (rewrite <- Hs; exact Hback).
        destruct (IH (set :: more) (Missing :: acc) Hrest Hback')
          as (kids & rest' & g & Hp & Hok' & Hg & Hsh & Hall).
        exists (kids ++ [Missing]), rest', g.
        change (pop ((s, Missing) :: rest) (List.length (set :: more)) acc)
          with (pop rest (List.length (set :: more)) (Missing :: acc)).
        split; [rewrite Hp, <- app_assoc; reflexivity |].
        split; [exact Hok' |]. split; [exact Hg |].
        split.
        -- rewrite own_children_app. simpl. rewrite app_nil_r. exact Hsh.
        -- rewrite forallb_app, Hall. reflexivity.
Qed.

Lemma unwind_ok :
  forall ok stack, stack_ok stack -> stack_ok (unwind ok stack).
Proof.
  intros ok. induction stack as [| [s t] rest IH]; intro H.
  - exact I.
  - simpl. destruct (ok s); [exact H |]. apply IH. destruct H as [H _]. exact H.
Qed.

Lemma placeholder_ok :
  forall stack, stack_ok stack -> stack_ok ((top_state stack, Missing) :: stack).
Proof. intros stack H. simpl. repeat split. exact H. Qed.

Lemma resync_ok :
  forall input fuel stack pos,
    stack_ok stack -> stack_ok (fst (fst (resync input fuel stack pos))).
Proof.
  intros input. induction fuel as [| fuel IH]; intros stack pos H; simpl.
  - exact H.
  - destruct (ts_lex input pos (lex_mode ERROR_STATE)) as [tok |].
    + destruct (is_end tok).
      * apply placeholder_ok. apply unwind_ok. exact H.
      * destruct (exposes (can_shift (tok_symbol tok)) stack).
        -- apply placeholder_ok. apply unwind_ok. exact H.
        -- apply IH. exact H.
    + apply IH. exact H.
Qed.

Lemma recover_ok :
  forall input c, stack_ok (cfg_stack c) -> stack_ok (cfg_stack (recover input c)).
Proof.
  intros input c H. unfold recover.
  pose proof (resync_ok input (S (List.length input - cfg_pos c)) _ (cfg_pos c) H) as Hr.
  destruct (resync input _ (cfg_stack c) (cfg_pos c)) as [[stack pos] la].
  exact Hr.
Qed.

Lemma reduce_ok_holds :
  forall s x, action s x <> Error -> reduce_ok s x = true.
Proof.
  intros s x H. pose proof reductions_fit_the_grammar as Hall.
  rewrite forallb_forall in Hall. specialize (Hall _ (action_in_a_state _ _ H)).
  rewrite forallb_forall in Hall. exact (Hall _ (in_all_symbols x)).
Qed.

Lemma reduce_is_a_production :
  forall s x a k p,
    action s x = Reduce a k p ->
    exists pr, In pr grammar /\ lhs pr = a /\ prod_id pr = p /\
               List.length (rhs pr) = k /\ back_ok (rev (rhs pr)) a s = true.
Proof.
  intros s x a k p H.
  assert (Hne : action s x <> Error) by (rewrite H; discriminate).
  pose proof (reduce_ok_holds _ _ Hne) as Hr. unfold reduce_ok in Hr. rewrite H in Hr.
  apply existsb_exists in Hr. destruct Hr as [pr [Hin Hpr]].
  destruct (symbol_eqb (lhs pr) a && Nat.eqb (prod_id pr) p
            && Nat.eqb (List.length (rhs pr)) k) eqn:E; [| discriminate Hpr].
  apply andb_prop in E. destruct E as [E E3]. apply andb_prop in E. destruct E as [E1 E2].
  apply symbol_eqb_eq in E1. apply Nat.eqb_eq in E2. apply Nat.eqb_eq in E3.
  exists pr. repeat split; assumption.
Qed.

Lemma accept_is_not_at_the_start :
  forall s x, action s x = Accept -> s <> START_STATE.
Proof.
  intros s x H.
  assert (Hne : action s x <> Error) by (rewrite H; discriminate).
  pose proof (reduce_ok_holds _ _ Hne) as Hr. unfold reduce_ok in Hr. rewrite H in Hr.
  apply negb_true_iff in Hr. apply N.eqb_neq in Hr. exact Hr.
Qed.

Lemma tree_ok_node :
  forall a p kids,
    tree_ok (Node a p kids) = existsb (built_by a p kids) grammar && forallb tree_ok kids.
Proof. reflexivity. Qed.

Lemma node_of_production_ok :
  forall pr kids,
    In pr grammar ->
    shape_matches (rhs pr) (own_children kids) = true ->
    forallb tree_ok kids = true ->
    tree_ok (Node (lhs pr) (prod_id pr) kids) = true.
Proof.
  intros pr kids Hin Hsh Hall. rewrite tree_ok_node, Hall, andb_true_r.
  apply existsb_exists. exists pr. split; [exact Hin |].
  unfold built_by. rewrite symbol_eqb_refl, Nat.eqb_refl. exact Hsh.
Qed.

Section WellFormedRuns.

Variable input : list Z.

Lemma step_keeps_stack_ok :
  forall c c', stack_ok (cfg_stack c) -> step input c = Next c' -> stack_ok (cfg_stack c').
Proof.
  intros c c' Hok Hs. unfold step in Hs.
  destruct (next_token input c) as [tok |];
    [| injection Hs as <-; apply recover_ok; exact Hok].
  destruct (action (top_state (cfg_stack c)) (tok_symbol tok)) as [s | | a k p | |] eqn:Ha.
  - (* Shift *)
    injection Hs as <-.
    assert (Hne : action (top_state (cfg_stack c)) (tok_symbol tok) <> Error)
      by (rewrite Ha; discriminate).
    pose proof (reduce_ok_holds _ _ Hne) as Hr. unfold reduce_ok in Hr. rewrite Ha in Hr.
    simpl. split; [exact Hok |]. split; [exact Hr |].
    unfold edge. rewrite Ha. reflexivity.
  - injection Hs as <-. exact Hok.
  - (* Reduce *)
    destruct (reduce_is_a_production _ _ _ _ _ Ha) as (pr & Hin & Hl & Hp & Hk & Hback).
    destruct (pop_ok a (cfg_stack c) (rev (rhs pr)) [] Hok Hback)
      as (kids & rest & g & Hpop & Hrest & Hg & Hsh & Hall).
    rewrite length_rev, Hk, app_nil_r in Hpop. rewrite Hpop, Hg in Hs.
    injection Hs as <-. simpl. rewrite rev_involutive in Hsh.
    split; [exact Hrest |]. split.
    + subst a p. apply node_of_production_ok; assumption.
    + apply goto_is_an_edge. exact Hg.
  - destruct (cfg_stack c) as [| [s t] rest]; discriminate Hs.
  - injection Hs as <-. apply recover_ok. exact Hok.
Qed.

Lemma step_stops_with_a_tree :
  forall c o, stack_ok (cfg_stack c) -> step input c = Stop o ->
  exists t d, o = Parsed t d /\ tree_ok t = true.
Proof.
  intros c o Hok Hs. unfold step in Hs.
  destruct (next_token input c) as [tok |]; [| discriminate Hs].
  destruct (action (top_state (cfg_stack c)) (tok_symbol tok)) as [s | | a k p | |] eqn:Ha;
    try discriminate Hs.
  - (* a reduction never aborts *)
    destruct (reduce_is_a_production _ _ _ _ _ Ha) as (pr & Hin & Hl & Hp & Hk & Hback).
    destruct (pop_ok a (cfg_stack c) (rev (rhs pr)) [] Hok Hback)
      as (kids & rest & g & Hpop & Hrest & Hg & Hsh & Hall).
    rewrite length_rev, Hk, app_nil_r in Hpop. rewrite Hpop, Hg in Hs. discriminate Hs.
  - (* Accept *)
    pose proof (accept_is_not_at_the_start _ _ Ha) as Hne.
    destruct (cfg_stack c) as [| [s t] rest]; [exfalso; apply Hne; reflexivity |].
    injection Hs as <-. exists t, (cfg_diagnostics c).
    split; [reflexivity |]. destruct Hok as (_ & Ht & _). exact Ht.
Qed.

Lemma run_stops_with_a_tree :
  forall fuel c o, stack_ok (cfg_stack c) -> run input fuel c = Some o ->
  exists t d, o = Parsed t d /\ tree_ok t = true.
Proof.
  induction fuel as [| fuel IH]; intros c o Hok Hr; simpl in Hr.
  - discriminate Hr.
  - destruct (step input c) as [c' | o'] eqn:Hs.
    + exact (IH _ _ (step_keeps_stack_ok _ _ Hok Hs) Hr).
    + injection Hr as ->. exact (step_stops_with_a_tree _ _ Hok Hs).
Qed.

End WellFormedRuns.


Lemma parse_never_aborts :
  forall input, parse input <> Some Aborted.
Proof.
  intros input H. unfold parse in H.
  destruct (run_stops_with_a_tree input _ initial _ I H) as (t & d & Heq & _).
  discriminate Heq.
Qed.


(** ** Reading the form of a node off the grammar *)








(** *** Node declarations *)


(** *** Properties and their values *)




Lemma ok_leaf_is_a_token :
  forall t x, tree_ok t = true -> tree_symbol t = Some x -> is_token x = false ->
  exists p kids, t = Node x p kids.
Proof.
  intros t x Hok Hx Htok. destruct t as [tok | a p kids |].
  - simpl in Hok, Hx. injection Hx as <-. rewrite Hok in Htok. discriminate Htok.
  - simpl in Hx. injection Hx as ->. exists p, kids. reflexivity.
  - discriminate Hx.
Qed.








(** *** Annotations and constraint lines *)






(** ** The engine returns *)

Lemma weight_bounds : forall s, 1 <= weight s <= 3.
Proof.
  intro s. unfold weight.
  match goal with |- context [assoc s ?l] => destruct (assoc s l) as [w |] eqn:E end;
    [| lia].
  apply assoc_In in E. simpl in E.
  repeat (destruct E as [E | E]; [injection E as _ <-; lia |]). contradiction.
Qed.

Lemma weights_checked :
  forallb (fun s => forallb (lowers_the_weight s) all_symbols) all_states = true.
Proof. vm_compute. reflexivity. Qed.

Lemma progress_checked : forallb shifts_make_progress all_states = true.
Proof. vm_compute. reflexivity. Qed.

Lemma end_at_start : has_action ts_builtin_sym_end START_STATE = true.
Proof. vm_compute. reflexivity. Qed.

Lemma error_mode_skips : skips (lex_mode ERROR_STATE) = true.
Proof. vm_compute. reflexivity. Qed.

Lemma start_reads_no_string : reads_string START_STATE = false.
Proof. vm_compute. reflexivity. Qed.

Lemma edge_in_transitions :
  forall p x s, edge p x = Some s -> In (p, x, s) transitions.
Proof.
  intros p x s H. rewrite transitions_are_the_edges. apply in_flat_map.
  exists p. split; [exact (edge_in_a_state _ _ _ H) |].
  apply in_flat_map. exists x. split; [apply in_all_symbols |].
  rewrite H. left. reflexivity.
Qed.

Lemma weight_spec :
  forall s x a k p b g,
    action s x = Reduce a k p -> goto b a = Some g ->
    match k with
    | O => action g x = Accept
    | S _ => weight g + 2 <= weight s + k
    end.
Proof.
  intros s x a k p b g Ha Hg.
  assert (Hne : action s x <> Error) by (rewrite Ha; discriminate).
  pose proof weights_checked as Hall. rewrite forallb_forall in Hall.
  specialize (Hall _ (action_in_a_state _ _ Hne)).
  rewrite forallb_forall in Hall. specialize (Hall _ (in_all_symbols x)).
  unfold lowers_the_weight in Hall. rewrite Ha in Hall.
  rewrite forallb_forall in Hall.
  specialize (Hall _ (edge_in_transitions _ _ _ (goto_is_an_edge _ _ _ Hg))).
  cbn [fst snd] in Hall. rewrite symbol_eqb_refl in Hall.
  destruct k as [| k].
  - destruct (action g x); try discriminate Hall. reflexivity.
  - apply Nat.leb_le in Hall. exact Hall.
Qed.

Lemma progress_spec :
  forall s x, action s x <> Error -> shifts_make_progress s = true.
Proof.
  intros s x H. pose proof progress_checked as Hall. rewrite forallb_forall in Hall.
  exact (Hall _ (action_in_a_state _ _ H)).
Qed.

Lemma end_is_read_not_shifted :
  forall s, match action s ts_builtin_sym_end with
            | Shift _ | ShiftExtra => False
            | _ => True
            end.
Proof.
  intro s. destruct (action s ts_builtin_sym_end) eqn:Ha; try exact I.
  - assert (Hne : action s ts_builtin_sym_end <> Error) by (rewrite Ha; discriminate).
    pose proof (progress_spec _ _ Hne) as H. unfold shifts_make_progress in H.
    rewrite Ha in H. discriminate H.
  - assert (Hne : action s ts_builtin_sym_end <> Error) by (rewrite Ha; discriminate).
    pose proof (progress_spec _ _ Hne) as H. unfold shifts_make_progress in H.
    rewrite Ha in H. discriminate H.
Qed.

Lemma string_content_is_shifted :
  forall s, match action s aux_sym_string_token1 with
            | ShiftExtra | Reduce _ _ _ | Accept => False
            | _ => True
            end.
Proof.
  intro s. destruct (action s aux_sym_string_token1) eqn:Ha; try exact I;
    (assert (Hne : action s aux_sym_string_token1 <> Error) by (rewrite Ha; discriminate);
     pose proof (progress_spec _ _ Hne) as H; unfold shifts_make_progress in H;
     rewrite Ha in H; destruct (action s ts_builtin_sym_end); discriminate H).
Qed.

Lemma shift_leaves_the_string :
  forall s x s', reads_string s = true -> action s x = Shift s' -> reads_string s' = false.
Proof.
  intros s x s' Hr Ha.
  assert (Hne : action s x <> Error) by (rewrite Ha; discriminate).
  pose proof (progress_spec _ _ Hne) as H. unfold shifts_make_progress in H.
  rewrite Hr in H.
  destruct (action s ts_builtin_sym_end); try discriminate H;
    destruct (action s aux_sym_string_token1); try discriminate H;
    (rewrite forallb_forall in H; specialize (H _ (in_all_symbols x));
     rewrite Ha in H; apply negb_true_iff in H; exact H).
Qed.

Lemma take_missing_weight :
  forall stack acc, stack_weight (snd (take_missing stack acc)) = stack_weight stack.
Proof.
  induction stack as [| [s t] rest IH]; intro acc.
  - reflexivity.
  - destruct t; try reflexivity. simpl. apply IH.
Qed.

Lemma pop_nothing :
  forall stack acc, pop stack 0 acc = Some (take_missing stack acc).
Proof. intros [| [s t] rest] acc; reflexivity. Qed.

Lemma pop_weight :
  forall stack k acc kids rest,
    stack_ok stack ->
    pop stack (S k) acc = Some (kids, rest) ->
    stack_weight rest + weight (top_state stack) + k <= stack_weight stack.
Proof.
  induction stack as [| [s t] rest0 IH]; intros k acc kids rest Hok Hp.
  - discriminate Hp.
  - destruct Hok as (Hrest & _ & Hs).
    pose proof (weight_bounds s) as Hw.
    assert (Hreal : forall t',
               pop rest0 k (t' :: acc) = Some (kids, rest) ->
               stack_weight rest + k <= stack_weight rest0).
    { intros t' H. destruct k as [| k].
      - rewrite pop_nothing in H. injection H as H.
        pose proof (take_missing_weight rest0 (t' :: acc)) as Ht.
        rewrite H in Ht. simpl in Ht. lia.
      - pose proof (IH _ _ _ _ Hrest H) as Hle.
        pose proof (weight_bounds (top_state rest0)). lia. }
    destruct t as [tok | a p kids0 |].
    + simpl in Hp. specialize (Hreal _ Hp). simpl. lia.
    + simpl in Hp. specialize (Hreal _ Hp). simpl. lia.
    + simpl in Hp, Hs. pose proof (IH _ _ _ _ Hrest Hp) as Hle.
      simpl. rewrite Hs. lia.
Qed.

Lemma unwind_weight :
  forall ok stack, stack_weight (unwind ok stack) <= stack_weight stack.
Proof.
  intros ok. induction stack as [| [s t] rest IH].
  - apply Nat.le_refl.
  - simpl. destruct (ok s); [apply Nat.le_refl |]. lia.
Qed.

Lemma unwind_exposes :
  forall ok stack, exposes ok stack = true -> ok (top_state (unwind ok stack)) = true.
Proof.
  intros ok. induction stack as [| [s t] rest IH]; intro H.
  - exact H.
  - simpl in *. destruct (ok s) eqn:E; [exact E |]. apply IH. exact H.
Qed.

Lemma exposes_at_start :
  forall ok stack, ok START_STATE = true -> exposes ok stack = true.
Proof.
  intros ok stack H. induction stack as [| [s t] rest IH].
  - exact H.
  - simpl. rewrite IH. apply orb_true_r.
Qed.

Lemma may_read_nothing_bound : forall c, may_read_nothing c <= 1.
Proof.
  intro c. unfold may_read_nothing.
  destruct (cfg_lookahead c); [lia |]. destruct (reads_string _); lia.
Qed.

Lemma pending_bound : forall c, pending c <= 1.
Proof.
  intro c. unfold pending.
  destruct (cfg_lookahead c); [| lia]. destruct (has_action _ _); lia.
Qed.

Section RunsEnd.

Variable input : list Z.

Lemma lexed_token_is_fresh :
  forall pos s tok,
    ts_lex input pos (lex_mode s) = Some tok ->
    reads_string s = false ->
    fresh input pos tok.
Proof.
  intros pos s tok Hl Hr.
  destruct (lex_mode_cases s) as [Hk | Hk].
  - destruct (ts_lex_reads_something input _ _ _ Hk Hl) as [He | Hlt]; [left; exact He |].
    right. destruct (ts_lex_goes_forward input _ _ _ Hl) as [H1 H2].
    pose proof (ts_lex_in_bounds input _ _ _ Hl) as H3. lia.
  - unfold reads_string in Hr. rewrite Hk, N.eqb_refl in Hr. discriminate Hr.
Qed.

(** The token of a pass is a fresh one, or the content of a string. *)
Lemma next_token_cases :
  forall c tok,
    lookahead_ok input c ->
    next_token input c = Some tok ->
    fresh input (cfg_pos c) tok \/
    (cfg_lookahead c = None /\ reads_string (top_state (cfg_stack c)) = true /\
     tok_symbol tok = aux_sym_string_token1 /\ cfg_pos c <= tok_end tok).
Proof.
  intros c tok Hla Hn. unfold next_token in Hn.
  destruct (cfg_lookahead c) as [t |] eqn:El.
  - injection Hn as <-. left. exact (Hla _ El).
  - destruct (reads_string (top_state (cfg_stack c))) eqn:Er.
    + right. split; [reflexivity |]. split; [reflexivity |].
      pose proof Er as Em. unfold reads_string in Em. apply N.eqb_eq in Em.
      rewrite Em in Hn. split; [exact (ts_lex_in_a_string input _ _ Hn) |].
      destruct (ts_lex_goes_forward input _ _ _ Hn) as [H1 H2]. lia.
    + left. exact (lexed_token_is_fresh _ _ _ Hn Er).
Qed.

Lemma resync_finds_a_token :
  forall fuel stack pos,
    List.length input - pos < fuel ->
    exists stack' p tok,
      resync input fuel stack pos = (stack', p, Some tok) /\
      pos <= p /\ stack_weight stack' <= stack_weight stack /\
      has_action (tok_symbol tok) (top_state stack') = true /\
      fresh input p tok.
Proof.
  induction fuel as [| fuel IH]; intros stack pos Hf; [lia |].
  simpl.
  destruct (ts_lex input pos (lex_mode ERROR_STATE)) as [tok |] eqn:Hl.
  - destruct (is_end tok) eqn:He.
    + eexists _, _, _. split; [reflexivity |]. split; [apply Nat.le_refl |].
      split; [simpl; apply unwind_weight |]. split; [| left; exact He].
      unfold is_end in He. apply symbol_eqb_eq in He. rewrite He. simpl.
      apply unwind_exposes. apply exposes_at_start. exact end_at_start.
    + assert (Hlt : pos < tok_end tok /\ tok_end tok <= List.length input).
      { destruct (ts_lex_reads_something input _ _ _ error_mode_skips Hl) as [H | H];
          [rewrite H in He; discriminate He |].
        destruct (ts_lex_goes_forward input _ _ _ Hl) as [H1 H2].
        pose proof (ts_lex_in_bounds input _ _ _ Hl) as H3. lia. }
      destruct (exposes (can_shift (tok_symbol tok)) stack) eqn:Hx.
      * eexists _, _, _. split; [reflexivity |]. split; [apply Nat.le_refl |].
        split; [simpl; apply unwind_weight |]. split; [| right; exact Hlt].
        simpl. pose proof (unwind_exposes _ _ Hx) as Hc.
        unfold can_shift in Hc. unfold has_action.
        destruct (action _ _); try discriminate Hc. reflexivity.
      * destruct (IH stack (tok_end tok)) as (stack' & p & tok' & Hr & Hp & Hw & Ha & Hfr);
          [lia |].
        exists stack', p, tok'. split; [exact Hr |]. split; [lia |].
        split; [exact Hw |]. split; assumption.
  - destruct (eof_at input pos) eqn:He.
    + rewrite (error_mode_returns_the_end input pos He) in Hl. discriminate Hl.
    + unfold eof_at in He. apply Nat.leb_gt in He.
      destruct (IH stack (S pos)) as (stack' & p & tok' & Hr & Hp & Hw & Ha & Hfr); [lia |].
      exists stack', p, tok'. split; [exact Hr |]. split; [lia |].
      split; [exact Hw |]. split; assumption.
Qed.

Lemma recover_lowers_the_measure :
  forall c,
    pending c = 1 ->
    lookahead_ok input (recover input c) /\
    measure input (recover input c) < measure input c.
Proof.
  intros c Hpend. unfold recover.
  destruct (resync_finds_a_token (S (List.length input - cfg_pos c)) (cfg_stack c) (cfg_pos c))
    as (stack' & p & tok & Hr & Hp & Hw & Ha & Hf); [lia |].
  rewrite Hr. split.
  - intros tok' H. simpl in H. injection H as <-. exact Hf.
  - unfold measure. rewrite Hpend.
    unfold may_read_nothing at 1. unfold pending. cbn [cfg_lookahead cfg_stack cfg_pos].
    rewrite Ha. lia.
Qed.

Lemma step_lowers_the_measure :
  forall c c',
    stack_ok (cfg_stack c) -> lookahead_ok input c ->
    step input c = Next c' ->
    lookahead_ok input c' /\
    (measure input c' < measure input c \/ exists o, step input c' = Stop o).
Proof.
  intros c c' Hok Hla Hs. unfold step in Hs.
  destruct (next_token input c) as [tok |] eqn:Hn.
  2:{ injection Hs as <-.
      assert (Hpend : pending c = 1).
      { unfold next_token in Hn. unfold pending.
        destruct (cfg_lookahead c); [discriminate Hn | reflexivity]. }
      destruct (recover_lowers_the_measure c Hpend) as [H1 H2].
      split; [exact H1 | left; exact H2]. }
  pose proof (next_token_cases _ _ Hla Hn) as Hcases.
  pose proof (end_is_read_not_shifted (top_state (cfg_stack c))) as Hend.
  pose proof (string_content_is_shifted (top_state (cfg_stack c))) as Hstr.
  destruct (action (top_state (cfg_stack c)) (tok_symbol tok)) as [s | | a k p | |] eqn:Ha.
  - (* Shift *)
    injection Hs as <-. split; [intros tok' H; discriminate H |]. left.
    pose proof (weight_bounds s) as Hw.
    pose proof (may_read_nothing_bound
                  (Cfg ((s, Leaf tok) :: cfg_stack c) (tok_end tok) None (cfg_diagnostics c)))
      as Hz.
    destruct Hcases as [[He | Hlt] | (Hnone & Hr & Hsym & Hpos)].
    + unfold is_end in He. apply symbol_eqb_eq in He. rewrite He in Ha.
      rewrite Ha in Hend. contradiction.
    + unfold measure in *. unfold pending at 1.
      cbn [cfg_lookahead cfg_stack cfg_pos stack_weight is_missing] in *. lia.
    + pose proof (shift_leaves_the_string _ _ _ Hr Ha) as Hr'.
      unfold measure. unfold may_read_nothing, pending.
      cbn [cfg_lookahead cfg_stack cfg_pos stack_weight is_missing top_state].
      rewrite Hnone, Hr, Hr'. lia.
  - (* ShiftExtra *)
    injection Hs as <-. split; [intros tok' H; discriminate H |]. left.
    pose proof (may_read_nothing_bound
                  (Cfg (cfg_stack c) (tok_end tok) None (cfg_diagnostics c))) as Hz.
    destruct Hcases as [[He | Hlt] | (Hnone & Hr & Hsym & Hpos)].
    + unfold is_end in He. apply symbol_eqb_eq in He. rewrite He in Ha.
      rewrite Ha in Hend. contradiction.
    + unfold measure in *. unfold pending at 1.
      cbn [cfg_lookahead cfg_stack cfg_pos] in *. lia.
    + rewrite Hsym in Ha. rewrite Ha in Hstr. contradiction.
  - (* Reduce *)
    destruct (pop (cfg_stack c) k []) as [[kids rest] |] eqn:Hpop; [| discriminate Hs].
    destruct (goto (top_state rest) a) as [g |] eqn:Hg; [| discriminate Hs].
    injection Hs as <-.
    assert (Hfresh : fresh input (cfg_pos c) tok).
    { destruct Hcases as [H | (_ & _ & Hsym & _)]; [exact H |].
      rewrite Hsym in Ha. rewrite Ha in Hstr. contradiction. }
    split; [intros tok' H; simpl in H; injection H as <-; exact Hfresh |].
    pose proof (weight_spec _ _ _ _ _ _ _ Ha Hg) as Hspec.
    destruct k as [| k].
    + right. unfold step, next_token. cbn [cfg_lookahead cfg_stack top_state].
      rewrite Hspec. eexists. reflexivity.
    + left. pose proof (pop_weight _ _ _ _ _ Hok Hpop) as Hpw.
      pose proof (pending_bound
                    (Cfg ((g, Node a p kids) :: rest) (cfg_pos c) (Some tok)
                         (cfg_diagnostics c))) as Hq.
      unfold measure in *. unfold may_read_nothing at 1.
      cbn [cfg_lookahead cfg_stack cfg_pos stack_weight is_missing] in *. lia.
  - (* Accept *)
    destruct (cfg_stack c) as [| [s t] rest]; discriminate Hs.
  - (* Error *)
    injection Hs as <-.
    assert (Hpend : pending c = 1).
    { unfold next_token in Hn. unfold pending, has_action.
      destruct (cfg_lookahead c); [| reflexivity].
      injection Hn as ->. rewrite Ha. reflexivity. }
    destruct (recover_lowers_the_measure c Hpend) as [H1 H2].
    split; [exact H1 | left; exact H2].
Qed.

Lemma run_returns :
  forall fuel c,
    stack_ok (cfg_stack c) -> lookahead_ok input c ->
    measure input c + 2 <= fuel ->
    exists o, run input fuel c = Some o.
Proof.
  induction fuel as [| fuel IH]; intros c Hok Hla Hm; [lia |].
  simpl. destruct (step input c) as [c' | o] eqn:Hs; [| exists o; reflexivity].
  destruct (step_lowers_the_measure _ _ Hok Hla Hs) as [Hla' [Hlt | [o Ho]]].
  - apply IH; [exact (step_keeps_stack_ok input _ _ Hok Hs) | exact Hla' | lia].
  - destruct fuel as [| fuel]; [lia |]. simpl. rewrite Ho. exists o. reflexivity.
Qed.

End RunsEnd.

Lemma parse_returns_a_tree :
  forall input, exists tree diags, parse input = Some (Parsed tree diags).
Proof.
  intro input.
  destruct (run_returns input (parse_fuel input) initial) as [o Ho].
  - exact I.
  - intros tok H. discriminate H.
  - unfold measure, may_read_nothing, pending, initial, parse_fuel.
    cbn [cfg_lookahead cfg_stack cfg_pos stack_weight top_state].
    rewrite start_reads_no_string. lia.
  - destruct (run_stops_with_a_tree input _ initial _ I Ho) as (t & d & -> & _).
    exists t, d. exact Ho.
Qed.
(** ** A state and a symbol have one cell *)

Lemma symbol_eqb_sym : forall a b, symbol_eqb a b = symbol_eqb b a.
Proof. intros a b. unfold symbol_eqb. apply N.eqb_sym. Qed.

Lemma find_cell_In :
  forall row x c, find_cell row x = Some c -> In (x, c) row.
Proof.
  induction row as [| [s c0] row IH]; intros x c H; simpl in H.
  - discriminate H.
  - destruct (symbol_eqb s x) eqn:E.
    + apply symbol_eqb_eq in E. injection H as <-. subst s. left. reflexivity.
    + right. exact (IH _ _ H).
Qed.

Lemma In_find_cell :
  forall row x c,
    distinct (map fst row) = true -> In (x, c) row -> find_cell row x = Some c.
Proof.
  induction row as [| [s c0] row IH]; intros x c Hd Hin.
  - contradiction.
  - simpl in Hd. destruct (member s (map fst row)) eqn:Hm; [discriminate Hd |].
    simpl. destruct Hin as [Heq | Hin].
    + injection Heq as -> ->. rewrite symbol_eqb_refl. reflexivity.
    + destruct (symbol_eqb s x) eqn:E; [| exact (IH _ _ Hd Hin)].
      apply symbol_eqb_eq in E. subst s.
      assert (Hmem : member x (map fst row) = true).
      { unfold member. apply existsb_exists. exists x.
        split; [| apply symbol_eqb_refl].
        apply in_map_iff. exists (x, c). split; [reflexivity | exact Hin]. }
      rewrite Hmem in Hm. discriminate Hm.
Qed.

Lemma find_cell_in_a_group :
  forall (c : table_cell) syms rest x,
    find_cell (map (fun y => (y, c)) syms ++ rest) x =
    if existsb (symbol_eqb x) syms then Some c else find_cell rest x.
Proof.
  intros c. induction syms as [| y syms IH]; intros rest x.
  - reflexivity.
  - simpl. rewrite (symbol_eqb_sym x y).
    destruct (symbol_eqb y x); [reflexivity | apply IH].
Qed.

Lemma find_group_is_find_cell :
  forall groups x,
    find_group groups x =
    find_cell (flat_map (fun g => map (fun y => (y, fst g)) (snd g)) groups) x.
Proof.
  induction groups as [| [c syms] groups IH]; intro x.
  - reflexivity.
  - simpl. rewrite find_cell_in_a_group, IH. reflexivity.
Qed.

Lemma lookup_reads_the_row :
  forall state x, ts_language_lookup state x = find_cell (row_of state) x.
Proof.
  intros state x. unfold ts_language_lookup, row_of.
  destruct (state <? LARGE_STATE_COUNT)%N.
  - destruct (nth_error ts_parse_table (N.to_nat state)); reflexivity.
  - destruct (assoc state ts_small_parse_table_map) as [off |]; [| reflexivity].
    destruct (assoc off ts_small_parse_table) as [groups |]; [| reflexivity].
    apply find_group_is_find_cell.
Qed.

Lemma rows_are_distinct :
  forallb (fun s => distinct (map fst (row_of s))) all_states = true.
Proof. vm_compute. reflexivity. Qed.

Lemma row_is_distinct :
  forall state, distinct (map fst (row_of state)) = true.
Proof.
  intro state. destruct (row_of state) as [| [x c] row] eqn:E; [reflexivity |].
  rewrite <- E. pose proof rows_are_distinct as H. rewrite forallb_forall in H.
  apply H. apply (lookup_in_a_state state x c).
  rewrite lookup_reads_the_row, E. simpl. rewrite symbol_eqb_refl. reflexivity.
Qed.

Lemma cell_at_is_lookup :
  forall state x c, cell_at state x c <-> ts_language_lookup state x = Some c.
Proof.
  intros state x c. rewrite lookup_reads_the_row. unfold cell_at. split.
  - apply In_find_cell. apply row_is_distinct.
  - apply find_cell_In.
Qed.

Lemma action_indices_are_distinct :
  distinct_keys (map fst ts_parse_actions) = true.
Proof. vm_compute. reflexivity. Qed.

Lemma distinct_keys_unique :
  forall (A : Type) (l : list (N * A)) i e1 e2,
    distinct_keys (map fst l) = true -> In (i, e1) l -> In (i, e2) l -> e1 = e2.
Proof.
  intros A. induction l as [| [k v] l IH]; intros i e1 e2 Hd H1 H2.
  - contradiction.
  - simpl in Hd. destruct (existsb (N.eqb k) (map fst l)) eqn:Hm; [discriminate Hd |].
    assert (Hno : forall e, In (k, e) l -> False).
    { intros e He.
      assert (Hx : existsb (N.eqb k) (map fst l) = true).
      { apply existsb_exists. exists k. split; [| apply N.eqb_refl].
        apply in_map_iff. exists (k, e). split; [reflexivity | exact He]. }
      rewrite Hx in Hm. discriminate Hm. }
    destruct H1 as [H1 | H1]; destruct H2 as [H2 | H2].
    + injection H1 as _ <-. injection H2 as _ <-. reflexivity.
    + injection H1 as <- _. exfalso. exact (Hno _ H2).
    + injection H2 as <- _. exfalso. exact (Hno _ H1).
    + exact (IH _ _ _ Hd H1 H2).
Qed.

(** ** The claims about tokens *)

Lemma tracked_states_do_not_skip :
  forallb (fun s => negb (skips s)) (number_states ++ hex_states) = true.
Proof. vm_compute. reflexivity. Qed.

Lemma among_true_In : forall l s, among l s = true -> In s l.
Proof.
  intros l s H. unfold among in H. apply existsb_exists in H.
  destruct H as [x [Hx Heq]]. apply N.eqb_eq in Heq. subst x. exact Hx.
Qed.

Lemma number_state_skip :
  forall s txt, skips s = true -> number_state s txt -> number_state s [].
Proof.
  intros s txt Hk _. apply untracked_number_state.
  destruct (among number_states s) eqn:Ha; [| reflexivity].
  pose proof tracked_states_do_not_skip as H. rewrite forallb_forall in H.
  assert (Hin : In s (number_states ++ hex_states)).
  { apply in_or_app. left. apply among_true_In. exact Ha. }
  specialize (H _ Hin). rewrite Hk in H. discriminate H.
Qed.

Lemma hex_state_skip :
  forall s txt, skips s = true -> hex_state s txt -> hex_state s [].
Proof.
  intros s txt Hk _. apply untracked_hex_state.
  destruct (among hex_states s) eqn:Ha; [| reflexivity].
  pose proof tracked_states_do_not_skip as H. rewrite forallb_forall in H.
  assert (Hin : In s (number_states ++ hex_states)).
  { apply in_or_app. right. apply among_true_In. exact Ha. }
  specialize (H _ Hin). rewrite Hk in H. discriminate H.
Qed.

(** C7 (as amended).  Every token that [ts_lex] classifies as a number, in
    any lex state in which the parser starts it, has a text of the form
    ['-'? digits ('.' digits)? 'ms'?]: an optional minus sign, one or more
    digits, an optional fractional part and an optional unit [ms]. *)
Theorem number_tokens_are_signed_numbers :
  forall input pos state tok,
    In state lex_start_states ->
    ts_lex input pos state = Some tok ->
    tok_symbol tok = sym_number ->
    number_text (token_text input tok).
Proof.
  intros input pos state tok Hstart Hlex Hsym.
  destruct (ts_lex_is_good input number_state number_token
              number_state_advance
              (fun _ _ _ _ _ _ _ _ _ => I)
              number_state_skip
              number_state_accept
              pos state tok (number_state_at_start _ Hstart) Hlex) as [Hgood _].
  exact (Hgood Hsym).
Qed.

Lemma number_tokens_are_signed_numbers_witness :
  number_text (token_text (codes "-12.5ms") (Tok sym_number 0 7)).
Proof.
  apply (number_tokens_are_signed_numbers (codes "-12.5ms") 0 3%N (Tok sym_number 0 7)).
  - right. right. left. reflexivity.
  - vm_compute. reflexivity.
  - reflexivity.
Defined.

(** C7 (as stated) fails: in [rect @a { w: -5 }] the value [-5] is one
    number token, and its text does not match
    [digits ('.' digits)? 'ms'?]. *)
Lemma number_token_with_minus_sign :
  exists tok,
    ts_lex (codes "rect @a { w: -5 }") 12 (lex_mode 53) = Some tok /\
    tok_symbol tok = sym_number /\
    token_text (codes "rect @a { w: -5 }") tok = codes "-5" /\
    ~ unsigned_number_text (token_text (codes "rect @a { w: -5 }") tok).
Proof.
  exists (Tok sym_number 13 15).
  split; [vm_compute; reflexivity |]. split; [reflexivity |].
  split; [vm_compute; reflexivity |].
  change (token_text (codes "rect @a { w: -5 }") (Tok sym_number 13 15)) with [45; 53]%Z.
  intros (sign & int & frac & unit & Htxt & Hs & [Hne Hd] & _).
  destruct Hs as [<- | []]. simpl in Htxt.
  destruct int as [| d int]; [congruence |].
  injection Htxt as Hd0 _. inversion Hd as [| ? ? Hdig _]. subst.
  unfold is_digit in Hdig. lia.
Qed.

(** C4 (as amended).  Every token that [ts_lex] classifies as a hex colour
    has a text of the form ['#' [0-9A-Fa-f]{3,8}]; such a token is produced
    only in a parse state that has a shift or reduce action for a hex
    colour, that is, where a value fits, and in the error state 0, whose row
    holds [RECOVER] under the hex colour and whose lex state reads a hex
    colour wherever it stands; and in ordinary code (lex states 116 and 8) a
    token that starts with ['#'] is the annotation marker [##] or a line
    comment. *)
Theorem hex_color_tokens :
  (forall input pos state tok,
      In state lex_start_states ->
      ts_lex input pos state = Some tok ->
      tok_symbol tok = sym_hex_color ->
      hex_color_text (token_text input tok)) /\
  (forall input pos ps tok,
      (ps < STATE_COUNT)%N ->
      ts_lex input pos (lex_mode ps) = Some tok ->
      tok_symbol tok = sym_hex_color ->
      has_action sym_hex_color ps = true \/ ps = ERROR_STATE) /\
  (ts_lex (codes "#FF0000") 0 (lex_mode ERROR_STATE) = Some (Tok sym_hex_color 0 7) /\
   has_action sym_hex_color ERROR_STATE = false /\
   ts_language_lookup ERROR_STATE sym_hex_color = Some (ACTIONS 1) /\
   assoc 1 ts_parse_actions = Some (Entry 1 false [RECOVER])) /\
  (forall input pos state tok,
      In state [116; 8]%N ->
      ts_lex input pos state = Some tok ->
      starts_with_hash (token_text input tok) ->
      tok_symbol tok = sym_comment \/ tok_symbol tok = anon_sym_POUND_POUND).
Proof.
  split; [| split; [| split]].
  - intros input pos state tok Hstart Hlex Hsym.
    destruct (ts_lex_is_good input hex_state hex_token
                hex_state_advance
                (fun _ _ _ _ _ _ _ _ _ => I)
                hex_state_skip
                hex_state_accept
                pos state tok (hex_state_at_start _ Hstart) Hlex) as [Hgood _].
    exact (Hgood Hsym).
  - intros input pos ps tok Hps Hlex Hsym.
    destruct (N.eq_dec ps ERROR_STATE) as [He | Hne]; [right; exact He | left].
    assert (Hps' : (0 < ps < STATE_COUNT)%N) by (unfold ERROR_STATE in Hne; lia).
    pose proof hex_only_where_a_value_fits as Hall. rewrite forallb_forall in Hall.
    specialize (Hall _ (in_parse_states _ Hps')).
    apply orb_prop in Hall. destruct Hall as [Hv | Hn]; [exact Hv |].
    apply negb_true_iff in Hn. exfalso.
    destruct (ts_lex_is_good input never_hex not_hex_token
                never_hex_advance
                (fun _ _ _ _ _ _ _ _ _ => eq_refl)
                (fun _ _ _ H => H)
                never_hex_accept
                pos (lex_mode ps) tok Hn Hlex) as [Hgood _].
    exact (Hgood Hsym).
  - repeat split; vm_compute; reflexivity.
  - intros input pos state tok Hord Hlex Hhash.
    destruct (ts_lex_is_good input (hash_state state) hash_token
                (hash_state_advance state Hord)
                (hash_state_end state)
                (hash_state_skip state)
                (hash_state_accept state)
                pos state tok (hash_state_at_start state Hord) Hlex) as [Hgood _].
    exact (Hgood Hhash).
Qed.

Lemma hex_color_tokens_witness :
  hex_color_text (token_text (codes "fill: #FF0000") (Tok sym_hex_color 6 13)) /\
  (has_action sym_hex_color 53 = true \/ 53%N = ERROR_STATE) /\
  (tok_symbol (Tok sym_comment 0 6) = sym_comment \/
   tok_symbol (Tok sym_comment 0 6) = anon_sym_POUND_POUND).
Proof.
  destruct hex_color_tokens as (H1 & H2 & _ & H3).
  split; [| split].
  - apply (H1 (codes "fill: #FF0000") 5%nat 5%N (Tok sym_hex_color 6 13)).
    + vm_compute. tauto.
    + vm_compute. reflexivity.
    + reflexivity.
  - apply (H2 (codes "fill: #FF0000") 5%nat 53%N (Tok sym_hex_color 6 13)).
    + reflexivity.
    + vm_compute. reflexivity.
    + reflexivity.
  - apply (H3 (codes "# note") 0%nat 116%N (Tok sym_comment 0 6)).
    + left. reflexivity.
    + vm_compute. reflexivity.
    + exists (codes " note"). vm_compute. reflexivity.
Defined.

(** C4 (as stated) fails: in [fill: #FF0000] the value is one hex colour
    token whose text is [#FF0000], with the ['#'] and seven code points
    long, while the bare digits [FF0000] are read as an identifier; and at
    the start of a line [##] is the annotation marker, not a comment. *)
Lemma hex_color_token_with_hash :
  (exists tok,
      ts_lex (codes "fill: #FF0000") 5 (lex_mode 53) = Some tok /\
      tok_symbol tok = sym_hex_color /\
      token_text (codes "fill: #FF0000") tok = codes "#FF0000" /\
      ~ bare_hex_text (token_text (codes "fill: #FF0000") tok)) /\
  ts_lex (codes "fill: FF0000") 5 (lex_mode 53) = Some (Tok sym_identifier 6 12) /\
  ts_lex (codes "## note") 0 (lex_mode START_STATE) = Some (Tok anon_sym_POUND_POUND 0 2).
Proof.
  split; [| split; vm_compute; reflexivity].
  exists (Tok sym_hex_color 6 13).
  split; [vm_compute; reflexivity |]. split; [reflexivity |].
  split; [vm_compute; reflexivity |].
  intros [[_ Hlen] _]. vm_compute in Hlen. lia.
Qed.

(** ** The claims about nodes and scenarios *)
















(** ** The claims about runs *)

(** C9.  For every input a parse call returns a tree and zero or more
    diagnostics: it neither runs on for ever nor aborts.  [ts_lex] returns on
    every input buffer, from every position and in every lex state: every
    pass through its loop that jumps on consumes one code point, or finds
    the cursor at the end of input, and then the next pass returns. *)
Theorem parse_and_ts_lex_return :
  (forall input, exists tree diags, parse input = Some (Parsed tree diags)) /\
  (forall input pos state, exists t, ts_lex_from input pos state = Some t) /\
  (forall input f f',
      lex_step input f = Goto f' ->
      (eof_at input (fr_pos f) = false /\ fr_pos f' = S (fr_pos f)) \/
      (eof_at input (fr_pos f) = true /\ exists t, lex_step input f' = Return t)).
Proof.
  split; [exact parse_returns_a_tree |].
  split; [exact ts_lex_from_returns |].
  intros input f f' Hs. destruct (eof_at input (fr_pos f)) eqn:He.
  - right. split; [reflexivity |].
    destruct (step_at_end input _ _ He Hs) as [Hst _].
    unfold lex_step. rewrite Hst, end_state_stops. eexists. reflexivity.
  - left. split; [reflexivity |]. exact (step_advances input _ _ He Hs).
Qed.

Lemma parse_and_ts_lex_return_witness :
  (eof_at (codes "rect") 0 = false /\
   fr_pos (LexFrame 27 1 0 None) = 1) \/
  (eof_at (codes "rect") 0 = true /\
   exists t, lex_step (codes "rect") (LexFrame 27 1 0 None) = Return t).
Proof.
  apply (proj2 (proj2 parse_and_ts_lex_return) (codes "rect") (LexFrame 116 0 0 None)).
  vm_compute. reflexivity.
Defined.

(** ** Reasoning about the jumps of the automaton *)

Lemma code_range : forall k, (0 <= code k <= 255)%Z.
Proof.
  intro k. unfold code. pose proof (N_ascii_bounded k) as H. lia.
Qed.

Lemma holds_clamp : forall c la e, holds c (clamp la) e = holds c la e.
Proof.
  induction c as [| k | k | k | k | k | k | a IHa b IHb | a IHa b IHb]; intros la e;
    simpl; try reflexivity;
    try (pose proof (code_range k) as Hk; unfold clamp;
         repeat match goal with
                | |- context [(?x =? ?y)%Z] => destruct (Z.eqb_spec x y)
                | |- context [(?x <? ?y)%Z] => destruct (Z.ltb_spec x y)
                | |- context [(?x <=? ?y)%Z] => destruct (Z.leb_spec x y)
                end; simpl; try reflexivity; lia).
  - rewrite IHa, IHb. reflexivity.
  - rewrite IHa, IHb. reflexivity.
Qed.

Lemma select_clamp : forall l la e, select l (clamp la) e = select l la e.
Proof.
  induction l as [| [c a] l IH]; intros la e; simpl.
  - reflexivity.
  - rewrite holds_clamp, IH. reflexivity.
Qed.

Lemma clamp_is_a_code_point : forall la, In (clamp la) code_points.
Proof.
  intro la. unfold code_points. apply in_map_iff.
  exists (Z.to_nat (clamp la + 1)). unfold clamp. split; [lia |].
  apply in_seq. lia.
Qed.

(** A property checked for the code points from -1 to 256 holds of the jump
    under any code point, at its representative. *)
Lemma all_jumps_spec :
  forall p, all_jumps p = true ->
  forall s cs la,
    lex_case_of s = Some cs ->
    p s cs (clamp la) (select (arms cs) la false) = true.
Proof.
  intros p H s cs la Hs. unfold all_jumps in H. rewrite forallb_forall in H.
  specialize (H _ (lex_case_labelled _ _ Hs)). cbn [fst snd] in H.
  rewrite forallb_forall in H. specialize (H _ (clamp_is_a_code_point la)).
  rewrite select_clamp in H. exact H.
Qed.

Lemma lex_step_goto :
  forall input f f',
    lex_step input f = Goto f' ->
    exists cs a,
      lex_case_of (fr_state f) = Some cs /\
      select (arms cs) (lookahead_at input (fr_pos f)) (eof_at input (fr_pos f)) = Some a /\
      f' = LexFrame (target a) (advance input (fr_pos f))
                    (if is_skip a then advance input (fr_pos f) else fr_start f)
                    (accepted cs f).
Proof.
  intros input f f' H. unfold lex_step in H.
  destruct (lex_case_of (fr_state f)) as [cs |]; [| discriminate H].
  destruct (select _ _ _) as [a |] eqn:Hsel; [| discriminate H].
  exists cs, a. split; [reflexivity |]. split; [exact Hsel |].
  destruct a as [t | t]; injection H as <-; reflexivity.
Qed.

Lemma lex_step_return :
  forall input f r,
    lex_step input f = Return r ->
    (lex_case_of (fr_state f) = None /\ r = None) \/
    exists cs,
      lex_case_of (fr_state f) = Some cs /\
      select (arms cs) (lookahead_at input (fr_pos f)) (eof_at input (fr_pos f)) = None /\
      r = finish (fr_start f) (accepted cs f).
Proof.
  intros input f r H. unfold lex_step in H.
  destruct (lex_case_of (fr_state f)) as [cs |].
  - destruct (select _ _ _) as [[t | t] |] eqn:Hsel; try discriminate H.
    right. exists cs. split; [reflexivity |].
    split; [exact Hsel |]. injection H as <-. reflexivity.
  - left. split; [reflexivity |]. injection H as <-. reflexivity.
Qed.

Section LexInvariant.

Variable input : list Z.
Variable Inv : lex_frame -> Prop.

Hypothesis Inv_step :
  forall f f', Inv f -> lex_step input f = Goto f' -> Inv f'.

(** The pass that returns starts from a frame that satisfies the
    invariant. *)
Lemma loop_ends_in_the_invariant :
  forall fuel f r,
    Inv f -> lex_loop input fuel f = Some r ->
    exists f', Inv f' /\ lex_step input f' = Return r.
Proof.
  induction fuel as [| fuel IH]; intros f r Hf Hl; simpl in Hl.
  - discriminate Hl.
  - destruct (lex_step input f) as [f' | t] eqn:Hs.
    + exact (IH _ _ (Inv_step _ _ Hf Hs) Hl).
    + injection Hl as <-. exists f. split; assumption.
Qed.

Lemma ts_lex_ends_in_the_invariant :
  forall pos state tok,
    Inv (LexFrame state pos pos None) ->
    ts_lex input pos state = Some tok ->
    exists f, Inv f /\ lex_step input f = Return (Some tok).
Proof.
  intros pos state tok H0 Hl. unfold ts_lex, ts_lex_from in Hl.
  destruct (lex_loop input (lex_fuel input pos) (LexFrame state pos pos None))
    as [r |] eqn:Hloop; [| discriminate Hl].
  subst r. exact (loop_ends_in_the_invariant _ _ _ H0 Hloop).
Qed.

End LexInvariant.

(** At a code point that is not the end of input. *)
Lemma not_at_end :
  forall input pos, pos < List.length input -> eof_at input pos = false.
Proof. intros input pos H. unfold eof_at. apply Nat.leb_gt. exact H. Qed.

Lemma at_end :
  forall input pos, List.length input <= pos -> eof_at input pos = true.
Proof. intros input pos H. unfold eof_at. apply Nat.leb_le. exact H. Qed.

(** ** White space and the end of input *)

Lemma blank_test_spec :
  forall la e, holds blank_test la e = true <-> is_blank la.
Proof.
  intros la e. unfold blank_test, is_blank. cbn [holds].
  change (code "009") with 9%Z. change (code "013") with 13%Z.
  change (code " ") with 32%Z.
  rewrite orb_true_iff, andb_true_iff, !Z.leb_le, Z.eqb_eq. tauto.
Qed.

Lemma newline_test_spec :
  forall la e, holds (Is "010") la e = true <-> la = newline.
Proof.
  intros la e. cbn [holds]. change (code "010") with 10%Z. apply Z.eqb_eq.
Qed.

Lemma skip_jumps_checked : all_jumps skips_blank = true.
Proof. vm_compute. reflexivity. Qed.

Lemma never_to_the_end_state :
  all_jumps (fun _ _ _ r =>
               match r with
               | Some a => negb (N.eqb (target a) END_OF_INPUT_STATE)
               | None => true
               end) = true.
Proof. vm_compute. reflexivity. Qed.

Lemma only_the_end_state_accepts_the_end :
  all_cases (fun s cs =>
               match accept_token cs with
               | Some sym => implb (symbol_eqb sym ts_builtin_sym_end)
                                   (N.eqb s END_OF_INPUT_STATE)
               | None => true
               end) = true.
Proof. vm_compute. reflexivity. Qed.

Lemma jumps_at_end_checked :
  forallb (fun s => match jump_at_end s, accepts s with
                    | Some (ADVANCE t), None => N.eqb t END_OF_INPUT_STATE
                    | _, _ => false
                    end) end_modes = true /\
  forallb (fun s => match jump_at_end s, accepts s with
                    | None, None => true
                    | _, _ => false
                    end) no_end_modes = true /\
  jump_at_end STRING_LEX_STATE = None /\
  accepts STRING_LEX_STATE = Some aux_sym_string_token1.
Proof. vm_compute. repeat split. Qed.

(** The jump under a code point is a [SKIP] exactly when the state skips
    the code point. *)
Lemma skip_jump_iff :
  forall s cs la,
    lex_case_of s = Some cs ->
    (select (arms cs) la false = Some (SKIP s) <-> skipped s la) /\
    (forall t, select (arms cs) la false = Some (SKIP t) -> t = s).
Proof.
  intros s cs la Hs.
  assert (Hself : forall t, select (arms cs) la false = Some (SKIP t) -> t = s).
  { intros t Hsel. destruct (select_In _ _ _ _ Hsel) as [c [Hin _]].
    pose proof (all_arms_spec _ skip_arms_are_self_loops _ _ _ _ Hs Hin) as H.
    simpl in H. apply andb_prop in H. destruct H as [H _]. apply N.eqb_eq in H. exact H. }
  split; [| exact Hself].
  pose proof (all_jumps_spec _ skip_jumps_checked s cs la Hs) as H.
  unfold skips_blank in H. rewrite !holds_clamp in H.
  unfold skipped.
  destruct (among code_modes s) eqn:Hc.
  - apply eqb_prop in H. split.
    + intro Hsel. rewrite Hsel, N.eqb_refl in H. left.
      split; [exact (among_true_In _ _ Hc) |]. apply (blank_test_spec la false). exact H.
    + intros [[_ Hb] | [Hin _]].
      * apply (blank_test_spec la false) in Hb. rewrite Hb in H.
        destruct (select (arms cs) la false) as [[t | t] |] eqn:Hsel; try discriminate H.
        rewrite (Hself t eq_refl). reflexivity.
      * exfalso. simpl in Hin.
        repeat (destruct Hin as [<- | Hin]; [discriminate Hc |]). contradiction.
  - destruct (among annotation_modes s) eqn:Ha.
    + apply eqb_prop in H. split.
      * intro Hsel. rewrite Hsel, N.eqb_refl in H. right.
        split; [exact (among_true_In _ _ Ha) |]. apply (newline_test_spec la false). exact H.
      * intros [[Hin _] | [_ Hb]].
        -- apply among_In in Hin. rewrite Hin in Hc. discriminate Hc.
        -- apply (newline_test_spec la false) in Hb. rewrite Hb in H.
           destruct (select (arms cs) la false) as [[t | t] |] eqn:Hsel; try discriminate H.
           rewrite (Hself t eq_refl). reflexivity.
    + split.
      * intro Hsel. rewrite Hsel in H. discriminate H.
      * intros [[Hin _] | [Hin _]]; apply among_In in Hin; congruence.
Qed.

Section Blanks.

Variable input : list Z.

Lemma no_skip_at_end :
  forall s cs t,
    lex_case_of s = Some cs -> select (arms cs) 0%Z true = Some (SKIP t) -> False.
Proof.
  intros s cs t Hs Hsel. destruct (select_In _ _ _ _ Hsel) as [c [Hin Hh]].
  pose proof (all_arms_spec _ only_eof_jump_at_end _ _ _ _ Hs Hin) as H.
  simpl in H. rewrite Hh in H. discriminate H.
Qed.

Lemma end_state_returns :
  forall pos start r,
    lex_step input (LexFrame END_OF_INPUT_STATE pos start r) =
    Return (Some (Tok ts_builtin_sym_end start pos)).
Proof. intros pos start r. reflexivity. Qed.

(** One skipped code point. *)
Lemma ts_lex_skips_one :
  forall pos s,
    pos < List.length input ->
    skipped s (lookahead_at input pos) ->
    ts_lex input pos s = ts_lex input (S pos) s.
Proof.
  intros pos s Hpos Hsk.
  assert (Hcase : exists cs, lex_case_of s = Some cs).
  { destruct (lex_case_of s) as [cs |] eqn:Hs; [exists cs; reflexivity |].
    exfalso. unfold lex_case_of in Hs. apply nth_error_None in Hs.
    assert (Hlen : List.length ts_lex_cases = 485) by reflexivity.
    destruct Hsk as [[Hin _] | [Hin _]]; simpl in Hin;
      repeat (destruct Hin as [<- | Hin]; [rewrite Hlen in Hs; simpl in Hs; lia |]);
      contradiction. }
  destruct Hcase as [cs Hs].
  pose proof (proj2 (proj1 (skip_jump_iff s cs _ Hs)) Hsk) as Hsel.
  assert (Hskips : skips s = true).
  { destruct (select_In _ _ _ _ Hsel) as [c [Hin _]]. exact (has_skip_arm _ _ _ _ Hs Hin). }
  pose proof (skipping_states_accept_nothing _ _ Hs Hskips) as Hacc.
  unfold ts_lex, ts_lex_from, lex_fuel.
  replace (List.length input - pos) with (S (List.length input - S pos)) by lia.
  change (lex_loop input (S (S (S (List.length input - S pos)))) (LexFrame s pos pos None))
    with (match lex_step input (LexFrame s pos pos None) with
          | Return t => Some t
          | Goto f' => lex_loop input (S (S (List.length input - S pos))) f'
          end).
  assert (Hstep : lex_step input (LexFrame s pos pos None) =
                  Goto (LexFrame s (S pos) (S pos) None)).
  { unfold lex_step. cbn [fr_state fr_pos fr_start fr_result].
    rewrite Hs, Hacc, (not_at_end _ _ Hpos), Hsel.
    unfold advance. rewrite (not_at_end _ _ Hpos). reflexivity. }
  rewrite Hstep. reflexivity.
Qed.

(** Where nothing is skipped the token starts at the cursor. *)
Lemma ts_lex_starts_at_the_cursor :
  forall pos s tok,
    (pos < List.length input -> ~ skipped s (lookahead_at input pos)) ->
    ts_lex input pos s = Some tok ->
    tok_start tok = pos.
Proof.
  intros pos s tok Hno Hl.
  destruct (ts_lex_ends_in_the_invariant input
              (fun f => fr_start f = pos /\
                        (f = LexFrame s pos pos None \/ skips (fr_state f) = false)))
    with (pos := pos) (state := s) (tok := tok) as (f & [Hstart _] & Hret).
  - intros f f' [Hstart Hf] Hstep.
    destruct (lex_step_goto _ _ _ Hstep) as (cs & a & Hs & Hsel & ->).
    assert (Hadv : exists t, a = ADVANCE t).
    { destruct a as [t | t]; [exists t; reflexivity |]. exfalso.
      destruct Hf as [-> | Hf].
      - cbn [fr_state fr_pos] in *.
        destruct (eof_at input pos) eqn:He.
        + rewrite (lookahead_at_end _ _ He) in Hsel. exact (no_skip_at_end _ _ _ Hs Hsel).
        + unfold eof_at in He. apply Nat.leb_gt in He.
          pose proof (proj2 (skip_jump_iff s cs _ Hs) _ Hsel) as Ht. subst t.
          exact (Hno He (proj1 (proj1 (skip_jump_iff s cs _ Hs)) Hsel)).
      - destruct (select_In _ _ _ _ Hsel) as [c [Hin _]].
        rewrite (has_skip_arm _ _ _ _ Hs Hin) in Hf. discriminate Hf. }
    destruct Hadv as [t ->]. cbn [is_skip target fr_start fr_state].
    split; [exact Hstart |]. right.
    destruct (select_In _ _ _ _ Hsel) as [c [Hin _]].
    pose proof (all_arms_spec _ advance_never_enters_a_skipping_state _ _ _ _ Hs Hin) as H.
    simpl in H. apply negb_true_iff in H. exact H.
  - split; [reflexivity | left; reflexivity].
  - exact Hl.
  - destruct (lex_step_return _ _ _ Hret) as [[_ Hr] | (cs & _ & _ & Hr)];
      [discriminate Hr |].
    unfold finish in Hr. destruct (accepted cs f) as [[sym e] |]; [| discriminate Hr].
    injection Hr as ->. exact Hstart.
Qed.

(** A run of skipped code points. *)
Lemma ts_lex_skips_a_run :
  forall n pos s,
    (forall i, i < n ->
       pos + i < List.length input /\ skipped s (lookahead_at input (pos + i))) ->
    ts_lex input pos s = ts_lex input (pos + n) s.
Proof.
  induction n as [| n IH]; intros pos s H.
  - rewrite Nat.add_0_r. reflexivity.
  - destruct (H 0) as [H0 Hs0]; [lia |]. rewrite Nat.add_0_r in H0, Hs0.
    rewrite (ts_lex_skips_one _ _ H0 Hs0).
    replace (pos + S n) with (S pos + n) by lia. apply IH.
    intros i Hi. destruct (H (S i)) as [H1 H2]; [lia |].
    replace (S pos + i) with (pos + S i) by lia. split; assumption.
Qed.

(** The end state is entered at the end of input only, from a state that
    has skipped every code point before it. *)
Lemma end_state_invariant :
  forall pos s tok,
    s <> END_OF_INPUT_STATE ->
    ts_lex input pos s = Some tok ->
    tok_symbol tok = ts_builtin_sym_end ->
    tok_start tok = tok_end tok /\ List.length input <= tok_end tok.
Proof.
  intros pos s tok Hne Hl Hsym.
  destruct (ts_lex_ends_in_the_invariant input
              (fun f => (skips (fr_state f) = true -> fr_start f = fr_pos f) /\
                        (fr_state f = END_OF_INPUT_STATE ->
                         eof_at input (fr_pos f) = true /\ fr_start f = fr_pos f) /\
                        (forall e, fr_result f <> Some (ts_builtin_sym_end, e))))
    with (pos := pos) (state := s) (tok := tok) as (f & (Hsk & Hend & Hres) & Hret).
  - intros f f' (Hsk & Hend & Hres) Hstep.
    destruct (lex_step_goto _ _ _ Hstep) as (cs & a & Hs & Hsel & ->).
    cbn [fr_state fr_pos fr_start fr_result].
    assert (Hnot117 : fr_state f <> END_OF_INPUT_STATE).
    { intro H. rewrite H, end_state_stops in Hs. injection Hs as <-. discriminate Hsel. }
    split; [| split].
    + intro Hk. destruct a as [t | t]; [| reflexivity].
      exfalso. destruct (select_In _ _ _ _ Hsel) as [c [Hin _]].
      pose proof (all_arms_spec _ advance_never_enters_a_skipping_state _ _ _ _ Hs Hin) as H.
      simpl in H, Hk. rewrite Hk in H. discriminate H.
    + intro Ht. destruct (eof_at input (fr_pos f)) eqn:He.
      * unfold advance. rewrite He. split; [exact He |].
        destruct a as [t | t]; [| reflexivity]. cbn [is_skip].
        apply Hsk. rewrite (lookahead_at_end _ _ He) in Hsel.
        destruct (select_In _ _ _ _ Hsel) as [c [Hin Hh]].
        pose proof (all_arms_spec _ eof_jumps_only_from_skipping_states _ _ _ _ Hs Hin) as H.
        simpl in H. rewrite Hh in H. exact H.
      * exfalso.
        pose proof (all_jumps_spec _ never_to_the_end_state _ _
                      (lookahead_at input (fr_pos f)) Hs) as H.
        cbv beta in H. rewrite Hsel, Ht, N.eqb_refl in H. discriminate H.
    + intros e Hr. unfold accepted in Hr.
      destruct (accept_token cs) as [sym |] eqn:Ha; [| exact (Hres _ Hr)].
      injection Hr as -> _.
      pose proof (all_cases_spec _ only_the_end_state_accepts_the_end _ _ Hs) as H.
      cbv beta in H. rewrite Ha, symbol_eqb_refl in H. simpl in H.
      apply N.eqb_eq in H. exact (Hnot117 H).
  - cbn [fr_state fr_pos fr_start fr_result]. split; [reflexivity |].
    split; [intro H; contradiction | intros e H; discriminate H].
  - exact Hl.
  - destruct (lex_step_return _ _ _ Hret) as [[_ Hr] | (cs & Hs & _ & Hr)];
      [discriminate Hr |].
    unfold finish, accepted in Hr.
    destruct (accept_token cs) as [sym |] eqn:Ha.
    + injection Hr as ->. simpl in Hsym. subst sym.
      pose proof (all_cases_spec _ only_the_end_state_accepts_the_end _ _ Hs) as H.
      cbv beta in H. rewrite Ha, symbol_eqb_refl in H. simpl in H.
      apply N.eqb_eq in H. destruct (Hend H) as [He Hst]. simpl.
      split; [exact Hst |]. unfold eof_at in He. apply Nat.leb_le in He. exact He.
    + destruct (fr_result f) as [[sym e] |] eqn:Hr'; [| discriminate Hr].
      injection Hr as ->. simpl in Hsym. subst sym. exfalso. exact (Hres _ eq_refl).
Qed.

Lemma ts_lex_at_end :
  forall pos s,
    List.length input <= pos ->
    ts_lex input pos s =
    match lex_case_of s with
    | None => None
    | Some cs =>
        match select (arms cs) 0%Z true with
        | Some _ => Some (Tok ts_builtin_sym_end pos pos)
        | None => finish pos (accepted cs (LexFrame s pos pos None))
        end
    end.
Proof.
  intros pos s Hpos. pose proof (at_end _ _ Hpos) as He.
  unfold ts_lex, ts_lex_from, lex_fuel.
  change (lex_loop input (S (S (List.length input - pos))) (LexFrame s pos pos None))
    with (match lex_step input (LexFrame s pos pos None) with
          | Return t => Some t
          | Goto f' => lex_loop input (S (List.length input - pos)) f'
          end).
  destruct (lex_step input (LexFrame s pos pos None)) as [f' | r] eqn:Hstep.
  - destruct (lex_step_goto _ _ _ Hstep) as (cs & a & Hs & Hsel & ->).
    cbn [fr_state fr_pos] in *. rewrite Hs.
    rewrite (lookahead_at_end _ _ He), He in Hsel. rewrite Hsel.
    destruct (select_In _ _ _ _ Hsel) as [c [Hin Hh]].
    pose proof (all_arms_spec _ only_eof_jump_at_end _ _ _ _ Hs Hin) as H.
    simpl in H. rewrite Hh in H. simpl in H. apply andb_prop in H.
    destruct H as [Hk Ht]. apply N.eqb_eq in Ht.
    destruct a as [t | t]; [| discriminate Hk]. cbn [target is_skip] in *. subst t.
    pose proof (all_arms_spec _ eof_jumps_only_from_skipping_states _ _ _ _ Hs Hin) as Hsk.
    simpl in Hsk. rewrite Hh in Hsk. simpl in Hsk.
    unfold accepted. rewrite (skipping_states_accept_nothing _ _ Hs Hsk).
    cbn [fr_result fr_start]. unfold advance. rewrite He.
    change (lex_loop input (S (List.length input - pos))
              (LexFrame END_OF_INPUT_STATE pos pos None))
      with (match lex_step input (LexFrame END_OF_INPUT_STATE pos pos None) with
            | Return t => Some t
            | Goto f' => lex_loop input (List.length input - pos) f'
            end).
    rewrite end_state_returns. reflexivity.
  - destruct (lex_step_return _ _ _ Hstep) as [[Hs Hr] | (cs & Hs & Hsel & Hr)];
      cbn [fr_state fr_pos fr_start] in *; rewrite Hs.
    + subst r. reflexivity.
    + rewrite (lookahead_at_end _ _ He), He in Hsel. rewrite Hsel. subst r. reflexivity.
Qed.

End Blanks.

(** ** Invariants of a run of [ts_lex], by the jumps that are taken *)

Section ExactTokenInvariant.

Variable input : list Z.
Variable P : TSStateId -> list Z -> Prop.
Variable Good : TSSymbol -> list Z -> Prop.

Hypothesis P_jump :
  forall s cs t la txt,
    lex_case_of s = Some cs ->
    select (arms cs) la false = Some (ADVANCE t) ->
    (skips s = true -> txt = []) ->
    P s txt -> P t (txt ++ [la]).
Hypothesis P_end : P END_OF_INPUT_STATE [].
Hypothesis P_skip : forall s txt, skips s = true -> P s txt -> P s [].
Hypothesis P_accept :
  forall s cs sym txt,
    lex_case_of s = Some cs -> accept_token cs = Some sym -> P s txt -> Good sym txt.

Lemma jump_keeps_frame_ok :
  forall pos0 f f',
    frame_ok input P Good pos0 f -> lex_step input f = Goto f' ->
    frame_ok input P Good pos0 f'.
Proof.
  intros pos0 f f' (H0 & Hle & Hsk & HP & Hres) Hstep.
  destruct (lex_step_goto _ _ _ Hstep) as (cs & a & Hs & Hsel & ->).
  assert (Hnew : forall sym e,
             accepted cs f = Some (sym, e) ->
             (fr_start f <= e)%nat /\ Good sym (slice input (fr_start f) e)).
  { intros sym e Hr. unfold accepted in Hr.
    destruct (accept_token cs) as [s0 |] eqn:Ha.
    - injection Hr as <- <-. split; [exact Hle |].
      exact (P_accept _ _ _ _ Hs Ha HP).
    - exact (Hres _ _ Hr). }
  destruct (select_In _ _ _ _ Hsel) as [c [Hin Hh]].
  destruct a as [t | t]; unfold frame_ok; cbn [is_skip target fr_state fr_pos fr_start fr_result].
  - (* ADVANCE *)
    pose proof (all_arms_spec _ advance_never_enters_a_skipping_state _ _ _ _ Hs Hin) as Hns.
    simpl in Hns. apply negb_true_iff in Hns.
    destruct (eof_at input (fr_pos f)) eqn:He.
    + rewrite (lookahead_at_end _ _ He) in Hh.
      pose proof (all_arms_spec _ only_eof_jump_at_end _ _ _ _ Hs Hin) as Hend.
      simpl in Hend. rewrite Hh in Hend. simpl in Hend. apply N.eqb_eq in Hend. subst t.
      pose proof (all_arms_spec _ eof_jumps_only_from_skipping_states _ _ _ _ Hs Hin) as Hk.
      simpl in Hk. rewrite Hh in Hk. simpl in Hk.
      destruct (Hsk Hk) as [Heq _].
      unfold advance. rewrite He.
      refine (conj H0 (conj Hle (conj _ (conj _ Hnew)))).
      * intro Hk'. rewrite Hns in Hk'. discriminate Hk'.
      * rewrite Heq, slice_empty. exact P_end.
    + unfold advance. rewrite He.
      refine (conj H0 (conj _ (conj _ (conj _ Hnew)))).
      * lia.
      * intro Hk. rewrite Hns in Hk. discriminate Hk.
      * rewrite (slice_snoc _ _ _ Hle He).
        apply (P_jump _ _ _ _ _ Hs Hsel); [| exact HP].
        intro Hk. destruct (Hsk Hk) as [Heq _]. rewrite Heq. apply slice_empty.
  - (* SKIP *)
    pose proof (all_arms_spec _ skip_arms_are_self_loops _ _ _ _ Hs Hin) as Hself.
    simpl in Hself. apply andb_prop in Hself. destruct Hself as [Ht Hacc].
    apply N.eqb_eq in Ht. subst t.
    pose proof (has_skip_arm _ _ _ _ Hs Hin) as Hk.
    destruct (Hsk Hk) as [Heq Hnone].
    unfold accepted. unfold accepts_nothing in Hacc.
    destruct (accept_token cs); [discriminate Hacc |].
    rewrite Hnone.
    assert (Hadv : (fr_pos f <= advance input (fr_pos f))%nat).
    { unfold advance. destruct (eof_at input (fr_pos f)); lia. }
    refine (conj _ (conj (Nat.le_refl _) (conj (fun _ => conj eq_refl eq_refl) (conj _ _)))).
    + lia.
    + rewrite slice_empty. exact (P_skip _ _ Hk HP).
    + intros sym e Hr. discriminate Hr.
Qed.

Lemma ts_lex_is_good_exact :
  forall pos state tok,
    P state [] ->
    ts_lex input pos state = Some tok ->
    Good (tok_symbol tok) (token_text input tok).
Proof.
  intros pos state tok HP Hl.
  destruct (ts_lex_ends_in_the_invariant input (frame_ok input P Good pos)
              (jump_keeps_frame_ok pos) pos state tok) as (f & Hf & Hret).
  - unfold frame_ok. cbn [fr_state fr_pos fr_start fr_result].
    rewrite slice_empty. repeat split; try lia; try assumption; discriminate.
  - exact Hl.
  - exact (proj1 (return_is_good input P Good P_accept pos f tok Hf Hret)).
Qed.

End ExactTokenInvariant.

(** ** Literal tokens spell their names *)

Lemma unsnoc_none : forall w, unsnoc w = None -> w = EmptyString.
Proof.
  intros [| c w] H; [reflexivity |]. simpl in H.
  destruct (unsnoc w) as [[u k] |]; discriminate H.
Qed.

Lemma unsnoc_codes :
  forall w u k, unsnoc w = Some (u, k) -> codes w = codes u ++ [code k].
Proof.
  induction w as [| c w IH]; intros u k H; simpl in H.
  - discriminate H.
  - destruct (unsnoc w) as [[u' k'] |] eqn:E.
    + injection H as <- <-. unfold codes in *. simpl.
      rewrite (IH _ _ eq_refl). reflexivity.
    + injection H as <- <-. rewrite (unsnoc_none _ E). reflexivity.
Qed.

Lemma spelling_jumps_checked : all_jumps spelling_ok = true.
Proof. vm_compute. reflexivity. Qed.

Lemma spelling_accepts_checked : all_cases spells_its_name = true.
Proof. vm_compute. reflexivity. Qed.

Lemma bases_are_not_spelled :
  forallb (fun e => negb (is_base (fst e))) spelling = true.
Proof. vm_compute. reflexivity. Qed.

Lemma blank_states_do_not_skip :
  forallb (fun s => negb (skips s)) blank_states = true.
Proof. vm_compute. reflexivity. Qed.

Lemma annotation_modes_skip :
  forallb skips annotation_modes = true.
Proof. vm_compute. reflexivity. Qed.

Lemma start_states_spell_nothing :
  forallb (fun s => negb (among blank_states s) &&
                    match spelled s with None => true | Some _ => false end)
          (END_OF_INPUT_STATE :: lex_start_states) = true.
Proof. vm_compute. reflexivity. Qed.

Lemma spelled_is_no_base :
  forall s w, spelled s = Some w -> skips s = false /\ among blank_states s = false.
Proof.
  intros s w H. unfold spelled in H. apply assoc_In in H.
  pose proof bases_are_not_spelled as Hall. rewrite forallb_forall in Hall.
  specialize (Hall _ H). cbn [fst] in Hall. apply negb_true_iff in Hall.
  unfold is_base in Hall. destruct (skips s); [discriminate Hall |].
  split; [reflexivity | exact Hall].
Qed.

Lemma blank_is_no_skip :
  forall s, among blank_states s = true -> skips s = false.
Proof.
  intros s H. apply among_true_In in H.
  pose proof blank_states_do_not_skip as Hall. rewrite forallb_forall in Hall.
  apply negb_true_iff. exact (Hall _ H).
Qed.

Section Literals.

Variable s0 : TSStateId.

Lemma literal_state_jump :
  forall s cs t la txt,
    lex_case_of s = Some cs ->
    select (arms cs) la false = Some (ADVANCE t) ->
    (skips s = true -> txt = []) ->
    literal_state s0 s txt -> literal_state s0 t (txt ++ [la]).
Proof.
  intros s cs t la txt Hs Hsel Hempty (Hk & Hb & Hw).
  pose proof (all_jumps_spec _ spelling_jumps_checked s cs la Hs) as Hc.
  unfold spelling_ok in Hc. rewrite Hsel, !holds_clamp in Hc.
  assert (Hns : skips t = false).
  { destruct (select_In _ _ _ _ Hsel) as [c [Hin _]].
    pose proof (all_arms_spec _ advance_never_enters_a_skipping_state _ _ _ _ Hs Hin) as H.
    simpl in H. apply negb_true_iff in H. exact H. }
  split; [intro H; rewrite Hns in H; discriminate H |].
  destruct (among blank_states t) eqn:Hbt.
  - (* into a blank state *)
    destruct (holds blank_test la false) eqn:Hbl; [| discriminate Hc].
    apply (blank_test_spec la false) in Hbl.
    split.
    + intros _. destruct (among annotation_modes s) eqn:Ha.
      * apply among_true_In in Ha.
        pose proof annotation_modes_skip as Hall. rewrite forallb_forall in Hall.
        pose proof (Hall _ Ha) as Hsk. rewrite (Hempty Hsk). simpl.
        split; [constructor; [exact Hbl | constructor] |].
        rewrite <- (Hk Hsk). exact Ha.
      * destruct (Hb Hc) as [Hf Hin]. split; [| exact Hin].
        apply Forall_app. split; [exact Hf | constructor; [exact Hbl | constructor]].
    + intros w Hsp. destruct (spelled_is_no_base _ _ Hsp) as [_ H].
      rewrite H in Hbt. discriminate Hbt.
  - split; [intro H; discriminate H |].
    intros w Hsp. rewrite Hsp in Hc.
    destruct (unsnoc w) as [[u k] |] eqn:Hu; [| discriminate Hc].
    rewrite holds_clamp in Hc.
    destruct (holds (Is k) la false) eqn:Hla; [| discriminate Hc].
    apply holds_is in Hla. subst la. rewrite (unsnoc_codes _ _ _ Hu).
    unfold is_base in Hc. destruct (skips s) eqn:Hsk.
    + apply String.eqb_eq in Hc. subst u. rewrite (Hempty eq_refl).
      exists []. split; [reflexivity |]. split; [constructor | intro H; contradiction].
    + destruct (among blank_states s) eqn:Hbs.
      * apply String.eqb_eq in Hc. subst u. destruct (Hb eq_refl) as [Hf Hin].
        exists txt. split; [reflexivity |]. split; [exact Hf | intros _; exact Hin].
      * destruct (spelled s) as [v |] eqn:Hv; [| discriminate Hc].
        apply String.eqb_eq in Hc. subst v.
        destruct (Hw _ eq_refl) as (ws & -> & Hf & Hin).
        exists ws. split; [rewrite <- app_assoc; reflexivity |]. split; assumption.
Qed.

Lemma literal_state_untracked :
  forall s,
    In s (END_OF_INPUT_STATE :: lex_start_states) ->
    (skips s = true -> s = s0) ->
    literal_state s0 s [].
Proof.
  intros s Hin Hk. pose proof start_states_spell_nothing as Hall.
  rewrite forallb_forall in Hall. specialize (Hall _ Hin).
  apply andb_prop in Hall. destruct Hall as [Hb Hsp]. apply negb_true_iff in Hb.
  split; [exact Hk |]. split.
  - intro H. rewrite Hb in H. discriminate H.
  - intros w Hw. rewrite Hw in Hsp. discriminate Hsp.
Qed.

Lemma literal_state_skip :
  forall s txt, skips s = true -> literal_state s0 s txt -> literal_state s0 s [].
Proof.
  intros s txt Hsk (Hk & _ & _). split; [exact Hk |]. split.
  - intro H. rewrite (blank_is_no_skip _ H) in Hsk. discriminate Hsk.
  - intros w Hw. destruct (spelled_is_no_base _ _ Hw) as [H _].
    rewrite H in Hsk. discriminate Hsk.
Qed.

Lemma literal_state_accept :
  forall s cs sym txt,
    lex_case_of s = Some cs -> accept_token cs = Some sym ->
    literal_state s0 s txt -> literal_token s0 sym txt.
Proof.
  intros s cs sym txt Hs Ha (_ & _ & Hw) Hlit.
  pose proof (all_cases_spec _ spelling_accepts_checked _ _ Hs) as Hc.
  unfold spells_its_name in Hc. rewrite Ha, Hlit in Hc.
  destruct (spelled s) as [w |] eqn:Hsp; [| discriminate Hc].
  apply String.eqb_eq in Hc. subst w. exact (Hw _ eq_refl).
Qed.

End Literals.

Lemma every_state_reads_its_literals :
  forallb reads_its_literals all_states = true.
Proof. vm_compute. reflexivity. Qed.

(** ** Words, lines and strings *)

Lemma ident_start_test_spec :
  forall la e, holds ident_start_test la e = true <-> is_ident_start la.
Proof.
  intros la e. unfold ident_start_test, is_ident_start. cbn [holds].
  change (code "A") with 65%Z. change (code "Z") with 90%Z. change (code "_") with 95%Z.
  change (code "a") with 97%Z. change (code "z") with 122%Z.
  rewrite !orb_true_iff, !andb_true_iff, !Z.leb_le, Z.eqb_eq. tauto.
Qed.

Lemma ident_char_test_spec :
  forall la e, holds ident_char_test la e = true <-> is_ident_char la.
Proof.
  intros la e. unfold ident_char_test, is_ident_char.
  change (holds (AtLeast "0" &&& AtMost "9" ||| ident_start_test) la e)
    with ((code "0" <=? la)%Z && (la <=? code "9")%Z || holds ident_start_test la e).
  change (code "0") with 48%Z. change (code "9") with 57%Z.
  rewrite orb_true_iff, andb_true_iff, !Z.leb_le, ident_start_test_spec. tauto.
Qed.

Lemma line_test_spec :
  forall la e, holds line_test la e = true <-> la <> 0%Z /\ la <> newline.
Proof.
  intros la e. unfold line_test, newline. cbn [holds].
  change (code "000") with 0%Z. change (code "010") with 10%Z.
  rewrite andb_true_iff, !negb_true_iff, !Z.eqb_neq. tauto.
Qed.

Lemma string_test_spec :
  forall la e, holds string_test la e = true <-> la <> 0%Z /\ la <> 34%Z.
Proof.
  intros la e. unfold string_test. cbn [holds].
  change (code "000") with 0%Z. change (code "034") with 34%Z.
  rewrite andb_true_iff, !negb_true_iff, !Z.eqb_neq. tauto.
Qed.

Lemma word_jumps_checked : all_jumps word_jump_ok = true.
Proof. vm_compute. reflexivity. Qed.

Lemma hash_jumps_checked : all_jumps hash_jump_ok = true.
Proof. vm_compute. reflexivity. Qed.

Lemma plain_jumps_checked : all_jumps plain_jump_ok = true.
Proof. vm_compute. reflexivity. Qed.

Lemma string_jumps_checked : all_jumps string_jump_ok = true.
Proof. vm_compute. reflexivity. Qed.

Lemma comments_come_from_a_hash :
  all_cases (accepted_only_in sym_comment (among hash_region)) = true.
Proof. vm_compute. reflexivity. Qed.

Lemma string_content_comes_from_a_string :
  all_cases (accepted_only_in aux_sym_string_token1 (among string_states)) = true.
Proof. vm_compute. reflexivity. Qed.

Lemma identifiers_go_on : all_jumps (goes_on sym_identifier ident_char_test) = true.
Proof. vm_compute. reflexivity. Qed.

Lemma comments_go_on : all_jumps (goes_on sym_comment line_test) = true.
Proof. vm_compute. reflexivity. Qed.

Lemma annotation_texts_go_on : all_jumps (goes_on sym_annotation_text line_test) = true.
Proof. vm_compute. reflexivity. Qed.

Lemma string_contents_go_on : all_jumps (goes_on aux_sym_string_token1 string_test) = true.
Proof. vm_compute. reflexivity. Qed.

Lemma jump_is_no_skip_target :
  forall s cs la t,
    lex_case_of s = Some cs -> select (arms cs) la false = Some (ADVANCE t) ->
    skips t = false.
Proof.
  intros s cs la t Hs Hsel. destruct (select_In _ _ _ _ Hsel) as [c [Hin _]].
  pose proof (all_arms_spec _ advance_never_enters_a_skipping_state _ _ _ _ Hs Hin) as H.
  simpl in H. apply negb_true_iff in H. exact H.
Qed.

Lemma skipping_is_no_word : forall s, skips s = true -> word_state s = false.
Proof.
  intros s H. unfold word_state.
  destruct (lex_case_of s) as [cs |] eqn:Hs; [| reflexivity].
  rewrite (skipping_states_accept_nothing _ _ Hs H). reflexivity.
Qed.

Section Classes.

Variable input : list Z.

(** Identifier tokens are words. *)
Lemma identifier_is_a_word :
  forall pos s tok,
    word_state s = false ->
    ts_lex input pos s = Some tok ->
    tok_symbol tok = sym_identifier ->
    ident_text (token_text input tok).
Proof.
  intros pos s tok Hs0 Hl Hsym.
  apply (ts_lex_is_good_exact input
           (fun s txt => word_state s = true -> ident_text txt)
           (fun sym txt => sym = sym_identifier -> ident_text txt))
    with (pos := pos) (state := s) (tok := tok); try assumption.
  - intros s1 cs t la txt Hs Hsel Hempty HP Ht.
    pose proof (all_jumps_spec _ word_jumps_checked s1 cs la Hs) as Hc.
    unfold word_jump_ok in Hc. rewrite Hsel, Ht, !holds_clamp in Hc.
    destruct (skips s1) eqn:Hk.
    + apply (ident_start_test_spec la false) in Hc. rewrite (Hempty eq_refl).
      exists la, []. split; [reflexivity |]. split; [exact Hc | constructor].
    + destruct (word_state s1) eqn:Hw; [| discriminate Hc].
      apply (ident_char_test_spec la false) in Hc.
      destruct (HP eq_refl) as (c & rest & -> & Hc1 & Hrest).
      exists c, (rest ++ [la]). split; [reflexivity |]. split; [exact Hc1 |].
      apply Forall_app. split; [exact Hrest | constructor; [exact Hc | constructor]].
  - intro H. vm_compute in H. discriminate H.
  - intros s1 txt Hk _ H. rewrite (skipping_is_no_word _ Hk) in H. discriminate H.
  - intros s1 cs sym txt Hs Ha HP ->. apply HP.
    unfold word_state. rewrite Hs, Ha. reflexivity.
  - intro H. rewrite Hs0 in H. discriminate H.
Qed.

(** Comment tokens start with a ['#']. *)
Lemma comment_starts_with_a_hash :
  forall pos s tok,
    among hash_region s = false ->
    ts_lex input pos s = Some tok ->
    tok_symbol tok = sym_comment ->
    starts_with_hash (token_text input tok).
Proof.
  intros pos s tok Hs0 Hl Hsym.
  apply (ts_lex_is_good_exact input
           (fun s txt => among hash_region s = true -> starts_with_hash txt)
           (fun sym txt => sym = sym_comment -> starts_with_hash txt))
    with (pos := pos) (state := s) (tok := tok); try assumption.
  - intros s1 cs t la txt Hs Hsel Hempty HP Ht.
    pose proof (all_jumps_spec _ hash_jumps_checked s1 cs la Hs) as Hc.
    unfold hash_jump_ok in Hc. rewrite Hsel, Ht, !holds_clamp in Hc.
    destruct (skips s1) eqn:Hk.
    + apply holds_is in Hc. subst la. rewrite (Hempty eq_refl).
      exists []. reflexivity.
    + destruct (HP Hc) as [rest ->]. exists (rest ++ [la]).
      rewrite app_assoc. reflexivity.
  - intro H. vm_compute in H. discriminate H.
  - intros s1 txt Hk _ H. apply among_true_In in H. simpl in H.
    repeat (destruct H as [<- | H]; [vm_compute in Hk; discriminate Hk |]). contradiction.
  - intros s1 cs sym txt Hs Ha HP ->. apply HP.
    pose proof (all_cases_spec _ comments_come_from_a_hash _ _ Hs) as H.
    unfold accepted_only_in in H. rewrite Ha, symbol_eqb_refl in H. exact H.
  - intro H. rewrite Hs0 in H. discriminate H.
Qed.

(** No token holds a NUL, and a line end is held by string content only. *)
Lemma tokens_are_plain :
  forall pos s tok,
    ts_lex input pos s = Some tok ->
    ~ In 0%Z (token_text input tok) /\
    (tok_symbol tok <> aux_sym_string_token1 -> ~ In newline (token_text input tok)).
Proof.
  intros pos s tok Hl.
  apply (ts_lex_is_good_exact input
           (fun s txt => ~ In 0%Z txt /\ (among string_states s = false -> ~ In newline txt))
           (fun sym txt => ~ In 0%Z txt /\
                           (sym <> aux_sym_string_token1 -> ~ In newline txt)))
    with (pos := pos) (state := s) (tok := tok); try assumption.
  - intros s1 cs t la txt Hs Hsel Hempty [H0 Hn].
    pose proof (all_jumps_spec _ plain_jumps_checked s1 cs la Hs) as Hc.
    unfold plain_jump_ok in Hc. rewrite Hsel, !holds_clamp in Hc. cbn [is_skip] in Hc.
    destruct (holds (Is "000") la false) eqn:Hz; [discriminate Hc |].
    assert (Hla0 : la <> 0%Z).
    { intro H. subst la. cbn [holds] in Hz. discriminate Hz. }
    split.
    + intro H. apply in_app_or in H. destruct H as [H | [H | []]]; [exact (H0 H) |].
      exact (Hla0 H).
    + intros Ht H. apply in_app_or in H.
      destruct (among string_states s1) eqn:Hs1.
      * destruct (select_In _ _ _ _ Hsel) as [c [Hin _]].
        pose proof (all_arms_spec _ string_states_closed _ _ _ _ Hs Hin) as Hcl.
        cbv beta in Hcl. rewrite Hs1 in Hcl.
        cbn [implb target] in Hcl. rewrite Hcl in Ht. discriminate Ht.
      * destruct H as [H | [H | []]]; [exact (Hn eq_refl H) |].
        destruct (holds (Is "010") la false) eqn:Hnl; [discriminate Hc |].
        subst la. cbn [holds] in Hnl. discriminate Hnl.
  - split; [intros [] | intros _ []].
  - intros s1 txt _ _. split; [intros [] | intros _ []].
  - intros s1 cs sym txt Hs Ha [H0 Hn]. split; [exact H0 |].
    intro Hsym. apply Hn.
    pose proof (all_cases_spec _ string_states_accept _ _ Hs) as H.
    cbv beta in H. rewrite Ha in H.
    destruct (among string_states s1); [| reflexivity].
    simpl in H. apply symbol_eqb_eq in H. contradiction.
  - split; [intros [] | intros _ []].
Qed.

(** String content holds no double quote. *)
Lemma string_content_has_no_quote :
  forall pos s tok,
    ts_lex input pos s = Some tok ->
    tok_symbol tok = aux_sym_string_token1 ->
    ~ In 34%Z (token_text input tok).
Proof.
  intros pos s tok Hl Hsym.
  apply (ts_lex_is_good_exact input
           (fun s txt => among string_states s = true -> ~ In 34%Z txt)
           (fun sym txt => sym = aux_sym_string_token1 -> ~ In 34%Z txt))
    with (pos := pos) (state := s) (tok := tok); try assumption.
  - intros s1 cs t la txt Hs Hsel Hempty HP Ht.
    pose proof (all_jumps_spec _ string_jumps_checked s1 cs la Hs) as Hc.
    unfold string_jump_ok in Hc. rewrite Hsel, Ht, !holds_clamp in Hc.
    destruct (among string_states s1) eqn:Hs1; [| discriminate Hc].
    apply negb_true_iff in Hc. intro H. apply in_app_or in H.
    destruct H as [H | [H | []]]; [exact (HP eq_refl H) |].
    subst la. cbn [holds] in Hc. discriminate Hc.
  - intros _ [].
  - intros s1 txt _ _ _ [].
  - intros s1 cs sym txt Hs Ha HP ->. apply HP.
    pose proof (all_cases_spec _ string_content_comes_from_a_string _ _ Hs) as H.
    unfold accepted_only_in in H. rewrite Ha, symbol_eqb_refl in H. exact H.
  - intros _ [].
Qed.

Section Munch.

Variable sym : TSSymbol.
Variable more : lex_cond.
Hypothesis checked : all_jumps (goes_on sym more) = true.

(** A token of symbol [sym] ends where the input ends or fails the test. *)
Lemma token_goes_on :
  forall pos s tok,
    ts_lex input pos s = Some tok ->
    tok_symbol tok = sym ->
    stops_at input more (tok_end tok).
Proof.
  intros pos s tok Hl Hsym.
  assert (Hstop : forall f cs r,
             lex_case_of (fr_state f) = Some cs ->
             accept_token cs = Some sym ->
             select (arms cs) (lookahead_at input (fr_pos f)) (eof_at input (fr_pos f)) = r ->
             stops_at input more (fr_pos f) \/
             exists t, r = Some (ADVANCE t) /\ accepts t <> None /\
                       eof_at input (fr_pos f) = false).
  { intros f cs r Hs Ha Hsel. destruct (eof_at input (fr_pos f)) eqn:He.
    - left. left. unfold eof_at in He. apply Nat.leb_le in He. exact He.
    - destruct (holds more (lookahead_at input (fr_pos f)) false) eqn:Hm;
        [| left; right; exact Hm].
      right. pose proof (all_jumps_spec _ checked _ _ (lookahead_at input (fr_pos f)) Hs) as Hc.
      unfold goes_on, accepts_symbol, accepts in Hc.
      rewrite Hs, Ha, symbol_eqb_refl, holds_clamp, Hm, Hsel in Hc.
      destruct r as [[t | t] |]; try discriminate Hc.
      exists t. split; [reflexivity |]. split; [| reflexivity].
      unfold accepts. destruct (lex_case_of t) as [ct |]; [| discriminate Hc].
      destruct (accept_token ct); [discriminate | discriminate Hc]. }
  destruct (ts_lex_ends_in_the_invariant input
              (fun f => forall e, fr_result f = Some (sym, e) ->
                                  stops_at input more e \/
                                  (fr_pos f = S e /\ accepts (fr_state f) <> None)))
    with (pos := pos) (state := s) (tok := tok) as (f & Hinv & Hret).
  - intros f f' Hinv Hstep.
    destruct (lex_step_goto _ _ _ Hstep) as (cs & a & Hs & Hsel & ->).
    cbn [fr_state fr_pos fr_start fr_result]. intros e Hr. unfold accepted in Hr.
    destruct (accept_token cs) as [x |] eqn:Ha.
    + injection Hr as -> <-.
      destruct (Hstop f cs _ Hs Ha Hsel) as [H | (t & Ht & Hacc & He)]; [left; exact H |].
      right. injection Ht as ->. cbn [target]. unfold advance. rewrite He.
      split; [reflexivity | exact Hacc].
    + destruct (Hinv _ Hr) as [H | [_ H]]; [left; exact H |].
      exfalso. apply H. unfold accepts. rewrite Hs. exact Ha.
  - intros e H. discriminate H.
  - exact Hl.
  - destruct (lex_step_return _ _ _ Hret) as [[_ Hr] | (cs & Hs & Hsel & Hr)];
      [discriminate Hr |].
    unfold finish, accepted in Hr.
    destruct (accept_token cs) as [x |] eqn:Ha.
    + injection Hr as ->. simpl in Hsym. subst x. cbn [tok_end].
      destruct (Hstop f cs _ Hs Ha Hsel) as [H | (t & Ht & _)];
        [exact H | discriminate Ht].
    + destruct (fr_result f) as [[x e] |] eqn:Hr'; [| discriminate Hr].
      injection Hr as ->. simpl in Hsym. subst x. cbn [tok_end].
      destruct (Hinv _ eq_refl) as [H | [_ H]]; [exact H |].
      exfalso. apply H. unfold accepts. rewrite Hs. exact Ha.
Qed.

End Munch.

End Classes.

(** ** Further properties of the lexer *)

Lemma start_state_cases :
  forall s, In s lex_start_states -> skips s = true \/ s = STRING_LEX_STATE.
Proof.
  intros s H. unfold lex_start_states in H. apply in_map_iff in H.
  destruct H as [m [<- Hm]].
  pose proof lex_modes_skip_or_read_a_string as Hall. rewrite forallb_forall in Hall.
  specialize (Hall _ Hm). cbv beta in Hall.
  destruct (skips (lex_state m)); [left; reflexivity |].
  right. apply N.eqb_eq. exact Hall.
Qed.

Lemma start_states_by_their_end :
  forallb (fun s => among end_modes s || among no_end_modes s || N.eqb s STRING_LEX_STATE)
          lex_start_states = true.
Proof. vm_compute. reflexivity. Qed.

(** X1.  A token that [ts_lex] returns lies in the buffer, at or after the
    cursor: [pos <= tok_start <= tok_end <= length input] (or [tok_end <= pos]
    for a cursor beyond the buffer). *)
Theorem ts_lex_token_bounds :
  forall input pos state tok,
    ts_lex input pos state = Some tok ->
    pos <= tok_start tok /\ tok_start tok <= tok_end tok /\
    tok_end tok <= Nat.max pos (List.length input).
Proof.
  intros input pos state tok H.
  destruct (ts_lex_goes_forward input _ _ _ H) as [H1 H2].
  split; [exact H1 |]. split; [exact H2 |]. exact (ts_lex_in_bounds input _ _ _ H).
Qed.

Lemma ts_lex_token_bounds_witness :
  2 <= tok_start (Tok anon_sym_rect 2 6) /\
  tok_start (Tok anon_sym_rect 2 6) <= tok_end (Tok anon_sym_rect 2 6) /\
  tok_end (Tok anon_sym_rect 2 6) <= Nat.max 2 (List.length (codes "  rect {")).
Proof.
  apply (ts_lex_token_bounds (codes "  rect {") 2 116). vm_compute. reflexivity.
Defined.

(** X2.  In the lex state of a parse state, a token has one code point or
    more, unless it is the end token or, in the lex state that reads the
    content of a string (482), a string content; that lex state returns
    nothing but string content. *)
Theorem tokens_are_not_empty :
  forall input pos s tok,
    In s lex_start_states ->
    ts_lex input pos s = Some tok ->
    (s = STRING_LEX_STATE /\ tok_symbol tok = aux_sym_string_token1) \/
    (s <> STRING_LEX_STATE /\
     (tok_symbol tok = ts_builtin_sym_end \/ tok_start tok < tok_end tok)).
Proof.
  intros input pos s tok Hs Hl.
  destruct (start_state_cases s Hs) as [Hk | ->].
  - right. split; [intros ->; vm_compute in Hk; discriminate Hk |].
    destruct (ts_lex_reads_something input _ _ _ Hk Hl) as [He | Hlt].
    + left. unfold is_end in He. apply symbol_eqb_eq in He. exact He.
    + right. exact Hlt.
  - left. split; [reflexivity |]. exact (ts_lex_in_a_string input _ _ Hl).
Qed.

Lemma tokens_are_not_empty_witness :
  (116%N = STRING_LEX_STATE /\ tok_symbol (Tok anon_sym_rect 0 4) = aux_sym_string_token1) \/
  (116%N <> STRING_LEX_STATE /\
   (tok_symbol (Tok anon_sym_rect 0 4) = ts_builtin_sym_end \/
    tok_start (Tok anon_sym_rect 0 4) < tok_end (Tok anon_sym_rect 0 4))).
Proof.
  apply (tokens_are_not_empty (codes "rect") 0 116).
  - vm_compute. tauto.
  - vm_compute. reflexivity.
Defined.

(** X3.  At the end of input [ts_lex] returns the end token in the lex
    states 0, 114, 115 and 116, no token in the lex states 1, 2, 3, 4, 5 and
    8, and an empty string content in the lex state 482; these are all the
    lex states of the parse states. *)
Theorem ts_lex_at_the_end_of_input :
  forall input pos s,
    List.length input <= pos ->
    (In s end_modes -> ts_lex input pos s = Some (Tok ts_builtin_sym_end pos pos)) /\
    (In s no_end_modes -> ts_lex input pos s = None) /\
    (s = STRING_LEX_STATE ->
     ts_lex input pos s = Some (Tok aux_sym_string_token1 pos pos)) /\
    (In s lex_start_states ->
     In s end_modes \/ In s no_end_modes \/ s = STRING_LEX_STATE).
Proof.
  intros input pos s Hpos.
  destruct jumps_at_end_checked as (Hend & Hno & Hstr & Hacc).
  rewrite forallb_forall in Hend, Hno.
  split; [| split; [| split]].
  - intro Hin. specialize (Hend _ Hin). rewrite (ts_lex_at_end input _ _ Hpos).
    unfold jump_at_end, accepts in Hend.
    destruct (lex_case_of s) as [cs |]; [| discriminate Hend].
    destruct (select (arms cs) 0%Z true); [reflexivity | discriminate Hend].
  - intro Hin. specialize (Hno _ Hin). rewrite (ts_lex_at_end input _ _ Hpos).
    unfold jump_at_end, accepts in Hno.
    destruct (lex_case_of s) as [cs |]; [| reflexivity].
    destruct (select (arms cs) 0%Z true); [discriminate Hno |].
    unfold accepted. destruct (accept_token cs); [discriminate Hno | reflexivity].
  - intros ->. rewrite (ts_lex_at_end input _ _ Hpos).
    unfold jump_at_end in Hstr. unfold accepts in Hacc.
    destruct (lex_case_of STRING_LEX_STATE) as [cs |]; [| discriminate Hacc].
    rewrite Hstr. unfold accepted. rewrite Hacc. reflexivity.
  - intro Hin. pose proof start_states_by_their_end as H.
    rewrite forallb_forall in H. specialize (H _ Hin).
    apply orb_prop in H. destruct H as [H | H].
    + apply orb_prop in H. destruct H as [H | H].
      * left. exact (among_true_In _ _ H).
      * right. left. exact (among_true_In _ _ H).
    + right. right. apply N.eqb_eq. exact H.
Qed.

Lemma ts_lex_at_the_end_of_input_witness :
  ts_lex (codes "rect") 4 116 = Some (Tok ts_builtin_sym_end 4 4).
Proof.
  apply (ts_lex_at_the_end_of_input (codes "rect") 4 116).
  - simpl. lia.
  - simpl. tauto.
Defined.

(** X4.  In the lex state of a parse state, the end token is returned at
    the end of input only, and it is empty: everything between the cursor
    and the end of input has been skipped. *)
Theorem end_token_only_at_the_end :
  forall input pos s tok,
    In s lex_start_states ->
    ts_lex input pos s = Some tok ->
    tok_symbol tok = ts_builtin_sym_end ->
    tok_start tok = tok_end tok /\ List.length input <= tok_end tok.
Proof.
  intros input pos s tok Hs Hl Hsym.
  apply (end_state_invariant input pos s tok); try assumption.
  intros ->. destruct (start_state_cases _ Hs) as [H | H]; vm_compute in H; discriminate H.
Qed.

Lemma end_token_only_at_the_end_witness :
  tok_start (Tok ts_builtin_sym_end 6 6) = tok_end (Tok ts_builtin_sym_end 6 6) /\
  List.length (codes "rect  ") <= tok_end (Tok ts_builtin_sym_end 6 6).
Proof.
  apply (end_token_only_at_the_end (codes "rect  ") 4 116).
  - vm_compute. tauto.
  - vm_compute. reflexivity.
  - reflexivity.
Defined.

(** X5.  White space before a token is skipped and is no part of it: the
    lex states 0, 3, 4, 5, 8, 115 and 116 skip tabs, line ends, vertical
    tabs, form feeds, carriage returns and spaces, the lex states 1, 2 and
    114 (annotations) skip line ends only, and no other state skips
    anything.  After a run of skipped code points [ts_lex] returns what it
    returns at the end of the run, and the token starts there. *)
Theorem white_space_is_skipped :
  forall input pos n s,
    (forall i, i < n ->
       pos + i < List.length input /\ skipped s (lookahead_at input (pos + i))) ->
    (pos + n < List.length input -> ~ skipped s (lookahead_at input (pos + n))) ->
    ts_lex input pos s = ts_lex input (pos + n) s /\
    (forall tok, ts_lex input pos s = Some tok -> tok_start tok = pos + n).
Proof.
  intros input pos n s Hrun Hstop.
  pose proof (ts_lex_skips_a_run input n pos s Hrun) as Heq.
  split; [exact Heq |].
  intros tok Hl. rewrite Heq in Hl.
  exact (ts_lex_starts_at_the_cursor input _ _ _ Hstop Hl).
Qed.

Lemma white_space_is_skipped_witness :
  ts_lex (codes "  rect") 0 116 = ts_lex (codes "  rect") (0 + 2) 116 /\
  (forall tok, ts_lex (codes "  rect") 0 116 = Some tok -> tok_start tok = 0 + 2).
Proof.
  apply (white_space_is_skipped (codes "  rect") 0 2 116).
  - intros i Hi. destruct i as [| [| i]]; [| | lia].
    + split; [simpl; lia |]. left. split; [simpl; tauto | right; reflexivity].
    + split; [simpl; lia |]. left. split; [simpl; tauto | right; reflexivity].
  - intros _ [[_ [H | H]] | [_ H]].
    + vm_compute in H. destruct H as [_ H]. apply H. reflexivity.
    + discriminate H.
    + discriminate H.
Defined.

(** ** The texts of the tokens *)

Lemma start_states_are_plain :
  forallb (fun s => negb (word_state s) && negb (among hash_region s)) lex_start_states
  = true.
Proof. vm_compute. reflexivity. Qed.

Lemma start_state_is_plain :
  forall s, In s lex_start_states -> word_state s = false /\ among hash_region s = false.
Proof.
  intros s H. pose proof start_states_are_plain as Hall. rewrite forallb_forall in Hall.
  specialize (Hall _ H). apply andb_prop in Hall. destruct Hall as [H1 H2].
  apply negb_true_iff in H1. apply negb_true_iff in H2. split; assumption.
Qed.

Lemma code_modes_are_no_annotation_modes :
  forall s, In s code_modes -> In s annotation_modes -> False.
Proof.
  intros s H1 H2. simpl in H1, H2.
  repeat (destruct H1 as [<- | H1];
          [repeat (destruct H2 as [H2 | H2]; [discriminate H2 |]); contradiction |]).
  contradiction.
Qed.

(** X6.  The text of a literal token (a token whose symbol is visible and
    anonymous in [ts_symbol_metadata]) is its entry in [ts_symbol_names]; in
    the annotation modes (lex states 1, 2 and 114), where only line ends are
    skipped, the white space in front of the literal is part of the token,
    as in [" @"]. *)
Theorem literal_tokens_spell_their_names :
  (forall input pos s tok,
      In s lex_start_states ->
      ts_lex input pos s = Some tok ->
      is_literal (tok_symbol tok) = true ->
      literal_text s (tok_symbol tok) (token_text input tok) /\
      (In s code_modes ->
       token_text input tok = codes (ts_symbol_names (tok_symbol tok)))) /\
  ts_lex (codes " @") 0 114 = Some (Tok anon_sym_AT 0 2).
Proof.
  split; [| vm_compute; reflexivity].
  intros input pos s tok Hs Hl Hlit.
  assert (H : literal_text s (tok_symbol tok) (token_text input tok)).
  { apply (ts_lex_is_good_exact input (literal_state s) (literal_token s))
      with (pos := pos) (state := s) (tok := tok); try assumption.
    - apply literal_state_jump.
    - apply literal_state_untracked; [left; reflexivity |].
      intro H. vm_compute in H. discriminate H.
    - apply literal_state_skip.
    - apply literal_state_accept.
    - apply literal_state_untracked; [right; exact Hs | reflexivity]. }
  split; [exact H |].
  intro Hc. destruct H as (ws & Heq & _ & Hws).
  destruct ws as [| w ws]; [exact Heq |].
  exfalso. apply (code_modes_are_no_annotation_modes s Hc). apply Hws. discriminate.
Qed.

Lemma literal_tokens_spell_their_names_witness :
  token_text (codes "rect {") (Tok anon_sym_rect 0 4) = codes "rect".
Proof.
  apply (proj1 literal_tokens_spell_their_names (codes "rect {") 0 116%N).
  - vm_compute. tauto.
  - vm_compute. reflexivity.
  - reflexivity.
  - simpl. tauto.
Defined.

(** X7.  Every literal token that a parse state has an entry for in the
    parse tables is what [ts_lex] reads, in the lex mode of that state, from
    the name of the token: the tables, [ts_lex_modes], [ts_symbol_names] and
    the automaton fit together. *)
Theorem literals_are_read_from_their_names :
  forall state x cell,
    cell_at state x cell ->
    is_literal x = true ->
    ts_lex (codes (ts_symbol_names x)) 0 (lex_mode state) =
    Some (Tok x 0 (String.length (ts_symbol_names x))).
Proof.
  intros state x cell Hcell Hlit. apply cell_at_is_lookup in Hcell.
  pose proof every_state_reads_its_literals as Hall. rewrite forallb_forall in Hall.
  specialize (Hall _ (lookup_in_a_state _ _ _ Hcell)).
  unfold reads_its_literals in Hall. rewrite forallb_forall in Hall.
  specialize (Hall _ (in_all_symbols x)). cbv beta in Hall.
  rewrite Hlit, Hcell in Hall.
  destruct (ts_lex (codes (ts_symbol_names x)) 0 (lex_mode state)) as [[sym a b] |];
    [| discriminate Hall].
  cbn [tok_symbol tok_start tok_end] in Hall.
  destruct (symbol_eqb sym x) eqn:E1; [| discriminate Hall].
  destruct (Nat.eqb a 0) eqn:E2; [| discriminate Hall].
  apply symbol_eqb_eq in E1. apply Nat.eqb_eq in E2. apply Nat.eqb_eq in Hall.
  subst. reflexivity.
Qed.

Lemma literals_are_read_from_their_names_witness :
  ts_lex (codes (ts_symbol_names anon_sym_rect)) 0 (lex_mode 1) =
  Some (Tok anon_sym_rect 0 (String.length (ts_symbol_names anon_sym_rect))).
Proof.
  apply (literals_are_read_from_their_names 1 anon_sym_rect (ACTIONS 13)).
  - vm_compute. tauto.
  - reflexivity.
Defined.

(** X8.  An identifier token is a maximal word: its text is a letter or an
    underscore followed by letters, digits and underscores, and what follows
    it in the input is none of these. *)
Theorem identifier_tokens_are_maximal_words :
  forall input pos s tok,
    In s lex_start_states ->
    ts_lex input pos s = Some tok ->
    tok_symbol tok = sym_identifier ->
    ident_text (token_text input tok) /\
    (List.length input <= tok_end tok \/
     ~ is_ident_char (lookahead_at input (tok_end tok))).
Proof.
  intros input pos s tok Hs Hl Hsym.
  destruct (start_state_is_plain _ Hs) as [Hw _].
  split; [exact (identifier_is_a_word input _ _ _ Hw Hl Hsym) |].
  destruct (token_goes_on input _ _ identifiers_go_on _ _ _ Hl Hsym) as [H | H];
    [left; exact H |].
  right. intro Hc. apply (ident_char_test_spec _ false) in Hc.
  rewrite Hc in H. discriminate H.
Qed.

Lemma identifier_tokens_are_maximal_words_witness :
  ident_text (token_text (codes "@box1 ->") (Tok sym_identifier 1 5)) /\
  (List.length (codes "@box1 ->") <= tok_end (Tok sym_identifier 1 5) \/
   ~ is_ident_char (lookahead_at (codes "@box1 ->") (tok_end (Tok sym_identifier 1 5)))).
Proof.
  apply (identifier_tokens_are_maximal_words (codes "@box1 ->") 1 8).
  - vm_compute. tauto.
  - vm_compute. reflexivity.
  - reflexivity.
Defined.

Lemma fails_line_test :
  forall la, holds line_test la false = false -> la = 0%Z \/ la = newline.
Proof.
  intros la H. destruct (Z.eq_dec la 0) as [E | E]; [left; exact E |].
  destruct (Z.eq_dec la newline) as [E' | E']; [right; exact E' |].
  assert (Ht : holds line_test la false = true) by (apply line_test_spec; split; assumption).
  rewrite Ht in H. discriminate H.
Qed.

(** X9.  A comment token starts with ['#'], holds no line end, and runs to
    the end of its line: what follows it is a line end, a NUL or the end of
    input. *)
Theorem comments_run_to_the_end_of_the_line :
  forall input pos s tok,
    In s lex_start_states ->
    ts_lex input pos s = Some tok ->
    tok_symbol tok = sym_comment ->
    starts_with_hash (token_text input tok) /\
    ~ In newline (token_text input tok) /\
    (List.length input <= tok_end tok \/
     lookahead_at input (tok_end tok) = 0%Z \/
     lookahead_at input (tok_end tok) = newline).
Proof.
  intros input pos s tok Hs Hl Hsym.
  destruct (start_state_is_plain _ Hs) as [_ Hh].
  split; [exact (comment_starts_with_a_hash input _ _ _ Hh Hl Hsym) |].
  split.
  - apply (proj2 (tokens_are_plain input _ _ _ Hl)). rewrite Hsym. discriminate.
  - destruct (token_goes_on input _ _ comments_go_on _ _ _ Hl Hsym) as [H | H];
      [left; exact H | right; exact (fails_line_test _ H)].
Qed.

Lemma comments_run_to_the_end_of_the_line_witness :
  starts_with_hash (token_text (codes "# a b") (Tok sym_comment 0 5)) /\
  ~ In newline (token_text (codes "# a b") (Tok sym_comment 0 5)) /\
  (List.length (codes "# a b") <= tok_end (Tok sym_comment 0 5) \/
   lookahead_at (codes "# a b") (tok_end (Tok sym_comment 0 5)) = 0%Z \/
   lookahead_at (codes "# a b") (tok_end (Tok sym_comment 0 5)) = newline).
Proof.
  apply (comments_run_to_the_end_of_the_line (codes "# a b") 0 116).
  - vm_compute. tauto.
  - vm_compute. reflexivity.
  - reflexivity.
Defined.

(** X10.  An annotation text holds no line end and runs to the end of its
    line. *)
Theorem annotation_texts_run_to_the_end_of_the_line :
  forall input pos s tok,
    ts_lex input pos s = Some tok ->
    tok_symbol tok = sym_annotation_text ->
    ~ In newline (token_text input tok) /\
    (List.length input <= tok_end tok \/
     lookahead_at input (tok_end tok) = 0%Z \/
     lookahead_at input (tok_end tok) = newline).
Proof.
  intros input pos s tok Hl Hsym. split.
  - apply (proj2 (tokens_are_plain input _ _ _ Hl)). rewrite Hsym. discriminate.
  - destruct (token_goes_on input _ _ annotation_texts_go_on _ _ _ Hl Hsym) as [H | H];
      [left; exact H | right; exact (fails_line_test _ H)].
Qed.

Lemma annotation_texts_run_to_the_end_of_the_line_witness :
  ~ In newline (token_text (codes "## note") (Tok sym_annotation_text 2 7)) /\
  (List.length (codes "## note") <= tok_end (Tok sym_annotation_text 2 7) \/
   lookahead_at (codes "## note") (tok_end (Tok sym_annotation_text 2 7)) = 0%Z \/
   lookahead_at (codes "## note") (tok_end (Tok sym_annotation_text 2 7)) = newline).
Proof.
  apply (annotation_texts_run_to_the_end_of_the_line (codes "## note") 2 114).
  - vm_compute. reflexivity.
  - reflexivity.
Defined.

(** X11.  The content of a string holds no double quote and runs to the
    closing quote: what follows it is a double quote, a NUL or the end of
    input. *)
Theorem string_content_runs_to_the_quote :
  forall input pos s tok,
    ts_lex input pos s = Some tok ->
    tok_symbol tok = aux_sym_string_token1 ->
    ~ In 34%Z (token_text input tok) /\
    (List.length input <= tok_end tok \/
     lookahead_at input (tok_end tok) = 0%Z \/
     lookahead_at input (tok_end tok) = 34%Z).
Proof.
  intros input pos s tok Hl Hsym.
  split; [exact (string_content_has_no_quote input _ _ _ Hl Hsym) |].
  destruct (token_goes_on input _ _ string_contents_go_on _ _ _ Hl Hsym) as [H | H];
    [left; exact H |].
  right. destruct (Z.eq_dec (lookahead_at input (tok_end tok)) 0) as [E | E];
    [left; exact E |].
  destruct (Z.eq_dec (lookahead_at input (tok_end tok)) 34) as [E' | E'];
    [right; exact E' |].
  assert (Ht : holds string_test (lookahead_at input (tok_end tok)) false = true)
    by (apply string_test_spec; split; assumption).
  rewrite Ht in H. discriminate H.
Qed.

Lemma string_content_runs_to_the_quote_witness :
  ~ In 34%Z (token_text (quoted "a b") (Tok aux_sym_string_token1 1 4)) /\
  (List.length (quoted "a b") <= tok_end (Tok aux_sym_string_token1 1 4) \/
   lookahead_at (quoted "a b") (tok_end (Tok aux_sym_string_token1 1 4)) = 0%Z \/
   lookahead_at (quoted "a b") (tok_end (Tok aux_sym_string_token1 1 4)) = 34%Z).
Proof.
  apply (string_content_runs_to_the_quote (quoted "a b") 1 482).
  - vm_compute. reflexivity.
  - reflexivity.
Defined.

(** X12.  No token holds a NUL code point, and no token but the content of
    a string holds a line end: every other token lies within one line. *)
Theorem tokens_lie_within_a_line :
  forall input pos s tok,
    ts_lex input pos s = Some tok ->
    ~ In 0%Z (token_text input tok) /\
    (tok_symbol tok <> aux_sym_string_token1 -> ~ In newline (token_text input tok)).
Proof. intros input pos s tok Hl. exact (tokens_are_plain input _ _ _ Hl). Qed.

Lemma tokens_lie_within_a_line_witness :
  ~ In 0%Z (token_text (codes "rect {") (Tok anon_sym_rect 0 4)) /\
  (tok_symbol (Tok anon_sym_rect 0 4) <> aux_sym_string_token1 ->
   ~ In newline (token_text (codes "rect {") (Tok anon_sym_rect 0 4))).
Proof.
  apply (tokens_lie_within_a_line (codes "rect {") 0 116). vm_compute. reflexivity.
Defined.

(** ** The shape of the tables *)

Lemma all_cells_spec :
  forall p, all_cells p = true ->
  forall s x c, cell_at s x c -> p s x c = true.
Proof.
  intros p H s x c Hc. unfold all_cells in H. rewrite forallb_forall in H.
  pose proof (proj1 (cell_at_is_lookup s x c) Hc) as Hl.
  specialize (H _ (lookup_in_a_state _ _ _ Hl)). rewrite forallb_forall in H.
  exact (H _ Hc).
Qed.

Lemma In_assoc :
  forall (A : Type) (l : list (N * A)) i e,
    distinct_keys (map fst l) = true -> In (i, e) l -> assoc i l = Some e.
Proof.
  intros A l i e Hd Hin. destruct (assoc i l) as [e' |] eqn:E.
  - f_equal. exact (distinct_keys_unique _ _ _ _ _ Hd (assoc_In _ _ _ _ E) Hin).
  - exfalso. induction l as [| [k v] l IH]; [contradiction |].
    simpl in E. destruct (N.eqb i k) eqn:Ek; [discriminate E |].
    destruct Hin as [Heq | Hin].
    + injection Heq as -> _. rewrite N.eqb_refl in Ek. discriminate Ek.
    + simpl in Hd. destruct (existsb (N.eqb k) (map fst l)); [discriminate Hd |].
      exact (IH Hd Hin E).
Qed.

Lemma entry_of_index :
  forall i e, In (i, e) ts_parse_actions -> assoc i ts_parse_actions = Some e.
Proof. intros i e. apply In_assoc. exact action_indices_are_distinct. Qed.

Lemma cell_actions_spec :
  forall q, all_cells (cell_actions q) = true ->
  forall s x i e a,
    cell_at s x (ACTIONS i) -> In (i, e) ts_parse_actions -> In a (actions e) ->
    q s x a = true.
Proof.
  intros q H s x i e a Hc He Ha.
  pose proof (all_cells_spec _ H _ _ _ Hc) as Hq. unfold cell_actions in Hq.
  rewrite (entry_of_index _ _ He) in Hq. rewrite forallb_forall in Hq. exact (Hq _ Ha).
Qed.

Lemma cells_checked : all_cells (fun _ => cell_ok) = true.
Proof. vm_compute. reflexivity. Qed.

Lemma actions_checked :
  forallb (fun ie => forallb (fun a => if action_ok a then fields_fit a else false)
                             (actions (snd ie)))
          ts_parse_actions = true.
Proof. vm_compute. reflexivity. Qed.

Lemma slices_checked :
  (List.length ts_field_map_slices =? PRODUCTION_ID_COUNT)%nat = true /\
  forallb slice_ok ts_field_map_slices = true.
Proof. vm_compute. split; reflexivity. Qed.

Lemma packed_checked :
  packed ts_parse_actions 0 = true /\ small_packed ts_small_parse_table 0 = true.
Proof. vm_compute. split; reflexivity. Qed.

Lemma packed_adjacent :
  forall l1 k i e j e' l2,
    packed (l1 ++ (i, e) :: (j, e') :: l2) k = true ->
    j = (i + 1 + N.of_nat (count e))%N.
Proof.
  induction l1 as [| [i0 e0] l1 IH]; intros k i e j e' l2 H; simpl in H.
  - destruct (N.eqb i k) eqn:E1; [| discriminate H].
    destruct (Nat.eqb (count e) (List.length (actions e))); [| discriminate H].
    destruct (N.eqb j (k + 1 + N.of_nat (count e))) eqn:E2; [| discriminate H].
    apply N.eqb_eq in E1. apply N.eqb_eq in E2. subst. reflexivity.
  - destruct (N.eqb i0 k); [| discriminate H].
    destruct (Nat.eqb (count e0) (List.length (actions e0))); [| discriminate H].
    exact (IH _ _ _ _ _ _ H).
Qed.

Lemma packed_counts :
  forall l k i e, packed l k = true -> In (i, e) l -> count e = List.length (actions e).
Proof.
  induction l as [| [i0 e0] l IH]; intros k i e H Hin; [contradiction |].
  simpl in H. destruct (N.eqb i0 k); [| discriminate H].
  destruct (Nat.eqb (count e0) (List.length (actions e0))) eqn:E; [| discriminate H].
  destruct Hin as [Heq | Hin].
  - injection Heq as _ <-. apply Nat.eqb_eq. exact E.
  - exact (IH _ _ _ H Hin).
Qed.

Lemma small_packed_adjacent :
  forall l1 k o g o' g' l2,
    small_packed (l1 ++ (o, g) :: (o', g') :: l2) k = true ->
    o' = (o + entry_size g)%N.
Proof.
  induction l1 as [| [o0 g0] l1 IH]; intros k o g o' g' l2 H; simpl in H.
  - destruct (N.eqb o k) eqn:E1; [| discriminate H].
    destruct (N.eqb o' (k + entry_size g)) eqn:E2; [| discriminate H].
    apply N.eqb_eq in E1. apply N.eqb_eq in E2. subst. reflexivity.
  - destruct (N.eqb o0 k); [| discriminate H]. exact (IH _ _ _ _ _ _ H).
Qed.

Lemma small_states_checked :
  forallb small_state_ok all_states = true /\
  (List.length ts_parse_table =? N.to_nat LARGE_STATE_COUNT)%nat = true.
Proof. vm_compute. split; reflexivity. Qed.

Lemma extras_checked :
  all_cells (cell_actions (fun _ x a =>
                             match a with
                             | SHIFT_EXTRA => symbol_eqb x sym_comment
                             | _ => true
                             end)) = true /\
  forallb (fun s => match ts_language_lookup s sym_comment with
                    | Some (ACTIONS i) =>
                        match assoc i ts_parse_actions with
                        | Some e => match actions e with
                                    | [SHIFT_EXTRA] => true
                                    | _ => false
                                    end
                        | None => false
                        end
                    | _ => false
                    end) all_states = true.
Proof. vm_compute. split; reflexivity. Qed.

Lemma accept_and_recover_checked :
  all_cells (cell_actions (fun s x a =>
                             match a with
                             | ACCEPT_INPUT =>
                                 if symbol_eqb x ts_builtin_sym_end
                                 then match ts_language_lookup 1 sym_document with
                                      | Some (STATE t) => N.eqb t s
                                      | _ => false
                                      end
                                 else false
                             | RECOVER => N.eqb s 0
                             | _ => true
                             end)) = true.
Proof. vm_compute. reflexivity. Qed.

Lemma primary_states_checked :
  forallb primary_ok all_states = true /\
  (List.length ts_primary_state_ids =? N.to_nat STATE_COUNT)%nat = true.
Proof. vm_compute. split; reflexivity. Qed.

Lemma in_all_states : forall s, (s < STATE_COUNT)%N -> In s all_states.
Proof.
  intros s H. unfold all_states. apply in_map_iff. exists (N.to_nat s).
  split; [apply N2Nat.id |]. apply in_seq. unfold STATE_COUNT in H. lia.
Qed.

Lemma all_states_are_states : forall s, In s all_states -> (s < STATE_COUNT)%N.
Proof.
  intros s H. unfold all_states in H. apply in_map_iff in H.
  destruct H as [n [<- Hn]]. apply in_seq in Hn. unfold STATE_COUNT. lia.
Qed.

(** X13.  Every cell of the parse tables is well formed: its state is below
    [STATE_COUNT]; under a terminal it holds [ACTIONS(i)] where [i] is the
    index of a header of [ts_parse_actions]; under a non-terminal it holds
    [STATE(s)] with [s] below [STATE_COUNT]. *)
Theorem table_cells_are_well_formed :
  forall state x cell,
    cell_at state x cell ->
    (state < STATE_COUNT)%N /\
    match cell with
    | ACTIONS i => is_token x = true /\ exists e, In (i, e) ts_parse_actions
    | STATE s => is_token x = false /\ (s < STATE_COUNT)%N
    end.
Proof.
  intros state x cell Hc. split.
  - apply all_states_are_states.
    exact (lookup_in_a_state _ _ _ (proj1 (cell_at_is_lookup _ _ _) Hc)).
  - pose proof (all_cells_spec _ cells_checked _ _ _ Hc) as H. unfold cell_ok in H.
    destruct cell as [i | s]; destruct (is_token x); try discriminate H.
    + split; [reflexivity |]. unfold is_header in H.
      destruct (assoc i ts_parse_actions) as [e |] eqn:E; [| discriminate H].
      exists e. exact (assoc_In _ _ _ _ E).
    + split; [reflexivity |]. apply N.ltb_lt. exact H.
Qed.

Lemma table_cells_are_well_formed_witness :
  (1 < STATE_COUNT)%N /\ is_token sym_document = false /\ (68 < STATE_COUNT)%N.
Proof.
  apply (table_cells_are_well_formed 1 sym_document (STATE 68)).
  vm_compute. tauto.
Defined.

(** X14.  Every action of [ts_parse_actions] is well formed: a shift leads
    to a state below [STATE_COUNT]; a reduction builds a non-terminal, of at
    most [MAX_ALIAS_SEQUENCE_LENGTH] children, by a production below
    [PRODUCTION_ID_COUNT], and every child that the field map of the
    production binds is one of these children. *)
Theorem parse_actions_are_well_formed :
  forall i e a,
    In (i, e) ts_parse_actions -> In a (actions e) ->
    match a with
    | SHIFT s | SHIFT_REPEAT s => (s < STATE_COUNT)%N
    | REDUCE x k _ p =>
        is_token x = false /\ k <= MAX_ALIAS_SEQUENCE_LENGTH /\
        p < PRODUCTION_ID_COUNT /\
        forall fe, In fe (field_map p) -> child_index fe < k
    | _ => True
    end.
Proof.
  intros i e a Hi Ha. pose proof actions_checked as H. rewrite forallb_forall in H.
  specialize (H _ Hi). cbn [snd] in H. rewrite forallb_forall in H. specialize (H _ Ha).
  destruct (action_ok a) eqn:Hok; [| discriminate H].
  destruct a as [s | s | | x k z p | |]; try exact I.
  - apply N.ltb_lt. exact Hok.
  - apply N.ltb_lt. exact Hok.
  - unfold action_ok in Hok. destruct (is_token x); [discriminate Hok |].
    destruct (k <=? MAX_ALIAS_SEQUENCE_LENGTH) eqn:Hk; [| discriminate Hok].
    apply Nat.leb_le in Hk. apply Nat.ltb_lt in Hok.
    split; [reflexivity |]. split; [exact Hk |]. split; [exact Hok |].
    intros fe Hfe. unfold fields_fit in H. rewrite forallb_forall in H.
    apply Nat.ltb_lt. exact (H _ Hfe).
Qed.

Lemma parse_actions_are_well_formed_witness :
  is_token sym_property = false /\ 3 <= MAX_ALIAS_SEQUENCE_LENGTH /\
  6 < PRODUCTION_ID_COUNT /\
  forall fe, In fe (field_map 6) -> child_index fe < 3.
Proof.
  apply (parse_actions_are_well_formed 17 (Entry 1 true [REDUCE sym_property 3 0 6])
           (REDUCE sym_property 3 0 6)).
  - vm_compute. tauto.
  - left. reflexivity.
Defined.

(** X15.  The field maps are in bounds: there is one slice for every
    production id, every slice lies within [ts_field_map_entries], and no
    slice binds a field twice, so that the field of a node names at most
    one child. *)
Theorem field_maps_are_in_bounds :
  List.length ts_field_map_slices = PRODUCTION_ID_COUNT /\
  forall p sl,
    nth_error ts_field_map_slices p = Some sl ->
    slice_index sl + slice_length sl <= List.length ts_field_map_entries /\
    List.length (field_map p) = slice_length sl /\
    forall a b,
      In a (field_map p) -> In b (field_map p) ->
      entry_field a = entry_field b -> a = b.
Proof.
  destruct slices_checked as [Hlen Hall]. apply Nat.eqb_eq in Hlen.
  split; [exact Hlen |].
  intros p sl Hp. rewrite forallb_forall in Hall.
  specialize (Hall _ (nth_error_In _ _ Hp)). unfold slice_ok in Hall.
  destruct (slice_index sl + slice_length sl <=? List.length ts_field_map_entries) eqn:Hb;
    [| discriminate Hall].
  apply Nat.leb_le in Hb. split; [exact Hb |].
  unfold field_map. rewrite Hp.
  set (l := firstn (slice_length sl) (skipn (slice_index sl) ts_field_map_entries)) in *.
  split.
  - unfold l. rewrite length_firstn, length_skipn. lia.
  - clearbody l. induction l as [| fe l IH]; intros a b Ha Hb' Hab; [contradiction |].
    simpl in Hall.
    destruct (existsb (field_eqb (entry_field fe)) (map entry_field l)) eqn:Hex;
      [discriminate Hall |].
    assert (Hno : forall c, In c l -> entry_field c <> entry_field fe).
    { intros c Hc Heq.
      assert (Ht : existsb (field_eqb (entry_field fe)) (map entry_field l) = true).
      { apply existsb_exists. exists (entry_field c).
        split; [apply in_map; exact Hc |]. rewrite Heq. unfold field_eqb. apply N.eqb_refl. }
      rewrite Ht in Hex. discriminate Hex. }
    destruct Ha as [<- | Ha]; destruct Hb' as [<- | Hb'].
    + reflexivity.
    + exfalso. exact (Hno _ Hb' (eq_sym Hab)).
    + exfalso. exact (Hno _ Ha Hab).
    + exact (IH Hall _ _ Ha Hb' Hab).
Qed.

Lemma field_maps_are_in_bounds_witness :
  slice_index {| slice_index := 9; slice_length := 3 |} +
  slice_length {| slice_index := 9; slice_length := 3 |} <=
  List.length ts_field_map_entries /\
  List.length (field_map 7) = slice_length {| slice_index := 9; slice_length := 3 |} /\
  forall a b,
    In a (field_map 7) -> In b (field_map 7) -> entry_field a = entry_field b -> a = b.
Proof.
  apply (proj2 field_maps_are_in_bounds 7). reflexivity.
Defined.

(** X16.  The flat arrays are laid out as their counts say.  In
    [ts_parse_actions] the first header is at index 0, the [count] of a
    header is the number of actions that follow it, and the next header
    comes right after them; in [ts_small_parse_table] the first entry is at
    offset 0 and each entry is followed at once by the next; every state
    from [LARGE_STATE_COUNT] up to [STATE_COUNT] has an offset in
    [ts_small_parse_table_map], at which an entry starts, and no other state
    has one. *)
Theorem flat_arrays_are_packed :
  (exists e l, ts_parse_actions = (0%N, e) :: l) /\
  (forall i e, In (i, e) ts_parse_actions -> count e = List.length (actions e)) /\
  (forall l1 i e j e' l2,
      ts_parse_actions = l1 ++ (i, e) :: (j, e') :: l2 ->
      j = (i + 1 + N.of_nat (count e))%N) /\
  (exists g l, ts_small_parse_table = (0%N, g) :: l) /\
  (forall l1 o g o' g' l2,
      ts_small_parse_table = l1 ++ (o, g) :: (o', g') :: l2 ->
      o' = (o + entry_size g)%N) /\
  (forall s, (s < STATE_COUNT)%N ->
     if (s <? LARGE_STATE_COUNT)%N
     then assoc s ts_small_parse_table_map = None /\
          exists row, nth_error ts_parse_table (N.to_nat s) = Some row
     else exists off g, assoc s ts_small_parse_table_map = Some off /\
                        assoc off ts_small_parse_table = Some g).
Proof.
  destruct packed_checked as [Hp Hs].
  split; [eexists _, _; reflexivity |].
  split; [intros i e; exact (packed_counts _ _ _ _ Hp) |].
  split; [intros l1 i e j e' l2 Heq; rewrite Heq in Hp; exact (packed_adjacent _ _ _ _ _ _ _ Hp) |].
  split; [eexists _, _; reflexivity |].
  split; [intros l1 o g o' g' l2 Heq; rewrite Heq in Hs;
          exact (small_packed_adjacent _ _ _ _ _ _ _ Hs) |].
  intros s Hlt. destruct small_states_checked as [Hall Hlen].
  rewrite forallb_forall in Hall. specialize (Hall _ (in_all_states _ Hlt)).
  unfold small_state_ok in Hall. apply Nat.eqb_eq in Hlen.
  destruct (s <? LARGE_STATE_COUNT)%N eqn:Hl.
  - destruct (assoc s ts_small_parse_table_map); [discriminate Hall |].
    split; [reflexivity |]. apply N.ltb_lt in Hl.
    destruct (nth_error ts_parse_table (N.to_nat s)) as [row |] eqn:E;
      [exists row; reflexivity |].
    apply nth_error_None in E. lia.
  - destruct (assoc s ts_small_parse_table_map) as [off |]; [| discriminate Hall].
    destruct (assoc off ts_small_parse_table) as [g |] eqn:Hg; [| discriminate Hall].
    exists off, g. split; [reflexivity | exact Hg].
Qed.

Lemma flat_arrays_are_packed_witness :
  count (Entry 1 false [RECOVER]) = List.length (actions (Entry 1 false [RECOVER])).
Proof.
  apply (proj1 (proj2 flat_arrays_are_packed) 1%N). vm_compute. tauto.
Defined.

(** X17.  Comments, and only comments, are extras: every parse state has a
    cell for [sym_comment], whose only action is [SHIFT_EXTRA], and no other
    symbol has a [SHIFT_EXTRA] anywhere. *)
Theorem comments_are_the_extras :
  (forall s, (s < STATE_COUNT)%N ->
     exists i e, cell_at s sym_comment (ACTIONS i) /\
                 In (i, e) ts_parse_actions /\ actions e = [SHIFT_EXTRA]) /\
  (forall s x i e,
      cell_at s x (ACTIONS i) -> In (i, e) ts_parse_actions ->
      In SHIFT_EXTRA (actions e) -> x = sym_comment).
Proof.
  destruct extras_checked as [Honly Hall]. split.
  - intros s Hlt. rewrite forallb_forall in Hall. specialize (Hall _ (in_all_states _ Hlt)).
    destruct (ts_language_lookup s sym_comment) as [[i | t] |] eqn:Hl; try discriminate Hall.
    destruct (assoc i ts_parse_actions) as [e |] eqn:He; [| discriminate Hall].
    exists i, e. split; [apply cell_at_is_lookup; exact Hl |].
    split; [exact (assoc_In _ _ _ _ He) |].
    destruct (actions e) as [| [] [|]]; try discriminate Hall. reflexivity.
  - intros s x i e Hc He Ha.
    pose proof (cell_actions_spec _ Honly _ _ _ _ _ Hc He Ha) as H.
    apply symbol_eqb_eq. exact H.
Qed.

Lemma comments_are_the_extras_witness :
  exists i e, cell_at 83 sym_comment (ACTIONS i) /\
              In (i, e) ts_parse_actions /\ actions e = [SHIFT_EXTRA].
Proof.
  apply (proj1 comments_are_the_extras 83%N). reflexivity.
Defined.

(** X18.  The input is accepted in one place only: [ACCEPT_INPUT] stands
    under the end token, in the state that the start state (1) enters after
    a [document]; and [RECOVER] stands in the error state (0) only. *)
Theorem accept_and_recover_have_their_place :
  forall s x i e,
    cell_at s x (ACTIONS i) -> In (i, e) ts_parse_actions ->
    (In ACCEPT_INPUT (actions e) ->
     x = ts_builtin_sym_end /\ cell_at 1 sym_document (STATE s)) /\
    (In RECOVER (actions e) -> s = 0%N).
Proof.
  intros s x i e Hc He. split; intro Ha.
  - pose proof (cell_actions_spec _ accept_and_recover_checked _ _ _ _ _ Hc He Ha) as H.
    cbv beta in H. destruct (symbol_eqb x ts_builtin_sym_end) eqn:Hx; [| discriminate H].
    apply symbol_eqb_eq in Hx. split; [exact Hx |].
    destruct (ts_language_lookup 1 sym_document) as [[j | t] |] eqn:Hl; try discriminate H.
    apply N.eqb_eq in H. subst t. apply cell_at_is_lookup. exact Hl.
  - pose proof (cell_actions_spec _ accept_and_recover_checked _ _ _ _ _ Hc He Ha) as H.
    cbv beta in H. apply N.eqb_eq in H. exact H.
Qed.

Lemma accept_and_recover_have_their_place_witness :
  (In ACCEPT_INPUT (actions (Entry 1 true [ACCEPT_INPUT])) ->
   ts_builtin_sym_end = ts_builtin_sym_end /\ cell_at 1 sym_document (STATE 68)) /\
  (In RECOVER (actions (Entry 1 true [ACCEPT_INPUT])) -> 68%N = 0%N).
Proof.
  apply (accept_and_recover_have_their_place 68 ts_builtin_sym_end 284).
  - vm_compute. tauto.
  - vm_compute. tauto.
Defined.

(** X19.  [ts_primary_state_ids] has an entry for every parse state; the
    primary state of a state is no larger than the state, and is its own
    primary state. *)
Theorem primary_states_are_representatives :
  List.length ts_primary_state_ids = N.to_nat STATE_COUNT /\
  forall s, (s < STATE_COUNT)%N ->
    exists p, primary_state s = Some p /\ (p <= s)%N /\ primary_state p = Some p.
Proof.
  destruct primary_states_checked as [Hall Hlen]. apply Nat.eqb_eq in Hlen.
  split; [exact Hlen |].
  intros s Hlt. rewrite forallb_forall in Hall. specialize (Hall _ (in_all_states _ Hlt)).
  unfold primary_ok in Hall.
  destruct (primary_state s) as [p |]; [| discriminate Hall].
  destruct (p <=? s)%N eqn:Hle; [| discriminate Hall].
  destruct (primary_state p) as [q |] eqn:Hq; [| discriminate Hall].
  apply N.eqb_eq in Hall. subst q. apply N.leb_le in Hle.
  exists p. split; [reflexivity |]. split; [exact Hle | exact Hq].
Qed.

Lemma primary_states_are_representatives_witness :
  exists p, primary_state 93 = Some p /\ (p <= 93)%N /\ primary_state p = Some p.
Proof.
  apply (proj2 primary_states_are_representatives 93%N). reflexivity.
Defined.

(** ** The language description *)

Lemma symbols_are_counted :
  forallb (fun x => (symbol_id x <? SYMBOL_COUNT)%N) all_symbols = true /\
  forallb (fun n => existsb (fun x => N.eqb (symbol_id x) n) all_symbols)
          (map N.of_nat (seq 0 (N.to_nat SYMBOL_COUNT))) = true /\
  forallb (fun f => (1 <=? field_id_value f)%N && (field_id_value f <=? FIELD_COUNT)%N)
          all_fields = true /\
  forallb (fun n => existsb (fun f => N.eqb (field_id_value f) n) all_fields)
          (map N.of_nat (seq 1 (N.to_nat FIELD_COUNT))) = true /\
  forallb (fun k => (k <=? MAX_ALIAS_SEQUENCE_LENGTH)%nat) child_counts = true /\
  existsb (Nat.eqb MAX_ALIAS_SEQUENCE_LENGTH) child_counts = true /\
  forallb (fun x => symbol_eqb (ts_symbol_map x) x) all_symbols = true.
Proof. vm_compute. repeat split. Qed.

Lemma in_all_fields : forall f, In f all_fields.
Proof. intro f. destruct f; simpl; tauto. Qed.

Lemma names_checked :
  forallb (fun a => forallb (fun b => implb (String.eqb (ts_symbol_names a) (ts_symbol_names b))
                                            (symbol_eqb a b))
                            all_symbols)
          all_symbols = true /\
  forallb (fun a => forallb (fun b => implb (String.eqb (ts_field_names a) (ts_field_names b))
                                            (field_eqb a b))
                            all_fields)
          all_fields = true.
Proof. vm_compute. split; reflexivity. Qed.

Lemma field_id_value_inj : forall a b, field_id_value a = field_id_value b -> a = b.
Proof. intros a b H. destruct a; destruct b; first [reflexivity | discriminate H]. Qed.

(** X20.  The sizes that [tree_sitter_fd] declares fit the tables it points
    to: there is a lex mode and a primary state for each of the
    [state_count] states, a row of [parse_table] for each of the
    [large_state_count] large states and an offset for each of the others,
    a field map slice for each of the [production_id_count] productions;
    the symbols are numbered from 0 up to [symbol_count] and the fields
    from 1 to [field_count], without gaps; [max_alias_sequence_length] is
    the largest number of children of a reduction; and every symbol is its
    own public symbol, there being no aliases. *)
Theorem language_sizes_fit_the_tables :
  List.length (lex_modes tree_sitter_fd) = N.to_nat (state_count tree_sitter_fd) /\
  List.length (primary_state_ids tree_sitter_fd) = N.to_nat (state_count tree_sitter_fd) /\
  List.length (parse_table tree_sitter_fd) = N.to_nat (large_state_count tree_sitter_fd) /\
  List.length (small_parse_table_map tree_sitter_fd) =
    N.to_nat (state_count tree_sitter_fd - large_state_count tree_sitter_fd) /\
  List.length (field_map_slices tree_sitter_fd) = production_id_count tree_sitter_fd /\
  (forall x, (symbol_id x < symbol_count tree_sitter_fd)%N) /\
  (forall n, (n < symbol_count tree_sitter_fd)%N -> exists x, symbol_id x = n) /\
  (forall f, (1 <= field_id_value f <= field_count tree_sitter_fd)%N) /\
  (forall n, (1 <= n <= field_count tree_sitter_fd)%N -> exists f, field_id_value f = n) /\
  (forall k, In k child_counts -> k <= max_alias_sequence_length tree_sitter_fd) /\
  In (max_alias_sequence_length tree_sitter_fd) child_counts /\
  (forall x, public_symbol_map tree_sitter_fd x = x) /\
  alias_count tree_sitter_fd = 0%N.
Proof.
  destruct symbols_are_counted as (H1 & H2 & H3 & H4 & H5 & H6 & H7).
  rewrite forallb_forall in H1, H2, H3, H4, H5, H7.
  cbn [lex_modes primary_state_ids parse_table small_parse_table_map field_map_slices
       symbol_count field_count max_alias_sequence_length public_symbol_map alias_count
       state_count large_state_count production_id_count tree_sitter_fd].
  split; [reflexivity |]. split; [reflexivity |]. split; [reflexivity |].
  split; [reflexivity |]. split; [reflexivity |].
  split; [intro x; apply N.ltb_lt; exact (H1 _ (in_all_symbols x)) |].
  split.
  { intros n Hn.
    assert (Hin : In n (map N.of_nat (seq 0 (N.to_nat SYMBOL_COUNT)))).
    { apply in_map_iff. exists (N.to_nat n). split; [apply N2Nat.id |].
      apply in_seq. lia. }
    specialize (H2 _ Hin). apply existsb_exists in H2. destruct H2 as [x [_ Hx]].
    apply N.eqb_eq in Hx. exists x. exact Hx. }
  split.
  { intro f. specialize (H3 _ (in_all_fields f)). apply andb_prop in H3.
    destruct H3 as [Ha Hb]. apply N.leb_le in Ha. apply N.leb_le in Hb.
    split; assumption. }
  split.
  { intros n [Hn1 Hn2].
    assert (Hin : In n (map N.of_nat (seq 1 (N.to_nat FIELD_COUNT)))).
    { apply in_map_iff. exists (N.to_nat n). split; [apply N2Nat.id |].
      apply in_seq. unfold FIELD_COUNT in *. lia. }
    specialize (H4 _ Hin). apply existsb_exists in H4. destruct H4 as [f [_ Hf]].
    apply N.eqb_eq in Hf. exists f. exact Hf. }
  split; [intros k Hk; apply Nat.leb_le; exact (H5 _ Hk) |].
  split.
  { apply existsb_exists in H6. destruct H6 as [k [Hk Heq]].
    apply Nat.eqb_eq in Heq. rewrite Heq. exact Hk. }
  split; [| reflexivity].
  intro x. apply symbol_eqb_eq. exact (H7 _ (in_all_symbols x)).
Qed.

Lemma language_sizes_fit_the_tables_witness :
  exists x, symbol_id x = 66%N.
Proof.
  destruct language_sizes_fit_the_tables as (_ & _ & _ & _ & _ & _ & H & _).
  apply H. reflexivity.
Defined.

(** X21.  Names identify symbols and fields: no two symbols share an entry
    of [ts_symbol_names], and no two fields an entry of [ts_field_names]. *)
Theorem names_identify_symbols_and_fields :
  (forall a b, ts_symbol_names a = ts_symbol_names b -> a = b) /\
  (forall a b, ts_field_names a = ts_field_names b -> a = b).
Proof.
  destruct names_checked as [Hs Hf]. rewrite forallb_forall in Hs, Hf. split.
  - intros a b H. specialize (Hs _ (in_all_symbols a)). rewrite forallb_forall in Hs.
    specialize (Hs _ (in_all_symbols b)). rewrite H, String.eqb_refl in Hs.
    apply symbol_eqb_eq. exact Hs.
  - intros a b H. specialize (Hf _ (in_all_fields a)). rewrite forallb_forall in Hf.
    specialize (Hf _ (in_all_fields b)). rewrite H, String.eqb_refl in Hf.
    simpl in Hf. unfold field_eqb in Hf. apply N.eqb_eq in Hf.
    exact (field_id_value_inj _ _ Hf).
Qed.

Lemma names_identify_symbols_and_fields_witness :
  sym_string = sym_string.
Proof.
  apply (proj1 names_identify_symbols_and_fields sym_string sym_string). reflexivity.
Defined.

(** ** Reading a text whole *)

Lemma skipn_cons_nth :
  forall (input : list Z) p c l,
    skipn p input = c :: l ->
    p < List.length input /\ nth p input 0%Z = c /\ skipn (S p) input = l.
Proof.
  induction input as [| x input IH]; intros p c l H.
  - rewrite skipn_nil in H. discriminate H.
  - destruct p as [| p].
    + simpl in H. injection H as <- <-. simpl. repeat split. lia.
    + simpl in H. destruct (IH _ _ _ H) as (H1 & H2 & H3).
      simpl. repeat split; try assumption. lia.
Qed.

Section Whole.

Variable input : list Z.

(** The loop follows a path. *)
Lemma loop_follows_the_path :
  forall l s t p start r rest fuel,
    path s l = Some t ->
    skipn p input = l ++ rest ->
    exists r',
      lex_loop input (List.length l + fuel) (LexFrame s p start r) =
      lex_loop input fuel (LexFrame t (p + List.length l) start r').
Proof.
  induction l as [| c l IH]; intros s t p start r rest fuel Hp Hin.
  - simpl in Hp. injection Hp as <-. exists r. rewrite Nat.add_0_r. reflexivity.
  - simpl in Hp.
    destruct (lex_case_of s) as [cs |] eqn:Hs; [| discriminate Hp].
    destruct (select (arms cs) c false) as [[u | u] |] eqn:Hsel; try discriminate Hp.
    destruct (skipn_cons_nth _ _ _ _ Hin) as (Hlt & Hnth & Hrest).
    assert (Hstep : lex_step input (LexFrame s p start r) =
                    Goto (LexFrame u (S p) start (accepted cs (LexFrame s p start r)))).
    { unfold lex_step. cbn [fr_state fr_pos fr_start fr_result].
      rewrite Hs. unfold lookahead_at. rewrite Hnth, (not_at_end _ _ Hlt), Hsel.
      unfold advance. rewrite (not_at_end _ _ Hlt). reflexivity. }
    destruct (IH u t (S p) start (accepted cs (LexFrame s p start r)) rest fuel Hp Hrest)
      as [r' Hr'].
    exists r'.
    change (lex_loop input (List.length (c :: l) + fuel) (LexFrame s p start r))
      with (match lex_step input (LexFrame s p start r) with
            | Return t0 => Some t0
            | Goto f' => lex_loop input (List.length l + fuel) f'
            end).
    rewrite Hstep, Hr'. replace (p + List.length (c :: l)) with (S p + List.length l)
      by (simpl; lia). reflexivity.
Qed.

(** A text that leads to an accepting state which has no jump under what
    follows is read as one token. *)
Lemma path_reads_a_token :
  forall pre l rest s t cs sym,
    input = pre ++ l ++ rest ->
    path s l = Some t ->
    lex_case_of t = Some cs -> accept_token cs = Some sym ->
    select (arms cs) (nth 0 rest 0%Z) (match rest with [] => true | _ => false end) = None ->
    ts_lex input (List.length pre) s =
    Some (Tok sym (List.length pre) (List.length pre + List.length l)).
Proof.
  intros pre l rest s t cs sym Hinput Hp Ht Hacc Hsel.
  assert (Hskip : skipn (List.length pre) input = l ++ rest).
  { rewrite Hinput. rewrite skipn_app, skipn_all, Nat.sub_diag. reflexivity. }
  assert (Hlen : List.length input = List.length pre + List.length l + List.length rest).
  { rewrite Hinput, !length_app. lia. }
  unfold ts_lex, ts_lex_from, lex_fuel.
  replace (S (S (List.length input - List.length pre)))
    with (List.length l + S (S (List.length rest))) by lia.
  destruct (loop_follows_the_path l s t (List.length pre) (List.length pre) None rest
              (S (S (List.length rest))) Hp Hskip) as [r' Hr'].
  rewrite Hr'.
  change (lex_loop input (S (S (List.length rest)))
            (LexFrame t (List.length pre + List.length l) (List.length pre) r'))
    with (match lex_step input
                  (LexFrame t (List.length pre + List.length l) (List.length pre) r') with
          | Return t0 => Some t0
          | Goto f' => lex_loop input (S (List.length rest)) f'
          end).
  assert (Hla : lookahead_at input (List.length pre + List.length l) = nth 0 rest 0%Z /\
                eof_at input (List.length pre + List.length l) =
                match rest with [] => true | _ => false end).
  { unfold lookahead_at, eof_at. rewrite Hinput. split.
    - rewrite app_nth2 by lia. rewrite app_nth2 by lia.
      replace (List.length pre + List.length l - List.length pre - List.length l) with 0 by lia.
      reflexivity.
    - rewrite !length_app. destruct rest as [| c rest'].
      + apply Nat.leb_le. simpl. lia.
      + apply Nat.leb_gt. simpl. lia. }
  destruct Hla as [Hla He].
  unfold lex_step. cbn [fr_state fr_pos fr_start fr_result].
  rewrite Ht, Hla, He, Hsel, Hacc. reflexivity.
Qed.

End Whole.

Lemma path_app :
  forall l1 l2 s t, path s l1 = Some t -> path s (l1 ++ l2) = path t l2.
Proof.
  induction l1 as [| c l1 IH]; intros l2 s t H; simpl in H.
  - injection H as <-. reflexivity.
  - simpl. destruct (lex_case_of s) as [cs |]; [| discriminate H].
    destruct (select (arms cs) c false) as [[u | u] |]; try discriminate H.
    exact (IH _ _ _ H).
Qed.

Lemma digit_test_spec : forall la e, holds digit_test la e = true <-> is_digit la.
Proof.
  intros la e. unfold digit_test, is_digit. cbn [holds].
  change (code "0") with 48%Z. change (code "9") with 57%Z.
  rewrite andb_true_iff, !Z.leb_le. tauto.
Qed.

Lemma number_end_test_spec :
  forall la e,
    holds number_end_test la e = false <-> ~ is_digit la /\ la <> 46%Z /\ la <> 109%Z.
Proof.
  intros la e. unfold number_end_test.
  change (holds (digit_test ||| Is "." ||| Is "m") la e)
    with (holds digit_test la e || (la =? code ".")%Z || (la =? code "m")%Z).
  change (code ".") with 46%Z. change (code "m") with 109%Z.
  rewrite !orb_false_iff, !Z.eqb_neq. split.
  - intros [[H1 H2] H3]. split; [| split; assumption].
    intro Hd. apply (digit_test_spec la e) in Hd. rewrite Hd in H1. discriminate H1.
  - intros (H1 & H2 & H3). split; [split |]; try assumption.
    destruct (holds digit_test la e) eqn:E; [| reflexivity].
    exfalso. apply H1. apply (digit_test_spec la e). exact E.
Qed.

Lemma digit_jumps_checked : all_jumps digit_jump_ok = true.
Proof. vm_compute. reflexivity. Qed.

Lemma number_states_exist :
  forallb (fun s => match lex_case_of s with Some _ => true | None => false end)
          ([10; 110; 111; 470; 471; 472] ++ value_modes)%N = true.
Proof. vm_compute. reflexivity. Qed.

Lemma state_exists :
  forall l s,
    forallb (fun s => match lex_case_of s with Some _ => true | None => false end) l = true ->
    In s l -> exists cs, lex_case_of s = Some cs.
Proof.
  intros l s H Hin. rewrite forallb_forall in H. specialize (H _ Hin).
  destruct (lex_case_of s) as [cs |]; [exists cs; reflexivity | discriminate H].
Qed.

(** A digit leads to state 471 from the start of a number, and to state 472
    in its fraction. *)
Lemma digit_jump :
  forall s d,
    is_digit d ->
    (In s (10 :: 110 :: 471 :: value_modes)%N -> path s [d] = Some 471%N) /\
    (In s [111; 472]%N -> path s [d] = Some 472%N).
Proof.
  intros s d Hd. apply (digit_test_spec d false) in Hd.
  split; intro Hin.
  - destruct (state_exists _ s number_states_exist) as [cs Hs].
    { simpl in Hin. simpl. tauto. }
    pose proof (all_jumps_spec _ digit_jumps_checked s cs d Hs) as H.
    unfold digit_jump_ok in H. rewrite !holds_clamp, Hd in H.
    rewrite (among_In _ _ Hin) in H. simpl. rewrite Hs.
    destruct (select (arms cs) d false) as [[t | t] |]; try discriminate H.
    apply N.eqb_eq in H. subst t. reflexivity.
  - destruct (state_exists _ s number_states_exist) as [cs Hs].
    { simpl in Hin. simpl. tauto. }
    pose proof (all_jumps_spec _ digit_jumps_checked s cs d Hs) as H.
    unfold digit_jump_ok in H. rewrite !holds_clamp, Hd in H.
    assert (Hno : among (10 :: 110 :: 471 :: value_modes)%N s = false).
    { simpl in Hin. destruct Hin as [<- | [<- | []]]; reflexivity. }
    rewrite Hno, (among_In _ _ Hin) in H. simpl. rewrite Hs.
    destruct (select (arms cs) d false) as [[t | t] |]; try discriminate H.
    apply N.eqb_eq in H. subst t. reflexivity.
Qed.

Lemma digits_path :
  forall ds s t,
    Forall is_digit ds ->
    (In s (10 :: 110 :: 471 :: value_modes)%N /\ t = 471%N \/
     In s [111; 472]%N /\ t = 472%N) ->
    ds <> [] ->
    path s ds = Some t.
Proof.
  induction ds as [| d ds IH]; intros s t Hall Hs Hne; [contradiction Hne; reflexivity |].
  inversion Hall as [| ? ? Hd Hds]; subst.
  change (d :: ds) with ([d] ++ ds).
  destruct Hs as [[Hin ->] | [Hin ->]].
  - rewrite (path_app _ _ _ _ (proj1 (digit_jump s d Hd) Hin)).
    destruct ds as [| d' ds']; [reflexivity |].
    apply IH; [exact Hds | | discriminate].
    left. split; [simpl; tauto | reflexivity].
  - rewrite (path_app _ _ _ _ (proj2 (digit_jump s d Hd) Hin)).
    destruct ds as [| d' ds']; [reflexivity |].
    apply IH; [exact Hds | | discriminate].
    right. split; [simpl; tauto | reflexivity].
Qed.

Lemma sign_and_unit_paths :
  forallb (fun s => match path s (codes "-") with
                    | Some t => among [10; 110]%N t
                    | None => false
                    end) value_modes = true /\
  path 471 (codes ".") = Some 111%N /\
  path 471 (codes "ms") = Some 470%N /\
  path 472 (codes "ms") = Some 470%N /\
  forallb (fun s => match accepts s, jump_at_end s with
                    | Some sym, None => symbol_eqb sym sym_number
                    | _, _ => false
                    end) [470; 471; 472]%N = true.
Proof. vm_compute. repeat split. Qed.

(** The path of a number. *)
Lemma number_path :
  forall txt s,
    number_text txt -> In s value_modes ->
    exists t, path s txt = Some t /\ In t [470; 471; 472]%N.
Proof.
  intros txt s (sign & int & frac & unit & -> & Hsign & [Hne Hint] & Hfrac & Hunit) Hs.
  destruct sign_and_unit_paths as (Hminus & Hdot & Hms1 & Hms2 & _).
  (* the sign *)
  assert (H1 : exists s1, path s sign = Some s1 /\
                          In s1 (10 :: 110 :: 471 :: value_modes)%N).
  { destruct Hsign as [<- | [<- | []]].
    - exists s. split; [reflexivity |]. simpl in Hs. simpl. tauto.
    - rewrite forallb_forall in Hminus. specialize (Hminus _ Hs).
      destruct (path s (codes "-")) as [t |]; [| discriminate Hminus].
      exists t. split; [reflexivity |]. apply among_true_In in Hminus.
      simpl in Hminus. simpl. tauto. }
  destruct H1 as (s1 & Hp1 & Hs1). rewrite (path_app _ _ _ _ Hp1).
  (* the digits *)
  assert (Hp2 : path s1 int = Some 471%N).
  { apply digits_path; [exact Hint | left; split; [exact Hs1 | reflexivity] | exact Hne]. }
  rewrite (path_app _ _ _ _ Hp2).
  (* the fraction *)
  assert (H3 : exists s3, path 471%N frac = Some s3 /\ In s3 [471; 472]%N).
  { destruct Hfrac as [-> | (ds & -> & [Hne' Hds])].
    - exists 471%N. split; [reflexivity | simpl; tauto].
    - exists 472%N. split; [| simpl; tauto].
      rewrite (path_app _ _ _ _ Hdot).
      apply digits_path; [exact Hds | right; split; [simpl; tauto | reflexivity] | exact Hne']. }
  destruct H3 as (s3 & Hp3 & Hs3). rewrite (path_app _ _ _ _ Hp3).
  (* the unit *)
  destruct Hunit as [-> | ->].
  - exists s3. split; [reflexivity |]. simpl in Hs3. simpl. tauto.
  - exists 470%N. split; [| simpl; tauto].
    destruct Hs3 as [<- | [<- | []]]; assumption.
Qed.

Lemma hex_test_spec : forall la e, holds hex_test la e = true <-> is_hex_digit la.
Proof.
  intros la e. split; [apply holds_hex |].
  intro H. unfold hex_test. cbn [holds].
  change (code "0") with 48%Z. change (code "9") with 57%Z.
  change (code "A") with 65%Z. change (code "F") with 70%Z.
  change (code "a") with 97%Z. change (code "f") with 102%Z.
  unfold is_hex_digit in H.
  rewrite !orb_true_iff, !andb_true_iff, !Z.leb_le. tauto.
Qed.

Lemma hex_jumps_checked : all_jumps hex_jump_ok = true.
Proof. vm_compute. reflexivity. Qed.

Lemma hex_states_exist :
  forallb (fun s => match lex_case_of s with Some _ => true | None => false end)
          (value_modes ++ flat_map (fun first => map (hex_state_of first) (seq 0 9))
                                   hash_states) = true /\
  forallb (fun first =>
             forallb (fun k => match accepts (hex_state_of first k),
                                     jump_at_end (hex_state_of first k) with
                               | Some sym, None => symbol_eqb sym sym_hex_color
                               | _, _ => false
                               end) (seq 3 6))
          hash_states = true.
Proof. vm_compute. split; reflexivity. Qed.

Lemma hex_state_exists :
  forall first k, In first hash_states -> k <= 8 ->
  exists cs, lex_case_of (hex_state_of first k) = Some cs.
Proof.
  intros first k Hf Hk. apply (state_exists _ _ (proj1 hex_states_exist)).
  apply in_or_app. right. apply in_flat_map. exists first. split; [exact Hf |].
  apply in_map. apply in_seq. lia.
Qed.

Lemma hex_jump_spec :
  forall first k cs la,
    In first hash_states -> k <= 8 ->
    lex_case_of (hex_state_of first k) = Some cs ->
    if holds hex_test la false then
      if (k <? 8)%nat
      then select (arms cs) la false = Some (ADVANCE (hex_state_of first (S k)))
      else select (arms cs) la false = None
    else if (3 <=? k)%nat then select (arms cs) la false = None else True.
Proof.
  intros first k cs la Hf Hk Hs.
  pose proof (all_jumps_spec _ hex_jumps_checked _ cs la Hs) as H.
  unfold hex_jump_ok in H. apply andb_prop in H. destruct H as [_ H].
  rewrite forallb_forall in H. specialize (H _ Hf). rewrite forallb_forall in H.
  assert (Hin : In k (seq 0 9)) by (apply in_seq; lia).
  specialize (H _ Hin). rewrite N.eqb_refl, holds_clamp in H.
  destruct (holds hex_test la false).
  - destruct (k <? 8)%nat.
    + destruct (select (arms cs) la false) as [[t | t] |]; try discriminate H.
      apply N.eqb_eq in H. subst t. reflexivity.
    + destruct (select (arms cs) la false); [discriminate H | reflexivity].
  - destruct (3 <=? k)%nat; [| exact I].
    destruct (select (arms cs) la false); [discriminate H | reflexivity].
Qed.

Lemma hex_digits_path :
  forall ds first k,
    In first hash_states -> Forall is_hex_digit ds -> k + List.length ds <= 8 ->
    path (hex_state_of first k) ds = Some (hex_state_of first (k + List.length ds)).
Proof.
  induction ds as [| d ds IH]; intros first k Hf Hall Hk.
  - rewrite Nat.add_0_r. reflexivity.
  - inversion Hall as [| ? ? Hd Hds]; subst. simpl in Hk.
    destruct (hex_state_exists first k Hf) as [cs Hs]; [lia |].
    pose proof (hex_jump_spec first k cs d Hf ltac:(lia) Hs) as H.
    rewrite (proj2 (hex_test_spec d false) Hd) in H.
    assert (Hlt : (k <? 8)%nat = true) by (apply Nat.ltb_lt; lia).
    rewrite Hlt in H.
    change (path (hex_state_of first k) (d :: ds))
      with (match lex_case_of (hex_state_of first k) with
            | Some cs =>
                match select (arms cs) d false with
                | Some (ADVANCE t) => path t ds
                | _ => None
                end
            | None => None
            end).
    rewrite Hs, H. rewrite (IH first (S k) Hf Hds) by lia.
    f_equal. f_equal. simpl. lia.
Qed.

Lemma hash_path :
  forall s, In s value_modes ->
  exists first, In first hash_states /\ path s (codes "#") = Some first.
Proof.
  intros s Hs. destruct (state_exists _ s (proj1 hex_states_exist)) as [cs Hcs];
    [apply in_or_app; left; exact Hs |].
  pose proof (all_jumps_spec _ hex_jumps_checked _ cs (code "#") Hcs) as H.
  unfold hex_jump_ok in H. apply andb_prop in H. destruct H as [H _].
  rewrite (among_In _ _ Hs), holds_clamp in H.
  change (holds (Is "#") (code "#") false) with true in H. cbv iota in H.
  change (path s (codes "#"))
    with (match lex_case_of s with
          | Some cs =>
              match select (arms cs) (code "#") false with
              | Some (ADVANCE t) => Some t
              | _ => None
              end
          | None => None
          end).
  rewrite Hcs. destruct (select (arms cs) (code "#") false) as [[t | t] |];
    try discriminate H.
  exists t. split; [exact (among_true_In _ _ H) | reflexivity].
Qed.

(** ** Texts that are read whole *)

(** X22.  Every number of the form ['-'? digits ('.' digits)? 'ms'?] is
    read whole, as one [number] token, in each lex state in which a value
    can start (0, 3, 4, 5 and 115), wherever it stands, provided that what
    follows it is the end of input or a code point that is neither a digit
    nor ['.'] nor ['m']. *)
Theorem numbers_are_read_whole :
  forall pre txt rest s,
    number_text txt -> ends_number rest -> In s value_modes ->
    ts_lex (pre ++ txt ++ rest) (List.length pre) s =
    Some (Tok sym_number (List.length pre) (List.length pre + List.length txt)).
Proof.
  intros pre txt rest s Htxt Hrest Hs.
  destruct (number_path txt s Htxt Hs) as (t & Hp & Ht).
  destruct sign_and_unit_paths as (_ & _ & _ & _ & Hacc).
  rewrite forallb_forall in Hacc. specialize (Hacc _ Ht).
  unfold accepts, jump_at_end in Hacc.
  destruct (lex_case_of t) as [cs |] eqn:Hcs; [| discriminate Hacc].
  destruct (accept_token cs) as [sym |] eqn:Ha; [| discriminate Hacc].
  destruct (select (arms cs) 0%Z true) eqn:Hend; [discriminate Hacc |].
  apply symbol_eqb_eq in Hacc. subst sym.
  apply (path_reads_a_token _ pre txt rest s t cs sym_number eq_refl Hp Hcs Ha).
  destruct rest as [| c rest']; [exact Hend |].
  simpl in Hrest. cbn [nth].
  pose proof (all_jumps_spec _ digit_jumps_checked t cs c Hcs) as H.
  unfold digit_jump_ok in H. rewrite !holds_clamp in H.
  destruct (holds digit_test c false) eqn:Hd.
  - exfalso. apply (proj1 Hrest). apply (digit_test_spec c false). exact Hd.
  - rewrite (proj2 (number_end_test_spec c false) Hrest) in H.
    rewrite (among_In _ _ Ht) in H.
    destruct (select (arms cs) c false); [discriminate H | reflexivity].
Qed.

Lemma numbers_are_read_whole_witness :
  ts_lex (codes "w: " ++ codes "-1.5ms" ++ codes " }") (List.length (codes "w: ")) 3 =
  Some (Tok sym_number (List.length (codes "w: "))
            (List.length (codes "w: ") + List.length (codes "-1.5ms"))).
Proof.
  apply (numbers_are_read_whole (codes "w: ") (codes "-1.5ms") (codes " }") 3).
  - exists (codes "-"), (codes "1"), (codes ".5"), (codes "ms").
    split; [reflexivity |]. split; [simpl; tauto |].
    split; [split; [discriminate | constructor; [cbn; unfold is_digit; lia | constructor]] |].
    split; [| right; reflexivity].
    right. exists (codes "5"). split; [reflexivity |].
    split; [discriminate | constructor; [cbn; unfold is_digit; lia | constructor]].
  - cbn. unfold is_digit. lia.
  - simpl. tauto.
Defined.

(** X23.  Every hex colour of the form ['#'] and three to eight hex digits
    is read whole, as one [hex_color] token, in each lex state in which a
    value can start, wherever it stands, provided that what follows it is
    the end of input or a code point that is no hex digit; after eight
    digits anything may follow. *)
Theorem hex_colors_are_read_whole :
  forall pre ds rest s,
    3 <= List.length ds <= 8 -> Forall is_hex_digit ds ->
    ends_hex (List.length ds) rest -> In s value_modes ->
    hex_color_text (codes "#" ++ ds) /\
    ts_lex (pre ++ (codes "#" ++ ds) ++ rest) (List.length pre) s =
    Some (Tok sym_hex_color (List.length pre)
              (List.length pre + List.length (codes "#" ++ ds))).
Proof.
  intros pre ds rest s Hlen Hds Hrest Hs.
  split; [exists ds; split; [reflexivity | split; assumption] |].
  destruct (hash_path s Hs) as (first & Hf & Hp1).
  pose proof (hex_digits_path ds first 0 Hf Hds ltac:(simpl; lia)) as Hp2.
  change (hex_state_of first 0) with first in Hp2. simpl in Hp2.
  assert (Hp : path s (codes "#" ++ ds) = Some (hex_state_of first (List.length ds))).
  { rewrite (path_app _ _ _ _ Hp1). exact Hp2. }
  destruct hex_states_exist as [_ Hacc]. rewrite forallb_forall in Hacc.
  specialize (Hacc _ Hf). rewrite forallb_forall in Hacc.
  assert (Hin : In (List.length ds) (seq 3 6)) by (apply in_seq; lia).
  specialize (Hacc _ Hin). unfold accepts, jump_at_end in Hacc.
  destruct (lex_case_of (hex_state_of first (List.length ds))) as [cs |] eqn:Hcs;
    [| discriminate Hacc].
  destruct (accept_token cs) as [sym |] eqn:Ha; [| discriminate Hacc].
  destruct (select (arms cs) 0%Z true) eqn:Hend; [discriminate Hacc |].
  apply symbol_eqb_eq in Hacc. subst sym.
  apply (path_reads_a_token _ pre (codes "#" ++ ds) rest s _ cs sym_hex_color
           eq_refl Hp Hcs Ha).
  destruct rest as [| c rest']; [exact Hend |]. cbn [nth].
  pose proof (hex_jump_spec first (List.length ds) cs c Hf ltac:(lia) Hcs) as H.
  destruct (holds hex_test c false) eqn:Hc.
  - destruct Hrest as [H8 | Hno].
    + rewrite H8 in H. exact H.
    + exfalso. apply Hno. apply (hex_test_spec c false). exact Hc.
  - assert (H3 : (3 <=? List.length ds)%nat = true) by (apply Nat.leb_le; lia).
    rewrite H3 in H. exact H.
Qed.

Lemma hex_colors_are_read_whole_witness :
  hex_color_text (codes "#" ++ codes "FF0000") /\
  ts_lex (codes "fill: " ++ (codes "#" ++ codes "FF0000") ++ codes " }")
         (List.length (codes "fill: ")) 3 =
  Some (Tok sym_hex_color (List.length (codes "fill: "))
            (List.length (codes "fill: ") + List.length (codes "#" ++ codes "FF0000"))).
Proof.
  apply (hex_colors_are_read_whole (codes "fill: ") (codes "FF0000") (codes " }") 3).
  - simpl. lia.
  - cbn. repeat (constructor; [unfold is_hex_digit; lia |]). constructor.
  - right. cbn. unfold is_hex_digit. lia.
  - simpl. tauto.
Defined.

(** ** The lex modes *)

Lemma modes_checked : all_cells (fun s x _ => mode_fits s x) = true.
Proof. vm_compute. reflexivity. Qed.

(** X25.  The lex mode of a parse state fits the tokens that the state has
    an entry for: a state that expects a number or a hex colour is lexed in
    one of the lex states 0, 3, 4, 5 and 115, in which these are read
    whole; a state that expects an annotation text, in one of the
    annotation modes 1, 2 and 114; a state that expects the content of a
    string, in the lex state 482. *)
Theorem lex_modes_fit_the_expected_tokens :
  forall state x cell,
    cell_at state x cell ->
    (x = sym_number \/ x = sym_hex_color -> In (lex_mode state) value_modes) /\
    (x = sym_annotation_text -> In (lex_mode state) annotation_modes) /\
    (x = aux_sym_string_token1 -> lex_mode state = STRING_LEX_STATE).
Proof.
  intros state x cell Hc.
  pose proof (all_cells_spec _ modes_checked _ _ _ Hc) as H. cbv beta in H.
  unfold mode_fits in H.
  split; [| split].
  - intros [-> | ->]; exact (among_true_In value_modes (lex_mode state) H).
  - intros ->. exact (among_true_In annotation_modes (lex_mode state) H).
  - intros ->. apply N.eqb_eq. exact H.
Qed.

Lemma lex_modes_fit_the_expected_tokens_witness :
  (sym_number = sym_number \/ sym_number = sym_hex_color ->
   In (lex_mode 3) value_modes) /\
  (sym_number = sym_annotation_text -> In (lex_mode 3) annotation_modes) /\
  (sym_number = aux_sym_string_token1 -> lex_mode 3 = STRING_LEX_STATE).
Proof.
  apply (lex_modes_fit_the_expected_tokens 3 sym_number (ACTIONS 39)).
  vm_compute. tauto.
Defined.
